(** * Si5338 clock generator driver (drivers/clk/clk-si5338.c)

    A shallow embedding of the driver's register field codec, of its
    MultiSynth/PLL parameter arithmetic, of the rate operations of the PLL,
    MultiSynth and output clocks and of the bring-up sequence, with the
    properties of the design document stated and settled against it.

    C integers are modelled as [Z] with the wrap-around of their width
    written out ([u8], [u32], [u64], [s64]).  A C function that may fail to
    return a value (division by zero, a loop that never exits) is modelled
    with [option]; code that talks to the chip runs in a state monad over
    the register map and returns the C return code. *)

From Stdlib Require Import String ZArith List Lia Bool.
Import ListNotations.

Local Open Scope Z_scope.

(** ** Machine integers *)

Definition u8 (x : Z) : Z := x mod 2 ^ 8.
Definition u16 (x : Z) : Z := x mod 2 ^ 16.
Definition u32 (x : Z) : Z := x mod 2 ^ 32.
Definition u64 (x : Z) : Z := x mod 2 ^ 64.

(** Two's complement reading of the low [w] bits of [x]. *)
Definition sint (w : Z) (x : Z) : Z :=
  let m := x mod 2 ^ w in
  if m <? 2 ^ (w - 1) then m else m - 2 ^ w.

Definition s64 (x : Z) : Z := sint 64 x.

(** [div64_u64]: unsigned 64-bit division; the callers below test the
    divisor first wherever the model has to account for a zero divisor. *)
Definition div64_u64 (dividend divisor : Z) : Z := dividend / divisor.

(** Chip limits (the #defines at the head of the driver). *)
Definition FVCOMIN : Z := 2200000000.
Definition FVCOMAX : Z := 2840000000.
Definition MSINT_MIN : Z := 4.
Definition MSINT_MAX : Z := 567.

(** ** PLL and MultiSynth parameter arithmetic *)

(** A ratio [ms[0] + ms[1] / ms[2]] (the C array [u64 ms[3]]) and the chip's
    parameter triple [p[0], p[1], p[2]] (the C array [u32 p[3]]). *)
Definition ms_t : Type := Z * Z * Z.
Definition p_t : Type := Z * Z * Z.

(** The Euclid loop of [remove_common_factor].  The C loop runs while
    [r > 1]; since the remainder at least halves every two rounds, 128 rounds
    are enough for 64-bit operands ([rcf_loop_total] below), so [None] is
    never returned on them. *)
Fixpoint rcf_loop (fuel : nat) (num denom a b r : Z) : option (Z * (Z * Z)) :=
  if 1 <? r then
    match fuel with
    | O => None
    | S fuel' =>
        let r := u64 (a - b * div64_u64 a b) in
        if r =? 0 then
          Some (1, (div64_u64 num b, div64_u64 denom b))
        else rcf_loop fuel' num denom b r r
    end
  else Some (0, (num, denom)).

(** [remove_common_factor(u64 *num_denom)]: the return code and the updated
    pair [(num_denom[0], num_denom[1])]. *)
Definition remove_common_factor (nd : Z * Z) : option (Z * (Z * Z)) :=
  let '(num, denom) := nd in
  if denom =? 0 then Some (-1, (num, denom))
  else if num =? 0 then Some (1, (num, 1))
  else
    let a := Z.max num denom in
    let b := Z.min num denom in
    rcf_loop 128 num denom a b b.

(** [p_to_ms]: decode a parameter triple into a ratio. *)
Definition p_to_ms (p : p_t) : ms_t :=
  let '(p0, p1, p2) := p in
  if (p0 =? 0) && (p1 =? 0) && (p2 =? 0) then (0, 0, 1)
  else
    let ms2 := p2 in
    let ms1 := Z.shiftr (u64 (ms2 * Z.land p0 127 + p1)) 7 in
    let ms0 := u32 (Z.shiftr p0 7 + 4) in
    (ms0, ms1, ms2).

(** The halving loop at the head of [ms_to_p]:
    [while (ms_denom >= (1 << 30) || !((ms_denom | ms_num) & 1))].
    After 64 shifts both 64-bit operands are zero and the C loop spins for
    ever, so a loop that has not ended within 64 rounds never ends:
    [None] stands for that. *)
Fixpoint ms_to_p_loop (fuel : nat) (ms_denom ms_num : Z) : option (Z * Z) :=
  if (2 ^ 30 <=? ms_denom) || (Z.land (Z.lor ms_denom ms_num) 1 =? 0) then
    match fuel with
    | O => None
    | S fuel' => ms_to_p_loop fuel' (Z.shiftr ms_denom 1) (Z.shiftr ms_num 1)
    end
  else Some (ms_denom, ms_num).

(** [ms_to_p]: encode a ratio into the chip's parameter triple. *)
Definition ms_to_p (ms : ms_t) : option p_t :=
  let '(ms_int, ms_num, ms_denom) := ms in
  match ms_to_p_loop 64 ms_denom ms_num with
  | None => None
  | Some (ms_denom, ms_num) =>
      let '(ms_denom, ms_num) :=
        if (ms_num =? 0) || (ms_denom =? 0) then (1, 0)
        else (ms_denom, ms_num) in
      let d := u64 (Z.shiftl (ms_int * ms_denom + ms_num) 7) in
      let p0 := u32 (div64_u64 d ms_denom - 512) in
      let d := div64_u64 (u64 (Z.shiftl ms_num 7)) ms_denom in
      let p1 := u32 (u64 (Z.shiftl ms_num 7) - d * ms_denom) in
      let p2 := u32 ms_denom in
      Some (p0, p1, p2)
  end.

(** The trimming loop of [cal_ms_p]:
    [while (ms[2] >= (1 << 30)) { ms[2] >>= 1; ms[1] >>= 1; }].
    It ends within 35 rounds on a 64-bit denominator. *)
Fixpoint cal_trim (fuel : nat) (ms1 ms2 : Z) : option (Z * Z) :=
  if 2 ^ 30 <=? ms2 then
    match fuel with
    | O => None
    | S fuel' => cal_trim fuel' (Z.shiftr ms1 1) (Z.shiftr ms2 1)
    end
  else Some (ms1, ms2).

(** The chain of tests on the integer part in [cal_ms_p]. *)
Definition cal_ms_int (ms0 : Z) : Z :=
  if ms0 <? MSINT_MIN then MSINT_MIN
  else if (ms0 =? 5) || (ms0 =? 7) then u64 (ms0 + 1)
  else if MSINT_MAX <? ms0 then MSINT_MAX
  else ms0.

(** The body of [cal_ms_p] up to its last statement: the ratio [ms] that is
    handed to [ms_to_p].  A zero [denominator] makes the first division
    fault ([None]). *)
Definition cal_ms (numerator denominator : Z) : option ms_t :=
  if denominator =? 0 then None
  else
    let ms1 := numerator in
    let ms2 := denominator in
    let ms0 := div64_u64 ms1 ms2 in
    let ms1 := u64 (ms1 - ms0 * ms2) in
    match cal_trim 64 ms1 ms2 with
    | None => None
    | Some (ms1, ms2) =>
        match remove_common_factor (ms1, ms2) with
        | None => None
        | Some (_, (ms1, ms2)) => Some (cal_ms_int ms0, ms1, ms2)
        end
    end.

(** [cal_ms_p(numerator, denominator, p)]: the parameters written to [p]. *)
Definition cal_ms_p (numerator denominator : Z) : option p_t :=
  match cal_ms numerator denominator with
  | None => None
  | Some ms => ms_to_p ms
  end.

(** ** The register map *)

(** What the driver did to the chip, most recent event first. *)
Inductive event : Type :=
| EvRead (reg val : Z)
| EvWrite (reg val : Z)
| EvUpdate (reg mask val : Z)
| EvFail (reg : Z) (errno : positive)
| EvSleep (msecs : Z).

(** Modelled from the spec: the regmap core ([regmap_read], [regmap_write],
    [regmap_update_bits]) is not part of the driver file.  The register map
    is a byte addressed store; [status_seq] holds the values the volatile
    status register shows on its coming reads (once it is empty the stored
    byte is read); [io_script] holds the outcome of the coming transactions,
    [None] for one that is carried out and [Some e] for one that fails with
    [-e] and changes nothing (once it is empty every transaction is carried
    out). *)
Record regmap : Type := mkRegmap {
  regs : Z -> Z;
  status_seq : list Z;
  io_script : list (option positive);
  trace : list event
}.

Definition M (A : Type) : Type := regmap -> A * regmap.

Definition ret {A : Type} (a : A) : M A := fun m => (a, m).

Definition bind {A B : Type} (c : M A) (k : A -> M B) : M B :=
  fun m => let '(a, m') := c m in k a m'.

Declare Scope si_scope.
Delimit Scope si_scope with si.
Notation "x <- c ;; k" := (bind c (fun x => k))
  (at level 61, c at next level, right associativity) : si_scope.
Notation "' pat <- c ;; k" := (bind c (fun x => match x with pat => k end))
  (at level 61, pat pattern, c at next level, right associativity) : si_scope.
Local Open Scope si_scope.

Definition reg_set (f : Z -> Z) (reg val : Z) : Z -> Z :=
  fun r => if r =? reg then val else f r.

(** Register of the volatile status byte ([AWE_STATUS >> 8]). *)
Definition STATUS_REG : Z := 218.

(** Modelled from the spec: [read(addr) -> byte], as [regmap_read(map,
    reg, &val)].  [val] is the word [*val] holds before the call; the pair
    is the return code and the word [*val] holds after it: a read that is
    carried out stores the byte read, a failed read stores nothing. *)
Definition regmap_read (reg val : Z) : M (Z * Z) := fun m =>
  match io_script m with
  | Some e :: s =>
      ((Z.neg e, val),
       mkRegmap (regs m) (status_seq m) s (EvFail reg e :: trace m))
  | s =>
      match (if reg =? STATUS_REG then status_seq m else []) with
      | v :: vs =>
          ((0, v), mkRegmap (regs m) vs (tl s) (EvRead reg v :: trace m))
      | [] =>
          ((0, regs m reg),
           mkRegmap (regs m) (status_seq m) (tl s)
                    (EvRead reg (regs m reg) :: trace m))
      end
  end.

(** Modelled from the spec: full byte write. *)
Definition regmap_write (reg val : Z) : M Z := fun m =>
  match io_script m with
  | Some e :: s =>
      (Z.neg e, mkRegmap (regs m) (status_seq m) s (EvFail reg e :: trace m))
  | s =>
      (0, mkRegmap (reg_set (regs m) reg val) (status_seq m) (tl s)
                   (EvWrite reg val :: trace m))
  end.

(** Modelled from the spec: masked write (read, modify, write), one
    transaction. *)
Definition regmap_update_bits (reg mask val : Z) : M Z := fun m =>
  match io_script m with
  | Some e :: s =>
      (Z.neg e, mkRegmap (regs m) (status_seq m) s (EvFail reg e :: trace m))
  | s =>
      let new := Z.lor (Z.land (regs m reg) (Z.lnot mask)) (Z.land val mask) in
      (0, mkRegmap (reg_set (regs m) reg new) (status_seq m) (tl s)
                   (EvUpdate reg mask val :: trace m))
  end.

(** [msleep]: only the fact that the driver slept is recorded. *)
Definition msleep (msecs : Z) : M unit := fun m =>
  (tt, mkRegmap (regs m) (status_seq m) (io_script m) (EvSleep msecs :: trace m)).


(** The reads of register [reg] in a trace. *)
Definition is_read_of (reg : Z) (ev : event) : bool :=
  match ev with
  | EvRead r _ => r =? reg
  | _ => false
  end.

(** A field word: register address above the mask byte. *)
Definition awe_word (reg mask : Z) : Z := Z.lor (Z.shiftl reg 8) mask.

(** ** Field codec *)

(** The local [u32 val] of [si5338_reg_read] is not initialised, and a
    failed [regmap_read] stores nothing in it: the word it holds is then
    whatever the stack holds, which is no part of the register map.  The
    store keeps these words below its registers, in the cells of negative
    address, which no register has and no write reaches: the word of the
    call made after [n] events is the cell [-(n + 1)].  Over all stores it
    is any word, at every call. *)
Definition uninitialised (m : regmap) : Z :=
  regs m (- Z.of_nat (S (length (trace m)))).

(** [static inline u8 si5338_reg_read(drvdata, reg, &data)]: the pair is
    the return value and [*data].  The return code of [regmap_read] leaves
    through the [u8] return type: an error [-e] reaches the caller as the
    byte [(256 - e) mod 256], never as a negative number; [*data] is the low
    byte of [val] whether the read was carried out or not. *)
Definition si5338_reg_read (reg : Z) : M (Z * Z) := fun m =>
  let val := uninitialised m in
  ('(ret_, val) <- regmap_read reg val ;;
   ret (u8 ret_, u8 val)) m.

Definition si5338_reg_write (reg val mask : Z) : M Z :=
  if negb (mask =? 255) then regmap_update_bits reg mask val
  else regmap_write reg val.

(** [while (!((1 << nshift) & mask)) nshift++;] for a non-zero byte [mask]:
    at most seven increments. *)
Fixpoint find_nshift (fuel : nat) (mask nshift : Z) : Z :=
  match fuel with
  | O => nshift
  | S fuel' =>
      if Z.land (Z.shiftl 1 nshift) mask =? 0
      then find_nshift fuel' mask (nshift + 1)
      else nshift
  end.

(** [while ((1 << (nshift + nbits)) & mask) nbits++;]: bit 8 of a byte is
    clear, so at most seven increments. *)
Fixpoint find_nbits (fuel : nat) (mask nshift nbits : Z) : Z :=
  match fuel with
  | O => nbits
  | S fuel' =>
      if Z.land (Z.shiftl 1 (nshift + nbits)) mask =? 0
      then nbits
      else find_nbits fuel' mask nshift (nbits + 1)
  end.

Definition awe_reg (awe : Z) : Z := u16 (Z.shiftr awe 8).
Definition awe_mask (awe : Z) : Z := u8 (Z.land awe 255).

(** [write_field(drvdata, data, awe)] *)
Definition write_field (data awe : Z) : M Z :=
  let data := u8 data in
  let reg := awe_reg awe in
  let mask := awe_mask awe in
  if negb (mask =? 0) then
    let nshift := find_nshift 8 mask 0 in
    let reg_data := u8 (Z.shiftl (Z.land data 255) nshift) in
    rc <- si5338_reg_write reg reg_data mask ;;
    if rc <? 0 then ret rc else ret 0
  else ret 0.

(** [write_multireg64(drvdata, data, awe)]: [awe] is a zero terminated array;
    the end of the list stands for the terminating zero as well. *)
Fixpoint write_multireg64 (data : Z) (awe : list Z) : M Z :=
  match awe with
  | [] => ret 0
  | w :: awe' =>
      if w =? 0 then ret 0
      else
        let reg := awe_reg w in
        let mask := awe_mask w in
        if negb (mask =? 0) then
          let nshift := find_nshift 8 mask 0 in
          let nbits := find_nbits 8 mask nshift 1 in
          let reg_data := u8 (Z.shiftl (Z.land data 255) nshift) in
          let data := Z.shiftr data nbits in
          rc <- si5338_reg_write reg reg_data mask ;;
          if rc <? 0 then ret rc else write_multireg64 data awe'
        else write_multireg64 data awe'
  end.

(** The loop of [read_multireg64] with its accumulator [*data] and
    [full_shift]; the result is the return code and [*data]. *)
Fixpoint read_multireg64_from (awe : list Z) (data full_shift : Z)
  : M (Z * Z) :=
  match awe with
  | [] => ret (0, data)
  | w :: awe' =>
      if w =? 0 then ret (0, data)
      else
        let reg := awe_reg w in
        let mask := awe_mask w in
        if negb (mask =? 0) then
          let nshift := find_nshift 8 mask 0 in
          let nbits := find_nbits 8 mask nshift 1 in
          '(rc, val) <- si5338_reg_read reg ;;
          if rc <? 0 then ret (rc, data)
          else
            let data :=
              u64 (Z.lor data
                     (Z.shiftl (Z.shiftr (Z.land val mask) nshift)
                               full_shift)) in
            read_multireg64_from awe' data (full_shift + nbits)
        else read_multireg64_from awe' data full_shift
  end.

(** [read_multireg64(drvdata, awe, &data)] *)
Definition read_multireg64 (awe : list Z) : M (Z * Z) :=
  read_multireg64_from awe 0 0.

(** [read_field(drvdata, awe)] *)
Definition read_field (awe : Z) : M Z :=
  let reg := awe_reg awe in
  let mask := awe_mask awe in
  if negb (mask =? 0) then
    let nshift := find_nshift 8 mask 0 in
    '(rc, val) <- si5338_reg_read reg ;;
    if rc <? 0 then ret rc
    else ret (Z.shiftr (Z.land val mask) nshift)
  else ret 0.

(** ** Field tables (address in the high bits, bit mask in the low byte) *)

Definition AWE_PFD_REF : Z := 0x1de0.
Definition AWE_PFD_FB : Z := 0x1ee0.
Definition AWE_MS0_PDN : Z := 0x1f02.
Definition AWE_R0DIV : Z := 0x1f1c.
Definition AWE_R0DIV_IN : Z := 0x1fe0.
Definition AWE_MS1_PDN : Z := 0x2002.
Definition AWE_R1DIV : Z := 0x201c.
Definition AWE_R1DIV_IN : Z := 0x20e0.
Definition AWE_MS2_PDN : Z := 0x2102.
Definition AWE_R2DIV : Z := 0x211c.
Definition AWE_R2DIV_IN : Z := 0x21e0.
Definition AWE_MS3_PDN : Z := 0x2202.
Definition AWE_R3DIV : Z := 0x221c.
Definition AWE_R3DIV_IN : Z := 0x22e0.
Definition AWE_FCAL_OVRD_07_00 : Z := 0x2dff.
Definition AWE_FCAL_OVRD_15_08 : Z := 0x2eff.
Definition AWE_FCAL_OVRD_17_15 : Z := 0x2f03.
Definition AWE_REG47_72 : Z := 0x2ffc.
Definition AWE_PFD_EXTFB : Z := 0x3080.
Definition AWE_FCAL_OVRD_EN : Z := 0x3180.
Definition AWE_MS3_HS : Z := 0x3380.
Definition AWE_MS2_HS : Z := 0x3340.
Definition AWE_MS1_HS : Z := 0x3320.
Definition AWE_MS0_HS : Z := 0x3310.
Definition AWE_STATUS : Z := 0xdaff.
Definition AWE_STATUS_PLL_LOL : Z := 0xda10.
Definition AWE_STATUS_PLL_LOS_FDBK : Z := 0xda08.
Definition AWE_STATUS_PLL_LOS_CLKIN : Z := 0xda04.
Definition AWE_STATUS_PLL_SYS_CAL : Z := 0xda01.
Definition AWE_MS_RESET : Z := 0xe204.
Definition AWE_OUT_ALL_DIS : Z := 0xe610.
Definition AWE_FCAL_07_00 : Z := 0xebff.
Definition AWE_FCAL_15_08 : Z := 0xecff.
Definition AWE_FCAL_17_16 : Z := 0xed03.
Definition AWE_REG241 : Z := 0xf1ff.
Definition AWE_SOFT_RESET : Z := 0xf602.

Definition MS_POWER_DOWN : Z := 1.
Definition MS_POWER_UP : Z := 0.

(** Error numbers of the kernel the driver returns. *)
Definition EINVAL : Z := 22.
Definition ETIMEDOUT : Z := 110.

(** [awe_msx[5][3][5]]: for MS0..MS3 and MSN (the PLL), the registers of P1,
    P2 and P3, each row padded with zeros to five words. *)
Definition awe_msx : list (list (list Z)) :=
  [ [ [0x35ff; 0x36ff; 0x3703; 0; 0];
      [0x37fc; 0x38ff; 0x39ff; 0x3aff; 0];
      [0x3bff; 0x3cff; 0x3dff; 0x3e3f; 0] ];
    [ [0x40ff; 0x41ff; 0x4203; 0; 0];
      [0x42fc; 0x43ff; 0x44ff; 0x45ff; 0];
      [0x46ff; 0x47ff; 0x48ff; 0x493f; 0] ];
    [ [0x4bff; 0x4cff; 0x4d03; 0; 0];
      [0x4dfc; 0x4eff; 0x4fff; 0x50ff; 0];
      [0x51ff; 0x52ff; 0x53ff; 0x543f; 0] ];
    [ [0x56ff; 0x57ff; 0x5803; 0; 0];
      [0x58fc; 0x59ff; 0x5aff; 0x5bff; 0];
      [0x5cff; 0x5dff; 0x5eff; 0x5f3f; 0] ];
    [ [0x61ff; 0x62ff; 0x6303; 0; 0];
      [0x63fc; 0x64ff; 0x65ff; 0x66ff; 0];
      [0x67ff; 0x68ff; 0x69ff; 0x6a3f; 0] ] ].

(** [awe_msx[chn][i]] for a verified channel [chn] and [i < 3]. *)
Definition awe_msx_at (chn : Z) (i : nat) : list Z :=
  nth i (nth (Z.to_nat chn) awe_msx []) [].

(** [awe_ms_hs[]] has four words, one per MultiSynth. *)
Definition awe_ms_hs : list Z :=
  [AWE_MS0_HS; AWE_MS1_HS; AWE_MS2_HS; AWE_MS3_HS].

Definition awe_ms_powerdown : list Z :=
  [AWE_MS0_PDN; AWE_MS1_PDN; AWE_MS2_PDN; AWE_MS3_PDN].

Definition awe_rdiv_in : list Z :=
  [AWE_R0DIV_IN; AWE_R1DIV_IN; AWE_R2DIV_IN; AWE_R3DIV_IN].

Definition awe_rdiv_k : list Z :=
  [AWE_R0DIV; AWE_R1DIV; AWE_R2DIV; AWE_R3DIV].

Definition out_div_values : list Z := [1; 2; 4; 8; 16; 32].

Definition awe_fcal : list Z :=
  [AWE_FCAL_07_00; AWE_FCAL_15_08; AWE_FCAL_17_16; 0].

Definition awe_fcal_ovrd : list Z :=
  [AWE_FCAL_OVRD_07_00; AWE_FCAL_OVRD_15_08; AWE_FCAL_OVRD_17_15; 0].

(** ** Reading and committing MultiSynth and PLL parameters *)

Definition _verify_ms_channel (chn : Z) : Z :=
  if (chn <? 0) || (4 <? chn) then - EINVAL else 0.

Definition _verify_output_channel (chn : Z) : Z :=
  if (chn <? 0) || (3 <? chn) then - EINVAL else 0.

(** [get_ms_p(drvdata, p, chn)]: the return code and the array [p], which
    the function fills word by word. *)
Definition get_ms_p (pv : p_t) (chn : Z) : M (Z * p_t) :=
  let rc := _verify_ms_channel chn in
  if rc <? 0 then ret (rc, pv)
  else
    let '(p0, p1, p2) := pv in
    '(rc, data) <- read_multireg64 (awe_msx_at chn 0) ;;
    if rc <? 0 then ret (rc, (p0, p1, p2))
    else
      let p0 := u32 data in
      '(rc, data) <- read_multireg64 (awe_msx_at chn 1) ;;
      if rc <? 0 then ret (rc, (p0, p1, p2))
      else
        let p1 := u32 data in
        '(rc, data) <- read_multireg64 (awe_msx_at chn 2) ;;
        if rc <? 0 then ret (rc, (p0, p1, p2))
        else ret (0, (p0, p1, u32 data)).

(** The high speed substitution at the head of [set_ms_p]: the array [p]
    after it and the value of [hs]. *)
Definition ms_p_high_speed (pv : p_t) : p_t * Z :=
  let '(p0, p1, p2) := pv in
  if p0 <? 512 then ((if p0 <? 128 then 0 else 256, 0, 1), 1)
  else ((p0, p1, p2), 0).

(** ** Clock node data *)

(** [struct si5338_parameters] and the part of [struct si5338_hw_data] the
    rate operations use. *)
Record si5338_parameters : Type := mkParams {
  p : p_t;
  valid : bool
}.

Record si5338_hw_data : Type := mkHwData {
  params : si5338_parameters;
  num : Z
}.

Section Platform.

(** Width of [unsigned long] on the platform the kernel is built for. *)
Variable BITS_PER_LONG : Z.

Definition ulong (x : Z) : Z := x mod 2 ^ BITS_PER_LONG.

(** [set_ms_p] is also called with [chn = 4] (the PLL) and then reads
    [awe_ms_hs[4]], one word past the end of that table: whatever word
    follows the table in memory, here a parameter. *)
Variable awe_ms_hs_past_end : Z.

Definition awe_ms_hs_at (chn : Z) : Z :=
  nth (Z.to_nat chn) awe_ms_hs awe_ms_hs_past_end.

(** [set_ms_p(drvdata, p, chn)]: the return code and the array [p], which
    the function changes in place. *)
Definition set_ms_p (pv : p_t) (chn : Z) : M (Z * p_t) :=
  let rc := _verify_ms_channel chn in
  if rc <? 0 then ret (rc, pv)
  else
    let '(pv, hs) := ms_p_high_speed pv in
    let '(p0, p1, p2) := pv in
    rc <- write_field hs (awe_ms_hs_at chn) ;;
    if rc <? 0 then ret (rc, pv)
    else
      rc <- write_multireg64 (u64 p0) (awe_msx_at chn 0) ;;
      if rc <? 0 then ret (rc, pv)
      else
        rc <- write_multireg64 (u64 p1) (awe_msx_at chn 1) ;;
        if rc <? 0 then ret (rc, pv)
        else
          rc <- write_multireg64 (u64 p2) (awe_msx_at chn 2) ;;
          if rc <? 0 then ret (rc, pv)
          else ret (0, pv).

(** ** Rate operations of the PLL and MultiSynth nodes *)

(** [if (unlikely(rate < FVCOMIN)) ... else if (unlikely(rate > FVCOMAX))] *)
Definition clamp_vco (rate : Z) : Z :=
  if rate <? FVCOMIN then FVCOMIN
  else if FVCOMAX <? rate then FVCOMAX
  else rate.

(** [si5338_pll_set_rate]: [None] when the code does not return (a zero
    [parent_rate] divides by zero in [cal_ms_p]); otherwise the return code,
    the node and the register map. *)
Definition si5338_pll_set_rate (hwdata : si5338_hw_data)
    (rate parent_rate : Z) (m : regmap)
  : option (Z * si5338_hw_data * regmap) :=
  let rate := clamp_vco rate in
  match cal_ms_p rate parent_rate with
  | None => None
  | Some pv =>
      let hwdata := mkHwData (mkParams pv (valid (params hwdata))) (num hwdata) in
      let hwdata := mkHwData (mkParams (p (params hwdata)) true) (num hwdata) in
      let '((rc, pv), m) := set_ms_p (p (params hwdata)) 4 m in
      Some (rc, mkHwData (mkParams pv (valid (params hwdata))) (num hwdata), m)
  end.

(** [si5338_msynth_set_rate] *)
Definition si5338_msynth_set_rate (hwdata : si5338_hw_data)
    (rate parent_rate : Z) (m : regmap)
  : option (Z * si5338_hw_data * regmap) :=
  let rate :=
    if rate =? 0
    then ulong (div64_u64 (ulong (parent_rate + MSINT_MAX - 1)) MSINT_MAX)
    else rate in
  match cal_ms_p parent_rate rate with
  | None => None
  | Some pv =>
      let hwdata := mkHwData (mkParams pv (valid (params hwdata))) (num hwdata) in
      let hwdata := mkHwData (mkParams (p (params hwdata)) true) (num hwdata) in
      let '((rc, pv), m) := set_ms_p (p (params hwdata)) (num hwdata) m in
      Some (rc, mkHwData (mkParams pv (valid (params hwdata))) (num hwdata), m)
  end.

(** One round of the search of [si5338_msynth_round_rate] over the output
    dividers; the state is [best_err], [best_in_div], [best_out_div] and
    [best_center_diff]. *)
Definition msynth_search_step (rate pll_in_freq : Z)
    (st : Z * Z * Z * Z) (out_div : Z) : Z * Z * Z * Z :=
  let '(best_err, best_in_div, best_out_div, best_center_diff) := st in
  let center := Z.shiftr (FVCOMAX + FVCOMIN) 1 in
  if (out_div =? 5) || (out_div =? 7) then st
  else
    let rate_scaled := s64 (rate * out_div) in
    if (rate_scaled <? FVCOMIN) || (FVCOMAX <? rate_scaled) then st
    else
      let in_div :=
        s64 (div64_u64 (u64 (rate_scaled + Z.shiftr pll_in_freq 1))
                       (u64 pll_in_freq)) in
      let d := s64 (pll_in_freq * in_div) in
      let synth_out :=
        s64 (div64_u64 (u64 (d + Z.shiftr out_div 1)) (u64 out_div)) in
      let center_diff := s64 (d - center) in
      let center_diff :=
        if center_diff <? 0 then s64 (- center_diff) else center_diff in
      let err := s64 (synth_out - rate) in
      let err := if err <? 0 then s64 (- err) else err in
      if (best_in_div =? 0) || (err <? best_err)
         || ((err =? best_err) && (center_diff <? best_center_diff))
      then (err, in_div, out_div, center_diff)
      else st.

(** The output dividers [4 .. MSINT_MAX] the search runs over. *)
Definition msynth_out_divs : list Z :=
  map Z.of_nat (seq 4 (Z.to_nat (MSINT_MAX - 3))).

(** [si5338_msynth_round_rate]: [set_rate_parent] is the flag
    [CLK_SET_RATE_PARENT] of the clock, [pll_in_freq] the rate of the parent
    of the PLL, [out_div0] the indeterminate value of the local [out_div],
    which the second branch increments without having set it.  The result
    is the return value, [*parent_rate] and the node; [None] when the code
    divides by zero. *)
Definition si5338_msynth_round_rate (set_rate_parent : bool)
    (pll_in_freq out_div0 : Z) (hwdata : si5338_hw_data)
    (rate parent_rate : Z)
  : option (Z * Z * si5338_hw_data) :=
  let commit (rate parent_rate : Z) :=
    match cal_ms_p parent_rate rate with
    | None => None
    | Some pv =>
        let hwdata := mkHwData (mkParams pv (valid (params hwdata))) (num hwdata) in
        let hwdata := mkHwData (mkParams (p (params hwdata)) true) (num hwdata) in
        Some (sint BITS_PER_LONG rate, parent_rate, hwdata)
    end in
  if set_rate_parent then
    let pll_in_freq := s64 pll_in_freq in
    if pll_in_freq =? 0 then Some (- EINVAL, parent_rate, hwdata)
    else
      let '(best_err, best_in_div, best_out_div, best_center_diff) :=
        fold_left (msynth_search_step rate pll_in_freq) msynth_out_divs
                  (0, 0, 1, 0) in
      let parent_rate := ulong (pll_in_freq * best_in_div) in
      let rate := parent_rate / ulong best_out_div in
      commit rate parent_rate
  else
    let ms1 := parent_rate in
    let ms2 := rate in
    if rate =? 0 then Some (- EINVAL, parent_rate, hwdata)
    else
      let ms0 := div64_u64 ms1 ms2 in
      let ms1 := u64 (ms1 - ms0 * ms2) in
      match remove_common_factor (ms1, ms2) with
      | None => None
      | Some (_, (ms1, ms2)) =>
          let out_div :=
            if (ms0 =? 5) || (ms0 =? 7) then s64 (out_div0 + 1)
            else out_div0 in
          let divisor := u64 (ms1 + ms0 * ms2) in
          if divisor =? 0 then None
          else
            let rate :=
              ulong (div64_u64 (u64 (parent_rate * ms2)) divisor) in
            commit rate parent_rate
      end.

(** ** Output clocks *)

(** Modelled from the spec: the kernel's [abs] macro is not part of the
    driver file.  It gives the absolute error; on an [unsigned long]
    difference it reads the word as a [long] first. *)
Definition labs (x : Z) : Z := ulong (Z.abs (sint BITS_PER_LONG x)).

(** The loop
    [do { err = new_err; new_rate >>= 1; r_div <<= 1;
          new_err = abs(new_rate - rate); }
     while (new_err < err && r_div < 32);]
    of [si5338_clkout_round_rate] and [si5338_clkout_set_rate]: the value of
    [r_div] when it ends.  Started with [r_div = 1] it ends within five
    rounds. *)
Fixpoint r_div_loop (fuel : nat) (rate new_rate r_div new_err : Z)
  : option Z :=
  match fuel with
  | O => None
  | S fuel' =>
      let err := new_err in
      let new_rate := Z.shiftr new_rate 1 in
      let r_div := Z.shiftl r_div 1 in
      let new_err := labs (ulong (new_rate - rate)) in
      if (new_err <? err) && (r_div <? 32)
      then r_div_loop fuel' rate new_rate r_div new_err
      else Some r_div
  end.

(** "round to closest r_div": the divider both operations compute from the
    parent rate and the requested rate. *)
Definition closest_r_div (rate parent_rate : Z) : option Z :=
  let r_div := 1 in
  let new_rate := parent_rate in
  let new_err := labs (ulong (new_rate - rate)) in
  match r_div_loop 5 rate new_rate r_div new_err with
  | None => None
  | Some r_div => Some (Z.shiftr r_div 1)
  end.

(** The loop
    [while (r_div < 32 && out_freq_scaled < scaled_max)
       { out_freq_scaled <<= 1; r_div <<= 1; }] *)
Fixpoint scale_up_loop (fuel : nat) (out_freq_scaled r_div scaled_max : Z)
  : option (Z * Z) :=
  if (r_div <? 32) && (out_freq_scaled <? scaled_max) then
    match fuel with
    | O => None
    | S fuel' =>
        scale_up_loop fuel' (u64 (Z.shiftl out_freq_scaled 1))
                      (u8 (Z.shiftl r_div 1)) scaled_max
    end
  else Some (out_freq_scaled, r_div).

(** The divider [r_div] and the parent rate [*parent_rate] that
    [si5338_clkout_round_rate] settles on. *)
Definition clkout_round_r_div (set_rate_parent : bool)
    (rate parent_rate : Z) : option (Z * Z) :=
  let out_freq_scaled := rate in
  if set_rate_parent then
    let scaled_max := div64_u64 FVCOMAX MSINT_MAX in
    match scale_up_loop 5 out_freq_scaled 1 scaled_max with
    | None => None
    | Some (out_freq_scaled, r_div) =>
        if out_freq_scaled <? scaled_max
        then Some (32, ulong scaled_max)
        else Some (r_div, ulong out_freq_scaled)
    end
  else
    match closest_r_div rate parent_rate with
    | None => None
    | Some r_div => Some (u8 r_div, parent_rate)
    end.

(** [si5338_clkout_round_rate]: the return value and [*parent_rate]. *)
Definition si5338_clkout_round_rate (set_rate_parent : bool)
    (rate parent_rate : Z) : option (Z * Z) :=
  match clkout_round_r_div set_rate_parent rate parent_rate with
  | None => None
  | Some (r_div, parent_rate) =>
      if r_div =? 0 then None
      else Some (sint BITS_PER_LONG (parent_rate / r_div), parent_rate)
  end.

(** The search loop of [set_out_div] over [out_div_values], from index
    [val]. *)
Fixpoint set_out_div_from (values : list Z) (val div chn : Z) : M Z :=
  match values with
  | [] => ret (- EINVAL)
  | v :: values' =>
      if v =? div then
        rc <- write_field val (nth (Z.to_nat chn) awe_rdiv_k 0) ;;
        if rc <? 0 then ret rc else ret 0
      else set_out_div_from values' (u8 (val + 1)) div chn
  end.

(** [set_out_div(drvdata, div, chn)] *)
Definition set_out_div (div chn : Z) : M Z :=
  let rc := _verify_output_channel chn in
  if rc <? 0 then ret rc
  else set_out_div_from out_div_values 0 div chn.

(** [si5338_clkout_set_rate] *)
Definition si5338_clkout_set_rate (hwdata : si5338_hw_data)
    (rate parent_rate : Z) (m : regmap) : option (Z * regmap) :=
  match closest_r_div rate parent_rate with
  | None => None
  | Some r_div => Some (set_out_div r_div (num hwdata) m)
  end.

End Platform.

(** ** Bring-up: [post_init] *)

Definition INIT_TIMEOUT : Z := 10.

(** The selector values of the phase detector inputs come from the device
    tree binding header, which is not part of the driver file; they are
    parameters of [post_init]. *)
Record pfd_selectors : Type := mkPfdSelectors {
  SI5338_PFD_IN_REF_REFCLK : Z;
  SI5338_PFD_IN_REF_FBCLK : Z;
  SI5338_PFD_IN_REF_DIVREFCLK : Z;
  SI5338_PFD_IN_REF_DIVFBCLK : Z;
  SI5338_PFD_IN_REF_XOCLK : Z;
  SI5338_PFD_IN_FB_REFCLK : Z;
  SI5338_PFD_IN_FB_FBCLK : Z;
  SI5338_PFD_IN_FB_DIVREFCLK : Z;
  SI5338_PFD_IN_FB_DIVFBCLK : Z
}.

Definition get_in_pfd_ref_fb (chn : Z) : M Z :=
  read_field (if negb (chn =? 0) then AWE_PFD_FB else AWE_PFD_REF).

Definition get_status : M Z := read_field AWE_STATUS.

Definition get_out_mux (chn : Z) : M Z :=
  let rc := _verify_output_channel chn in
  if rc <? 0 then ret rc
  else read_field (nth (Z.to_nat chn) awe_rdiv_in 0).

Definition set_ms_powerdown (down chn : Z) : M Z :=
  if (chn <? 0) || (3 <? chn) then ret (- EINVAL)
  else write_field down (nth (Z.to_nat chn) awe_ms_powerdown 0).

(** The first loop of [power_up_down_needed_ms], from channel [chn]:
    either the error it returns or [ms_used]. *)
Fixpoint ms_used_from (rounds : nat) (chn ms_used : Z) : M (Z + Z) :=
  match rounds with
  | O => ret (inr ms_used)
  | S rounds' =>
      out_src <- get_out_mux chn ;;
      if out_src <? 0 then ret (inl out_src)
      else
        let ms_used :=
          if out_src =? 5 then Z.lor ms_used 1
          else if out_src =? 6 then Z.lor ms_used (Z.shiftl 1 chn)
          else ms_used in
        ms_used_from rounds' (chn + 1) ms_used
  end.

(** The second loop of [power_up_down_needed_ms], from channel [chn]. *)
Fixpoint ms_power_from (rounds : nat) (chn ms_used : Z) : M Z :=
  match rounds with
  | O => ret 0
  | S rounds' =>
      rc <- set_ms_powerdown
              (if negb (Z.land ms_used (Z.shiftl 1 chn) =? 0)
               then MS_POWER_UP else MS_POWER_DOWN) chn ;;
      if rc <? 0 then ret rc
      else ms_power_from rounds' (chn + 1) ms_used
  end.

Definition power_up_down_needed_ms : M Z :=
  r <- ms_used_from 4 0 0 ;;
  match r with
  | inl rc => ret rc
  | inr ms_used => ms_power_from 4 0 ms_used
  end.

Definition reset_ms : M Z :=
  rc <- write_field 1 AWE_MS_RESET ;;
  if negb (rc =? 0) then ret rc
  else
    _ <- msleep 20 ;;
    rc <- write_field 0 AWE_MS_RESET ;;
    if negb (rc =? 0) then ret rc else ret 0.

(** The first [switch (in_src)] of [post_init]. *)
Definition los_of_ref (sel : pfd_selectors) (in_src check_los : Z) : Z :=
  if (in_src =? SI5338_PFD_IN_REF_REFCLK sel)
     || (in_src =? SI5338_PFD_IN_REF_DIVREFCLK sel)
     || (in_src =? SI5338_PFD_IN_REF_XOCLK sel)
  then Z.lor check_los AWE_STATUS_PLL_LOS_CLKIN
  else if (in_src =? SI5338_PFD_IN_REF_FBCLK sel)
          || (in_src =? SI5338_PFD_IN_REF_DIVFBCLK sel)
  then Z.lor check_los AWE_STATUS_PLL_LOS_FDBK
  else check_los.

(** The second [switch (in_src)] of [post_init], taken with external
    feedback. *)
Definition los_of_fb (sel : pfd_selectors) (in_src check_los : Z) : Z :=
  if (in_src =? SI5338_PFD_IN_FB_REFCLK sel)
     || (in_src =? SI5338_PFD_IN_FB_DIVREFCLK sel)
  then Z.lor check_los AWE_STATUS_PLL_LOS_CLKIN
  else if (in_src =? SI5338_PFD_IN_FB_FBCLK sel)
          || (in_src =? SI5338_PFD_IN_FB_DIVFBCLK sel)
  then Z.lor check_los AWE_STATUS_PLL_LOS_FDBK
  else check_los.

(** The polling loop that [post_init] runs twice,
    [for (i = 0; i < timeout; i++) {
       rc = get_status(drvdata);
       if (rc < 0) return rc;
       if (!(rc & check_los)) break;
       msleep(100); }],
    with [rounds] rounds left: either the error returned from inside the
    loop, or [rc] and [i] when the loop is left. *)
Fixpoint poll_status (rounds : nat) (i rc check_los : Z) : M (Z + Z * Z) :=
  match rounds with
  | O => ret (inr (rc, i))
  | S rounds' =>
      rc <- get_status ;;
      if rc <? 0 then ret (inl rc)
      else if Z.land rc check_los =? 0 then ret (inr (rc, i))
      else
        _ <- msleep 100 ;;
        poll_status rounds' (i + 1) rc check_los
  end.

(** [post_init] after the PLL has locked: copy the calibration, reset the
    MultiSynths, enable the outputs. *)
Definition post_init_finish : M Z :=
  '(rc, fcal) <- read_multireg64 awe_fcal ;;
  if negb (rc =? 0) then ret rc
  else
    rc <- write_multireg64 fcal awe_fcal_ovrd ;;
    if negb (rc =? 0) then ret rc
    else
      rc <- write_field 5 AWE_REG47_72 ;;
      if negb (rc =? 0) then ret rc
      else
        rc <- write_field 1 AWE_FCAL_OVRD_EN ;;
        if negb (rc =? 0) then ret rc
        else
          rc <- reset_ms ;;
          if negb (rc =? 0) then ret rc
          else
            rc <- write_field 0 AWE_OUT_ALL_DIS ;;
            if negb (rc =? 0) then ret rc
            else
              _ <- write_field 0 AWE_SOFT_RESET ;;
              rc <- power_up_down_needed_ms ;;
              if negb (rc =? 0) then ret rc else ret 0.

(** [post_init] from the second polling loop on. *)
Definition post_init_lock (check_los rc timeout : Z) : M Z :=
  let check_los :=
    Z.lor check_los (Z.lor AWE_STATUS_PLL_LOL AWE_STATUS_PLL_SYS_CAL) in
  let check_los := Z.land check_los 15 in
  r <- poll_status (Z.to_nat timeout) 0 rc check_los ;;
  match r with
  | inl rc => ret rc
  | inr (rc, i) =>
      if timeout <=? i then ret (- ETIMEDOUT)
      else post_init_finish
  end.

(** [post_init] from the first polling loop on. *)
Definition post_init_inputs (check_los rc timeout : Z) : M Z :=
  let check_los := Z.land check_los 15 in
  r <- poll_status (Z.to_nat timeout) 0 rc check_los ;;
  match r with
  | inl rc => ret rc
  | inr (rc, i) =>
      if timeout <=? i then ret (- ETIMEDOUT)
      else
        rc <- write_field 0 AWE_FCAL_OVRD_EN ;;
        if rc <? 0 then ret rc
        else
          _ <- write_field 1 AWE_SOFT_RESET ;;
          _ <- msleep 25 ;;
          rc <- write_field 101 AWE_REG241 ;;
          if rc <? 0 then ret rc
          else post_init_lock check_los rc timeout
  end.

(** [post_init(drvdata)] *)
Definition post_init (sel : pfd_selectors) : M Z :=
  let rc := 0 in
  let check_los := 0 in
  let timeout := INIT_TIMEOUT in
  in_src <- get_in_pfd_ref_fb 0 ;;
  if in_src <? 0 then ret in_src
  else
    let check_los := los_of_ref sel in_src check_los in
    ext_fb <- read_field AWE_PFD_EXTFB ;;
    if ext_fb <? 0 then ret ext_fb
    else if negb (ext_fb =? 0) then
      fb_src <- get_in_pfd_ref_fb 1 ;;
      if fb_src <? 0 then ret fb_src
      else post_init_inputs (los_of_fb sel in_src check_los) rc timeout
    else post_init_inputs check_los rc timeout.

(** ** Further field words *)

Definition AWE_INT_MASK : Z := 0x061d.
Definition AWE_IN_MUX : Z := 0x1d18.
Definition AWE_IN_MUX1 : Z := 0x1c1c.
Definition AWE_FB_MUX : Z := 0x1e18.
Definition AWE_FB_MUX1 : Z := 0x1c20.
Definition AWE_XTAL_FREQ : Z := 0x1c03.
Definition AWE_P1DIV : Z := 0x1d07.
Definition AWE_P2DIV : Z := 0x1e07.
Definition AWE_DRV0_PDN : Z := 0x1f01.
Definition AWE_DRV1_PDN : Z := 0x2001.
Definition AWE_DRV2_PDN : Z := 0x2101.
Definition AWE_DRV3_PDN : Z := 0x2201.
Definition AWE_DRV0_VDDO : Z := 0x2303.
Definition AWE_DRV1_VDDO : Z := 0x230c.
Definition AWE_DRV2_VDDO : Z := 0x2330.
Definition AWE_DRV3_VDDO : Z := 0x23c0.
Definition AWE_DRV0_FMT : Z := 0x2407.
Definition AWE_DRV0_INV : Z := 0x2418.
Definition AWE_DRV1_FMT : Z := 0x2507.
Definition AWE_DRV1_INV : Z := 0x2518.
Definition AWE_DRV2_FMT : Z := 0x2607.
Definition AWE_DRV2_INV : Z := 0x2618.
Definition AWE_DRV3_FMT : Z := 0x2707.
Definition AWE_DRV3_INV : Z := 0x2718.
Definition AWE_DRV0_TRIM : Z := 0x281f.
Definition AWE_DRV1_TRIM_A : Z := 0x28e0.
Definition AWE_DRV1_TRIM_B : Z := 0x2903.
Definition AWE_DRV2_TRIM : Z := 0x297c.
Definition AWE_DRV3_TRIM : Z := 0x2a1f.
Definition AWE_PLL_KPHI : Z := 0x307f.
Definition AWE_VCO_GAIN_RSEL_BWSEL : Z := 0x317f.
Definition AWE_PLL_EN : Z := 0x32c0.
Definition AWE_MSCAL : Z := 0x323f.
Definition AWE_MS_PEC : Z := 0x3307.
Definition AWE_OUT0_DIS_STATE : Z := 0x6ec0.
Definition AWE_OUT1_DIS_STATE : Z := 0x72c0.
Definition AWE_OUT2_DIS_STATE : Z := 0x76c0.
Definition AWE_OUT3_DIS_STATE : Z := 0x7ac0.
Definition AWE_OUT0_DIS : Z := 0xe601.
Definition AWE_OUT1_DIS : Z := 0xe602.
Definition AWE_OUT2_DIS : Z := 0xe604.
Definition AWE_OUT3_DIS : Z := 0xe608.
Definition AWE_DIS_LOS : Z := 0xf180.
Definition AWE_MISC_47 : Z := 0x2ffc.
Definition AWE_MISC_106 : Z := 0x6a80.
Definition AWE_MISC_116 : Z := 0x7480.
Definition AWE_MISC_42 : Z := 0x2a20.
Definition AWE_MISC_06A : Z := 0x06e0.
Definition AWE_MISC_06B : Z := 0x0602.
Definition AWE_MISC_28 : Z := 0x1cc0.

Definition OUT_DISABLE : Z := 1.
Definition OUT_ENABLE : Z := 0.
Definition DRV_POWERDOWN : Z := 1.
Definition DRV_POWERUP : Z := 0.

Definition XTAL_FREQMIN : Z := 8000000.
Definition XTAL_FREQMAX : Z := 30000000.
Definition INFREQMIN : Z := 5000000.
Definition INFREQMAX : Z := 710000000.
Definition INFREQMAX34 : Z := 200000000.
Definition INFREQDIV : Z := 40000000.

(** The selector values of the device tree binding header
    (dt-bindings/clock/clk-si5338.h), which is not part of the driver file:
    they are parameters of the operations that name them. *)
Record dt_bindings : Type := mkDtBindings {
  SI5338_REF_SRC_CLKIN12 : Z;
  SI5338_REF_SRC_CLKIN3 : Z;
  SI5338_REF_SRC_XTAL : Z;
  SI5338_FB_SRC_CLKIN4 : Z;
  SI5338_FB_SRC_CLKIN56 : Z;
  SI5338_FB_SRC_NOCLK : Z;
  SI5338_PFD_IN_REF_NOCLK : Z;
  SI5338_INPUT_CLK12 : Z;
  SI5338_INPUT_CLK56 : Z
}.

(** ** Input multiplexers and dividers *)

(** The [switch (data)] of [set_in_mux]: the value [data1] of the second
    selector, [None] for the default branch. *)
Definition in_mux1_of (data : Z) : option Z :=
  if data =? 0 then Some 0
  else if data =? 1 then Some 2
  else if data =? 2 then Some 5
  else None.

Definition set_in_mux (data : Z) : M Z :=
  match in_mux1_of data with
  | None => ret (- EINVAL)
  | Some data1 =>
      rc <- write_field data AWE_IN_MUX ;;
      if rc <? 0 then ret rc
      else
        rc <- write_field data1 AWE_IN_MUX1 ;;
        if rc <? 0 then ret rc else ret 0
  end.

(** The [switch (data)] of [set_fb_mux]. *)
Definition fb_mux1_of (data : Z) : option Z :=
  if data =? 0 then Some 0
  else if data =? 1 then Some 1
  else if data =? 2 then Some 0
  else None.

Definition set_fb_mux (data : Z) : M Z :=
  match fb_mux1_of data with
  | None => ret (- EINVAL)
  | Some data1 =>
      rc <- write_field data AWE_FB_MUX ;;
      if rc <? 0 then ret rc
      else
        rc <- write_field data1 AWE_FB_MUX1 ;;
        if rc <? 0 then ret rc else ret 0
  end.

(** [set_in_pfd_ref_fb(drvdata, val, chn)] *)
Definition set_in_pfd_ref_fb (b : dt_bindings) (val chn : Z) : M Z :=
  let val := u8 val in
  if SI5338_PFD_IN_REF_NOCLK b <? val then ret (- EINVAL)
  else
    rc <- write_field val (if negb (chn =? 0) then AWE_PFD_FB else AWE_PFD_REF) ;;
    if rc <? 0 then ret rc else ret 0.

(** The loop [for (val = 0; val < 6; val++)] of [set_in_pdiv], from [val],
    with [rounds] rounds left. *)
Fixpoint set_in_pdiv_from (rounds : nat) (val div awe : Z) : M Z :=
  match rounds with
  | O => ret (- EINVAL)
  | S rounds' =>
      if Z.shiftl 1 val =? div then write_field val awe
      else set_in_pdiv_from rounds' (u8 (val + 1)) div awe
  end.

(** [set_in_pdiv(drvdata, div, chn)] *)
Definition set_in_pdiv (div chn : Z) : M Z :=
  let awe := if negb (chn =? 0) then AWE_P2DIV else AWE_P1DIV in
  set_in_pdiv_from 6 0 div awe.

(** [si5338_xtal_prepare]: [rate] is the rate [clk_hw_get_rate(hw)] of the
    crystal. *)
Definition si5338_xtal_prepare (rate : Z) : M Z :=
  if rate <? XTAL_FREQMIN then ret (- EINVAL)
  else if XTAL_FREQMAX <? rate then ret (- EINVAL)
  else
    let xtal_mode :=
      if 26000000 <? rate then 3
      else if 19000000 <? rate then 2
      else if 11000000 <? rate then 1
      else 0 in
    write_field xtal_mode AWE_XTAL_FREQ.

(** The loop
    [for (idiv = 0; idiv < 5; idiv++)
       if ((parent_rate >> idiv) <= INFREQDIV) break;]
    of the prepare and recalc_rate operations of divrefclk and divfbclk:
    the value of [idiv] when it ends. *)
Fixpoint in_idiv_from (rounds : nat) (idiv parent_rate : Z) : Z :=
  match rounds with
  | O => idiv
  | S rounds' =>
      if Z.shiftr parent_rate idiv <=? INFREQDIV then idiv
      else in_idiv_from rounds' (idiv + 1) parent_rate
  end.

(** [si5338_divrefclk_prepare]: [parent_rate] is the rate of refclk. *)
Definition si5338_divrefclk_prepare (parent_rate : Z) : M Z :=
  let idiv := in_idiv_from 5 0 parent_rate in
  set_in_pdiv (Z.shiftl 1 idiv) 0.

Definition si5338_divrefclk_recalc_rate (parent_rate : Z) : Z :=
  let idiv := in_idiv_from 5 0 parent_rate in
  Z.shiftr parent_rate idiv.

(** [si5338_divfbclk_prepare]: [parent_rate] is the rate of fbclk. *)
Definition si5338_divfbclk_prepare (parent_rate : Z) : M Z :=
  let idiv := in_idiv_from 5 0 parent_rate in
  set_in_pdiv (Z.shiftl 1 idiv) 1.

Definition si5338_divfbclk_recalc_rate (parent_rate : Z) : Z :=
  let idiv := in_idiv_from 5 0 parent_rate in
  Z.shiftr parent_rate idiv.

(** [si5338_refclk_reparent(drvdata, index)]: the return code and
    [drvdata->refclk.num]. *)
Definition si5338_refclk_reparent (b : dt_bindings) (index : Z) : M (Z * Z) :=
  let index := u8 index in
  let num := u8 (SI5338_FB_SRC_NOCLK b) in
  if index =? SI5338_REF_SRC_XTAL b then
    rc <- set_in_mux 2 ;; ret (rc, 2)
  else if index =? SI5338_REF_SRC_CLKIN12 b then
    rc <- set_in_mux 0 ;; ret (rc, 0)
  else if index =? SI5338_REF_SRC_CLKIN3 b then
    rc <- set_in_mux 1 ;; ret (rc, 1)
  else ret (- EINVAL, num).

(** [si5338_refclk_set_parent(hw, index)]: the return code and the refclk
    node. *)
Definition si5338_refclk_set_parent (b : dt_bindings)
    (hwdata : si5338_hw_data) (index : Z) : M (Z * si5338_hw_data) :=
  let index := u8 index in
  if index =? 0 then
    '(rc, n) <- si5338_refclk_reparent b (SI5338_REF_SRC_CLKIN12 b) ;;
    ret (rc, mkHwData (params hwdata) n)
  else if index =? 1 then
    '(rc, n) <- si5338_refclk_reparent b (SI5338_REF_SRC_CLKIN3 b) ;;
    ret (rc, mkHwData (params hwdata) n)
  else if index =? 2 then
    '(rc, n) <- si5338_refclk_reparent b (SI5338_REF_SRC_XTAL b) ;;
    ret (rc, mkHwData (params hwdata) n)
  else ret (- EINVAL, hwdata).

(** [si5338_refclk_get_parent]: the [int] of [read_field] returned as a
    [u8]. *)
Definition si5338_refclk_get_parent : M Z :=
  rc <- read_field AWE_IN_MUX ;;
  ret (u8 rc).

(** [si5338_fbclk_reparent(drvdata, index)]: the return code and
    [drvdata->fbclk.num]. *)
Definition si5338_fbclk_reparent (b : dt_bindings) (index : Z) : M (Z * Z) :=
  let index := u8 index in
  let num := u8 (SI5338_FB_SRC_NOCLK b) in
  if index =? SI5338_FB_SRC_CLKIN4 b then
    rc <- set_fb_mux 1 ;; ret (rc, 0)
  else if index =? SI5338_FB_SRC_CLKIN56 b then
    rc <- set_fb_mux 0 ;; ret (rc, 1)
  else if index =? SI5338_FB_SRC_NOCLK b then
    rc <- set_fb_mux 2 ;; ret (rc, 2)
  else ret (- EINVAL, num).

Definition si5338_fbclk_set_parent (b : dt_bindings)
    (hwdata : si5338_hw_data) (index : Z) : M (Z * si5338_hw_data) :=
  let index := u8 index in
  if index =? 0 then
    '(rc, n) <- si5338_fbclk_reparent b (SI5338_FB_SRC_CLKIN4 b) ;;
    ret (rc, mkHwData (params hwdata) n)
  else if index =? 1 then
    '(rc, n) <- si5338_fbclk_reparent b (SI5338_FB_SRC_CLKIN56 b) ;;
    ret (rc, mkHwData (params hwdata) n)
  else if index =? 2 then
    '(rc, n) <- si5338_fbclk_reparent b (SI5338_FB_SRC_NOCLK b) ;;
    ret (rc, mkHwData (params hwdata) n)
  else ret (- EINVAL, hwdata).

Definition si5338_fbclk_get_parent : M Z :=
  rc <- read_field AWE_FB_MUX ;;
  if rc =? 0 then ret 1
  else if rc =? 1 then ret 0
  else if rc =? 2 then ret 2
  else ret (u8 rc).

(** [si5338_pll_reparent(drvdata, index)]: the return code and
    [drvdata->pll.num]. *)
Definition si5338_pll_reparent (b : dt_bindings) (sel : pfd_selectors)
    (index : Z) : M (Z * Z) :=
  let index := u8 index in
  let num := u8 (SI5338_PFD_IN_REF_NOCLK b) in
  rc <-
    (if (index =? SI5338_PFD_IN_REF_REFCLK sel)
        || (index =? SI5338_PFD_IN_REF_FBCLK sel)
        || (index =? SI5338_PFD_IN_REF_DIVREFCLK sel)
        || (index =? SI5338_PFD_IN_REF_DIVFBCLK sel)
        || (index =? SI5338_PFD_IN_REF_XOCLK sel)
        || (index =? SI5338_PFD_IN_REF_NOCLK b)
     then set_in_pfd_ref_fb b index 0
     else ret (- EINVAL)) ;;
  if rc =? 0 then ret (rc, index) else ret (rc, num).

(** [si5338_pll_get_parent]: the value returned and [hwdata->num]. *)
Definition si5338_pll_get_parent : M (Z * Z) :=
  pfd_in_ref <- get_in_pfd_ref_fb 0 ;;
  let pfd_in_ref := if pfd_in_ref <? 0 then 0 else pfd_in_ref in
  ret (u8 pfd_in_ref, u8 pfd_in_ref).

Definition si5338_pll_set_parent (b : dt_bindings) (sel : pfd_selectors)
    (index : Z) : M (Z * Z) :=
  si5338_pll_reparent b sel index.

(** ** Loop filter of the PLL *)

(** [si5338_pll_prepare]: [parent_rate] is the rate of the parent of the
    PLL, [clk_rate] is [clk_get_rate(hw->clk)] and [hw_rate] is
    [clk_hw_get_rate(hw)]; [None] when the code divides by zero. *)
Definition si5338_pll_prepare (parent_rate clk_rate hw_rate : Z) (m : regmap)
  : option (Z * regmap) :=
  let pll_in_freq := s64 parent_rate in
  if pll_in_freq =? 0 then Some (- EINVAL, m)
  else if clk_rate =? 0 then Some (- EINVAL, m)
  else
    let fvco_mhz := s64 (div64_u64 (u64 hw_rate) 1000000) in
    let fpfd_mhz := s64 (div64_u64 (u64 pll_in_freq) 1000000) in
    let '(K, rsel, bwsel) :=
      if 15 <=? fpfd_mhz then (925, 0, 0)
      else if 8 <=? fpfd_mhz then (325, 1, 1)
      else (185, 3, 2) in
    let '(Q, vco_gain) :=
      if 2425 <? fvco_mhz then (3, 0) else (4, 1) in
    let kphi_num := s64 (K * 2500 * 2500 * 2500) in
    let kphi_denom := s64 (533 * Q * fpfd_mhz * fvco_mhz * fvco_mhz) in
    if u64 kphi_denom =? 0 then None
    else
      let pll_kphi :=
        sint 32 (div64_u64 (u64 (kphi_num + Z.shiftr kphi_denom 1))
                           (u64 kphi_denom)) in
      let pll_kphi :=
        if (pll_kphi <? 1) || (127 <? pll_kphi) then
          if pll_kphi <? 1 then 1
          else if 127 <? pll_kphi then 127
          else pll_kphi
        else pll_kphi in
      let mscal :=
        sint 32 (div64_u64 (u64 (2067000 - 667 * fvco_mhz + 50000))
                           100000) in
      let mscal :=
        if (mscal <? 0) || (63 <? mscal) then
          if mscal <? 0 then 0
          else if 63 <? mscal then 63
          else mscal
        else mscal in
      let ms_pec := 7 in
      Some
        ((rc <- write_field pll_kphi AWE_PLL_KPHI ;;
          if rc <? 0 then ret rc
          else
            let vco_gain_rsel_bwsel := u8 (Z.shiftl (Z.land vco_gain 7) 4) in
            let vco_gain_rsel_bwsel :=
              u8 (Z.lor vco_gain_rsel_bwsel (Z.shiftl (Z.land rsel 3) 2)) in
            let vco_gain_rsel_bwsel :=
              u8 (Z.lor vco_gain_rsel_bwsel (Z.land bwsel 3)) in
            rc <- write_field vco_gain_rsel_bwsel AWE_VCO_GAIN_RSEL_BWSEL ;;
            if rc <? 0 then ret rc
            else
              rc <- write_field mscal AWE_MSCAL ;;
              if rc <? 0 then ret rc
              else
                rc <- write_field ms_pec AWE_MS_PEC ;;
                if rc <? 0 then ret rc
                else
                  rc <- write_field 3 AWE_PLL_EN ;;
                  if rc <? 0 then ret rc else ret 0) m).

(** ** Output stage *)

Definition awe_out_disable : list Z :=
  [AWE_OUT0_DIS; AWE_OUT1_DIS; AWE_OUT2_DIS; AWE_OUT3_DIS; AWE_OUT_ALL_DIS].

Definition awe_drv_dis_state : list Z :=
  [AWE_OUT0_DIS_STATE; AWE_OUT1_DIS_STATE; AWE_OUT2_DIS_STATE;
   AWE_OUT3_DIS_STATE].

Definition awe_drv_fmt : list Z :=
  [AWE_DRV0_FMT; AWE_DRV1_FMT; AWE_DRV2_FMT; AWE_DRV3_FMT].

Definition awe_drv_vddo : list Z :=
  [AWE_DRV0_VDDO; AWE_DRV1_VDDO; AWE_DRV2_VDDO; AWE_DRV3_VDDO].

Definition awe_drv_trim : list (list Z) :=
  [ [AWE_DRV0_TRIM; 0; 0];
    [AWE_DRV1_TRIM_A; AWE_DRV1_TRIM_B; 0];
    [AWE_DRV2_TRIM; 0; 0];
    [AWE_DRV3_TRIM; 0; 0] ].

Definition awe_drv_invert : list Z :=
  [AWE_DRV0_INV; AWE_DRV1_INV; AWE_DRV2_INV; AWE_DRV3_INV].

Definition awe_drv_powerdown : list Z :=
  [AWE_DRV0_PDN; AWE_DRV1_PDN; AWE_DRV2_PDN; AWE_DRV3_PDN].

Definition set_out_disable (dis chn : Z) : M Z :=
  let rc := _verify_output_channel chn in
  if rc <? 0 then ret rc
  else write_field dis (nth (Z.to_nat chn) awe_out_disable 0).

Definition si5338_clkout_set_disable_state (chn typ : Z) : M Z :=
  let rc := _verify_output_channel chn in
  if rc <? 0 then ret rc
  else if (typ <? 0) || (3 <? typ) then ret (- EINVAL)
  else write_field typ (nth (Z.to_nat chn) awe_drv_dis_state 0).

Definition set_out_mux (chn src : Z) : M Z :=
  let rc := _verify_output_channel chn in
  if rc <? 0 then ret rc
  else if (src <? 0) || (7 <? src) then ret (- EINVAL)
  else write_field src (nth (Z.to_nat chn) awe_rdiv_in 0).

Definition set_drv_type (typ chn : Z) : M Z :=
  let rc := _verify_output_channel chn in
  if rc <? 0 then ret rc
  else if (typ <? 0) || (7 <? typ) then ret (- EINVAL)
  else write_field typ (nth (Z.to_nat chn) awe_drv_fmt 0).

Definition set_drv_vdd (vdd chn : Z) : M Z :=
  let rc := _verify_output_channel chn in
  if rc <? 0 then ret rc
  else if (vdd <? 0) || (7 <? vdd) then ret (- EINVAL)
  else write_field vdd (nth (Z.to_nat chn) awe_drv_vddo 0).

Definition set_drv_trim_any (trim chn : Z) : M Z :=
  let rc := _verify_output_channel chn in
  if rc <? 0 then ret rc
  else if (trim <? 0) || (31 <? trim) then ret (- EINVAL)
  else write_multireg64 (u64 trim) (nth (Z.to_nat chn) awe_drv_trim []).

Definition set_drv_invert (typ chn : Z) : M Z :=
  let rc := _verify_output_channel chn in
  if rc <? 0 then ret rc
  else if (typ <? 0) || (3 <? typ) then ret (- EINVAL)
  else write_field typ (nth (Z.to_nat chn) awe_drv_invert 0).

Definition set_drv_powerdown (typ chn : Z) : M Z :=
  let rc := _verify_output_channel chn in
  if rc <? 0 then ret rc
  else write_field typ (nth (Z.to_nat chn) awe_drv_powerdown 0).

(** [struct si5338_drv_t] *)
Record si5338_drv_t : Type := mkDrv {
  description : string;
  fmt : Z;
  vdd : Z;
  trim : Z;
  invert : Z
}.

(** [drv_configs[]]; the end of the list stands for the terminating empty
    entry. *)
Definition drv_configs : list si5338_drv_t :=
  [ mkDrv "3V3_CMOS_A+" 0x1 0x0 0x17 0x8;
    mkDrv "3V3_CMOS_A-" 0x1 0x0 0x17 0x9;
    mkDrv "3V3_CMOS_B+" 0x2 0x0 0x17 0x4;
    mkDrv "3V3_CMOS_B-" 0x2 0x0 0x17 0x6;
    mkDrv "3V3_CMOS_A+B+" 0x3 0x0 0x17 0x8;
    mkDrv "3V3_CMOS_A-B+" 0x3 0x0 0x17 0x9;
    mkDrv "3V3_CMOS_A+B-" 0x3 0x0 0x17 0x4;
    mkDrv "3V3_CMOS_A-B-" 0x3 0x0 0x17 0x6;

    mkDrv "2V5_CMOS_A+" 0x1 0x1 0x13 0x8;
    mkDrv "2V5_CMOS_A-" 0x1 0x1 0x13 0x9;
    mkDrv "2V5_CMOS_B+" 0x2 0x1 0x13 0x4;
    mkDrv "2V5_CMOS_B-" 0x2 0x1 0x13 0x6;
    mkDrv "2V5_CMOS_A+B+" 0x3 0x1 0x13 0x8;
    mkDrv "2V5_CMOS_A-B+" 0x3 0x1 0x13 0x9;
    mkDrv "2V5_CMOS_A+B-" 0x3 0x1 0x13 0x4;
    mkDrv "2V5_CMOS_A-B-" 0x3 0x1 0x13 0x6;

    mkDrv "1V8_CMOS_A+" 0x1 0x2 0x15 0x8;
    mkDrv "1V8_CMOS_A-" 0x1 0x2 0x15 0x9;
    mkDrv "1V8_CMOS_B+" 0x2 0x2 0x15 0x4;
    mkDrv "1V8_CMOS_B-" 0x2 0x2 0x15 0x6;
    mkDrv "1V8_CMOS_A+B+" 0x3 0x2 0x15 0x8;
    mkDrv "1V8_CMOS_A-B+" 0x3 0x2 0x15 0x9;
    mkDrv "1V8_CMOS_A+B-" 0x3 0x2 0x15 0x4;
    mkDrv "1V8_CMOS_A-B-" 0x3 0x2 0x15 0x6;

    mkDrv "1V5_HSTL_A+" 0x1 0x3 0x1f 0x8;
    mkDrv "1V5_HSTL_A-" 0x1 0x3 0x1f 0x9;
    mkDrv "1V5_HSTL_B+" 0x2 0x3 0x1f 0x4;
    mkDrv "1V5_HSTL_B-" 0x2 0x3 0x1f 0x6;
    mkDrv "1V5_HSTL_A+B+" 0x3 0x3 0x1f 0x8;
    mkDrv "1V5_HSTL_A-B+" 0x3 0x3 0x1f 0x9;
    mkDrv "1V5_HSTL_A+B-" 0x3 0x3 0x1f 0x4;
    mkDrv "1V5_HSTL_A-B-" 0x3 0x3 0x1f 0x6;

    mkDrv "3V3_SSTL_A+" 0x1 0x0 0x04 0x8;
    mkDrv "3V3_SSTL_A-" 0x1 0x0 0x04 0x9;
    mkDrv "3V3_SSTL_B+" 0x2 0x0 0x04 0x4;
    mkDrv "3V3_SSTL_B-" 0x2 0x0 0x04 0x6;
    mkDrv "3V3_SSTL_A+B+" 0x3 0x0 0x04 0x8;
    mkDrv "3V3_SSTL_A-B+" 0x3 0x0 0x04 0x9;
    mkDrv "3V3_SSTL_A+B-" 0x3 0x0 0x04 0x5;
    mkDrv "3V3_SSTL_A-B-" 0x3 0x0 0x04 0x6;

    mkDrv "2V5_SSTL_A+" 0x1 0x1 0x0d 0x8;
    mkDrv "2V5_SSTL_A-" 0x1 0x1 0x0d 0x9;
    mkDrv "2V5_SSTL_B+" 0x2 0x1 0x0d 0x4;
    mkDrv "2V5_SSTL_B-" 0x2 0x1 0x0d 0x6;
    mkDrv "2V5_SSTL_A+B+" 0x3 0x1 0x0d 0x8;
    mkDrv "2V5_SSTL_A-B+" 0x3 0x1 0x0d 0x9;
    mkDrv "2V5_SSTL_A+B-" 0x3 0x1 0x0d 0x5;
    mkDrv "2V5_SSTL_A-B-" 0x3 0x1 0x0d 0x6;

    mkDrv "1V8_SSTL_A+" 0x1 0x2 0x17 0x8;
    mkDrv "1V8_SSTL_A-" 0x1 0x2 0x17 0x9;
    mkDrv "1V8_SSTL_B+" 0x2 0x2 0x17 0x4;
    mkDrv "1V8_SSTL_B-" 0x2 0x2 0x17 0x6;
    mkDrv "1V8_SSTL_A+B+" 0x3 0x2 0x17 0x8;
    mkDrv "1V8_SSTL_A-B+" 0x3 0x2 0x17 0x9;
    mkDrv "1V8_SSTL_A+B-" 0x3 0x2 0x17 0x4;
    mkDrv "1V8_SSTL_A-B-" 0x3 0x2 0x17 0x6;

    mkDrv "3V3_LVPECL" 0x4 0x0 0x0f 0xc;
    mkDrv "2V5_LVPECL" 0x4 0x1 0x10 0xc;
    mkDrv "3V3_LVDS" 0x6 0x0 0x03 0xc;
    mkDrv "2V5_LVDS" 0x6 0x1 0x04 0xc;
    mkDrv "1V8_LVDS" 0x6 0x2 0x04 0xc ].

(** The loop of [find_drive_config] from index [i]; [strcmp] returns 0 on
    equal strings. *)
Fixpoint find_drive_config_from (cfgs : list si5338_drv_t) (i : Z)
    (name : string) : Z :=
  match cfgs with
  | [] => - EINVAL
  | c :: cfgs' =>
      if String.eqb name (description c) then i
      else find_drive_config_from cfgs' (i + 1) name
  end.

Definition find_drive_config (name : string) : Z :=
  find_drive_config_from drv_configs 0 name.

Definition si5338_clkout_set_drive_config (chn : Z) (name : string) : M Z :=
  let rc := _verify_output_channel chn in
  if rc <? 0 then ret rc
  else
    let i := find_drive_config name in
    if i <? 0 then ret (- EINVAL)
    else
      let c := nth (Z.to_nat i) drv_configs (mkDrv EmptyString 0 0 0 0) in
      rc <- set_drv_type (fmt c) chn ;;
      if rc <? 0 then ret rc
      else
        rc <- set_drv_vdd (vdd c) chn ;;
        if rc <? 0 then ret rc
        else
          rc <- set_drv_trim_any (trim c) chn ;;
          if rc <? 0 then ret rc
          else
            rc <- set_drv_invert (Z.land (invert c) 3) chn ;;
            if rc <? 0 then ret rc else ret 0.

(** [get_out_div(drvdata, chn)] *)
Definition get_out_div (chn : Z) : M Z :=
  let rc := _verify_output_channel chn in
  if rc <? 0 then ret rc
  else
    rc <- read_field (nth (Z.to_nat chn) awe_rdiv_k 0) ;;
    if rc <? 0 then ret rc
    else if Z.of_nat (length out_div_values) <=? rc then ret (- EINVAL)
    else ret (nth (Z.to_nat rc) out_div_values 0).

Definition get_ms_powerdown (chn : Z) : M Z :=
  let rc := _verify_output_channel chn in
  if rc <? 0 then ret rc
  else read_field (nth (Z.to_nat chn) awe_ms_powerdown 0).

Definition get_out_disable (chn : Z) : M Z :=
  let rc := _verify_output_channel chn in
  if negb (chn =? 4) && (rc <? 0) then ret rc
  else read_field (nth (Z.to_nat chn) awe_out_disable 0).

Definition get_drv_disabled_state (chn : Z) : M Z :=
  let rc := _verify_output_channel chn in
  if rc <? 0 then ret rc
  else read_field (nth (Z.to_nat chn) awe_drv_dis_state 0).

Definition get_drv_type (chn : Z) : M Z :=
  let rc := _verify_output_channel chn in
  if rc <? 0 then ret rc
  else read_field (nth (Z.to_nat chn) awe_drv_fmt 0).

Definition get_drv_vdd (chn : Z) : M Z :=
  let rc := _verify_output_channel chn in
  if rc <? 0 then ret rc
  else read_field (nth (Z.to_nat chn) awe_drv_vddo 0).

Definition get_drv_trim (chn : Z) : M Z :=
  let rc := _verify_output_channel chn in
  if rc <? 0 then ret rc
  else
    '(rc, data) <- read_multireg64 (nth (Z.to_nat chn) awe_drv_trim []) ;;
    if rc <? 0 then ret rc
    else ret (sint 32 data).

Definition get_drv_invert (chn : Z) : M Z :=
  let rc := _verify_output_channel chn in
  if rc <? 0 then ret rc
  else read_field (nth (Z.to_nat chn) awe_drv_invert 0).

Definition get_drv_powerdown (chn : Z) : M Z :=
  let rc := _verify_output_channel chn in
  if rc <? 0 then ret rc
  else read_field (nth (Z.to_nat chn) awe_drv_powerdown 0).

(** The operations of an output clock that only forward to a setter or a
    getter. *)
Definition si5338_clkout_prepare (hwdata : si5338_hw_data) : M Z :=
  set_drv_powerdown DRV_POWERUP (num hwdata).

Definition si5338_clkout_enable (hwdata : si5338_hw_data) : M Z :=
  set_out_disable OUT_ENABLE (num hwdata).

Definition si5338_clkout_disable (hwdata : si5338_hw_data) : M unit :=
  _ <- set_out_disable OUT_DISABLE (num hwdata) ;; ret tt.

Definition si5338_clkout_unprepare (hwdata : si5338_hw_data) : M unit :=
  _ <- set_drv_powerdown DRV_POWERDOWN (num hwdata) ;; ret tt.

Definition si5338_clkout_reparent (num parent : Z) : M Z :=
  set_out_mux num (u8 parent).

Definition si5338_clkout_get_parent (hwdata : si5338_hw_data) : M Z :=
  rc <- get_out_mux (num hwdata) ;; ret (u8 rc).

Definition si5338_clkout_set_parent (hwdata : si5338_hw_data) (index : Z)
  : M Z :=
  si5338_clkout_reparent (num hwdata) (u8 index).

Definition si5338_msynth_prepare (hwdata : si5338_hw_data) : M Z :=
  set_ms_powerdown MS_POWER_UP (num hwdata).

Definition si5338_msynth_unprepare (hwdata : si5338_hw_data) : M unit :=
  _ <- set_ms_powerdown MS_POWER_DOWN (num hwdata) ;; ret tt.

(** ** Bring-up: [pre_init] *)

Definition set_misc_registers : M Z :=
  rc <- write_field 5 AWE_MISC_47 ;;
  if negb (rc =? 0) then ret rc
  else
    rc <- write_field 1 AWE_MISC_106 ;;
    if negb (rc =? 0) then ret rc
    else
      rc <- write_field 1 AWE_MISC_116 ;;
      if negb (rc =? 0) then ret rc
      else
        rc <- write_field 1 AWE_MISC_42 ;;
        if negb (rc =? 0) then ret rc
        else
          rc <- write_field 0 AWE_MISC_06A ;;
          if negb (rc =? 0) then ret rc
          else
            rc <- write_field 0 AWE_MISC_06B ;;
            if negb (rc =? 0) then ret rc
            else
              rc <- write_field 0 AWE_MISC_28 ;;
              if negb (rc =? 0) then ret rc else ret 0.

(** The loop [for (chn = 0; chn < 4; chn++)] of [pre_init], from channel
    [chn], with [rounds] rounds left. *)
Fixpoint pre_init_channels (rounds : nat) (chn : Z) : M Z :=
  match rounds with
  | O => ret 0
  | S rounds' =>
      rc <- set_ms_powerdown MS_POWER_DOWN chn ;;
      if negb (rc =? 0) then ret rc
      else
        rc <- set_out_disable OUT_DISABLE chn ;;
        if negb (rc =? 0) then ret rc
        else pre_init_channels rounds' (chn + 1)
  end.

(** [pre_init(drvdata)] *)
Definition pre_init (b : dt_bindings) : M Z :=
  rc <- write_field 29 AWE_INT_MASK ;;
  if negb (rc =? 0) then ret rc
  else
    rc <- set_misc_registers ;;
    if negb (rc =? 0) then ret rc
    else
      rc <- write_field 1 AWE_OUT_ALL_DIS ;;
      if negb (rc =? 0) then ret rc
      else
        rc <- write_field 1 AWE_DIS_LOS ;;
        if negb (rc =? 0) then ret rc
        else
          rc <- pre_init_channels 4 0 ;;
          if negb (rc =? 0) then ret rc
          else
            rc <- set_in_pfd_ref_fb b 5 0 ;;
            if negb (rc =? 0) then ret rc
            else
              rc <- set_in_pfd_ref_fb b 5 1 ;;
              if negb (rc =? 0) then ret rc else ret 0.

Section PlatformRates.

(** Width of [unsigned long], as in the section above. *)
Variable BITS_PER_LONG : Z.

(** ** Rates recalculated from the chip *)

(** [si5338_clkin_recalc_rate]: the error code leaves through the
    [unsigned long] return type. *)
Definition si5338_clkin_recalc_rate (b : dt_bindings)
    (hwdata : si5338_hw_data) (parent_rate : Z) : Z :=
  let max_rate :=
    ulong BITS_PER_LONG
      (if (num hwdata =? SI5338_INPUT_CLK12 b)
          || (num hwdata =? SI5338_INPUT_CLK56 b)
       then INFREQMAX else INFREQMAX34) in
  if parent_rate <? INFREQMIN then ulong BITS_PER_LONG (- EINVAL)
  else if max_rate <? parent_rate then ulong BITS_PER_LONG (- EINVAL)
  else parent_rate.

(** [si5338_pll_recalc_rate]: the rate, the node and the register map;
    [None] when the code does not return. *)
Definition si5338_pll_recalc_rate (hwdata : si5338_hw_data)
    (parent_rate : Z) (m : regmap)
  : option (Z * si5338_hw_data * regmap) :=
  let '(loaded, hwdata, m) :=
    if negb (valid (params hwdata)) then
      let '((rc, pv), m) := get_ms_p (p (params hwdata)) 4 m in
      let hwdata :=
        mkHwData (mkParams pv (valid (params hwdata))) (num hwdata) in
      if rc <? 0 then (false, hwdata, m)
      else (true, mkHwData (mkParams (p (params hwdata)) true) (num hwdata), m)
    else (true, hwdata, m) in
  if negb loaded then Some (0, hwdata, m)
  else
    let '(ms0, ms1, ms2) := p_to_ms (p (params hwdata)) in
    let ms2 := if ms2 =? 0 then 1 else ms2 in
    let ms_scaled := u64 (ms0 * ms2 + ms1) in
    if ms_scaled =? 0 then Some (0, hwdata, m)
    else
      let rate2 := ms2 in
      let rate1 := u64 (parent_rate * ms_scaled) in
      let rate0 := div64_u64 rate1 rate2 in
      let rate1 := u64 (rate1 - rate0 * rate2) in
      match remove_common_factor (rate1, rate2) with
      | None => None
      | Some _ => Some (ulong BITS_PER_LONG rate0, hwdata, m)
      end.

(** [si5338_pll_round_rate]: the return value and the node
    ([*parent_rate] is only read); [None] when the code does not return. *)
Definition si5338_pll_round_rate (hwdata : si5338_hw_data)
    (rate parent_rate : Z) : option (Z * si5338_hw_data) :=
  let rate := clamp_vco rate in
  match cal_ms_p rate parent_rate with
  | None => None
  | Some pv =>
      let hwdata := mkHwData (mkParams pv (valid (params hwdata))) (num hwdata) in
      let hwdata := mkHwData (mkParams (p (params hwdata)) true) (num hwdata) in
      let '(ms0, ms1, ms2) := p_to_ms (p (params hwdata)) in
      let ms_scaled := u64 (ms0 * ms2 + ms1) in
      let new_rate2 := ms2 in
      let new_rate1 := u64 (parent_rate * ms_scaled) in
      if new_rate2 =? 0 then None
      else
        let new_rate0 := div64_u64 new_rate1 new_rate2 in
        let new_rate1 := u64 (new_rate1 - new_rate0 * new_rate2) in
        match remove_common_factor (new_rate1, new_rate2) with
        | None => None
        | Some _ => Some (sint BITS_PER_LONG new_rate0, hwdata)
        end
  end.

(** The loop [while (ms[2] >= 0x1000) { ms[1] >>= 1; ms[2] >>= 1; }] of
    [si5338_msynth_recalc_rate]; it ends within 52 rounds on a 64-bit
    denominator. *)
Fixpoint recalc_trim (fuel : nat) (ms1 ms2 : Z) : option (Z * Z) :=
  if 4096 <=? ms2 then
    match fuel with
    | O => None
    | S fuel' => recalc_trim fuel' (Z.shiftr ms1 1) (Z.shiftr ms2 1)
    end
  else Some (ms1, ms2).

(** [si5338_msynth_recalc_rate] *)
Definition si5338_msynth_recalc_rate (hwdata : si5338_hw_data)
    (parent_rate : Z) (m : regmap)
  : option (Z * si5338_hw_data * regmap) :=
  let '(loaded, hwdata, m) :=
    if negb (valid (params hwdata)) then
      let '((rc, pv), m) := get_ms_p (p (params hwdata)) (num hwdata) m in
      let hwdata :=
        mkHwData (mkParams pv (valid (params hwdata))) (num hwdata) in
      if rc <? 0 then (false, hwdata, m)
      else (true, mkHwData (mkParams (p (params hwdata)) true) (num hwdata), m)
    else (true, hwdata, m) in
  if negb loaded then Some (0, hwdata, m)
  else
    let '(ms0, ms1, ms2) := p_to_ms (p (params hwdata)) in
    let ms2 := if ms2 =? 0 then 1 else ms2 in
    match recalc_trim 64 ms1 ms2 with
    | None => None
    | Some (ms1, ms2) =>
        let ms_scaled := u64 (ms0 * ms2 + ms1) in
        if ms_scaled =? 0 then Some (0, hwdata, m)
        else
          let rate2 := ms_scaled in
          let rate1 := u64 (parent_rate * ms2) in
          let rate0 := div64_u64 rate1 rate2 in
          let rate1 := u64 (rate1 - rate0 * rate2) in
          match remove_common_factor (rate1, rate2) with
          | None => None
          | Some _ => Some (ulong BITS_PER_LONG rate0, hwdata, m)
          end
    end.

(** [si5338_clkout_recalc_rate] *)
Definition si5338_clkout_recalc_rate (hwdata : si5338_hw_data)
    (parent_rate : Z) : M Z :=
  let rate := parent_rate in
  rc <- get_out_div (num hwdata) ;;
  if rc <=? 0 then ret 0
  else ret (rate / rc).

End PlatformRates.

(* ================================================================== *)
(** * Definitions used to state the properties *)

(** The parameter formulas of the reference manual, over the integers. *)
Definition p_of_ratio (a b c : Z) : p_t :=
  (a * 128 + (b * 128) / c - 512, (b * 128) mod c, c).

(** Number of register writes a list of field words asks for: the words
    with an empty mask are skipped by the codec. *)
Definition writes_in (awe : list Z) : nat :=
  length (filter (fun x => negb (awe_mask x =? 0)) awe).

(** The shift and the width the codec computes for a field word. *)
Definition w_nshift (w : Z) : Z := find_nshift 8 (awe_mask w) 0.
Definition w_nbits (w : Z) : Z := find_nbits 8 (awe_mask w) (w_nshift w) 1.

(** The byte [write_multireg64] hands to the register map for [data], and
    the register file after that write has been carried out. *)
Definition reg_data_of (w data : Z) : Z :=
  u8 (Z.shiftl (Z.land data 255) (w_nshift w)).

Definition reg_after (f : Z -> Z) (w data : Z) : Z -> Z :=
  reg_set f (awe_reg w)
    (if awe_mask w =? 255 then reg_data_of w data
     else Z.lor (Z.land (f (awe_reg w)) (Z.lnot (awe_mask w)))
                (Z.land (reg_data_of w data) (awe_mask w))).

(** The register file after a [write_multireg64] all of whose writes are
    carried out. *)
Fixpoint regs_after_write (data : Z) (awe : list Z) (f : Z -> Z) : Z -> Z :=
  match awe with
  | [] => f
  | w :: awe' =>
      if w =? 0 then f
      else if negb (awe_mask w =? 0)
      then regs_after_write (Z.shiftr data (w_nbits w)) awe'
                            (reg_after f w data)
      else regs_after_write data awe' f
  end.

(** The bits of one field word in a register file, and the value
    [read_multireg64] assembles from a register file. *)
Definition field_get (f : Z -> Z) (w : Z) : Z :=
  Z.shiftr (Z.land (u8 (f (awe_reg w))) (awe_mask w)) (w_nshift w).

Fixpoint value_read (awe : list Z) (data full_shift : Z) (f : Z -> Z) : Z :=
  match awe with
  | [] => data
  | w :: awe' =>
      if w =? 0 then data
      else if negb (awe_mask w =? 0)
      then value_read awe'
             (u64 (Z.lor data (Z.shiftl (field_get f w) full_shift)))
             (full_shift + w_nbits w) f
      else value_read awe' data full_shift f
  end.

(** A field word is well formed when its mask is a run of [w_nbits] ones
    starting at bit [w_nshift], inside the byte. *)
Definition word_ok (w : Z) : bool :=
  negb (w =? 0) && negb (awe_mask w =? 0)
  && (awe_mask w =? Z.shiftl (Z.ones (w_nbits w)) (w_nshift w))
  && (0 <=? w_nshift w) && (1 <=? w_nbits w)
  && (w_nshift w + w_nbits w <=? 8).

(** Two field words do not touch the same bits. *)
Definition apart (w w' : Z) : bool :=
  negb (awe_reg w =? awe_reg w')
  || (Z.land (awe_mask w) (awe_mask w') =? 0).

Fixpoint apart_all (w : Z) (awe : list Z) : bool :=
  match awe with
  | [] => true
  | w' :: awe' => if w' =? 0 then true else apart w w' && apart_all w awe'
  end.

(** A descriptor is well formed when its words are, and no two of them
    touch the same bits. *)
Fixpoint desc_ok (awe : list Z) : bool :=
  match awe with
  | [] => true
  | w :: awe' =>
      if w =? 0 then true
      else word_ok w && apart_all w awe' && desc_ok awe'
  end.

(** Number of bits of the field a descriptor describes. *)
Fixpoint desc_bits (awe : list Z) : Z :=
  match awe with
  | [] => 0
  | w :: awe' => if w =? 0 then 0 else w_nbits w + desc_bits awe'
  end.

(** No word of [a] touches the bits of a word of [b]. *)
Fixpoint desc_apart (a b : list Z) : bool :=
  match a with
  | [] => true
  | w :: a' => if w =? 0 then true else apart_all w b && desc_apart a' b
  end.

(** The loss-of-signal bits [post_init] polls in its first loop, as it
    derives them from the register file [f], and the bits it polls in its
    second loop. *)
Definition los_mask (sel : pfd_selectors) (f : Z -> Z) : Z :=
  let in_src := field_get f AWE_PFD_REF in
  let check_los := los_of_ref sel in_src 0 in
  let check_los :=
    if field_get f AWE_PFD_EXTFB =? 0 then check_los
    else los_of_fb sel in_src check_los in
  Z.land check_los 15.

Definition lock_mask (sel : pfd_selectors) (f : Z -> Z) : Z :=
  Z.land (Z.lor (los_mask sel f)
                (Z.lor AWE_STATUS_PLL_LOL AWE_STATUS_PLL_SYS_CAL)) 15.

(** A status byte that keeps the loop polling: one with a bit of
    [check_los] set. *)
Definition busy (check_los v : Z) : bool :=
  (0 <=? v) && (v <? 256) && negb (Z.land v check_los =? 0).

Definition clear (check_los v : Z) : bool :=
  (0 <=? v) && (v <? 256) && (Z.land v check_los =? 0).

(** Number of reads of the status register, and of sleeps of [msecs]
    milliseconds, in a trace. *)
Definition status_reads (t : list event) : nat :=
  length (filter (is_read_of STATUS_REG) t).

Definition is_sleep_of (msecs : Z) (ev : event) : bool :=
  match ev with
  | EvSleep n => n =? msecs
  | _ => false
  end.

Definition sleeps_of (msecs : Z) (t : list event) : nat :=
  length (filter (is_sleep_of msecs) t).

(** The events of a polling loop that reads the status bytes [vs] and
    sleeps after each of them, most recent first. *)
Fixpoint poll_trace (vs : list Z) (t : list event) : list event :=
  match vs with
  | [] => t
  | v :: vs' => poll_trace vs' (EvSleep 100 :: EvRead STATUS_REG v :: t)
  end.

(** An event that is neither a read of the status register nor a sleep of
    100 ms, and a computation that, on a register map without faults,
    returns a value satisfying [R] and produces only such events. *)
Definition neutral (ev : event) : bool :=
  negb (is_read_of STATUS_REG ev) && negb (is_sleep_of 100 ev).

Definition calm {A : Type} (c : M A) (R : A -> Prop) : Prop :=
  forall f q t,
  exists a f' evs,
    c (mkRegmap f q [] t) = (a, mkRegmap f' q [] (evs ++ t)) /\
    forallb neutral evs = true /\ R a.

(** [post_init] run on a register map without faults, with register file
    [f], earlier trace [t] and the coming status bytes [status]. *)
Definition post_init_on (sel : pfd_selectors) (f : Z -> Z) (t : list event)
    (status : list Z) : Z * regmap :=
  post_init sel (mkRegmap f status [] t).

(** A parameter triple whose words fit the [u32] array of the node. *)
Definition in_u32 (pv : p_t) : Prop :=
  let '(p0, p1, p2) := pv in
  0 <= p0 < 2 ^ 32 /\ 0 <= p1 < 2 ^ 32 /\ 0 <= p2 < 2 ^ 32.


(** The selector values [si5338_pll_reparent] accepts. *)
Definition pll_source (b : dt_bindings) (sel : pfd_selectors) (index : Z)
  : bool :=
  (index =? SI5338_PFD_IN_REF_REFCLK sel)
  || (index =? SI5338_PFD_IN_REF_FBCLK sel)
  || (index =? SI5338_PFD_IN_REF_DIVREFCLK sel)
  || (index =? SI5338_PFD_IN_REF_DIVFBCLK sel)
  || (index =? SI5338_PFD_IN_REF_XOCLK sel)
  || (index =? SI5338_PFD_IN_REF_NOCLK b).

(** The three sources of refclk, and those of fbclk, have different
    selector values, each a byte. *)
Definition ref_sources_ok (b : dt_bindings) : Prop :=
  0 <= SI5338_REF_SRC_CLKIN12 b < 256 /\
  0 <= SI5338_REF_SRC_CLKIN3 b < 256 /\
  0 <= SI5338_REF_SRC_XTAL b < 256 /\
  SI5338_REF_SRC_CLKIN12 b <> SI5338_REF_SRC_CLKIN3 b /\
  SI5338_REF_SRC_CLKIN12 b <> SI5338_REF_SRC_XTAL b /\
  SI5338_REF_SRC_CLKIN3 b <> SI5338_REF_SRC_XTAL b.

Definition fb_sources_ok (b : dt_bindings) : Prop :=
  0 <= SI5338_FB_SRC_CLKIN4 b < 256 /\
  0 <= SI5338_FB_SRC_CLKIN56 b < 256 /\
  0 <= SI5338_FB_SRC_NOCLK b < 256 /\
  SI5338_FB_SRC_CLKIN4 b <> SI5338_FB_SRC_CLKIN56 b /\
  SI5338_FB_SRC_CLKIN4 b <> SI5338_FB_SRC_NOCLK b /\
  SI5338_FB_SRC_CLKIN56 b <> SI5338_FB_SRC_NOCLK b.

(** The fields of one output channel, with the setter and the getter the
    driver has for each. *)
Inductive out_field : Type :=
| FOutMux | FOutDiv | FOutDisable | FDisableState | FDrvType | FDrvVdd
| FDrvTrim | FDrvInvert | FDrvPowerdown | FMsPowerdown.

Definition out_fields : list out_field :=
  [FOutMux; FOutDiv; FOutDisable; FDisableState; FDrvType; FDrvVdd;
   FDrvTrim; FDrvInvert; FDrvPowerdown; FMsPowerdown].

Definition out_field_eqb (a b : out_field) : bool :=
  match a, b with
  | FOutMux, FOutMux | FOutDiv, FOutDiv | FOutDisable, FOutDisable
  | FDisableState, FDisableState | FDrvType, FDrvType | FDrvVdd, FDrvVdd
  | FDrvTrim, FDrvTrim | FDrvInvert, FDrvInvert
  | FDrvPowerdown, FDrvPowerdown | FMsPowerdown, FMsPowerdown => true
  | _, _ => false
  end.

Definition out_set (fld : out_field) (arg chn : Z) : M Z :=
  match fld with
  | FOutMux => set_out_mux chn arg
  | FOutDiv => set_out_div arg chn
  | FOutDisable => set_out_disable arg chn
  | FDisableState => si5338_clkout_set_disable_state chn arg
  | FDrvType => set_drv_type arg chn
  | FDrvVdd => set_drv_vdd arg chn
  | FDrvTrim => set_drv_trim_any arg chn
  | FDrvInvert => set_drv_invert arg chn
  | FDrvPowerdown => set_drv_powerdown arg chn
  | FMsPowerdown => set_ms_powerdown arg chn
  end.

Definition out_get (fld : out_field) (chn : Z) : M Z :=
  match fld with
  | FOutMux => get_out_mux chn
  | FOutDiv => get_out_div chn
  | FOutDisable => get_out_disable chn
  | FDisableState => get_drv_disabled_state chn
  | FDrvType => get_drv_type chn
  | FDrvVdd => get_drv_vdd chn
  | FDrvTrim => get_drv_trim chn
  | FDrvInvert => get_drv_invert chn
  | FDrvPowerdown => get_drv_powerdown chn
  | FMsPowerdown => get_ms_powerdown chn
  end.

(** The field words behind a field of channel [chn]. *)
Definition out_field_desc (fld : out_field) (chn : Z) : list Z :=
  match fld with
  | FOutMux => [nth (Z.to_nat chn) awe_rdiv_in 0]
  | FOutDiv => [nth (Z.to_nat chn) awe_rdiv_k 0]
  | FOutDisable => [nth (Z.to_nat chn) awe_out_disable 0]
  | FDisableState => [nth (Z.to_nat chn) awe_drv_dis_state 0]
  | FDrvType => [nth (Z.to_nat chn) awe_drv_fmt 0]
  | FDrvVdd => [nth (Z.to_nat chn) awe_drv_vddo 0]
  | FDrvTrim => nth (Z.to_nat chn) awe_drv_trim []
  | FDrvInvert => [nth (Z.to_nat chn) awe_drv_invert 0]
  | FDrvPowerdown => [nth (Z.to_nat chn) awe_drv_powerdown 0]
  | FMsPowerdown => [nth (Z.to_nat chn) awe_ms_powerdown 0]
  end.

(** The arguments a setter accepts and the field holds in full. *)
Definition out_values (fld : out_field) : list Z :=
  match fld with
  | FOutMux => [0; 1; 2; 3; 4; 5; 6; 7]
  | FOutDiv => out_div_values
  | FOutDisable => [0; 1]
  | FDisableState => [0; 1; 2; 3]
  | FDrvType => [0; 1; 2; 3; 4; 5; 6; 7]
  | FDrvVdd => [0; 1; 2; 3]
  | FDrvTrim => map Z.of_nat (seq 0 32)
  | FDrvInvert => [0; 1; 2; 3]
  | FDrvPowerdown => [0; 1]
  | FMsPowerdown => [0; 1]
  end.

(** What a getter makes of the value of its field. *)
Definition out_post (fld : out_field) (v : Z) : Z :=
  match fld with
  | FOutDiv =>
      if Z.of_nat (length out_div_values) <=? v then - EINVAL
      else nth (Z.to_nat v) out_div_values 0
  | FDrvTrim => sint 32 v
  | _ => v
  end.

(** The test a setter makes on its argument. *)
Definition out_accepts (fld : out_field) (arg : Z) : bool :=
  match fld with
  | FOutMux | FDrvType | FDrvVdd => (0 <=? arg) && (arg <=? 7)
  | FDisableState | FDrvInvert => (0 <=? arg) && (arg <=? 3)
  | FDrvTrim => (0 <=? arg) && (arg <=? 31)
  | FOutDiv => existsb (Z.eqb arg) out_div_values
  | FOutDisable | FDrvPowerdown | FMsPowerdown => true
  end.

(** The word [ms_used] the first loop of [power_up_down_needed_ms] builds
    from the four output multiplexers of the register file [f], and the
    register file its second loop leaves. *)
Definition ms_used_step (src chn ms_used : Z) : Z :=
  if src =? 5 then Z.lor ms_used 1
  else if src =? 6 then Z.lor ms_used (Z.shiftl 1 chn)
  else ms_used.

Definition out_src (f : Z -> Z) (chn : Z) : Z :=
  field_get f (nth (Z.to_nat chn) awe_rdiv_in 0).

Definition ms_used_of (f : Z -> Z) : Z :=
  ms_used_step (out_src f 3) 3
    (ms_used_step (out_src f 2) 2
       (ms_used_step (out_src f 1) 1 (ms_used_step (out_src f 0) 0 0))).

Definition ms_down_of (ms_used chn : Z) : Z :=
  if negb (Z.land ms_used (Z.shiftl 1 chn) =? 0)
  then MS_POWER_UP else MS_POWER_DOWN.

Definition ms_power_regs (f : Z -> Z) : Z -> Z :=
  reg_after (reg_after (reg_after (reg_after f
     AWE_MS0_PDN (ms_down_of (ms_used_of f) 0))
     AWE_MS1_PDN (ms_down_of (ms_used_of f) 1))
     AWE_MS2_PDN (ms_down_of (ms_used_of f) 2))
     AWE_MS3_PDN (ms_down_of (ms_used_of f) 3).

(** MultiSynth [chn] is needed when output [chn] selects its own
    MultiSynth (source 6), and MultiSynth 0 also when any output selects
    MultiSynth 0 (source 5). *)
Definition ms_needed (f : Z -> Z) (chn : Z) : bool :=
  (out_src f chn =? 6)
  || ((chn =? 0) && existsb (fun c => out_src f c =? 5) [0; 1; 2; 3]).

(** The register file [post_init] leaves when every poll of the status
    register finds the polled bits clear at once. *)
Definition post_init_regs (f : Z -> Z) : Z -> Z :=
  let f1 :=
    reg_after (reg_after (reg_after f AWE_FCAL_OVRD_EN 0) AWE_SOFT_RESET 1)
              AWE_REG241 101 in
  let f2 := regs_after_write (value_read awe_fcal 0 0 f1) awe_fcal_ovrd f1 in
  let f3 := reg_after (reg_after f2 AWE_REG47_72 5) AWE_FCAL_OVRD_EN 1 in
  let f4 := reg_after (reg_after f3 AWE_MS_RESET 1) AWE_MS_RESET 0 in
  ms_power_regs (reg_after (reg_after f4 AWE_OUT_ALL_DIS 0) AWE_SOFT_RESET 0).

(** The loop filter settings [si5338_pll_prepare] computes from the phase
    detector rate and the VCO rate, both in MHz: the rounded and clamped
    charge pump current, and the word that packs VCO_GAIN, RSEL and
    BWSEL. *)
Definition kphi_of (fpfd_mhz fvco_mhz : Z) : Z :=
  let K := if 15 <=? fpfd_mhz then 925
           else if 8 <=? fpfd_mhz then 325 else 185 in
  let Q := if 2425 <? fvco_mhz then 3 else 4 in
  let num := K * 2500 * 2500 * 2500 in
  let denom := 533 * Q * fpfd_mhz * fvco_mhz * fvco_mhz in
  Z.max 1 (Z.min 127 ((num + denom / 2) / denom)).

Definition gain_rsel_bwsel_of (fpfd_mhz fvco_mhz : Z) : Z :=
  (if 2425 <? fvco_mhz then 0 else 16)
  + (if 15 <=? fpfd_mhz then 0 else if 8 <=? fpfd_mhz then 5 else 14).

(* ================================================================== *)
(** * Properties *)

Example ms_to_p_4_1_3 : ms_to_p (4, 1, 3) = Some (42, 2, 3).
Proof. reflexivity. Qed.

Example p_to_ms_42_2_3 : p_to_ms (42, 2, 3) = (4, 1, 3).
Proof. reflexivity. Qed.

Example cal_ms_p_vco : cal_ms_p 2500000000 25000000 = Some (12288, 0, 1).
Proof. vm_compute. reflexivity. Qed.

Example cal_ms_frac : cal_ms 2500000000 156250000 = Some (16, 0, 1).
Proof. vm_compute. reflexivity. Qed.

Example cal_ms_frac2 : cal_ms 2200000000 150000000 = Some (14, 2, 3).
Proof. vm_compute. reflexivity. Qed.

(** ** Machine integers: small facts *)

Lemma u64_small (x : Z) : 0 <= x < 2 ^ 64 -> u64 x = x.
Proof. intros H. unfold u64. apply Z.mod_small. exact H. Qed.

Lemma u32_small (x : Z) : 0 <= x < 2 ^ 32 -> u32 x = x.
Proof. intros H. unfold u32. apply Z.mod_small. exact H. Qed.

Lemma u8_small (x : Z) : 0 <= x < 2 ^ 8 -> u8 x = x.
Proof. intros H. unfold u8. apply Z.mod_small. exact H. Qed.

Lemma land_1_odd (x : Z) : Z.land x 1 = Z.b2z (Z.odd x).
Proof.
  change 1 with (Z.ones 1). rewrite Z.land_ones by lia.
  rewrite <- Z.bit0_odd, Z.bit0_mod. reflexivity.
Qed.

Lemma lor_odd (a b : Z) : Z.odd (Z.lor a b) = Z.odd a || Z.odd b.
Proof. rewrite <- !Z.bit0_odd. apply Z.lor_spec. Qed.

Lemma even_halves (x : Z) : Z.odd x = false -> x = 2 * Z.shiftr x 1.
Proof.
  intros E. rewrite <- Z.div2_spec.
  pose proof (Z.div2_odd x) as H. rewrite E in H. cbn [Z.b2z] in H. lia.
Qed.

(** ** The halving loop of [ms_to_p] *)

(** On a denominator in [1, 2^30) the loop ends and strips exactly the
    common power of two of denominator and numerator. *)
Lemma ms_to_p_loop_small (fuel : nat) :
  forall d n,
    0 < d < 2 ^ 30 -> d < 2 ^ Z.of_nat fuel -> 0 <= n ->
    exists k d' n',
      ms_to_p_loop fuel d n = Some (d', n') /\
      0 <= k /\ d = d' * 2 ^ k /\ n = n' * 2 ^ k /\
      0 < d' /\ 0 <= n' /\ Z.odd d' || Z.odd n' = true /\
      (Z.odd d || Z.odd n = true -> d' = d /\ n' = n).
Proof.
  induction fuel as [|fuel IH]; intros d n Hd Hf Hn.
  - simpl in Hf. lia.
  - cbn [ms_to_p_loop].
    replace (2 ^ 30 <=? d) with false by (symmetry; apply Z.leb_gt; lia).
    rewrite land_1_odd, lor_odd. cbn [orb].
    destruct (Z.odd d || Z.odd n) eqn:E.
    + cbn [Z.b2z Z.eqb]. exists 0, d, n.
      rewrite Z.pow_0_r, !Z.mul_1_r. repeat split; try lia. exact E.
    + cbn [Z.b2z Z.eqb].
      apply orb_false_elim in E. destruct E as [Ed En].
      pose proof (even_halves d Ed) as Hd2.
      pose proof (even_halves n En) as Hn2.
      rewrite Nat2Z.inj_succ, Z.pow_succ_r in Hf by lia.
      destruct (IH (Z.shiftr d 1) (Z.shiftr n 1))
        as (k & d' & n' & Hr & Hk & Hdk & Hnk & Hd' & Hn' & Hodd & _);
        try lia.
      exists (k + 1), d', n'.
      rewrite Z.pow_add_r, Z.pow_1_r by lia.
      repeat split; try assumption; try lia; discriminate.
Qed.

Lemma p_of_ratio_bounds (a b c : Z) :
  4 <= a -> 0 <= b < c ->
  let '(p0, p1, p2) := p_of_ratio a b c in
  (a - 4) * 128 <= p0 < (a - 3) * 128 /\ 0 <= p1 < c /\ p2 = c.
Proof.
  intros Ha Hb. unfold p_of_ratio.
  assert (Hk : 0 <= b * 128 / c < 128).
  { split.
    - apply Z.div_pos; lia.
    - apply Z.div_lt_upper_bound; lia. }
  pose proof (Z.mod_pos_bound (b * 128) c ltac:(lia)).
  repeat split; lia.
Qed.

(** What [ms_to_p] computes once the fraction is in the form the loop and
    the zero test leave it in. *)
Lemma ms_to_p_arith (a b c : Z) :
  4 <= a < 2 ^ 25 + 4 -> 0 <= b < c -> c < 2 ^ 30 ->
  let d := u64 (Z.shiftl (a * c + b) 7) in
  let d' := div64_u64 (u64 (Z.shiftl b 7)) c in
  (u32 (div64_u64 d c - 512),
   u32 (u64 (Z.shiftl b 7) - d' * c),
   u32 c) = p_of_ratio a b c.
Proof.
  intros Ha Hb Hc. cbv zeta. unfold p_of_ratio, div64_u64.
  rewrite !Z.shiftl_mul_pow2 by lia. change (2 ^ 7) with 128.
  rewrite (u64_small ((a * c + b) * 128)) by nia.
  rewrite (u64_small (b * 128)) by lia.
  replace ((a * c + b) * 128) with (a * 128 * c + b * 128) by ring.
  rewrite Z.div_add_l by lia.
  pose proof (p_of_ratio_bounds a b c ltac:(lia) Hb) as Hp.
  unfold p_of_ratio in Hp. destruct Hp as (Hp0 & Hp1 & _).
  rewrite (u32_small (a * 128 + b * 128 / c - 512)) by lia.
  rewrite (u32_small c) by lia.
  replace (b * 128 - b * 128 / c * c) with ((b * 128) mod c)
    by (rewrite Z.mod_eq by lia; ring).
  rewrite u32_small by lia.
  reflexivity.
Qed.

(** Decoding the parameters of a proper fraction gives the ratio back. *)
Lemma p_to_ms_of_ratio (a b c : Z) :
  4 <= a < 2 ^ 25 + 4 -> 0 <= b < c -> c < 2 ^ 30 ->
  p_to_ms (p_of_ratio a b c) = (a, b, c).
Proof.
  intros Ha Hb Hc.
  pose proof (p_of_ratio_bounds a b c ltac:(lia) Hb) as Hp.
  unfold p_of_ratio in *. destruct Hp as (Hp0 & Hp1 & _).
  unfold p_to_ms.
  replace (c =? 0) with false by (symmetry; apply Z.eqb_neq; lia).
  rewrite !andb_false_r.
  assert (Hk : 0 <= b * 128 / c < 128) by lia.
  change 127 with (Z.ones 7). rewrite Z.land_ones by lia.
  rewrite !Z.shiftr_div_pow2 by lia. change (2 ^ 7) with 128.
  replace (a * 128 + b * 128 / c - 512)
    with (b * 128 / c + (a - 4) * 128) by ring.
  rewrite Z.mod_add, Z.div_add by lia.
  rewrite (Z.mod_small (b * 128 / c) 128), (Z.div_small (b * 128 / c) 128)
    by lia.
  replace (c * (b * 128 / c) + (b * 128) mod c) with (b * 128)
    by (rewrite <- Z.div_mod by lia; reflexivity).
  rewrite u64_small by lia.
  rewrite Z.div_mul by lia.
  rewrite u32_small by lia.
  f_equal. f_equal. lia.
Qed.

(** [ms_to_p] on a proper fraction with a denominator below [2^30] and an
    integer part the 32-bit [p[0]] can hold: the result is the parameter
    triple of the fraction [b'/c'] the loop reduces [b/c] to, which is
    [b/c] with the common power of two [2^k] of [b] and [c] taken out. *)
Lemma ms_to_p_reduced (a b c : Z) :
  4 <= a < 2 ^ 25 + 4 -> 0 <= b < c -> c < 2 ^ 30 ->
  exists b' c',
    ms_to_p (a, b, c) = Some (p_of_ratio a b' c') /\
    0 <= b' < c' /\ c' <= c /\ b' * c = b * c' /\ (c' | c) /\
    Z.odd b' || Z.odd c' = true /\
    (b = 0 -> b' = 0 /\ c' = 1) /\
    (0 < b -> Z.odd b || Z.odd c = true -> b' = b /\ c' = c) /\
    (0 < b -> exists k, 0 <= k /\ b = b' * 2 ^ k /\ c = c' * 2 ^ k).
Proof.
  intros Ha Hb Hc.
  destruct (ms_to_p_loop_small 64 c b)
    as (k & d' & n' & Hr & Hk & Hdk & Hnk & Hd' & Hn' & Hodd & Hsame);
    try lia.
  assert (H2k : 0 < 2 ^ k) by (apply Z.pow_pos_nonneg; lia).
  unfold ms_to_p. rewrite Hr.
  destruct (n' =? 0) eqn:En.
  - apply Z.eqb_eq in En. subst n'. cbn [orb].
    assert (b = 0) by lia. subst b.
    exists 0, 1. rewrite (ms_to_p_arith a 0 1) by lia.
    repeat split; try lia; try apply Z.divide_1_l; try (intros; lia).
  - apply Z.eqb_neq in En.
    replace (d' =? 0) with false by (symmetry; apply Z.eqb_neq; lia).
    cbn [orb].
    assert (n' < d') by nia.
    assert (d' <= c) by nia.
    exists n', d'. rewrite (ms_to_p_arith a n' d') by lia.
    split; [reflexivity|]. split; [lia|]. split; [lia|].
    split; [rewrite Hdk, Hnk; ring|].
    split; [exists (2 ^ k); lia|].
    split; [rewrite orb_comm; exact Hodd|].
    split; [intros; lia|].
    split.
    + intros _ Ho. rewrite orb_comm in Ho. destruct (Hsame Ho). lia.
    + intros _. exists k. repeat split; assumption.
Qed.

Lemma ms_to_p_spec (a b c : Z) :
  4 <= a < 2 ^ 25 + 4 -> 0 <= b < c -> c < 2 ^ 30 ->
  exists b' c',
    ms_to_p (a, b, c) = Some (p_of_ratio a b' c') /\
    0 <= b' < c' /\ c' <= c /\ b' * c = b * c' /\ (c' | c) /\
    Z.odd b' || Z.odd c' = true /\
    (b = 0 -> b' = 0 /\ c' = 1) /\
    (0 < b -> Z.odd b || Z.odd c = true -> b' = b /\ c' = c).
Proof.
  intros Ha Hb Hc.
  destruct (ms_to_p_reduced a b c Ha Hb Hc)
    as (b' & c' & H1 & H2 & H3 & H4 & H5 & H6 & H7 & H8 & _).
  exists b', c'.
  split; [exact H1|]. split; [exact H2|]. split; [exact H3|].
  split; [exact H4|]. split; [exact H5|]. split; [exact H6|].
  split; [exact H7|exact H8].
Qed.

(** ** C1: encoding then decoding a ratio *)

(** As stated the round trip fails: an even numerator over an even
    denominator comes back halved, a zero numerator comes back over the
    denominator 1, and an integer part below 4 does not survive. *)
Lemma C1_roundtrip_counterexample :
  (0 <= 4 /\ 0 <= 2 < 4 /\ 1 <= 4 < 2 ^ 30 /\
   ms_to_p (4, 2, 4) = Some (64, 0, 2) /\
   p_to_ms (64, 0, 2) = (4, 1, 2) /\ (4, 1, 2) <> (4, 2, 4)) /\
  (0 <= 4 /\ 0 <= 0 < 3 /\ 1 <= 3 < 2 ^ 30 /\
   ms_to_p (4, 0, 3) = Some (0, 0, 1) /\
   p_to_ms (0, 0, 1) = (4, 0, 1) /\ (4, 0, 1) <> (4, 0, 3)) /\
  (0 <= 0 /\ 0 <= 1 < 3 /\ 1 <= 3 < 2 ^ 30 /\
   ms_to_p (0, 1, 3) = Some (4294966826, 2, 3) /\
   p_to_ms (4294966826, 2, 3) = (33554432, 1, 3) /\
   (33554432, 1, 3) <> (0, 1, 3)).
Proof.
  repeat split; try lia; try reflexivity; intros H; discriminate H.
Qed.

(** C1 (amended).  For an integer part [4 <= a < 2^25 + 4], a numerator
    [0 <= b < c] and a denominator [c < 2^30], [ms_to_p] returns a triple
    and [p_to_ms] decodes it to [(a, b', c')], where [b'/c'] is the fraction
    [b/c] with the common power of two removed: [b = b' * 2^k] and
    [c = c' * 2^k] for some [k], with [b'] and [c'] not both even, when [b]
    is not zero, and [(0, 1)] when [b = 0].  The decoded ratio is exactly
    [(a, b, c)] whenever [b] is not zero and [b] and [c] are not both
    even. *)
Theorem C1_roundtrip_reduced (a b c : Z) :
  4 <= a < 2 ^ 25 + 4 -> 0 <= b < c -> 1 <= c < 2 ^ 30 ->
  exists pv b' c',
    ms_to_p (a, b, c) = Some pv /\
    p_to_ms pv = (a, b', c') /\
    0 <= b' < c' /\ b' * c = b * c' /\ (c' | c) /\
    Z.odd b' || Z.odd c' = true /\
    (b = 0 -> b' = 0 /\ c' = 1) /\
    (0 < b -> exists k, 0 <= k /\ b = b' * 2 ^ k /\ c = c' * 2 ^ k) /\
    (0 < b -> Z.odd b || Z.odd c = true -> (a, b', c') = (a, b, c)).
Proof.
  intros Ha Hb Hc.
  destruct (ms_to_p_reduced a b c Ha Hb ltac:(lia))
    as (b' & c' & Hp & Hb' & Hc' & Hval & Hdiv & Hodd & Hz & Hsame & Hpow).
  exists (p_of_ratio a b' c'), b', c'.
  split; [exact Hp|].
  split; [apply p_to_ms_of_ratio; lia|].
  split; [exact Hb'|]. split; [exact Hval|]. split; [exact Hdiv|].
  split; [exact Hodd|]. split; [exact Hz|]. split; [exact Hpow|].
  intros Hpos Ho. destruct (Hsame Hpos Ho). congruence.
Qed.

Lemma C1_roundtrip_reduced_witness :
  exists pv b' c',
    ms_to_p (4, 6, 18) = Some pv /\
    p_to_ms pv = (4, b', c') /\
    0 <= b' < c' /\ b' * 18 = 6 * c' /\ (c' | 18) /\
    Z.odd b' || Z.odd c' = true /\
    (6 = 0 -> b' = 0 /\ c' = 1) /\
    (0 < 6 -> exists k, 0 <= k /\ 6 = b' * 2 ^ k /\ 18 = c' * 2 ^ k) /\
    (0 < 6 -> Z.odd 6 || Z.odd 18 = true -> (4, b', c') = (4, 6, 18)).
Proof. apply (C1_roundtrip_reduced 4 6 18); lia. Defined.

(** The fraction 6/18 comes back as 3/9: only the common factor two is
    taken out, not the common factor three. *)
Example ms_to_p_6_18 :
  ms_to_p (4, 6, 18) = Some (42, 6, 9) /\ p_to_ms (42, 6, 9) = (4, 3, 9).
Proof. split; reflexivity. Qed.

(** ** C3: bounds of the encoded triple *)

(** As stated the bounds fail: [p3] is the reduced denominator, not [c]
    (first three inputs: a zero numerator, a common factor two, a
    denominator above [2^30]), and [p1] leaves the 18-bit range when the
    integer part is below 4 or above 2051 (last two inputs). *)
Lemma C3_bounds_counterexample :
  (0 <= 0 < 3 /\ 1 <= 3 /\
   ms_to_p (4, 0, 3) = Some (0, 0, 1) /\ 1 <> 3) /\
  (0 <= 2 < 4 /\ 1 <= 4 /\
   ms_to_p (4, 2, 4) = Some (64, 0, 2) /\ 2 <> 4) /\
  (0 <= 1 < 1073741825 /\ 1 <= 1073741825 /\
   ms_to_p (4, 1, 1073741825) = Some (0, 0, 1) /\ 1 <> 1073741825) /\
  (0 <= 1 < 3 /\ 1 <= 3 /\
   ms_to_p (0, 1, 3) = Some (4294966826, 2, 3) /\
   ~ 4294966826 < 2 ^ 18) /\
  (0 <= 1 < 3 /\ 1 <= 3 /\
   ms_to_p (2052, 1, 3) = Some (262186, 2, 3) /\
   ~ 262186 < 2 ^ 18).
Proof.
  repeat split; try lia; reflexivity.
Qed.

(** C3 (amended).  For an integer part [4 <= a <= 2051], a numerator
    [0 <= b < c] and a denominator [1 <= c < 2^30], [ms_to_p] returns a
    triple with [p1] in [[0, 2^18)], [p2] in [[0, p3)] and [p3] the
    denominator of the reduced fraction: a divisor of [c] not above [c],
    equal to [c] whenever [b] is not zero and [b] and [c] are not both
    even. *)
Theorem C3_ms_to_p_bounds (a b c : Z) :
  4 <= a <= 2051 -> 0 <= b < c -> 1 <= c < 2 ^ 30 ->
  exists p1 p2 p3,
    ms_to_p (a, b, c) = Some (p1, p2, p3) /\
    0 <= p1 < 2 ^ 18 /\ 0 <= p2 < p3 /\ 1 <= p3 <= c /\ (p3 | c) /\
    (0 < b -> Z.odd b || Z.odd c = true -> p3 = c).
Proof.
  intros Ha Hb Hc.
  destruct (ms_to_p_spec a b c ltac:(lia) Hb ltac:(lia))
    as (b' & c' & Hp & Hb' & Hc' & Hval & Hdiv & Hodd & Hz & Hsame).
  pose proof (p_of_ratio_bounds a b' c' ltac:(lia) Hb') as Hbd.
  unfold p_of_ratio in *.
  destruct Hbd as (Hp0 & Hp1 & _).
  eexists _, _, _. split; [exact Hp|].
  split; [lia|]. split; [lia|]. split; [lia|]. split; [exact Hdiv|].
  intros Hpos Ho. destruct (Hsame Hpos Ho). assumption.
Qed.

Lemma C3_ms_to_p_bounds_witness :
  exists p1 p2 p3,
    ms_to_p (4, 1, 3) = Some (p1, p2, p3) /\
    0 <= p1 < 2 ^ 18 /\ 0 <= p2 < p3 /\ 1 <= p3 <= 3 /\ (p3 | 3) /\
    (0 < 1 -> Z.odd 1 || Z.odd 3 = true -> p3 = 3).
Proof. apply (C3_ms_to_p_bounds 4 1 3); lia. Defined.

(** ** [remove_common_factor] and [cal_ms_p] *)

(** The trimming loop of [cal_ms_p] ends on every 64-bit denominator and
    leaves a denominator below [2^30]; a denominator that is already below
    [2^30] is not touched. *)
Lemma cal_trim_total (fuel : nat) :
  forall ms1 ms2,
    0 <= ms1 -> 0 < ms2 < 2 ^ (30 + Z.of_nat fuel) ->
    exists ms1' ms2',
      cal_trim fuel ms1 ms2 = Some (ms1', ms2') /\
      0 <= ms1' <= ms1 /\ 0 < ms2' < 2 ^ 30 /\ ms2' <= ms2 /\
      (ms2 < 2 ^ 30 -> ms1' = ms1 /\ ms2' = ms2).
Proof.
  induction fuel as [|fuel IH]; intros ms1 ms2 H1 H2.
  - cbn [cal_trim]. rewrite Z.add_0_r in H2.
    replace (2 ^ 30 <=? ms2) with false by (symmetry; apply Z.leb_gt; lia).
    exists ms1, ms2. repeat split; lia.
  - cbn [cal_trim]. destruct (Z.leb_spec (2 ^ 30) ms2) as [Hge|Hlt].
    + rewrite Nat2Z.inj_succ in H2.
      replace (30 + Z.succ (Z.of_nat fuel)) with (Z.succ (30 + Z.of_nat fuel))
        in H2 by lia.
      rewrite Z.pow_succ_r in H2 by lia.
      rewrite !Z.shiftr_div_pow2 by lia. change (2 ^ 1) with 2.
      assert (0 <= ms1 / 2 <= ms1) by (split; [apply Z.div_pos|apply Z.div_le_upper_bound]; lia).
      assert (2 ^ 29 <= ms2 / 2) by (apply Z.div_le_lower_bound; lia).
      assert (ms2 / 2 < 2 ^ (30 + Z.of_nat fuel))
        by (apply Z.div_lt_upper_bound; lia).
      assert (ms2 / 2 <= ms2) by (apply Z.div_le_upper_bound; lia).
      destruct (IH (ms1 / 2) (ms2 / 2)) as (a & b & Hr & Ha & Hb & Hle & _);
        try lia.
      exists a, b. repeat split; try assumption; try lia.
    + exists ms1, ms2. repeat split; lia.
Qed.

(** The Euclid loop ends within the fuel the model gives it and divides
    both numbers by their greatest common divisor.  The product [a * b] at
    least halves in every round. *)
Lemma rcf_loop_total (num denom : Z) (fuel : nat) :
  forall a b,
    0 < b <= a -> a < 2 ^ 64 -> a * b < 2 ^ Z.of_nat fuel ->
    Z.gcd a b = Z.gcd num denom ->
    exists rc,
      rcf_loop fuel num denom a b b
      = Some (rc, (num / Z.gcd num denom, denom / Z.gcd num denom)).
Proof.
  induction fuel as [|fuel IH]; intros a b Hb Ha Hf Hg.
  - simpl in Hf. nia.
  - cbn [rcf_loop]. destruct (Z.ltb_spec 1 b) as [H1|H1].
    + unfold div64_u64.
      replace (a - b * (a / b)) with (a mod b) by (rewrite Z.mod_eq; lia).
      pose proof (Z.mod_pos_bound a b ltac:(lia)) as Hr.
      rewrite u64_small by lia.
      destruct (Z.eqb_spec (a mod b) 0) as [E|E].
      * exists 1. rewrite <- Hg.
        assert (Hdiv : (b | a)) by (apply Z.mod_divide; lia).
        rewrite Z.gcd_comm.
        replace (Z.gcd b a) with b
          by (symmetry; apply Z.divide_gcd_iff; [lia|exact Hdiv]).
        reflexivity.
      * apply IH; try lia.
        -- rewrite Nat2Z.inj_succ, Z.pow_succ_r in Hf by lia.
           assert (a = b * (a / b) + a mod b) by (apply Z.div_mod; lia).
           assert (1 <= a / b) by (apply Z.div_le_lower_bound; lia).
           nia.
        -- rewrite Z.gcd_mod_r, Z.gcd_comm. exact Hg.
    + exists 0. assert (b = 1) by lia. subst b.
      rewrite Z.gcd_1_r in Hg. rewrite <- Hg, !Z.div_1_r. reflexivity.
Qed.

(** [remove_common_factor] on 64-bit operands with a non-zero denominator
    returns and leaves a proper fraction proper. *)
Lemma remove_common_factor_spec (n d : Z) :
  0 <= n < 2 ^ 64 -> 0 < d < 2 ^ 64 ->
  exists rc n' d',
    remove_common_factor (n, d) = Some (rc, (n', d')) /\
    0 <= n' <= n /\ 0 < d' <= d /\ n' * d = n * d' /\
    (n < d -> n' < d') /\ (n <= d -> n' <= d').
Proof.
  intros Hn Hd. unfold remove_common_factor.
  replace (d =? 0) with false by (symmetry; apply Z.eqb_neq; lia).
  destruct (Z.eqb_spec n 0) as [E|E].
  - subst n. exists 1, 0, 1. repeat split; lia.
  - destruct (rcf_loop_total n d 128 (Z.max n d) (Z.min n d)) as [rc Hr];
      try lia.
    + change (Z.of_nat 128) with (64 + 64). rewrite Z.pow_add_r by lia.
      assert (Z.max n d < 2 ^ 64) by lia.
      assert (Z.min n d < 2 ^ 64) by lia.
      nia.
    + destruct (Z.max_spec n d) as [[? ->]|[? ->]];
        destruct (Z.min_spec n d) as [[? ->]|[? ->]];
        try reflexivity; try apply Z.gcd_comm; lia.
    + rewrite Hr. set (g := Z.gcd n d).
      assert (Hg : 0 < g).
      { pose proof (Z.gcd_nonneg n d). unfold g.
        destruct (Z.eq_dec (Z.gcd n d) 0) as [E0|E0]; [|lia].
        apply Z.gcd_eq_0_l in E0. lia. }
      destruct (Z.gcd_divide_l n d) as [qn Hqn].
      destruct (Z.gcd_divide_r n d) as [qd Hqd].
      fold g in Hqn, Hqd.
      assert (n / g = qn) by (rewrite Hqn at 1; apply Z.div_mul; lia).
      assert (d / g = qd) by (rewrite Hqd at 1; apply Z.div_mul; lia).
      exists rc, (n / g), (d / g).
      split; [reflexivity|].
      repeat split; try nia.
Qed.

(** The tests on the integer part keep it in [[4, 567]] and away from 5
    and 7. *)
Lemma cal_ms_int_spec (q : Z) :
  0 <= q < 2 ^ 64 ->
  let a := cal_ms_int q in
  4 <= a <= 567 /\ a <> 5 /\ a <> 7 /\
  (q < 4 -> a = 4) /\ (q = 5 -> a = 6) /\ (q = 7 -> a = 8) /\
  (567 < q -> a = 567) /\
  (4 <= q <= 567 -> q <> 5 -> q <> 7 -> a = q).
Proof.
  intros Hq. cbv zeta. unfold cal_ms_int, MSINT_MIN, MSINT_MAX.
  destruct (Z.ltb_spec q 4) as [H4|H4]; [repeat split; lia|].
  destruct (Z.eqb_spec q 5) as [H5|H5].
  { subst q. cbn [orb]. repeat split; try (vm_compute; congruence);
      try lia; intros; try lia; reflexivity. }
  destruct (Z.eqb_spec q 7) as [H7|H7].
  { subst q. cbn [orb]. repeat split; try (vm_compute; congruence);
      try lia; intros; try lia; reflexivity. }
  cbn [orb].
  destruct (Z.ltb_spec 567 q); repeat split; lia.
Qed.

(** The ratio [cal_ms_p] hands to [ms_to_p]. *)
Lemma cal_ms_spec (numerator denominator : Z) :
  0 <= numerator < 2 ^ 64 -> 1 <= denominator < 2 ^ 64 ->
  exists b c,
    cal_ms numerator denominator
    = Some (cal_ms_int (numerator / denominator), b, c) /\
    0 <= b <= c /\ 0 < c < 2 ^ 30 /\
    (denominator < 2 ^ 30 -> b < c).
Proof.
  intros Hn Hd. unfold cal_ms, div64_u64.
  replace (denominator =? 0) with false by (symmetry; apply Z.eqb_neq; lia).
  replace (numerator - numerator / denominator * denominator)
    with (numerator mod denominator) by (rewrite Z.mod_eq; lia).
  pose proof (Z.mod_pos_bound numerator denominator ltac:(lia)) as Hr.
  rewrite u64_small by lia.
  destruct (cal_trim_total 64 (numerator mod denominator) denominator)
    as (t1 & t2 & Ht & Ht1 & Ht2 & Hle & Hsame); try lia.
  rewrite Ht.
  assert (Ht12 : t1 <= t2).
  { destruct (Z.ltb_spec denominator (2 ^ 30)) as [Hs|Hs].
    - destruct (Hsame Hs). lia.
    - clear Hsame. revert Ht.
      (* a trimmed pair keeps its order *)
      assert (Hgen : forall fuel x y, 0 <= x <= y ->
                forall x' y', cal_trim fuel x y = Some (x', y') -> x' <= y').
      { induction fuel as [|fuel IHf]; intros x y Hxy x' y'; cbn [cal_trim].
        - destruct (2 ^ 30 <=? y); [discriminate|].
          intros [= <- <-]. lia.
        - destruct (2 ^ 30 <=? y).
          + apply IHf. rewrite !Z.shiftr_div_pow2 by lia.
            change (2 ^ 1) with 2.
            split; [apply Z.div_pos; lia|apply Z.div_le_mono; lia].
          + intros [= <- <-]. lia. }
      apply Hgen. lia. }
  destruct (remove_common_factor_spec t1 t2)
    as (rc & n' & d' & Hrcf & Hn' & Hd' & Hval & Hlt & Hle'); try lia.
  rewrite Hrcf. exists n', d'.
  split; [reflexivity|].
  split; [lia|]. split; [lia|].
  intros Hs. destruct (Hsame Hs). apply Hlt. lia.
Qed.

(** [ms_to_p] returns on every ratio whose denominator is in [[1, 2^30)]. *)
Lemma ms_to_p_total (a b c : Z) :
  0 <= b -> 0 < c < 2 ^ 30 -> exists pv, ms_to_p (a, b, c) = Some pv.
Proof.
  intros Hb Hc.
  destruct (ms_to_p_loop_small 64 c b) as (k & d' & n' & Hr & _); try lia.
  unfold ms_to_p. rewrite Hr.
  destruct ((n' =? 0) || (d' =? 0)); eexists; reflexivity.
Qed.

(** ** C2: the divider calculation avoids 5 and 7 *)




(** The sweep of the design document: a fixed numerator against the
    denominators 1 .. 1000. *)
Example cal_ms_sweep :
  forallb
    (fun d =>
       match cal_ms 2500000000 (Z.of_nat d) with
       | Some (a, _, _) => negb (a =? 5) && negb (a =? 7)
       | None => false
       end)
    (seq 1 1000) = true.
Proof. vm_compute. reflexivity. Qed.

(** ** The register map: single transactions *)


Lemma si5338_reg_write_failed (reg val mask : Z) (m : regmap)
    (e : positive) (s : list (option positive)) :
  io_script m = Some e :: s ->
  si5338_reg_write reg val mask m
  = (Z.neg e, mkRegmap (regs m) (status_seq m) s (EvFail reg e :: trace m)).
Proof.
  intros H. unfold si5338_reg_write.
  destruct (mask =? 255); cbn [negb];
    unfold regmap_write, regmap_update_bits; rewrite H; reflexivity.
Qed.

Lemma si5338_reg_read_done (reg : Z) (m : regmap) :
  io_script m = [] -> status_seq m = [] ->
  si5338_reg_read reg m
  = ((0, u8 (regs m reg)),
     mkRegmap (regs m) [] [] (EvRead reg (regs m reg) :: trace m)).
Proof.
  intros Hs Hq. unfold si5338_reg_read, bind, regmap_read, ret.
  cbv beta. rewrite Hs, Hq. destruct (reg =? STATUS_REG); reflexivity.
Qed.

(** One round of the loop of [write_multireg64]. *)
Lemma write_multireg64_round (data w : Z) (awe : list Z) (m : regmap) :
  w <> 0 -> awe_mask w <> 0 ->
  write_multireg64 data (w :: awe) m
  = (let nshift := find_nshift 8 (awe_mask w) 0 in
     let nbits := find_nbits 8 (awe_mask w) nshift 1 in
     let '(rc, m') :=
       si5338_reg_write (awe_reg w)
         (u8 (Z.shiftl (Z.land data 255) nshift)) (awe_mask w) m in
     if rc <? 0 then (rc, m')
     else write_multireg64 (Z.shiftr data nbits) awe m').
Proof.
  intros Hw Hm. cbn [write_multireg64].
  replace (w =? 0) with false by (symmetry; apply Z.eqb_neq; exact Hw).
  replace (awe_mask w =? 0) with false
    by (symmetry; apply Z.eqb_neq; exact Hm).
  cbn [negb]. unfold bind, ret. cbv zeta.
  destruct (si5338_reg_write _ _ _ m) as [rc m'].
  destruct (rc <? 0); reflexivity.
Qed.

(** ** C7: a failing write stops a multi-register write *)




(** The third write of the P1 field of MultiSynth 0 fails: the two bytes
    written before it stay in the registers 0x35 and 0x36, register 0x37
    is untouched. *)
Example write_multireg64_partial :
  let m := mkRegmap (fun _ => 0) [] [None; None; Some 5%positive] [] in
  let r := write_multireg64 0x2abcd (awe_msx_at 0 0) m in
  fst r = -5 /\ regs (snd r) 0x35 = 0xcd /\ regs (snd r) 0x36 = 0xab /\
  regs (snd r) 0x37 = 0 /\
  trace (snd r) = [EvFail 0x37 5; EvWrite 0x36 0xab; EvWrite 0x35 0xcd].
Proof. vm_compute. repeat split. Qed.

(** ** Field words *)

Lemma awe_word_reg (reg mask : Z) :
  0 <= reg < 2 ^ 16 -> 0 <= mask < 2 ^ 8 -> awe_reg (awe_word reg mask) = reg.
Proof.
  intros Hr Hm. unfold awe_reg, awe_word, u16.
  rewrite Z.shiftr_lor, Z.shiftr_shiftl_l by lia.
  replace (8 - 8) with 0 by lia. rewrite Z.shiftl_0_r.
  rewrite (Z.shiftr_div_pow2 mask 8) by lia.
  rewrite (Z.div_small mask (2 ^ 8)) by lia.
  rewrite Z.lor_0_r. apply Z.mod_small. exact Hr.
Qed.

Lemma awe_word_mask (reg mask : Z) :
  0 <= mask < 2 ^ 8 -> awe_mask (awe_word reg mask) = mask.
Proof.
  intros Hm. unfold awe_mask, awe_word, u8.
  change 255 with (Z.ones 8).
  rewrite Z.land_lor_distr_l, !Z.land_ones by lia.
  rewrite Z.shiftl_mul_pow2 by lia.
  rewrite Z.mod_mul by lia. rewrite Z.lor_0_l.
  rewrite Z.mod_mod by lia. apply Z.mod_small. exact Hm.
Qed.

Lemma awe_word_nonzero (reg mask : Z) :
  0 < mask < 2 ^ 8 -> awe_word reg mask <> 0.
Proof.
  intros Hm E.
  pose proof (awe_word_mask reg mask ltac:(lia)) as H.
  rewrite E in H. vm_compute in H. lia.
Qed.

(** ** Transactions on a register map without faults *)

Lemma si5338_reg_write_quiet (reg val mask : Z)
    (f : Z -> Z) (q : list Z) (t : list event) :
  si5338_reg_write reg val mask (mkRegmap f q [] t)
  = (0, mkRegmap
          (reg_set f reg
             (if mask =? 255 then val
              else Z.lor (Z.land (f reg) (Z.lnot mask)) (Z.land val mask)))
          q []
          ((if mask =? 255 then EvWrite reg val else EvUpdate reg mask val)
             :: t)).
Proof.
  unfold si5338_reg_write. destruct (mask =? 255); reflexivity.
Qed.

Lemma si5338_reg_read_quiet (reg : Z) (f : Z -> Z) (t : list event) :
  si5338_reg_read reg (mkRegmap f [] [] t)
  = ((0, u8 (f reg)), mkRegmap f [] [] (EvRead reg (f reg) :: t)).
Proof.
  unfold si5338_reg_read, bind, regmap_read, ret. cbn.
  destruct (reg =? STATUS_REG); reflexivity.
Qed.

(** One round of the loop of [read_multireg64]. *)
Lemma read_multireg64_round (w : Z) (awe : list Z) (data full_shift : Z)
    (m : regmap) :
  w <> 0 -> awe_mask w <> 0 ->
  read_multireg64_from (w :: awe) data full_shift m
  = (let nshift := find_nshift 8 (awe_mask w) 0 in
     let nbits := find_nbits 8 (awe_mask w) nshift 1 in
     let '((rc, val), m') := si5338_reg_read (awe_reg w) m in
     if rc <? 0 then ((rc, data), m')
     else
       read_multireg64_from awe
         (u64 (Z.lor data
                 (Z.shiftl (Z.shiftr (Z.land val (awe_mask w)) nshift)
                           full_shift)))
         (full_shift + nbits) m').
Proof.
  intros Hw Hm. cbn [read_multireg64_from].
  replace (w =? 0) with false by (symmetry; apply Z.eqb_neq; exact Hw).
  replace (awe_mask w =? 0) with false
    by (symmetry; apply Z.eqb_neq; exact Hm).
  cbn [negb]. unfold bind, ret. cbv zeta.
  destruct (si5338_reg_read _ m) as [[rc val] m'].
  destruct (rc <? 0); reflexivity.
Qed.

(** A masked write followed by a read under the same mask gives the bits
    written, whatever the register held. *)
Lemma update_then_read (old x mask : Z) :
  0 <= mask < 2 ^ 8 ->
  Z.land (u8 (Z.lor (Z.land old (Z.lnot mask)) (Z.land x mask))) mask
  = Z.land x mask.
Proof.
  intros Hm. unfold u8. rewrite <- Z.land_ones by lia.
  rewrite <- Z.land_assoc.
  replace (Z.land (Z.ones 8) mask) with mask.
  2:{ rewrite Z.land_comm, Z.land_ones by lia.
      symmetry. apply Z.mod_small. exact Hm. }
  rewrite Z.land_lor_distr_l.
  rewrite <- !Z.land_assoc.
  rewrite (Z.land_comm (Z.lnot mask) mask), Z.land_lnot_diag.
  rewrite Z.land_0_r, Z.lor_0_l, Z.land_diag. reflexivity.
Qed.

(** The three segments of an 18-bit value put the value together again. *)
Lemma join_8_8_2 (v : Z) :
  0 <= v < 2 ^ 18 ->
  Z.lor (Z.lor (v mod 2 ^ 8) (Z.shiftl (Z.shiftr v 8 mod 2 ^ 8) 8))
        (Z.shiftl (Z.land (Z.shiftr v 16) 3) 16) = v.
Proof.
  intros Hv. apply Z.bits_inj'. intros n Hn.
  rewrite <- (Z.mod_small v (2 ^ 18)) at 4 by lia.
  change 3 with (Z.ones 2).
  rewrite !Z.lor_spec, !Z.shiftl_spec, Z.land_spec by lia.
  rewrite !Z.testbit_mod_pow2 by lia.
  destruct (Z.ltb_spec n 8) as [H8|H8].
  - rewrite (Z.testbit_neg_r _ (n - 8)), (Z.testbit_neg_r _ (n - 16)) by lia.
    replace (n <? 18) with true by (symmetry; apply Z.ltb_lt; lia).
    rewrite ?andb_false_r. cbn [andb orb]. rewrite ?orb_false_r.
    reflexivity.
  - cbn [andb orb].
    rewrite (Z.shiftr_spec v 8 (n - 8)) by lia.
    replace (n - 8 + 8) with n by lia.
    destruct (Z.ltb_spec n 16) as [H16|H16].
    + rewrite (Z.testbit_neg_r _ (n - 16)) by lia.
      replace (n - 8 <? 8) with true by (symmetry; apply Z.ltb_lt; lia).
      replace (n <? 18) with true by (symmetry; apply Z.ltb_lt; lia).
      rewrite ?andb_false_r. cbn [andb orb]. rewrite ?orb_false_r.
      reflexivity.
    + replace (n - 8 <? 8) with false by (symmetry; apply Z.ltb_ge; lia).
      cbn [andb orb].
      rewrite Z.shiftr_spec, Z.testbit_ones_nonneg by lia.
      replace (n - 16 + 16) with n by lia.
      replace (n - 16 <? 2) with (n <? 18).
      2:{ destruct (Z.ltb_spec n 18), (Z.ltb_spec (n - 16) 2);
          try reflexivity; lia. }
      apply andb_comm.
Qed.

(** One round of either loop on a field word [awe_word reg mask] with a
    literal mask, on a register map without faults. *)
Ltac codec_word :=
  first [apply awe_word_nonzero; lia | rewrite awe_word_mask; lia].

Ltac codec_shifts :=
  repeat match goal with
         | |- context [find_nshift 8 ?mask 0] =>
             let s := eval vm_compute in (find_nshift 8 mask 0) in
             change (find_nshift 8 mask 0) with s
         | |- context [find_nbits 8 ?mask ?s 1] =>
             let n := eval vm_compute in (find_nbits 8 mask s 1) in
             change (find_nbits 8 mask s 1) with n
         end.

Ltac write_round :=
  rewrite write_multireg64_round by codec_word;
  cbv zeta; rewrite awe_word_reg, awe_word_mask by lia;
  codec_shifts; rewrite si5338_reg_write_quiet;
  change (255 =? 255) with true; change (3 =? 255) with false;
  change (0 <? 0) with false; cbv iota.

Ltac read_round :=
  rewrite read_multireg64_round by codec_word;
  cbv zeta; rewrite awe_word_reg, awe_word_mask by lia;
  codec_shifts; rewrite si5338_reg_read_quiet;
  change (0 <? 0) with false; cbv iota.

(** ** C6: round trip of an 18-bit field over three registers *)

(** C6.  Take three distinct registers, the field descriptor with the masks
    [0xff], [0xff], [0x03] over them, and a register map without faults in
    which reads return what was written.  For every [v] in [[0, 2^18)],
    [write_multireg64] succeeds and [read_multireg64] then returns [v]. *)
Theorem C6_multireg_roundtrip (r0 r1 r2 v : Z) (m : regmap) :
  0 <= r0 < 2 ^ 16 -> 0 <= r1 < 2 ^ 16 -> 0 <= r2 < 2 ^ 16 ->
  r0 <> r1 -> r0 <> r2 -> r1 <> r2 ->
  io_script m = [] -> status_seq m = [] ->
  0 <= v < 2 ^ 18 ->
  let awe := [awe_word r0 0xff; awe_word r1 0xff; awe_word r2 0x03; 0] in
  fst (write_multireg64 v awe m) = 0 /\
  fst (read_multireg64 awe (snd (write_multireg64 v awe m))) = (0, v).
Proof.
  intros H0 H1 H2 N01 N02 N12 Hs Hq Hv awe.
  destruct m as [f q s t]. cbn [io_script status_seq] in Hs, Hq.
  subst s q awe.
  assert (E10 : (r1 =? r0) = false) by (apply Z.eqb_neq; lia).
  assert (E20 : (r2 =? r0) = false) by (apply Z.eqb_neq; lia).
  assert (E21 : (r2 =? r1) = false) by (apply Z.eqb_neq; lia).
  assert (E01 : (r0 =? r1) = false) by (apply Z.eqb_neq; lia).
  assert (E02 : (r0 =? r2) = false) by (apply Z.eqb_neq; lia).
  assert (E12 : (r1 =? r2) = false) by (apply Z.eqb_neq; lia).
  (* the three writes *)
  do 3 write_round.
  cbn [write_multireg64]. change (0 =? 0) with true. cbv iota.
  unfold ret. cbn [fst snd].
  split; [reflexivity|].
  (* the three reads *)
  unfold read_multireg64.
  do 3 read_round.
  cbn [read_multireg64_from]. change (0 =? 0) with true. cbv iota.
  unfold ret. cbn [fst snd].
  f_equal.
  (* the registers hold the three segments of [v] *)
  unfold reg_set.
  rewrite ?Z.eqb_refl, ?E01, ?E02, ?E10, ?E12, ?E20, ?E21.
  rewrite update_then_read by lia.
  rewrite !Z.shiftl_0_r, !Z.shiftr_0_r, Z.lor_0_l.
  rewrite Z.shiftr_shiftr by lia. change (8 + 8) with 16.
  change 255 with (Z.ones 8). rewrite !Z.land_ones by lia.
  unfold u8. rewrite !Z.mod_mod by lia.
  assert (Hv0 : 0 <= v mod 2 ^ 8 < 2 ^ 8) by (apply Z.mod_pos_bound; lia).
  assert (Hv1 : 0 <= Z.shiftr v 8 mod 2 ^ 8 < 2 ^ 8)
    by (apply Z.mod_pos_bound; lia).
  assert (Hv2 : 0 <= Z.shiftr v 16 < 4).
  { rewrite Z.shiftr_div_pow2 by lia. split.
    - apply Z.div_pos; lia.
    - apply Z.div_lt_upper_bound; lia. }
  replace (Z.land (Z.shiftr v 16 mod 2 ^ 8) 3) with (Z.land (Z.shiftr v 16) 3)
    by (rewrite (Z.mod_small (Z.shiftr v 16)) by lia; reflexivity).
  assert (Hj := join_8_8_2 v Hv).
  rewrite (u64_small (v mod 2 ^ 8)) by lia.
  assert (Hb1 : 0 <= Z.lor (v mod 2 ^ 8) (Z.shiftl (Z.shiftr v 8 mod 2 ^ 8) 8)
                     < 2 ^ 64).
  { assert (Hle := Z.lor_nonneg (v mod 2 ^ 8)
                     (Z.shiftl (Z.shiftr v 8 mod 2 ^ 8) 8)).
    pose proof (Z.add_lor_land (v mod 2 ^ 8)
                  (Z.shiftl (Z.shiftr v 8 mod 2 ^ 8) 8)) as Hadd.
    pose proof (Z.land_nonneg (v mod 2 ^ 8)
                  (Z.shiftl (Z.shiftr v 8 mod 2 ^ 8) 8)) as Hland.
    rewrite Z.shiftl_mul_pow2 in * by lia.
    split; [apply Hle; lia|]. 
    assert (0 <= Z.land (v mod 2 ^ 8) (Z.shiftr v 8 mod 2 ^ 8 * 2 ^ 8))
      by (apply Hland; lia).
    lia. }
  change (0 + 8 + 8) with 16. change (0 + 8) with 8.
  rewrite (u64_small (Z.lor (v mod 2 ^ 8) _)) by exact Hb1.
  rewrite Hj. apply u64_small. lia.
Qed.

Lemma C6_multireg_roundtrip_witness :
  let m := mkRegmap (fun _ => 0) [] [] [] in
  let awe :=
    [awe_word 0x35 0xff; awe_word 0x36 0xff; awe_word 0x37 0x03; 0] in
  fst (write_multireg64 0x2abcd awe m) = 0 /\
  fst (read_multireg64 awe (snd (write_multireg64 0x2abcd awe m)))
  = (0, 0x2abcd).
Proof.
  intros m.
  apply (C6_multireg_roundtrip 0x35 0x36 0x37 0x2abcd m);
    try lia; reflexivity.
Defined.

(** The P1 field of MultiSynth 0 is such a descriptor. *)
Example awe_msx_p1_words :
  awe_msx_at 0 0
  = [awe_word 0x35 0xff; awe_word 0x36 0xff; awe_word 0x37 0x03; 0; 0].
Proof. reflexivity. Qed.

(** ** The field codec on a register map without faults *)

Lemma awe_mask_range (w : Z) : 0 <= awe_mask w < 2 ^ 8.
Proof. unfold awe_mask, u8. apply Z.mod_pos_bound. lia. Qed.

Lemma land_u8_mask (y mask : Z) :
  0 <= mask < 2 ^ 8 -> Z.land (u8 y) mask = Z.land y mask.
Proof.
  intros Hm. unfold u8. rewrite <- Z.land_ones by lia.
  rewrite <- Z.land_assoc. f_equal.
  rewrite Z.land_comm, Z.land_ones by lia.
  apply Z.mod_small. exact Hm.
Qed.

(** A masked write leaves the bits under a disjoint mask alone. *)
Lemma update_other_mask (old x mask mask' : Z) :
  0 <= mask < 2 ^ 8 -> Z.land mask mask' = 0 ->
  Z.land (u8 (Z.lor (Z.land old (Z.lnot mask')) (Z.land x mask'))) mask
  = Z.land (u8 old) mask.
Proof.
  intros Hm Hd. rewrite !land_u8_mask by exact Hm.
  rewrite Z.land_lor_distr_l, <- !Z.land_assoc.
  rewrite (Z.land_comm mask' mask), Hd, Z.land_0_r, Z.lor_0_r.
  f_equal. apply Z.bits_inj'. intros i Hi.
  rewrite Z.land_spec, Z.lnot_spec by exact Hi.
  assert (Hb : Z.testbit mask i && Z.testbit mask' i = false).
  { rewrite <- Z.land_spec, Hd. apply Z.bits_0. }
  destruct (Z.testbit mask i), (Z.testbit mask' i);
    try reflexivity; discriminate Hb.
Qed.

Lemma word_ok_inv (w : Z) :
  word_ok w = true ->
  w <> 0 /\ awe_mask w <> 0 /\
  awe_mask w = Z.shiftl (Z.ones (w_nbits w)) (w_nshift w) /\
  0 <= w_nshift w /\ 1 <= w_nbits w /\ w_nshift w + w_nbits w <= 8.
Proof.
  unfold word_ok. rewrite !andb_true_iff, !negb_true_iff.
  intros (((((H1 & H2) & H3) & H4) & H5) & H6).
  apply Z.eqb_neq in H1, H2. apply Z.eqb_eq in H3.
  apply Z.leb_le in H4, H5, H6. repeat split; assumption.
Qed.

(** Reading the bits of a word that has just been written gives the low
    [w_nbits] bits of the data. *)
Lemma field_get_reg_after_same (f : Z -> Z) (w data : Z) :
  word_ok w = true ->
  field_get (reg_after f w data) w = data mod 2 ^ w_nbits w.
Proof.
  intros Hok. destruct (word_ok_inv w Hok) as (_ & _ & Hm & Hs & Hn & Hsn).
  pose proof (awe_mask_range w) as Hr.
  unfold field_get, reg_after, reg_set. rewrite Z.eqb_refl.
  assert (Hcore :
    Z.land (u8 (if awe_mask w =? 255 then reg_data_of w data
                else Z.lor (Z.land (f (awe_reg w)) (Z.lnot (awe_mask w)))
                           (Z.land (reg_data_of w data) (awe_mask w))))
           (awe_mask w)
    = Z.land (reg_data_of w data) (awe_mask w)).
  { destruct (awe_mask w =? 255).
    - apply land_u8_mask. exact Hr.
    - apply update_then_read. exact Hr. }
  rewrite Hcore. unfold reg_data_of. rewrite Hm.
  set (s := w_nshift w) in *. set (n := w_nbits w) in *.
  apply Z.bits_inj'. intros i Hi.
  rewrite Z.shiftr_spec, Z.land_spec by exact Hi.
  rewrite (Z.shiftl_spec (Z.ones n)) by lia.
  replace (i + s - s) with i by lia.
  rewrite Z.testbit_ones_nonneg by lia.
  unfold u8. rewrite !Z.testbit_mod_pow2 by lia.
  rewrite Z.shiftl_spec by lia. replace (i + s - s) with i by lia.
  change 255 with (Z.ones 8).
  rewrite Z.land_spec, Z.testbit_ones_nonneg by lia.
  destruct (Z.ltb_spec i n) as [Hin|Hin].
  - replace (i + s <? 8) with true by (symmetry; apply Z.ltb_lt; lia).
    replace (i <? 8) with true by (symmetry; apply Z.ltb_lt; lia).
    cbn [andb]. rewrite !andb_true_r. reflexivity.
  - rewrite !andb_false_r. reflexivity.
Qed.

(** Writing a word leaves the bits of a word apart from it alone. *)
Lemma field_get_reg_after_other (f : Z -> Z) (w w' data : Z) :
  apart w w' = true ->
  field_get (reg_after f w' data) w = field_get f w.
Proof.
  intros Ha. pose proof (awe_mask_range w) as Hr.
  unfold field_get, reg_after, reg_set.
  destruct (Z.eqb_spec (awe_reg w) (awe_reg w')) as [E|E];
    [|reflexivity].
  unfold apart in Ha. rewrite E, Z.eqb_refl in Ha. cbn [negb orb] in Ha.
  apply Z.eqb_eq in Ha. rewrite <- E. f_equal.
  destruct (Z.eqb_spec (awe_mask w') 255) as [E255|E255].
  - rewrite E255 in Ha.
    assert (Hz : awe_mask w = 0).
    { change 255 with (Z.ones 8) in Ha. rewrite Z.land_ones in Ha by lia.
      rewrite Z.mod_small in Ha by exact Hr. exact Ha. }
    rewrite Hz, !Z.land_0_r. reflexivity.
  - apply update_other_mask; assumption.
Qed.

Lemma field_get_regs_after_write (w : Z) (awe : list Z) :
  apart_all w awe = true ->
  forall data f, field_get (regs_after_write data awe f) w = field_get f w.
Proof.
  induction awe as [|w' awe IH]; intros Ha data f; cbn [regs_after_write].
  - reflexivity.
  - cbn [apart_all] in Ha. destruct (w' =? 0); [reflexivity|].
    apply andb_true_iff in Ha. destruct Ha as [Ha1 Ha2].
    destruct (negb (awe_mask w' =? 0)).
    + rewrite IH by exact Ha2. apply field_get_reg_after_other. exact Ha1.
    + apply IH. exact Ha2.
Qed.

(** A descriptor reads the same before and after a write to a descriptor
    apart from it. *)
Lemma value_read_frame (a b : list Z) :
  desc_apart a b = true ->
  forall data full_shift v f,
    value_read a data full_shift (regs_after_write v b f)
    = value_read a data full_shift f.
Proof.
  induction a as [|w a IH]; intros Ha data full_shift v f;
    cbn [value_read].
  - reflexivity.
  - cbn [desc_apart] in Ha. destruct (w =? 0); [reflexivity|].
    apply andb_true_iff in Ha. destruct Ha as [Ha1 Ha2].
    destruct (negb (awe_mask w =? 0)).
    + rewrite field_get_regs_after_write by exact Ha1.
      apply IH. exact Ha2.
    + apply IH. exact Ha2.
Qed.

Lemma lor_shiftl_add (d x full_shift : Z) :
  0 <= full_shift -> 0 <= d < 2 ^ full_shift ->
  Z.lor d (Z.shiftl x full_shift) = d + x * 2 ^ full_shift.
Proof.
  intros Hs Hd.
  pose proof (Z.add_lor_land d (Z.shiftl x full_shift)) as Hadd.
  assert (Hz : Z.land d (Z.shiftl x full_shift) = 0).
  { apply Z.bits_inj'. intros i Hi.
    rewrite Z.land_spec, Z.bits_0.
    destruct (Z.ltb_spec i full_shift) as [Hlt|Hge].
    - rewrite Z.shiftl_spec_low by exact Hlt. apply andb_false_r.
    - rewrite <- (Z.mod_small d (2 ^ full_shift)) by exact Hd.
      rewrite Z.mod_pow2_bits_high by lia. reflexivity. }
  rewrite Hz in Hadd. rewrite Z.shiftl_mul_pow2 in Hadd |- * by exact Hs.
  lia.
Qed.

Lemma desc_bits_nonneg (awe : list Z) :
  desc_ok awe = true -> 0 <= desc_bits awe.
Proof.
  induction awe as [|w awe IH]; cbn [desc_ok desc_bits]; intros H.
  - lia.
  - destruct (w =? 0); [lia|].
    apply andb_true_iff in H. destruct H as [H Hok].
    apply andb_true_iff in H. destruct H as [Hw _].
    destruct (word_ok_inv w Hw) as (_ & _ & _ & _ & Hn & _).
    specialize (IH Hok). lia.
Qed.

(** Writing a value through a well formed descriptor and reading the
    descriptor back gives the low [desc_bits] bits of the value. *)
Lemma value_read_roundtrip (awe : list Z) :
  desc_ok awe = true ->
  forall d full_shift v f,
    0 <= full_shift -> 0 <= d < 2 ^ full_shift ->
    full_shift + desc_bits awe <= 64 ->
    value_read awe d full_shift (regs_after_write v awe f)
    = d + (v mod 2 ^ desc_bits awe) * 2 ^ full_shift.
Proof.
  induction awe as [|w awe IH]; intros Hok d fs v f Hfs Hd Hb;
    cbn [value_read regs_after_write desc_bits] in *.
  - rewrite Z.pow_0_r, Z.mod_1_r. lia.
  - cbn [desc_ok] in Hok. destruct (w =? 0).
    { rewrite Z.pow_0_r, Z.mod_1_r. lia. }
    apply andb_true_iff in Hok. destruct Hok as [Hok Hok'].
    apply andb_true_iff in Hok. destruct Hok as [Hw Hap].
    destruct (word_ok_inv w Hw) as (_ & Hm & _ & _ & Hn & Hsn).
    replace (awe_mask w =? 0) with false
      by (symmetry; apply Z.eqb_neq; exact Hm).
    cbn [negb].
    pose proof (desc_bits_nonneg awe Hok') as Hbits.
    set (n := w_nbits w) in *.
    rewrite field_get_regs_after_write by exact Hap.
    rewrite field_get_reg_after_same by exact Hw. fold n.
    assert (Hvn : 0 <= v mod 2 ^ n < 2 ^ n)
      by (apply Z.mod_pos_bound; apply Z.pow_pos_nonneg; lia).
    rewrite lor_shiftl_add by assumption.
    assert (Hpow : 2 ^ (fs + n) = 2 ^ fs * 2 ^ n)
      by (apply Z.pow_add_r; lia).
    assert (Hd' : 0 <= d + v mod 2 ^ n * 2 ^ fs < 2 ^ (fs + n)) by nia.
    assert (H64 : 2 ^ (fs + n) <= 2 ^ 64)
      by (apply Z.pow_le_mono_r; lia).
    rewrite u64_small by lia.
    rewrite IH; try assumption; try lia.
    rewrite Z.shiftr_div_pow2 by lia.
    rewrite (Z.pow_add_r 2 n (desc_bits awe)) by lia.
    rewrite (Z.rem_mul_r v (2 ^ n) (2 ^ desc_bits awe))
      by (try apply Z.pow_nonzero; try apply Z.pow_pos_nonneg; lia).
    rewrite Hpow. ring.
Qed.

(** On a register map without faults [write_multireg64] returns 0 and
    leaves the register file [regs_after_write] describes. *)
Lemma write_multireg64_quiet (awe : list Z) :
  forall data f q t,
  exists evs,
    write_multireg64 data awe (mkRegmap f q [] t)
    = (0, mkRegmap (regs_after_write data awe f) q [] (evs ++ t)).
Proof.
  induction awe as [|w awe IH]; intros data f q t;
    cbn [write_multireg64 regs_after_write].
  - exists []. reflexivity.
  - destruct (w =? 0); [exists []; reflexivity|].
    destruct (negb (awe_mask w =? 0)).
    + unfold bind. rewrite si5338_reg_write_quiet.
      change (0 <? 0) with false. cbv iota.
      match goal with
      | |- exists _, write_multireg64 ?D _ (mkRegmap ?F _ _ (?E :: _)) = _ =>
          destruct (IH D F q (E :: t)) as [evs H];
          exists (evs ++ [E]); rewrite H, <- app_assoc
      end.
      reflexivity.
    + apply IH.
Qed.

(** On a register map without faults [read_multireg64] returns 0 and the
    value [value_read] describes, and changes no register. *)
Lemma read_multireg64_quiet (awe : list Z) :
  forall data full_shift f t,
  exists evs,
    read_multireg64_from awe data full_shift (mkRegmap f [] [] t)
    = ((0, value_read awe data full_shift f),
       mkRegmap f [] [] (evs ++ t)).
Proof.
  induction awe as [|w awe IH]; intros data fs f t;
    cbn [read_multireg64_from value_read].
  - exists []. reflexivity.
  - destruct (w =? 0); [exists []; reflexivity|].
    destruct (negb (awe_mask w =? 0)).
    + unfold bind. rewrite si5338_reg_read_quiet.
      change (0 <? 0) with false. cbv iota.
      match goal with
      | |- exists _,
            read_multireg64_from _ ?D ?S (mkRegmap _ _ _ (?E :: _)) = _ =>
          destruct (IH D S f (E :: t)) as [evs H];
          exists (evs ++ [E]); rewrite H, <- app_assoc
      end.
      reflexivity.
    + apply IH.
Qed.

Lemma write_field_quiet (data w : Z) (f : Z -> Z) (q : list Z)
    (t : list event) :
  exists evs,
    write_field data w (mkRegmap f q [] t)
    = (0, mkRegmap (if awe_mask w =? 0 then f else reg_after f w data)
                   q [] (evs ++ t)).
Proof.
  unfold write_field. destruct (awe_mask w =? 0) eqn:E; cbn [negb].
  - exists []. reflexivity.
  - unfold bind. rewrite si5338_reg_write_quiet.
    change (0 <? 0) with false. cbv iota. unfold ret.
    eexists [_]. cbn [app]. unfold reg_after, reg_data_of, w_nshift.
    rewrite (land_u8_mask data 255) by lia. reflexivity.
Qed.

Lemma read_field_quiet (w : Z) (f : Z -> Z) (t : list event) :
  exists evs,
    read_field w (mkRegmap f [] [] t)
    = (if awe_mask w =? 0 then 0 else field_get f w,
       mkRegmap f [] [] (evs ++ t)).
Proof.
  unfold read_field. destruct (awe_mask w =? 0) eqn:E; cbn [negb].
  - exists []. reflexivity.
  - unfold bind. rewrite si5338_reg_read_quiet.
    change (0 <? 0) with false. cbv iota. unfold ret.
    eexists [_]. reflexivity.
Qed.

(** [get_ms_p] on a register map without faults. *)
Lemma get_ms_p_quiet (pv : p_t) (chn : Z) (f : Z -> Z) (t : list event) :
  0 <= chn <= 4 ->
  exists evs,
    get_ms_p pv chn (mkRegmap f [] [] t)
    = ((0, (u32 (value_read (awe_msx_at chn 0) 0 0 f),
            u32 (value_read (awe_msx_at chn 1) 0 0 f),
            u32 (value_read (awe_msx_at chn 2) 0 0 f))),
       mkRegmap f [] [] (evs ++ t)).
Proof.
  intros Hc. unfold get_ms_p, _verify_ms_channel.
  replace (chn <? 0) with false by (symmetry; apply Z.ltb_ge; lia).
  replace (4 <? chn) with false by (symmetry; apply Z.ltb_ge; lia).
  cbn [orb]. change (0 <? 0) with false. cbv iota.
  destruct pv as [[p0 p1] p2]. unfold bind, read_multireg64.
  destruct (read_multireg64_quiet (awe_msx_at chn 0) 0 0 f t) as [e0 H0].
  rewrite H0. change (0 <? 0) with false. cbv iota.
  destruct (read_multireg64_quiet (awe_msx_at chn 1) 0 0 f (e0 ++ t))
    as [e1 H1].
  rewrite H1. change (0 <? 0) with false. cbv iota.
  destruct (read_multireg64_quiet (awe_msx_at chn 2) 0 0 f
              (e1 ++ e0 ++ t)) as [e2 H2].
  rewrite H2. change (0 <? 0) with false. cbv iota.
  exists (e2 ++ e1 ++ e0). unfold ret. rewrite <- !app_assoc. reflexivity.
Qed.

(** [set_ms_p] on a register map without faults: the parameters after the
    high speed substitution are returned and written, field by field. *)
Lemma set_ms_p_quiet (past_end : Z) (pv : p_t) (chn : Z) (f : Z -> Z)
    (q : list Z) (t : list event) :
  0 <= chn <= 4 ->
  exists evs,
    set_ms_p past_end pv chn (mkRegmap f q [] t)
    = (let '(p0, p1, p2) := fst (ms_p_high_speed pv) in
       let hs := snd (ms_p_high_speed pv) in
       let w := awe_ms_hs_at past_end chn in
       let f0 := if awe_mask w =? 0 then f else reg_after f w hs in
       ((0, (p0, p1, p2)),
        mkRegmap
          (regs_after_write (u64 p2) (awe_msx_at chn 2)
             (regs_after_write (u64 p1) (awe_msx_at chn 1)
                (regs_after_write (u64 p0) (awe_msx_at chn 0) f0)))
          q [] (evs ++ t))).
Proof.
  intros Hc. unfold set_ms_p, _verify_ms_channel.
  replace (chn <? 0) with false by (symmetry; apply Z.ltb_ge; lia).
  replace (4 <? chn) with false by (symmetry; apply Z.ltb_ge; lia).
  cbn [orb]. change (0 <? 0) with false. cbv iota.
  destruct (ms_p_high_speed pv) as [[[p0 p1] p2] hs]. cbn [fst snd].
  unfold bind.
  destruct (write_field_quiet hs (awe_ms_hs_at past_end chn) f q t)
    as [eh Hh].
  rewrite Hh. change (0 <? 0) with false. cbv iota.
  set (f0 := if awe_mask (awe_ms_hs_at past_end chn) =? 0 then f
             else reg_after f (awe_ms_hs_at past_end chn) hs).
  destruct (write_multireg64_quiet (awe_msx_at chn 0) (u64 p0) f0 q
              (eh ++ t)) as [e0 H0].
  rewrite H0. change (0 <? 0) with false. cbv iota.
  set (f1 := regs_after_write (u64 p0) (awe_msx_at chn 0) f0).
  destruct (write_multireg64_quiet (awe_msx_at chn 1) (u64 p1) f1 q
              (e0 ++ eh ++ t)) as [e1 H1].
  rewrite H1. change (0 <? 0) with false. cbv iota.
  set (f2 := regs_after_write (u64 p1) (awe_msx_at chn 1) f1).
  destruct (write_multireg64_quiet (awe_msx_at chn 2) (u64 p2) f2 q
              (e1 ++ e0 ++ eh ++ t)) as [e2 H2].
  rewrite H2. change (0 <? 0) with false. cbv iota.
  exists (e2 ++ e1 ++ e0 ++ eh). unfold ret. rewrite <- !app_assoc.
  reflexivity.
Qed.

(** The parameter tables of the five channels are well formed, 18, 30 and
    30 bits wide, and their three fields are apart from each other. *)
Lemma awe_msx_ok (chn : Z) :
  0 <= chn <= 4 ->
  desc_ok (awe_msx_at chn 0) = true /\
  desc_ok (awe_msx_at chn 1) = true /\
  desc_ok (awe_msx_at chn 2) = true /\
  desc_bits (awe_msx_at chn 0) = 18 /\
  desc_bits (awe_msx_at chn 1) = 30 /\
  desc_bits (awe_msx_at chn 2) = 30 /\
  desc_apart (awe_msx_at chn 0) (awe_msx_at chn 1) = true /\
  desc_apart (awe_msx_at chn 0) (awe_msx_at chn 2) = true /\
  desc_apart (awe_msx_at chn 1) (awe_msx_at chn 2) = true.
Proof.
  intros Hc.
  assert (H : chn = 0 \/ chn = 1 \/ chn = 2 \/ chn = 3 \/ chn = 4) by lia.
  destruct H as [->|[->|[->|[->| ->]]]]; vm_compute; repeat split.
Qed.

(** The high speed bit of a MultiSynth is a well formed one-bit field apart
    from the parameter fields of its channel. *)
Lemma awe_ms_hs_ok (past_end chn : Z) :
  0 <= chn <= 3 ->
  word_ok (awe_ms_hs_at past_end chn) = true /\
  w_nbits (awe_ms_hs_at past_end chn) = 1 /\
  apart_all (awe_ms_hs_at past_end chn) (awe_msx_at chn 0) = true /\
  apart_all (awe_ms_hs_at past_end chn) (awe_msx_at chn 1) = true /\
  apart_all (awe_ms_hs_at past_end chn) (awe_msx_at chn 2) = true.
Proof.
  intros Hc.
  assert (H : chn = 0 \/ chn = 1 \/ chn = 2 \/ chn = 3) by lia.
  destruct H as [->|[->|[->| ->]]]; vm_compute; repeat split.
Qed.

(** What the chip holds after the writes of [set_ms_p]: the three
    parameters, each cut to the width of its field, whatever the register
    file was before them. *)
Lemma ms_p_readback (chn q0 q1 q2 : Z) (f0 : Z -> Z) :
  0 <= chn <= 4 ->
  let F :=
    regs_after_write q2 (awe_msx_at chn 2)
      (regs_after_write q1 (awe_msx_at chn 1)
         (regs_after_write q0 (awe_msx_at chn 0) f0)) in
  value_read (awe_msx_at chn 0) 0 0 F = q0 mod 2 ^ 18 /\
  value_read (awe_msx_at chn 1) 0 0 F = q1 mod 2 ^ 30 /\
  value_read (awe_msx_at chn 2) 0 0 F = q2 mod 2 ^ 30.
Proof.
  intros Hc F.
  destruct (awe_msx_ok chn Hc)
    as (O0 & O1 & O2 & B0 & B1 & B2 & A01 & A02 & A12).
  subst F. split; [|split].
  - rewrite !value_read_frame by assumption.
    rewrite value_read_roundtrip; rewrite ?B0; try assumption; lia.
  - rewrite !value_read_frame by assumption.
    rewrite value_read_roundtrip; rewrite ?B1; try assumption; lia.
  - rewrite value_read_roundtrip; rewrite ?B2; try assumption; lia.
Qed.

(** The high speed bit of a MultiSynth after the writes of [set_ms_p]. *)
Lemma ms_hs_readback (past_end chn q0 q1 q2 hs : Z) (f : Z -> Z) :
  0 <= chn <= 3 -> hs = 0 \/ hs = 1 ->
  let w := awe_ms_hs_at past_end chn in
  field_get
    (regs_after_write q2 (awe_msx_at chn 2)
       (regs_after_write q1 (awe_msx_at chn 1)
          (regs_after_write q0 (awe_msx_at chn 0) (reg_after f w hs)))) w
  = hs.
Proof.
  intros Hc Hhs w.
  destruct (awe_ms_hs_ok past_end chn Hc) as (Ow & Bw & W0 & W1 & W2).
  fold w in Ow, Bw, W0, W1, W2.
  rewrite !field_get_regs_after_write by assumption.
  rewrite field_get_reg_after_same by exact Ow. rewrite Bw.
  destruct Hhs as [-> | ->]; reflexivity.
Qed.

(** ** C10: the commit of parameters and the high speed bit *)

(** A write through a descriptor changes the registers of its words only. *)
Lemma regs_after_write_other_reg (awe : list Z) (r : Z) :
  forallb (fun w => negb (awe_reg w =? r)) awe = true ->
  forall v f, regs_after_write v awe f r = f r.
Proof.
  induction awe as [|w awe IH]; intros H v f; cbn [regs_after_write].
  - reflexivity.
  - cbn [forallb] in H. apply andb_true_iff in H. destruct H as [Hw H].
    destruct (w =? 0); [reflexivity|].
    destruct (negb (awe_mask w =? 0)); [|apply IH; exact H].
    rewrite (IH H). unfold reg_after, reg_set.
    apply negb_true_iff in Hw. rewrite Z.eqb_sym, Hw. reflexivity.
Qed.

(** Register 51 holds the four high speed bits (bits 4..7) and no
    parameter. *)
Lemma awe_msx_not_51 (chn : Z) (i : nat) :
  forallb (fun w => negb (awe_reg w =? 51)) (awe_msx_at chn i) = true.
Proof.
  unfold awe_msx_at.
  assert (Hall : forallb (fun row => forallb (fun d =>
            forallb (fun w => negb (awe_reg w =? 51)) d) row) awe_msx = true)
    by (vm_compute; reflexivity).
  destruct (nth_in_or_default (Z.to_nat chn) awe_msx []) as [Hrow|Hrow];
    [|rewrite Hrow; destruct i; reflexivity].
  rewrite forallb_forall in Hall. specialize (Hall _ Hrow).
  destruct (nth_in_or_default i (nth (Z.to_nat chn) awe_msx []) [])
    as [Hd|Hd]; [|rewrite Hd; reflexivity].
  rewrite forallb_forall in Hall. exact (Hall _ Hd).
Qed.

(** The write of [hs] through the word of MultiSynth [chn] sets bit
    [4 + chn] of register 51 to [hs] and keeps the other three. *)
Lemma ms_hs_bits (chn hs k : Z) (f : Z -> Z) :
  0 <= chn <= 3 -> hs = 0 \/ hs = 1 -> 0 <= k <= 3 ->
  Z.testbit (reg_after f (nth (Z.to_nat chn) awe_ms_hs 0) hs 51) (4 + k)
  = if k =? chn then hs =? 1 else Z.testbit (f 51) (4 + k).
Proof.
  intros Hc Hhs Hk.
  assert (C : chn = 0 \/ chn = 1 \/ chn = 2 \/ chn = 3) by lia.
  assert (K : k = 0 \/ k = 1 \/ k = 2 \/ k = 3) by lia.
  destruct C as [->|[->|[->| ->]]]; destruct K as [->|[->|[->| ->]]];
    destruct Hhs as [-> | ->];
    match goal with
    | |- Z.testbit (reg_after f ?W ?H 51) ?N = _ =>
        let w := eval vm_compute in W in
        let m := eval vm_compute in (awe_mask W) in
        let d := eval vm_compute in (reg_data_of W H) in
        assert (E : reg_after f W H 51
                    = Z.lor (Z.land (f 51) (Z.lnot m)) (Z.land d m))
          by reflexivity;
        rewrite E, Z.lor_spec, !Z.land_spec, Z.lnot_spec by lia;
        let bm := eval vm_compute in (Z.testbit m N) in
        let bd := eval vm_compute in (Z.testbit d N) in
        change (Z.testbit m N) with bm; change (Z.testbit d N) with bd
    end;
    destruct (Z.testbit (f 51) _); reflexivity.
Qed.

(** C10.  On a register map without faults [set_ms_p] succeeds on every
    channel (the MultiSynths 0..3 and the PLL, channel 4).  If [p1 < 512] it
    replaces the parameters by [(0, 0, 1)] when [p1 < 128] and by
    [(256, 0, 1)] otherwise, in the caller's array and on the chip, which
    then holds the integer divider 4 or 6; otherwise the parameters are left
    as they are and the chip holds them (each within the width of its
    field, 18, 30 and 30 bits).  On a MultiSynth channel [chn] the high
    speed bit of that channel, bit [4 + chn] of register 51, is 1 after the
    commit in the first case and 0 in the second, and the high speed bits of
    the other three MultiSynths are as they were.  On the PLL channel there
    is no such bit: the code takes the word one past the end of
    [awe_ms_hs], and the register file after the commit is the one that the
    write of [hs] through that word and then the writes of the three
    parameters leave. *)
Theorem C10_set_ms_p_high_speed (past_end chn p0 p1 p2 : Z) (m : regmap) :
  0 <= chn <= 4 ->
  io_script m = [] -> status_seq m = [] ->
  0 <= p0 < 2 ^ 32 -> 0 <= p1 < 2 ^ 32 -> 0 <= p2 < 2 ^ 32 ->
  let r := set_ms_p past_end (p0, p1, p2) chn m in
  (p0 < 512 ->
   fst r = (0, (if p0 <? 128 then 0 else 256, 0, 1)) /\
   fst (get_ms_p (0, 0, 0) chn (snd r))
   = (0, (if p0 <? 128 then 0 else 256, 0, 1)) /\
   p_to_ms (if p0 <? 128 then 0 else 256, 0, 1)
   = (if p0 <? 128 then 4 else 6, 0, 1)) /\
  (512 <= p0 ->
   fst r = (0, (p0, p1, p2)) /\
   fst (get_ms_p (0, 0, 0) chn (snd r))
   = (0, (p0 mod 2 ^ 18, p1 mod 2 ^ 30, p2 mod 2 ^ 30))) /\
  (chn <= 3 ->
   Z.testbit (regs (snd r) 51) (4 + chn) = (p0 <? 512) /\
   forall k, 0 <= k <= 3 -> k <> chn ->
     Z.testbit (regs (snd r) 51) (4 + k) = Z.testbit (regs m 51) (4 + k)) /\
  (chn = 4 ->
   regs (snd r)
   = (let '(q0, q1, q2) := fst (ms_p_high_speed (p0, p1, p2)) in
      let hs := snd (ms_p_high_speed (p0, p1, p2)) in
      regs_after_write (u64 q2) (awe_msx_at 4 2)
        (regs_after_write (u64 q1) (awe_msx_at 4 1)
           (regs_after_write (u64 q0) (awe_msx_at 4 0)
              (if awe_mask past_end =? 0 then regs m
               else reg_after (regs m) past_end hs))))).
Proof.
  intros Hc Hs Hq H0 H1 H2 r.
  destruct m as [f q s t]. cbn [io_script status_seq] in Hs, Hq. subst s q.
  destruct (set_ms_p_quiet past_end (p0, p1, p2) chn f [] t Hc)
    as [evs Hset].
  cbv zeta in Hset.
  subst r. split; [|split; [|split]].
  - intros Hp. unfold ms_p_high_speed in Hset.
    replace (p0 <? 512) with true in Hset by (symmetry; apply Z.ltb_lt; lia).
    cbn [fst snd] in Hset. rewrite Hset. clear Hset. cbn [fst snd].
    set (q0 := if p0 <? 128 then 0 else 256).
    assert (Hq0 : q0 = 0 \/ q0 = 256)
      by (unfold q0; destruct (p0 <? 128); auto).
    split; [reflexivity|].
    split; [|unfold q0; destruct (p0 <? 128); reflexivity].
    match goal with
    | |- fst (get_ms_p _ _ (mkRegmap ?F _ _ ?T)) = _ =>
        destruct (get_ms_p_quiet (0, 0, 0) chn F T Hc) as [e He];
        rewrite He
    end.
    cbn [fst].
    match goal with
    | |- context [regs_after_write (u64 q0) _ ?F0] =>
        destruct (ms_p_readback chn (u64 q0) (u64 0) (u64 1) F0 Hc)
          as (R0 & R1 & R2)
    end.
    cbv zeta in R0, R1, R2. rewrite R0, R1, R2.
    destruct Hq0 as [-> | ->]; reflexivity.
  - intros Hp. unfold ms_p_high_speed in Hset.
    replace (p0 <? 512) with false in Hset
      by (symmetry; apply Z.ltb_ge; lia).
    cbn [fst snd] in Hset. rewrite Hset. clear Hset. cbn [fst snd].
    split; [reflexivity|].
    match goal with
    | |- fst (get_ms_p _ _ (mkRegmap ?F _ _ ?T)) = _ =>
        destruct (get_ms_p_quiet (0, 0, 0) chn F T Hc) as [e He];
        rewrite He
    end.
    cbn [fst].
    match goal with
    | |- context [regs_after_write (u64 p0) _ ?F0] =>
        destruct (ms_p_readback chn (u64 p0) (u64 p1) (u64 p2) F0 Hc)
          as (R0 & R1 & R2)
    end.
    cbv zeta in R0, R1, R2. rewrite R0, R1, R2.
    rewrite !u64_small by lia.
    assert (0 <= p0 mod 2 ^ 18 < 2 ^ 18) by (apply Z.mod_pos_bound; lia).
    assert (0 <= p1 mod 2 ^ 30 < 2 ^ 30) by (apply Z.mod_pos_bound; lia).
    assert (0 <= p2 mod 2 ^ 30 < 2 ^ 30) by (apply Z.mod_pos_bound; lia).
    rewrite !u32_small by lia. reflexivity.
  - intros Hc3.
    destruct (ms_p_high_speed (p0, p1, p2)) as [[[q0 q1] q2] hs] eqn:Ehs.
    cbn [fst snd] in Hset. rewrite Hset. clear Hset. cbn [fst snd regs].
    assert (Hhs : (hs = 0 \/ hs = 1) /\ (hs =? 1) = (p0 <? 512)).
    { unfold ms_p_high_speed in Ehs.
      destruct (p0 <? 512); injection Ehs as _ _ _ <-; split; auto. }
    destruct Hhs as [Hhs Hbit].
    destruct (awe_ms_hs_ok past_end chn ltac:(lia)) as (Ow & _).
    destruct (word_ok_inv _ Ow) as (_ & Hmask & _).
    apply Z.eqb_neq in Hmask. rewrite Hmask.
    rewrite !regs_after_write_other_reg by apply awe_msx_not_51.
    assert (Hw : awe_ms_hs_at past_end chn
                 = nth (Z.to_nat chn) awe_ms_hs 0).
    { unfold awe_ms_hs_at. apply nth_indep.
      cbn [length awe_ms_hs]. lia. }
    rewrite Hw. split.
    + rewrite (ms_hs_bits chn hs chn f) by lia.
      rewrite Z.eqb_refl. exact Hbit.
    + intros k Hk Hne. rewrite (ms_hs_bits chn hs k f) by lia.
      replace (k =? chn) with false by (symmetry; apply Z.eqb_neq; lia).
      reflexivity.
  - intros ->. rewrite Hset. cbn [snd regs].
    destruct (ms_p_high_speed (p0, p1, p2)) as [[[q0 q1] q2] hs].
    cbn [fst snd]. reflexivity.
Qed.

Lemma C10_set_ms_p_high_speed_witness :
  let m := mkRegmap (fun _ => 0xff) [] [] [] in
  let r := set_ms_p 0 (300, 77, 100) 2 m in
  (300 < 512 ->
   fst r = (0, (if 300 <? 128 then 0 else 256, 0, 1)) /\
   fst (get_ms_p (0, 0, 0) 2 (snd r))
   = (0, (if 300 <? 128 then 0 else 256, 0, 1)) /\
   p_to_ms (if 300 <? 128 then 0 else 256, 0, 1)
   = (if 300 <? 128 then 4 else 6, 0, 1)) /\
  (512 <= 300 ->
   fst r = (0, (300, 77, 100)) /\
   fst (get_ms_p (0, 0, 0) 2 (snd r))
   = (0, (300 mod 2 ^ 18, 77 mod 2 ^ 30, 100 mod 2 ^ 30))) /\
  (2 <= 3 ->
   Z.testbit (regs (snd r) 51) (4 + 2) = (300 <? 512) /\
   forall k, 0 <= k <= 3 -> k <> 2 ->
     Z.testbit (regs (snd r) 51) (4 + k) = Z.testbit (regs m 51) (4 + k)) /\
  (2 = 4 ->
   regs (snd r)
   = (let '(q0, q1, q2) := fst (ms_p_high_speed (300, 77, 100)) in
      let hs := snd (ms_p_high_speed (300, 77, 100)) in
      regs_after_write (u64 q2) (awe_msx_at 4 2)
        (regs_after_write (u64 q1) (awe_msx_at 4 1)
           (regs_after_write (u64 q0) (awe_msx_at 4 0)
              (if awe_mask 0 =? 0 then regs m
               else reg_after (regs m) 0 hs))))).
Proof.
  intros m.
  apply (C10_set_ms_p_high_speed 0 2 300 77 100 m); try lia; reflexivity.
Defined.

(** The commit of the PLL under two words that may follow [awe_ms_hs] in
    memory: with the word of MultiSynth 0 it sets the high speed bit of
    that MultiSynth, with an empty word it writes no bit at all. *)
Example set_ms_p_pll_high_speed :
  let m := mkRegmap (fun _ => 0) [] [] [] in
  fst (set_ms_p AWE_MS0_HS (300, 77, 100) 4 m) = (0, (256, 0, 1)) /\
  regs (snd (set_ms_p AWE_MS0_HS (300, 77, 100) 4 m)) 51 = 16 /\
  regs (snd (set_ms_p 0 (300, 77, 100) 4 m)) 51 = 0.
Proof. vm_compute. repeat split. Qed.

(** A commit on channel 1 of parameters above the threshold, run on a
    register file of all ones: the chip holds them as they were given. *)
Example set_ms_p_unmodified :
  let m := mkRegmap (fun _ => 255) [] [] [] in
  let r := set_ms_p 0 (1234, 5, 7) 1 m in
  fst r = (0, (1234, 5, 7)) /\
  fst (get_ms_p (0, 0, 0) 1 (snd r)) = (0, (1234, 5, 7)) /\
  fst (read_field AWE_MS1_HS (snd r)) = 0.
Proof. vm_compute. repeat split. Qed.

(** ** C4: [set_rate] and the [valid] flag *)

Lemma cal_ms_p_total (numerator denominator : Z) :
  0 <= numerator < 2 ^ 64 -> 1 <= denominator < 2 ^ 64 ->
  exists pv, cal_ms_p numerator denominator = Some pv.
Proof.
  intros Hn Hd.
  destruct (cal_ms_spec numerator denominator Hn Hd)
    as (b & c & Hms & Hb & Hc & _).
  destruct (ms_to_p_total (cal_ms_int (numerator / denominator)) b c
              ltac:(lia) Hc) as [pv Hpv].
  exists pv. unfold cal_ms_p. rewrite Hms. exact Hpv.
Qed.

Lemma clamp_vco_range (rate : Z) : 0 <= clamp_vco rate < 2 ^ 64.
Proof.
  unfold clamp_vco, FVCOMIN, FVCOMAX.
  destruct (Z.ltb_spec rate 2200000000); [lia|].
  destruct (Z.ltb_spec 2840000000 rate); lia.
Qed.

(** The first field of every channel starts with a word that is written. *)
Lemma awe_msx_first_word (chn : Z) :
  0 <= chn <= 4 ->
  exists w rest,
    awe_msx_at chn 0 = w :: rest /\ w <> 0 /\ awe_mask w <> 0.
Proof.
  intros Hc.
  assert (H : chn = 0 \/ chn = 1 \/ chn = 2 \/ chn = 3 \/ chn = 4) by lia.
  destruct H as [->|[->|[->|[->| ->]]]];
    eexists _, _; (split; [reflexivity|]);
    split; vm_compute; intros H; discriminate H.
Qed.

(** When the first transaction fails, [set_ms_p] returns that error and
    has changed no register. *)
Lemma set_ms_p_first_fails (past_end : Z) (pv : p_t) (chn : Z) (m : regmap)
    (e : positive) (s : list (option positive)) :
  0 <= chn <= 4 -> io_script m = Some e :: s ->
  exists pv' m',
    set_ms_p past_end pv chn m = ((Z.neg e, pv'), m') /\
    regs m' = regs m.
Proof.
  intros Hc Hs. unfold set_ms_p, _verify_ms_channel.
  replace (chn <? 0) with false by (symmetry; apply Z.ltb_ge; lia).
  replace (4 <? chn) with false by (symmetry; apply Z.ltb_ge; lia).
  cbn [orb]. change (0 <? 0) with false. cbv iota.
  destruct (ms_p_high_speed pv) as [[[p0 p1] p2] hs].
  unfold bind, write_field.
  destruct (awe_mask (awe_ms_hs_at past_end chn) =? 0); cbn [negb].
  - unfold ret at 1. change (0 <? 0) with false. cbv iota.
    destruct (awe_msx_first_word chn Hc) as (w & rest & -> & Hw & Hm).
    rewrite (write_multireg64_round _ w rest m Hw Hm). cbv zeta.
    rewrite (si5338_reg_write_failed _ _ _ m e s Hs).
    change (Z.neg e <? 0) with true. cbv iota.
    eexists _, _. split; reflexivity.
  - unfold bind. rewrite (si5338_reg_write_failed _ _ _ m e s Hs).
    change (Z.neg e <? 0) with true. cbv iota. unfold ret.
    change (Z.neg e <? 0) with true. cbv iota.
    eexists _, _. split; reflexivity.
Qed.

(** As stated the claim fails: a MultiSynth and a PLL node whose flag is
    false, a register map whose first transaction fails with error 5;
    [set_rate] returns the error and the flag is true afterwards. *)
Lemma C4_valid_counterexample :
  let hw := mkHwData (mkParams (0, 0, 0) false) 0 in
  let m := mkRegmap (fun _ => 0) [] [Some 5%positive] [] in
  valid (params hw) = false /\
  (exists hw' m',
     si5338_msynth_set_rate 64 0 hw 100000000 2500000000 m
     = Some (-5, hw', m') /\
     valid (params hw') = true /\ valid (params hw') <> valid (params hw)) /\
  (exists hw' m',
     si5338_pll_set_rate 0 hw 2500000000 25000000 m
     = Some (-5, hw', m') /\
     valid (params hw') = true /\ valid (params hw') <> valid (params hw)).
Proof.
  intros hw m. split; [reflexivity|].
  split;
    (eexists _, _;
     split; [vm_compute; reflexivity
            |split; [reflexivity|intros H; discriminate H]]).
Qed.

(** Whatever the register map does, [set_ms_p] on a valid channel leaves
    in the caller's array the parameters after the high speed
    substitution. *)
Lemma set_ms_p_array (past_end : Z) (pv : p_t) (chn : Z) (m : regmap) :
  0 <= chn <= 4 ->
  snd (fst (set_ms_p past_end pv chn m)) = fst (ms_p_high_speed pv).
Proof.
  intros Hc. unfold set_ms_p, _verify_ms_channel.
  replace (chn <? 0) with false by (symmetry; apply Z.ltb_ge; lia).
  replace (4 <? chn) with false by (symmetry; apply Z.ltb_ge; lia).
  cbn [orb]. change (0 <? 0) with false. cbv iota.
  destruct (ms_p_high_speed pv) as [[[p0 p1] p2] hs]. cbn [fst].
  unfold bind.
  destruct (write_field _ _ m) as [rc m1].
  destruct (rc <? 0); [reflexivity|].
  destruct (write_multireg64 _ _ m1) as [rc0 m2].
  destruct (rc0 <? 0); [reflexivity|].
  destruct (write_multireg64 _ _ m2) as [rc1 m3].
  destruct (rc1 <? 0); [reflexivity|].
  destruct (write_multireg64 _ _ m3) as [rc2 m4].
  destruct (rc2 <? 0); reflexivity.
Qed.

(** C4 (amended).  [set_rate] of the PLL and of a MultiSynth stores the
    parameters it computes and sets [valid] to true before it writes any
    register.  So for a non-zero requested rate and parent rate it returns,
    and whether the writes succeed or fail the node afterwards has [valid]
    true and holds the computed parameters (after the high speed
    substitution); in particular, when the first register write fails with
    [-e], [set_rate] returns [-e], no register has changed and [valid] is
    true. *)
Theorem C4_set_rate_sets_valid_first
    (BITS_PER_LONG past_end : Z) (hw : si5338_hw_data)
    (rate parent_rate : Z) (m : regmap) :
  1 <= rate < 2 ^ 64 -> 1 <= parent_rate < 2 ^ 64 -> 0 <= num hw <= 4 ->
  (exists rc hw' m' pv,
     cal_ms_p (clamp_vco rate) parent_rate = Some pv /\
     si5338_pll_set_rate past_end hw rate parent_rate m
     = Some (rc, hw', m') /\
     valid (params hw') = true /\
     p (params hw') = fst (ms_p_high_speed pv) /\
     forall e s, io_script m = Some e :: s ->
                 rc = Z.neg e /\ regs m' = regs m) /\
  (exists rc hw' m' pv,
     cal_ms_p parent_rate rate = Some pv /\
     si5338_msynth_set_rate BITS_PER_LONG past_end hw rate parent_rate m
     = Some (rc, hw', m') /\
     valid (params hw') = true /\
     p (params hw') = fst (ms_p_high_speed pv) /\
     forall e s, io_script m = Some e :: s ->
                 rc = Z.neg e /\ regs m' = regs m).
Proof.
  intros Hr Hp Hn. split.
  - destruct (cal_ms_p_total (clamp_vco rate) parent_rate
                (clamp_vco_range rate) Hp) as [pv Hpv].
    unfold si5338_pll_set_rate. rewrite Hpv. cbn [p params valid num].
    pose proof (set_ms_p_array past_end pv 4 m ltac:(lia)) as Harr.
    destruct (set_ms_p past_end pv 4 m) as [[rc pv'] m'] eqn:E.
    cbn [fst snd] in Harr.
    exists rc, (mkHwData (mkParams pv' true) (num hw)), m', pv.
    split; [reflexivity|]. split; [reflexivity|].
    split; [reflexivity|]. split; [exact Harr|].
    intros e s Hs.
    destruct (set_ms_p_first_fails past_end pv 4 m e s ltac:(lia) Hs)
      as (pv2 & m2 & E2 & Hregs).
    rewrite E in E2. injection E2 as -> _ ->. split; [reflexivity|exact Hregs].
  - destruct (cal_ms_p_total parent_rate rate ltac:(lia) Hr) as [pv Hpv].
    unfold si5338_msynth_set_rate.
    replace (rate =? 0) with false by (symmetry; apply Z.eqb_neq; lia).
    rewrite Hpv. cbn [p params valid num].
    pose proof (set_ms_p_array past_end pv (num hw) m Hn) as Harr.
    destruct (set_ms_p past_end pv (num hw) m) as [[rc pv'] m'] eqn:E.
    cbn [fst snd] in Harr.
    exists rc, (mkHwData (mkParams pv' true) (num hw)), m', pv.
    split; [reflexivity|]. split; [reflexivity|].
    split; [reflexivity|]. split; [exact Harr|].
    intros e s Hs.
    destruct (set_ms_p_first_fails past_end pv (num hw) m e s Hn Hs)
      as (pv2 & m2 & E2 & Hregs).
    rewrite E in E2. injection E2 as -> _ ->. split; [reflexivity|exact Hregs].
Qed.

Lemma C4_set_rate_sets_valid_first_witness :
  let hw := mkHwData (mkParams (0, 0, 0) false) 1 in
  let m := mkRegmap (fun _ => 0) [] [None; Some 5%positive] [] in
  (exists rc hw' m' pv,
     cal_ms_p (clamp_vco 2500000000) 25000000 = Some pv /\
     si5338_pll_set_rate 0 hw 2500000000 25000000 m = Some (rc, hw', m') /\
     valid (params hw') = true /\
     p (params hw') = fst (ms_p_high_speed pv) /\
     forall e s, io_script m = Some e :: s ->
                 rc = Z.neg e /\ regs m' = regs m) /\
  (exists rc hw' m' pv,
     cal_ms_p 25000000 2500000000 = Some pv /\
     si5338_msynth_set_rate 64 0 hw 2500000000 25000000 m
     = Some (rc, hw', m') /\
     valid (params hw') = true /\
     p (params hw') = fst (ms_p_high_speed pv) /\
     forall e s, io_script m = Some e :: s ->
                 rc = Z.neg e /\ regs m' = regs m).
Proof.
  intros hw m.
  apply (C4_set_rate_sets_valid_first 64 0 hw 2500000000 25000000 m);
    cbn [num hw]; lia.
Defined.

(** ** The polling loop of [post_init] *)

Lemma si5338_reg_read_status (v : Z) (vs : list Z) (f : Z -> Z)
    (t : list event) :
  si5338_reg_read STATUS_REG (mkRegmap f (v :: vs) [] t)
  = ((0, u8 v), mkRegmap f vs [] (EvRead STATUS_REG v :: t)).
Proof. reflexivity. Qed.

Lemma get_status_next (v : Z) (vs : list Z) (f : Z -> Z) (t : list event) :
  0 <= v < 256 ->
  get_status (mkRegmap f (v :: vs) [] t)
  = (v, mkRegmap f vs [] (EvRead STATUS_REG v :: t)).
Proof.
  intros Hv. unfold get_status, read_field.
  change (awe_mask AWE_STATUS =? 0) with false. cbn [negb].
  change (awe_reg AWE_STATUS) with STATUS_REG.
  change (awe_mask AWE_STATUS) with 255.
  change (find_nshift 8 255 0) with 0.
  unfold bind. rewrite si5338_reg_read_status.
  change (0 <? 0) with false. cbv iota. unfold ret.
  rewrite Z.shiftr_0_r, (u8_small v) by lia.
  change 255 with (Z.ones 8). rewrite Z.land_ones by lia.
  rewrite Z.mod_small by lia. reflexivity.
Qed.

Lemma busy_inv (check_los v : Z) :
  busy check_los v = true -> 0 <= v < 256 /\ (Z.land v check_los =? 0) = false.
Proof.
  unfold busy. rewrite !andb_true_iff, negb_true_iff.
  intros [[H1 H2] H3]. apply Z.leb_le in H1. apply Z.ltb_lt in H2.
  split; [lia|exact H3].
Qed.

Lemma clear_inv (check_los v : Z) :
  clear check_los v = true -> 0 <= v < 256 /\ (Z.land v check_los =? 0) = true.
Proof.
  unfold clear. rewrite !andb_true_iff.
  intros [[H1 H2] H3]. apply Z.leb_le in H1. apply Z.ltb_lt in H2.
  split; [lia|exact H3].
Qed.

(** The loop reads one status byte per round, sleeps 100 ms after a busy
    one, and stops at the first clear one. *)
Lemma poll_status_clear (check_los : Z) (bs : list Z) :
  forall (rounds : nat) (i rc c : Z) (rest : list Z) (f : Z -> Z)
         (t : list event),
    forallb (busy check_los) bs = true -> clear check_los c = true ->
    (length bs < rounds)%nat ->
    poll_status rounds i rc check_los (mkRegmap f (bs ++ c :: rest) [] t)
    = (inr (c, i + Z.of_nat (length bs)),
       mkRegmap f rest [] (EvRead STATUS_REG c :: poll_trace bs t)).
Proof.
  induction bs as [|b bs IH]; intros rounds i rc c rest f t Hb Hc Hlen.
  - destruct rounds as [|rounds]; [cbn in Hlen; lia|].
    destruct (clear_inv _ _ Hc) as [Hr Hz].
    cbn [poll_status app length poll_trace]. unfold bind.
    rewrite get_status_next by exact Hr.
    replace (c <? 0) with false by (symmetry; apply Z.ltb_ge; lia).
    rewrite Hz. unfold ret. rewrite Z.add_0_r. reflexivity.
  - destruct rounds as [|rounds]; [cbn in Hlen; lia|].
    cbn [forallb] in Hb. apply andb_true_iff in Hb. destruct Hb as [Hb Hbs].
    destruct (busy_inv _ _ Hb) as [Hr Hz].
    cbn [poll_status app length poll_trace]. unfold bind at 1.
    rewrite get_status_next by exact Hr.
    replace (b <? 0) with false by (symmetry; apply Z.ltb_ge; lia).
    rewrite Hz. unfold bind at 1. unfold msleep at 1.
    cbn [regs status_seq io_script trace].
    rewrite (IH rounds (i + 1) b c rest f) by (try assumption; cbn in Hlen; lia).
    rewrite Nat2Z.inj_succ. do 2 f_equal. f_equal. lia.
Qed.

(** When every byte it reads is busy the loop uses up its rounds: one
    read and one sleep per round. *)
Lemma poll_status_busy (check_los : Z) (bs : list Z) :
  forall (i rc : Z) (rest : list Z) (f : Z -> Z) (t : list event),
    forallb (busy check_los) bs = true ->
    poll_status (length bs) i rc check_los (mkRegmap f (bs ++ rest) [] t)
    = (inr (last bs rc, i + Z.of_nat (length bs)),
       mkRegmap f rest [] (poll_trace bs t)).
Proof.
  induction bs as [|b bs IH]; intros i rc rest f t Hb.
  - cbn [poll_status app length poll_trace last]. unfold ret.
    rewrite Z.add_0_r. reflexivity.
  - cbn [forallb] in Hb. apply andb_true_iff in Hb. destruct Hb as [Hb Hbs].
    destruct (busy_inv _ _ Hb) as [Hr Hz].
    cbn [poll_status app length poll_trace]. unfold bind at 1.
    rewrite get_status_next by exact Hr.
    replace (b <? 0) with false by (symmetry; apply Z.ltb_ge; lia).
    rewrite Hz. unfold bind at 1. unfold msleep at 1.
    cbn [regs status_seq io_script trace].
    rewrite (IH (i + 1) b rest f) by assumption.
    rewrite Nat2Z.inj_succ.
    replace (last (b :: bs) rc) with (last bs b)
      by (clear; revert b; induction bs as [|x bs IHb]; intros b;
          [reflexivity|cbn [last]; destruct bs; [reflexivity|apply IHb]]).
    do 2 f_equal. f_equal. lia.
Qed.

Lemma status_reads_poll_trace (bs : list Z) :
  forall t, status_reads (poll_trace bs t)
            = (length bs + status_reads t)%nat.
Proof.
  induction bs as [|b bs IH]; intros t; cbn [poll_trace length].
  - reflexivity.
  - rewrite IH. unfold status_reads. cbn [filter is_read_of].
    rewrite Z.eqb_refl. cbn [length]. lia.
Qed.

Lemma sleeps_of_poll_trace (bs : list Z) :
  forall t, sleeps_of 100 (poll_trace bs t)
            = (length bs + sleeps_of 100 t)%nat.
Proof.
  induction bs as [|b bs IH]; intros t; cbn [poll_trace length].
  - reflexivity.
  - rewrite IH. unfold sleeps_of. cbn [filter is_sleep_of].
    change (100 =? 100) with true. cbn [length]. lia.
Qed.

(** ** Steps of [post_init] that do not poll *)

Lemma neutral_app (evs t : list event) :
  forallb neutral evs = true ->
  status_reads (evs ++ t) = status_reads t /\
  sleeps_of 100 (evs ++ t) = sleeps_of 100 t.
Proof.
  induction evs as [|ev evs IH]; intros H.
  - split; reflexivity.
  - cbn [forallb] in H. apply andb_true_iff in H. destruct H as [Hev H].
    destruct (IH H) as [IH1 IH2].
    unfold neutral in Hev. apply andb_true_iff in Hev.
    destruct Hev as [H1 H2]. apply negb_true_iff in H1, H2.
    unfold status_reads, sleeps_of in *. cbn [app filter].
    rewrite H1, H2. split; assumption.
Qed.

Lemma calm_ret {A : Type} (a : A) (R : A -> Prop) : R a -> calm (ret a) R.
Proof.
  intros Ha f q t. exists a, f, []. repeat split. exact Ha.
Qed.

Lemma calm_bind {A B : Type} (c : M A) (k : A -> M B)
    (R : A -> Prop) (R' : B -> Prop) :
  calm c R -> (forall a, R a -> calm (k a) R') -> calm (bind c k) R'.
Proof.
  intros Hc Hk f q t. unfold bind.
  destruct (Hc f q t) as (a & f1 & e1 & E1 & N1 & Ra). rewrite E1.
  destruct (Hk a Ra f1 q (e1 ++ t)) as (b & f2 & e2 & E2 & N2 & Rb).
  exists b, f2, (e2 ++ e1). rewrite E2, <- app_assoc.
  repeat split; try assumption.
  rewrite forallb_app, N1, N2. reflexivity.
Qed.

Lemma calm_weaken {A : Type} (c : M A) (R R' : A -> Prop) :
  calm c R -> (forall a, R a -> R' a) -> calm c R'.
Proof.
  intros Hc Hw f q t. destruct (Hc f q t) as (a & f1 & e1 & E1 & N1 & Ra).
  exists a, f1, e1. repeat split; try assumption. apply Hw. exact Ra.
Qed.

Lemma calm_msleep (msecs : Z) :
  msecs <> 100 -> calm (msleep msecs) (fun _ => True).
Proof.
  intros H f q t. exists tt, f, [EvSleep msecs]. unfold msleep, neutral.
  cbn [regs status_seq io_script trace app forallb is_read_of
       is_sleep_of negb andb].
  replace (msecs =? 100) with false by (symmetry; apply Z.eqb_neq; exact H).
  repeat split.
Qed.

Lemma calm_reg_write (reg val mask : Z) :
  calm (si5338_reg_write reg val mask) (fun rc => rc = 0).
Proof.
  intros f q t. rewrite si5338_reg_write_quiet.
  eexists 0, _, [_]. cbn [app]. split; [reflexivity|].
  split; [|reflexivity]. destruct (mask =? 255); reflexivity.
Qed.

Lemma calm_reg_read (reg : Z) :
  reg <> STATUS_REG -> calm (si5338_reg_read reg) (fun r => fst r = 0).
Proof.
  intros H f q t.
  exists (0, u8 (f reg)), f, [EvRead reg (f reg)].
  unfold si5338_reg_read, bind, regmap_read, ret, neutral.
  cbn [io_script status_seq regs trace tl app forallb is_read_of
       is_sleep_of negb andb fst].
  replace (reg =? STATUS_REG) with false
    by (symmetry; apply Z.eqb_neq; exact H).
  repeat split.
Qed.

Lemma calm_write_field (data w : Z) :
  calm (write_field data w) (fun rc => rc = 0).
Proof.
  unfold write_field. destruct (negb (awe_mask w =? 0)).
  - eapply calm_bind; [apply calm_reg_write|].
    intros rc ->. change (0 <? 0) with false. cbv iota.
    apply calm_ret. reflexivity.
  - apply calm_ret. reflexivity.
Qed.

Lemma calm_write_multireg64 (awe : list Z) :
  forall data, calm (write_multireg64 data awe) (fun rc => rc = 0).
Proof.
  induction awe as [|w awe IH]; intros data; cbn [write_multireg64].
  - apply calm_ret. reflexivity.
  - destruct (w =? 0); [apply calm_ret; reflexivity|].
    destruct (negb (awe_mask w =? 0)); [|apply IH].
    eapply calm_bind; [apply calm_reg_write|].
    intros rc ->. change (0 <? 0) with false. cbv iota. apply IH.
Qed.

Lemma calm_read_field (w : Z) :
  awe_reg w <> STATUS_REG -> calm (read_field w) (fun v => 0 <= v).
Proof.
  intros H. unfold read_field. destruct (negb (awe_mask w =? 0)).
  - eapply calm_bind; [apply calm_reg_read; exact H|].
    intros [rc val] Hrc. cbn [fst] in Hrc. subst rc.
    change (0 <? 0) with false. cbv iota.
    apply calm_ret. apply Z.shiftr_nonneg. apply Z.land_nonneg.
    right. pose proof (awe_mask_range w). lia.
  - apply calm_ret. lia.
Qed.

Lemma calm_read_multireg64_from (awe : list Z) :
  Forall (fun w => awe_reg w <> STATUS_REG) awe ->
  forall data full_shift,
    calm (read_multireg64_from awe data full_shift) (fun r => fst r = 0).
Proof.
  induction awe as [|w awe IH]; intros Hall data fs;
    cbn [read_multireg64_from].
  - apply calm_ret. reflexivity.
  - destruct (w =? 0); [apply calm_ret; reflexivity|].
    pose proof (Forall_inv Hall) as Hw. apply Forall_inv_tail in Hall.
    destruct (negb (awe_mask w =? 0)); [|apply IH; exact Hall].
    eapply calm_bind; [apply calm_reg_read; exact Hw|].
    intros [rc val] Hrc. cbn [fst] in Hrc. subst rc.
    change (0 <? 0) with false. cbv iota. apply IH. exact Hall.
Qed.

Lemma calm_reset_ms : calm reset_ms (fun rc => rc = 0).
Proof.
  unfold reset_ms.
  eapply calm_bind; [apply calm_write_field|]. intros rc ->.
  change (negb (0 =? 0)) with false. cbv iota.
  eapply calm_bind; [apply calm_msleep; lia|]. intros _ _.
  eapply calm_bind; [apply calm_write_field|]. intros rc ->.
  change (negb (0 =? 0)) with false. cbv iota.
  apply calm_ret. reflexivity.
Qed.

Lemma calm_ms_used_from (rounds : nat) :
  forall chn ms_used,
    0 <= chn -> chn + Z.of_nat rounds <= 4 ->
    calm (ms_used_from rounds chn ms_used)
         (fun r => exists u, r = inr u).
Proof.
  induction rounds as [|rounds IH]; intros chn ms_used H0 H4;
    cbn [ms_used_from].
  - apply calm_ret. eexists. reflexivity.
  - eapply calm_bind.
    + unfold get_out_mux, _verify_output_channel.
      replace (chn <? 0) with false by (symmetry; apply Z.ltb_ge; lia).
      replace (3 <? chn) with false by (symmetry; apply Z.ltb_ge; lia).
      cbn [orb]. change (0 <? 0) with false. cbv iota.
      apply calm_read_field.
      assert (H : chn = 0 \/ chn = 1 \/ chn = 2 \/ chn = 3) by lia.
      destruct H as [->|[->|[->| ->]]]; vm_compute; intros H;
        discriminate H.
    + intros out_src Hout. cbv beta in Hout.
      replace (out_src <? 0) with false by (symmetry; apply Z.ltb_ge; lia).
      apply IH; lia.
Qed.

Lemma calm_ms_power_from (rounds : nat) :
  forall chn ms_used,
    0 <= chn -> chn + Z.of_nat rounds <= 4 ->
    calm (ms_power_from rounds chn ms_used) (fun rc => rc = 0).
Proof.
  induction rounds as [|rounds IH]; intros chn ms_used H0 H4;
    cbn [ms_power_from].
  - apply calm_ret. reflexivity.
  - eapply calm_bind.
    + unfold set_ms_powerdown.
      replace (chn <? 0) with false by (symmetry; apply Z.ltb_ge; lia).
      replace (3 <? chn) with false by (symmetry; apply Z.ltb_ge; lia).
      cbn [orb]. apply calm_write_field.
    + intros rc ->. change (0 <? 0) with false. cbv iota. apply IH; lia.
Qed.

Lemma calm_power_up_down_needed_ms :
  calm power_up_down_needed_ms (fun rc => rc = 0).
Proof.
  unfold power_up_down_needed_ms.
  eapply calm_bind; [apply (calm_ms_used_from 4 0 0); cbn; lia|].
  intros r [u ->]. apply (calm_ms_power_from 4 0 u); cbn; lia.
Qed.

(** After the PLL has locked, [post_init] runs to its end without polling
    again and returns 0. *)
Lemma calm_post_init_finish : calm post_init_finish (fun rc => rc = 0).
Proof.
  unfold post_init_finish.
  eapply calm_bind.
  { apply (calm_read_multireg64_from awe_fcal).
    repeat constructor; vm_compute; intros H; discriminate H. }
  intros [rc fcal] Hrc. cbn [fst] in Hrc. subst rc.
  change (negb (0 =? 0)) with false. cbv iota.
  eapply calm_bind; [apply calm_write_multireg64|]. intros rc ->.
  change (negb (0 =? 0)) with false. cbv iota.
  eapply calm_bind; [apply calm_write_field|]. intros rc ->.
  change (negb (0 =? 0)) with false. cbv iota.
  eapply calm_bind; [apply calm_write_field|]. intros rc ->.
  change (negb (0 =? 0)) with false. cbv iota.
  eapply calm_bind; [apply calm_reset_ms|]. intros rc ->.
  change (negb (0 =? 0)) with false. cbv iota.
  eapply calm_bind; [apply calm_write_field|]. intros rc ->.
  change (negb (0 =? 0)) with false. cbv iota.
  eapply calm_bind; [apply calm_write_field|]. intros _ _.
  eapply calm_bind; [apply calm_power_up_down_needed_ms|]. intros rc ->.
  change (negb (0 =? 0)) with false. cbv iota.
  apply calm_ret. reflexivity.
Qed.

(** ** [post_init]: from its start to the end of each polling loop *)

Lemma field_get_nonneg (f : Z -> Z) (w : Z) : 0 <= field_get f w.
Proof.
  unfold field_get. apply Z.shiftr_nonneg. apply Z.land_nonneg.
  right. pose proof (awe_mask_range w). lia.
Qed.

Lemma read_field_other (w : Z) (f : Z -> Z) (q : list Z) (t : list event) :
  awe_reg w <> STATUS_REG -> awe_mask w <> 0 ->
  read_field w (mkRegmap f q [] t)
  = (field_get f w,
     mkRegmap f q [] (EvRead (awe_reg w) (f (awe_reg w)) :: t)).
Proof.
  intros Hr Hm. unfold read_field.
  replace (awe_mask w =? 0) with false
    by (symmetry; apply Z.eqb_neq; exact Hm).
  cbn [negb]. unfold bind, si5338_reg_read, regmap_read, ret.
  cbn [io_script status_seq regs trace tl].
  replace (awe_reg w =? STATUS_REG) with false
    by (symmetry; apply Z.eqb_neq; exact Hr).
  change (0 <? 0) with false. cbv iota. reflexivity.
Qed.

(** [post_init] first reads the multiplexer fields, which fixes the bits
    the first loop polls. *)
Lemma post_init_prefix (sel : pfd_selectors) (f : Z -> Z) (q : list Z)
    (t : list event) :
  exists check_los evs,
    post_init sel (mkRegmap f q [] t)
    = post_init_inputs check_los 0 INIT_TIMEOUT
        (mkRegmap f q [] (evs ++ t)) /\
    Z.land check_los 15 = los_mask sel f /\
    forallb neutral evs = true.
Proof.
  unfold post_init, get_in_pfd_ref_fb. cbv zeta.
  change (negb (0 =? 0)) with false. change (negb (1 =? 0)) with true.
  cbv iota. unfold bind at 1.
  rewrite read_field_other by (vm_compute; intros H; discriminate H).
  pose proof (field_get_nonneg f AWE_PFD_REF) as Hin.
  replace (field_get f AWE_PFD_REF <? 0) with false
    by (symmetry; apply Z.ltb_ge; exact Hin).
  unfold bind at 1.
  rewrite read_field_other by (vm_compute; intros H; discriminate H).
  pose proof (field_get_nonneg f AWE_PFD_EXTFB) as Hext.
  replace (field_get f AWE_PFD_EXTFB <? 0) with false
    by (symmetry; apply Z.ltb_ge; exact Hext).
  unfold los_mask. cbv zeta.
  destruct (field_get f AWE_PFD_EXTFB =? 0); cbn [negb].
  - eexists _, [_; _]. cbn [app]. split; [reflexivity|].
    split; reflexivity.
  - unfold bind at 1.
    rewrite read_field_other by (vm_compute; intros H; discriminate H).
    pose proof (field_get_nonneg f AWE_PFD_FB) as Hfb.
    replace (field_get f AWE_PFD_FB <? 0) with false
      by (symmetry; apply Z.ltb_ge; exact Hfb).
    eexists _, [_; _; _]. cbn [app]. split; [reflexivity|].
    split; reflexivity.
Qed.

Lemma length_10 (bs : list Z) :
  length bs = 10%nat -> Z.to_nat INIT_TIMEOUT = length bs.
Proof. intros ->. reflexivity. Qed.

(** First loop, every status byte busy: time out. *)
Lemma post_init_inputs_timeout (check_los rc : Z) (bs rest : list Z)
    (f : Z -> Z) (t : list event) :
  forallb (busy (Z.land check_los 15)) bs = true -> length bs = 10%nat ->
  post_init_inputs check_los rc INIT_TIMEOUT (mkRegmap f (bs ++ rest) [] t)
  = (- ETIMEDOUT, mkRegmap f rest [] (poll_trace bs t)).
Proof.
  intros Hb Hl. unfold post_init_inputs. cbv zeta. unfold bind.
  rewrite (length_10 bs Hl), poll_status_busy by exact Hb.
  rewrite Hl. reflexivity.
Qed.

(** First loop, a clear status byte within the budget: go on to the
    second loop, having read the status register once per byte. *)
Lemma post_init_inputs_clear (check_los rc c : Z) (bs rest : list Z)
    (f : Z -> Z) (t : list event) :
  forallb (busy (Z.land check_los 15)) bs = true ->
  clear (Z.land check_los 15) c = true -> (length bs < 10)%nat ->
  exists f' evs,
    post_init_inputs check_los rc INIT_TIMEOUT
      (mkRegmap f (bs ++ c :: rest) [] t)
    = post_init_lock (Z.land check_los 15) 0 INIT_TIMEOUT
        (mkRegmap f' rest []
           (evs ++ EvRead STATUS_REG c :: poll_trace bs t)) /\
    forallb neutral evs = true.
Proof.
  intros Hb Hc Hl. unfold post_init_inputs. cbv zeta. unfold bind at 1.
  rewrite poll_status_clear by (try assumption; exact Hl).
  replace (INIT_TIMEOUT <=? 0 + Z.of_nat (length bs)) with false
    by (symmetry; apply Z.leb_gt; unfold INIT_TIMEOUT; lia).
  set (t1 := EvRead STATUS_REG c :: poll_trace bs t).
  unfold bind at 1.
  destruct (calm_write_field 0 AWE_FCAL_OVRD_EN f rest t1)
    as (a1 & f1 & e1 & E1 & N1 & ->).
  rewrite E1. change (0 <? 0) with false. cbv iota.
  unfold bind at 1.
  destruct (calm_write_field 1 AWE_SOFT_RESET f1 rest (e1 ++ t1))
    as (a2 & f2 & e2 & E2 & N2 & _).
  rewrite E2. unfold bind at 1. unfold msleep at 1.
  cbn [regs status_seq io_script trace].
  unfold bind at 1.
  destruct (calm_write_field 101 AWE_REG241 f2 rest
              (EvSleep 25 :: e2 ++ e1 ++ t1))
    as (a3 & f3 & e3 & E3 & N3 & ->).
  rewrite E3. change (0 <? 0) with false. cbv iota.
  exists f3, (e3 ++ EvSleep 25 :: e2 ++ e1).
  split.
  - f_equal. f_equal. rewrite <- !app_assoc. cbn [app].
    rewrite <- !app_assoc. reflexivity.
  - rewrite forallb_app. cbn [forallb]. rewrite forallb_app, N1, N2, N3.
    reflexivity.
Qed.

(** Second loop, every status byte busy: time out. *)
Lemma post_init_lock_timeout (check_los rc : Z) (bs rest : list Z)
    (f : Z -> Z) (t : list event) :
  forallb
    (busy (Z.land (Z.lor check_los
                     (Z.lor AWE_STATUS_PLL_LOL AWE_STATUS_PLL_SYS_CAL)) 15))
    bs = true ->
  length bs = 10%nat ->
  post_init_lock check_los rc INIT_TIMEOUT (mkRegmap f (bs ++ rest) [] t)
  = (- ETIMEDOUT, mkRegmap f rest [] (poll_trace bs t)).
Proof.
  intros Hb Hl. unfold post_init_lock. cbv zeta. unfold bind.
  rewrite (length_10 bs Hl), poll_status_busy by exact Hb.
  rewrite Hl. reflexivity.
Qed.

(** Second loop, a clear status byte within the budget: [post_init] runs
    to its end and returns 0. *)
Lemma post_init_lock_clear (check_los rc c : Z) (bs rest : list Z)
    (f : Z -> Z) (t : list event) :
  forallb
    (busy (Z.land (Z.lor check_los
                     (Z.lor AWE_STATUS_PLL_LOL AWE_STATUS_PLL_SYS_CAL)) 15))
    bs = true ->
  clear (Z.land (Z.lor check_los
                   (Z.lor AWE_STATUS_PLL_LOL AWE_STATUS_PLL_SYS_CAL)) 15) c
  = true ->
  (length bs < 10)%nat ->
  exists f' evs,
    post_init_lock check_los rc INIT_TIMEOUT
      (mkRegmap f (bs ++ c :: rest) [] t)
    = (0, mkRegmap f' rest []
            (evs ++ EvRead STATUS_REG c :: poll_trace bs t)) /\
    forallb neutral evs = true.
Proof.
  intros Hb Hc Hl. unfold post_init_lock. cbv zeta. unfold bind at 1.
  rewrite poll_status_clear by (try assumption; exact Hl).
  replace (INIT_TIMEOUT <=? 0 + Z.of_nat (length bs)) with false
    by (symmetry; apply Z.leb_gt; unfold INIT_TIMEOUT; lia).
  destruct (calm_post_init_finish f rest
              (EvRead STATUS_REG c :: poll_trace bs t))
    as (a & f' & evs & E & N & ->).
  exists f', evs. split; assumption.
Qed.

(** ** C5: the polling budget of [post_init] *)

(** C5.  [post_init] reads the status register once per round of a
    polling loop and sleeps 100 ms after every busy byte, at most 10 rounds
    per loop.  Each of the three courses stands on its own bytes.  Status
    bytes that stay busy for 10 reads of the first loop make [post_init]
    return [-ETIMEDOUT] after exactly 10 reads.  With a clear byte on read
    [k1 <= 10] the first loop ends after exactly [k1] reads and the second
    loop starts, which returns [-ETIMEDOUT] after exactly 10 more reads when
    its bytes stay busy, and lets [post_init] succeed after exactly [k2]
    more reads when its byte [k2 <= 10] is clear. *)
Theorem C5_post_init_polling (sel : pfd_selectors) (f : Z -> Z)
    (t : list event) (rest : list Z) :
  (forall never1 : list Z,
     forallb (busy (los_mask sel f)) never1 = true ->
     length never1 = 10%nat ->
     let r := post_init_on sel f t (never1 ++ rest) in
     fst r = - ETIMEDOUT /\
     status_reads (trace (snd r)) = (10 + status_reads t)%nat /\
     sleeps_of 100 (trace (snd r)) = (10 + sleeps_of 100 t)%nat /\
     status_seq (snd r) = rest) /\
  (forall (wait1 never2 : list Z) (ok1 : Z),
     forallb (busy (los_mask sel f)) wait1 = true ->
     (length wait1 < 10)%nat ->
     clear (los_mask sel f) ok1 = true ->
     forallb (busy (lock_mask sel f)) never2 = true ->
     length never2 = 10%nat ->
     let r := post_init_on sel f t (wait1 ++ ok1 :: never2 ++ rest) in
     fst r = - ETIMEDOUT /\
     status_reads (trace (snd r))
     = ((length wait1 + 1) + 10 + status_reads t)%nat /\
     sleeps_of 100 (trace (snd r))
     = (length wait1 + 10 + sleeps_of 100 t)%nat /\
     status_seq (snd r) = rest) /\
  (forall (wait1 wait2 : list Z) (ok1 ok2 : Z),
     forallb (busy (los_mask sel f)) wait1 = true ->
     (length wait1 < 10)%nat ->
     clear (los_mask sel f) ok1 = true ->
     forallb (busy (lock_mask sel f)) wait2 = true ->
     (length wait2 < 10)%nat ->
     clear (lock_mask sel f) ok2 = true ->
     let r := post_init_on sel f t (wait1 ++ ok1 :: wait2 ++ ok2 :: rest) in
     fst r = 0 /\
     status_reads (trace (snd r))
     = ((length wait1 + 1) + (length wait2 + 1) + status_reads t)%nat /\
     sleeps_of 100 (trace (snd r))
     = (length wait1 + length wait2 + sleeps_of 100 t)%nat /\
     status_seq (snd r) = rest).
Proof.
  unfold post_init_on. cbv zeta.
  assert (Hread : forall c tr,
            status_reads (EvRead STATUS_REG c :: tr)
            = S (status_reads tr)).
  { intros c tr. unfold status_reads. cbn [filter is_read_of].
    rewrite Z.eqb_refl. reflexivity. }
  assert (Hsleep : forall c tr,
            sleeps_of 100 (EvRead STATUS_REG c :: tr) = sleeps_of 100 tr).
  { intros c tr. reflexivity. }
  split; [intros never1 Hn1 Ln1
         |split; [intros wait1 never2 ok1 Hw1 Lw1 Hc1 Hn2 Ln2
                 |intros wait1 wait2 ok1 ok2 Hw1 Lw1 Hc1 Hw2 Lw2 Hc2]].
  - destruct (post_init_prefix sel f (never1 ++ rest) t)
      as (cl & e0 & E0 & Hm & N0).
    rewrite E0, post_init_inputs_timeout by (rewrite ?Hm; assumption).
    cbn [fst snd trace status_seq].
    rewrite status_reads_poll_trace, sleeps_of_poll_trace, Ln1.
    destruct (neutral_app e0 t N0) as [-> ->].
    repeat split; reflexivity.
  - destruct (post_init_prefix sel f (wait1 ++ ok1 :: never2 ++ rest) t)
      as (cl & e0 & E0 & Hm & N0).
    rewrite E0.
    destruct (post_init_inputs_clear cl 0 ok1 wait1 (never2 ++ rest) f
                (e0 ++ t)) as (f1 & e1 & E1 & N1);
      try (rewrite ?Hm; assumption).
    rewrite E1, Hm.
    rewrite post_init_lock_timeout by assumption.
    cbn [fst snd trace status_seq].
    rewrite status_reads_poll_trace, sleeps_of_poll_trace, Ln2.
    destruct (neutral_app e1 (EvRead STATUS_REG ok1 :: poll_trace wait1
                                (e0 ++ t)) N1) as [-> ->].
    rewrite Hread, Hsleep, status_reads_poll_trace, sleeps_of_poll_trace.
    destruct (neutral_app e0 t N0) as [-> ->].
    repeat split; try reflexivity; lia.
  - destruct (post_init_prefix sel f
                (wait1 ++ ok1 :: wait2 ++ ok2 :: rest) t)
      as (cl & e0 & E0 & Hm & N0).
    rewrite E0.
    destruct (post_init_inputs_clear cl 0 ok1 wait1 (wait2 ++ ok2 :: rest)
                f (e0 ++ t)) as (f1 & e1 & E1 & N1);
      try (rewrite ?Hm; assumption).
    rewrite E1, Hm.
    destruct (post_init_lock_clear (los_mask sel f) 0 ok2 wait2 rest f1
                (e1 ++ EvRead STATUS_REG ok1 :: poll_trace wait1 (e0 ++ t)))
      as (f2 & e2 & E2 & N2); try assumption.
    rewrite E2. cbn [fst snd trace status_seq].
    destruct (neutral_app e2
                (EvRead STATUS_REG ok2
                 :: poll_trace wait2
                      (e1 ++ EvRead STATUS_REG ok1
                          :: poll_trace wait1 (e0 ++ t))) N2) as [-> ->].
    rewrite Hread, Hsleep, status_reads_poll_trace, sleeps_of_poll_trace.
    destruct (neutral_app e1 (EvRead STATUS_REG ok1 :: poll_trace wait1
                                (e0 ++ t)) N1) as [-> ->].
    rewrite Hread, Hsleep, status_reads_poll_trace, sleeps_of_poll_trace.
    destruct (neutral_app e0 t N0) as [-> ->].
    repeat split; try reflexivity; lia.
Qed.

Lemma C5_post_init_polling_witness :
  let sel := mkPfdSelectors 0 1 2 3 4 1 0 3 2 in
  let f := fun _ : Z => 0 in
  let never1 := repeat 4 10 in
  let wait1 := [4; 4] in
  let never2 := repeat 1 10 in
  let wait2 := [1; 1] in
  (let r := post_init_on sel f [] (never1 ++ []) in
   fst r = - ETIMEDOUT /\
   status_reads (trace (snd r)) = (10 + status_reads [])%nat /\
   sleeps_of 100 (trace (snd r)) = (10 + sleeps_of 100 [])%nat /\
   status_seq (snd r) = []) /\
  (let r := post_init_on sel f [] (wait1 ++ 0 :: never2 ++ []) in
   fst r = - ETIMEDOUT /\
   status_reads (trace (snd r))
   = ((length wait1 + 1) + 10 + status_reads [])%nat /\
   sleeps_of 100 (trace (snd r))
   = (length wait1 + 10 + sleeps_of 100 [])%nat /\
   status_seq (snd r) = []) /\
  (let r := post_init_on sel f [] (wait1 ++ 0 :: wait2 ++ 0 :: []) in
   fst r = 0 /\
   status_reads (trace (snd r))
   = ((length wait1 + 1) + (length wait2 + 1) + status_reads [])%nat /\
   sleeps_of 100 (trace (snd r))
   = (length wait1 + length wait2 + sleeps_of 100 [])%nat /\
   status_seq (snd r) = []).
Proof.
  intros sel f never1 wait1 never2 wait2.
  destruct (C5_post_init_polling sel f [] []) as (H1 & H2 & H3).
  split; [|split].
  - apply (H1 never1); reflexivity.
  - apply (H2 wait1 never2 0); try reflexivity; cbn [length wait1]; lia.
  - apply (H3 wait1 wait2 0 0); try reflexivity;
      cbn [length wait1 wait2]; lia.
Defined.

(** With no clock selected for the phase detector the first loop watches
    no bit: it is left at its first read, and the budget of the second loop
    is the same. *)
Example post_init_no_clock_budget :
  let sel := mkPfdSelectors 0 1 2 3 4 1 0 3 2 in
  let f := fun r : Z => if r =? 29 then 0xa0 else 0 in
  los_mask sel f = 0 /\
  (let r := post_init_on sel f [] (0xff :: repeat 1 10) in
   fst r = - ETIMEDOUT /\ status_reads (trace (snd r)) = 11%nat) /\
  (let r := post_init_on sel f [] [0xff; 1; 1; 0] in
   fst r = 0 /\ status_reads (trace (snd r)) = 4%nat).
Proof. vm_compute. repeat split. Qed.

(** The scenario of the design document: the status bits clear on the
    third poll of the first loop. *)
Example post_init_three_polls :
  let sel := mkPfdSelectors 0 1 2 3 4 1 0 3 2 in
  let r := post_init_on sel (fun _ => 0) [] [4; 4; 0; 0] in
  fst r = 0 /\ status_reads (trace (snd r)) = 4%nat /\
  sleeps_of 100 (trace (snd r)) = 2%nat.
Proof. vm_compute. repeat split. Qed.

(** The second loop masks its bits with [0xf], so the loss-of-lock bit
    [0x10] of the status byte does not keep it polling. *)
Example post_init_lock_bit_masked :
  let sel := mkPfdSelectors 0 1 2 3 4 1 0 3 2 in
  lock_mask sel (fun _ => 0) = 5 /\
  fst (post_init_on sel (fun _ => 0) [] [0; 16]) = 0.
Proof. vm_compute. repeat split. Qed.

(** ** C9: the second branch of [si5338_msynth_round_rate] *)

(** C9 (as the code runs).  With a parent rate of 2.5 GHz and a requested
    rate of 500 MHz the ratio is 5.  The second branch increments the
    local [out_div], which the rate does not depend on: the rate returned
    is 500 MHz, the ratio 5 itself, while the parameters stored with it
    encode the ratio 6.  The same happens for the ratio 7. *)
Theorem C9_msynth_round_rate_keeps_5_7
    (pll_in_freq out_div0 : Z) (hw : si5338_hw_data) :
  2500000000 / 500000000 = 5 /\
  si5338_msynth_round_rate 64 false pll_in_freq out_div0 hw
    500000000 2500000000
  = Some (500000000, 2500000000,
          mkHwData (mkParams (256, 0, 1) true) (num hw)) /\
  p_to_ms (256, 0, 1) = (6, 0, 1) /\
  2800000000 / 400000000 = 7 /\
  si5338_msynth_round_rate 64 false pll_in_freq out_div0 hw
    400000000 2800000000
  = Some (400000000, 2800000000,
          mkHwData (mkParams (512, 0, 1) true) (num hw)) /\
  p_to_ms (512, 0, 1) = (8, 0, 1) /\
  si5338_msynth_round_rate 32 false pll_in_freq out_div0 hw
    500000000 2500000000
  = Some (500000000, 2500000000,
          mkHwData (mkParams (256, 0, 1) true) (num hw)).
Proof.
  repeat split.
Qed.

(** The scenario of the design document for the first branch: a PLL input
    of 25 MHz and a target of 156.25 MHz; the search settles on the output
    divider 16 and the input divider 100, a VCO rate of 2.5 GHz inside the
    band, and reproduces the target. *)
Example msynth_round_rate_master :
  fold_left (msynth_search_step 156250000 25000000) msynth_out_divs
            (0, 0, 1, 0)
  = (0, 100, 16, 20000000) /\
  si5338_msynth_round_rate 64 true 25000000 0
    (mkHwData (mkParams (0, 0, 0) false) 0) 156250000 0
  = Some (156250000, 2500000000,
          mkHwData (mkParams (1536, 0, 1) true) 0).
Proof. vm_compute. repeat split. Qed.

(** The second branch hands the requested rate back unchanged, whatever
    the ratio: the parameters it stores are those of [cal_ms_p], which does
    step over 5 and 7. *)
Lemma msynth_round_rate_returns_request
    (BITS_PER_LONG pll_in_freq out_div0 : Z) (hw : si5338_hw_data)
    (rate parent_rate : Z) :
  0 < BITS_PER_LONG <= 64 ->
  1 <= rate < 2 ^ (BITS_PER_LONG - 1) -> 1 <= parent_rate ->
  parent_rate * rate < 2 ^ 64 ->
  exists pv,
    cal_ms_p parent_rate rate = Some pv /\
    si5338_msynth_round_rate BITS_PER_LONG false pll_in_freq out_div0 hw
      rate parent_rate
    = Some (rate, parent_rate, mkHwData (mkParams pv true) (num hw)).
Proof.
  intros HB Hr Hp Hprod.
  assert (Hpow : 2 ^ (BITS_PER_LONG - 1) < 2 ^ BITS_PER_LONG)
    by (apply Z.pow_lt_mono_r; lia).
  assert (Hpow64 : 2 ^ BITS_PER_LONG <= 2 ^ 64)
    by (apply Z.pow_le_mono_r; lia).
  assert (Hp64 : parent_rate < 2 ^ 64) by nia.
  destruct (cal_ms_p_total parent_rate rate ltac:(lia) ltac:(lia))
    as [pv Hpv].
  exists pv. split; [exact Hpv|].
  unfold si5338_msynth_round_rate, div64_u64.
  replace (rate =? 0) with false by (symmetry; apply Z.eqb_neq; lia).
  replace (parent_rate - parent_rate / rate * rate)
    with (parent_rate mod rate) by (rewrite Z.mod_eq; lia).
  pose proof (Z.mod_pos_bound parent_rate rate ltac:(lia)) as Hm.
  rewrite (u64_small (parent_rate mod rate)) by lia.
  destruct (remove_common_factor_spec (parent_rate mod rate) rate)
    as (rc & b & c & Hrcf & Hb & Hc & Hval & _); try lia.
  rewrite Hrcf.
  assert (Hq : 0 <= parent_rate / rate) by (apply Z.div_pos; lia).
  assert (Hdm : parent_rate = rate * (parent_rate / rate)
                              + parent_rate mod rate)
    by (apply Z.div_mod; lia).
  assert (Heq : parent_rate * c = rate * (b + parent_rate / rate * c))
    by nia.
  assert (Hd : 0 < b + parent_rate / rate * c) by nia.
  assert (Hd64 : b + parent_rate / rate * c < 2 ^ 64) by nia.
  rewrite (u64_small (b + parent_rate / rate * c)) by lia.
  replace (b + parent_rate / rate * c =? 0) with false
    by (symmetry; apply Z.eqb_neq; lia).
  rewrite (u64_small (parent_rate * c)) by nia.
  rewrite Heq, Z.div_mul by lia.
  unfold ulong. rewrite (Z.mod_small rate) by lia.
  rewrite Hpv. cbn [p params valid num].
  unfold sint. rewrite (Z.mod_small rate) by lia.
  replace (rate <? 2 ^ (BITS_PER_LONG - 1)) with true
    by (symmetry; apply Z.ltb_lt; lia).
  reflexivity.
Qed.

(** ** C8: the post-divider of an output *)

(** "Round to closest r_div" never yields 32: the loop ends at the latest
    when [r_div] reaches 32, and the result is half of that. *)
Lemma closest_r_div_range (BITS_PER_LONG rate parent_rate : Z) :
  exists r_div,
    closest_r_div BITS_PER_LONG rate parent_rate = Some r_div /\
    In r_div [1; 2; 4; 8; 16].
Proof.
  unfold closest_r_div. cbn [r_div_loop].
  change (Z.shiftl 1 1) with 2.
  destruct (labs _ _ <? labs _ _); cbn [andb];
    [|eexists; split; [reflexivity|cbn; auto]].
  change (2 <? 32) with true. cbv iota. change (Z.shiftl 2 1) with 4.
  destruct (labs _ _ <? labs _ _); cbn [andb];
    [|eexists; split; [reflexivity|cbn; auto]].
  change (4 <? 32) with true. cbv iota. change (Z.shiftl 4 1) with 8.
  destruct (labs _ _ <? labs _ _); cbn [andb];
    [|eexists; split; [reflexivity|cbn; auto]].
  change (8 <? 32) with true. cbv iota. change (Z.shiftl 8 1) with 16.
  destruct (labs _ _ <? labs _ _); cbn [andb];
    [|eexists; split; [reflexivity|cbn; auto]].
  change (16 <? 32) with true. cbv iota. change (Z.shiftl 16 1) with 32.
  change (32 <? 32) with false. rewrite andb_false_r.
  eexists; split; [reflexivity|cbn; auto 10].
Qed.

(** The parent rate after [j] halvings and the error of the divider
    [2^j]. *)
Lemma closest_r_div_first_minimum (BITS_PER_LONG rate parent_rate : Z) :
  let halved j := Nat.iter j (fun x => Z.shiftr x 1) parent_rate in
  let err j := labs BITS_PER_LONG (ulong BITS_PER_LONG (halved j - rate)) in
  exists k : nat,
    (k <= 4)%nat /\
    closest_r_div BITS_PER_LONG rate parent_rate = Some (2 ^ Z.of_nat k) /\
    (forall j, (j < k)%nat -> err (S j) < err j) /\
    ((k < 4)%nat -> err k <= err (S k)).
Proof.
  intros halved err. unfold closest_r_div. cbn [r_div_loop].
  change (Z.shiftl 1 1) with 2. change (Z.shiftl 2 1) with 4.
  change (Z.shiftl 4 1) with 8. change (Z.shiftl 8 1) with 16.
  change (Z.shiftl 16 1) with 32.
  change (2 <? 32) with true. change (4 <? 32) with true.
  change (8 <? 32) with true. change (16 <? 32) with true.
  change (32 <? 32) with false. rewrite ?andb_true_r, ?andb_false_r.
  change (labs BITS_PER_LONG (ulong BITS_PER_LONG (parent_rate - rate)))
    with (err 0%nat).
  change (labs BITS_PER_LONG
            (ulong BITS_PER_LONG (Z.shiftr parent_rate 1 - rate)))
    with (err 1%nat).
  change (labs BITS_PER_LONG
            (ulong BITS_PER_LONG
               (Z.shiftr (Z.shiftr parent_rate 1) 1 - rate)))
    with (err 2%nat).
  change (labs BITS_PER_LONG
            (ulong BITS_PER_LONG
               (Z.shiftr (Z.shiftr (Z.shiftr parent_rate 1) 1) 1 - rate)))
    with (err 3%nat).
  change (labs BITS_PER_LONG
            (ulong BITS_PER_LONG
               (Z.shiftr (Z.shiftr (Z.shiftr (Z.shiftr parent_rate 1) 1) 1)
                  1 - rate)))
    with (err 4%nat).
  destruct (Z.ltb_spec (err 1%nat) (err 0%nat)) as [H0|H0].
  2:{ exists 0%nat. repeat split; try lia. }
  destruct (Z.ltb_spec (err 2%nat) (err 1%nat)) as [H1|H1].
  2:{ exists 1%nat. repeat split; try lia.
      intros j Hj. assert (j = 0%nat) by lia. subst j. exact H0. }
  destruct (Z.ltb_spec (err 3%nat) (err 2%nat)) as [H2|H2].
  2:{ exists 2%nat. repeat split; try lia.
      intros j Hj.
      assert (Hc : j = 0%nat \/ j = 1%nat) by lia.
      destruct Hc as [-> | ->]; assumption. }
  destruct (Z.ltb_spec (err 4%nat) (err 3%nat)) as [H3|H3].
  2:{ exists 3%nat. repeat split; try lia.
      intros j Hj.
      assert (Hc : j = 0%nat \/ j = 1%nat \/ j = 2%nat) by lia.
      destruct Hc as [-> | [-> | ->]]; assumption. }
  exists 4%nat. split; [lia|]. split.
  - reflexivity.
  - split; [|lia].
    intros j Hj.
    assert (Hc : j = 0%nat \/ j = 1%nat \/ j = 2%nat \/ j = 3%nat) by lia.
    destruct Hc as [-> | [-> | [-> | ->]]]; assumption.
Qed.

(** C8 (as the code runs).  For a requested rate of 200 kHz the first
    branch of [si5338_clkout_round_rate] settles on the divider 32 and asks
    the parent for 6.4 MHz.  Given that parent rate, "round to closest
    r_div" in [si5338_clkout_set_rate] and in the second branch of
    [si5338_clkout_round_rate] yields 16: the divider 32 has the error 0
    and the divider 16 the error 200 kHz, but the loop stops when [r_div]
    reaches 32 and the result is halved.  [set_rate] programs the field
    value 4, the divider 16. *)
Theorem C8_clkout_closest_r_div_misses_32 :
  clkout_round_r_div 64 true 200000 0 = Some (32, 6400000) /\
  si5338_clkout_round_rate 64 true 200000 0 = Some (200000, 6400000) /\
  closest_r_div 64 200000 6400000 = Some 16 /\
  labs 64 (ulong 64 (6400000 / 32 - 200000)) = 0 /\
  labs 64 (ulong 64 (6400000 / 16 - 200000)) = 200000 /\
  si5338_clkout_round_rate 64 false 200000 6400000
  = Some (400000, 6400000) /\
  (let m := mkRegmap (fun _ => 0) [] [] [] in
   let hw := mkHwData (mkParams (0, 0, 0) false) 0 in
   option_map (fun r => (fst r, trace (snd r)))
     (si5338_clkout_set_rate 64 hw 200000 6400000 m)
   = Some (0, [EvUpdate 0x1f 0x1c (Z.shiftl 4 2)])) /\
  nth 4 out_div_values 0 = 16 /\
  closest_r_div 32 200000 6400000 = Some 16.
Proof.
  repeat split.
Qed.

(* ================================================================== *)
(** * Further properties of the driver *)

(** Closed side conditions, by computation. *)
Ltac closed_hyp :=
  first
    [ lia
    | reflexivity
    | intros; reflexivity
    | vm_compute;
      repeat match goal with |- _ /\ _ => split end;
      first [ reflexivity | discriminate
            | let H := fresh in intro H; discriminate H ] ].

Lemma rcf_loop_gcd (num denom : Z) (fuel : nat) :
  forall a b,
    0 < b <= a -> a < 2 ^ 64 -> a * b < 2 ^ Z.of_nat fuel ->
    Z.gcd a b = Z.gcd num denom ->
    rcf_loop fuel num denom a b b
    = Some (if Z.gcd num denom =? 1 then 0 else 1,
            (num / Z.gcd num denom, denom / Z.gcd num denom)).
Proof.
  induction fuel as [|fuel IH]; intros a b Hb Ha Hf Hg.
  - simpl in Hf. nia.
  - cbn [rcf_loop]. destruct (Z.ltb_spec 1 b) as [H1|H1].
    + unfold div64_u64.
      replace (a - b * (a / b)) with (a mod b) by (rewrite Z.mod_eq; lia).
      pose proof (Z.mod_pos_bound a b ltac:(lia)) as Hr.
      rewrite u64_small by lia.
      destruct (Z.eqb_spec (a mod b) 0) as [E|E].
      * rewrite <- Hg.
        assert (Hdiv : (b | a)) by (apply Z.mod_divide; lia).
        rewrite Z.gcd_comm.
        replace (Z.gcd b a) with b
          by (symmetry; apply Z.divide_gcd_iff; [lia|exact Hdiv]).
        replace (b =? 1) with false by (symmetry; apply Z.eqb_neq; lia).
        reflexivity.
      * apply IH; try lia.
        -- rewrite Nat2Z.inj_succ, Z.pow_succ_r in Hf by lia.
           assert (a = b * (a / b) + a mod b) by (apply Z.div_mod; lia).
           assert (1 <= a / b) by (apply Z.div_le_lower_bound; lia).
           nia.
        -- rewrite Z.gcd_mod_r, Z.gcd_comm. exact Hg.
    + assert (b = 1) by lia. subst b.
      rewrite Z.gcd_1_r in Hg. rewrite <- Hg, !Z.div_1_r. reflexivity.
Qed.

Lemma remove_common_factor_value (n d : Z) :
  0 < n < 2 ^ 64 -> 0 < d < 2 ^ 64 ->
  remove_common_factor (n, d)
  = Some (if Z.gcd n d =? 1 then 0 else 1, (n / Z.gcd n d, d / Z.gcd n d)).
Proof.
  intros Hn Hd. unfold remove_common_factor.
  replace (d =? 0) with false by (symmetry; apply Z.eqb_neq; lia).
  replace (n =? 0) with false by (symmetry; apply Z.eqb_neq; lia).
  apply rcf_loop_gcd; try lia.
  - change (Z.of_nat 128) with (64 + 64). rewrite Z.pow_add_r by lia.
    assert (Z.max n d < 2 ^ 64) by lia.
    assert (Z.min n d < 2 ^ 64) by lia.
    nia.
  - destruct (Z.max_spec n d) as [[? ->]|[? ->]];
      destruct (Z.min_spec n d) as [[? ->]|[? ->]];
      try reflexivity; try apply Z.gcd_comm; lia.
Qed.

(** X1.  [remove_common_factor] returns on every pair of 64-bit words, and
    what it leaves is the fraction in lowest terms: a zero denominator gives
    [-1] and the pair is not touched; a zero numerator gives [1] and the pair
    [(0, 1)]; otherwise both words are divided by their greatest common
    divisor, and the return value is [1] when that divisor is above 1 and
    [0] when there was nothing to remove. *)
Theorem X1_remove_common_factor_gcd (n d : Z) :
  0 <= n < 2 ^ 64 -> 0 <= d < 2 ^ 64 ->
  remove_common_factor (n, d)
  = Some (if d =? 0 then (-1, (n, d))
          else if n =? 0 then (1, (0, 1))
          else (if Z.gcd n d =? 1 then 0 else 1,
                (n / Z.gcd n d, d / Z.gcd n d))).
Proof.
  intros Hn Hd.
  destruct (Z.eqb_spec d 0) as [Ed|Ed].
  - subst d. reflexivity.
  - destruct (Z.eqb_spec n 0) as [En|En].
    + subst n. unfold remove_common_factor.
      replace (d =? 0) with false by (symmetry; apply Z.eqb_neq; lia).
      reflexivity.
    + apply remove_common_factor_value; lia.
Qed.

Lemma X1_remove_common_factor_gcd_witness :
  let n : Z := 12 in
  let d : Z := 18 in
  remove_common_factor (n, d)
  = Some (if d =? 0 then (-1, (n, d))
          else if n =? 0 then (1, (0, 1))
          else (if Z.gcd n d =? 1 then 0 else 1,
                (n / Z.gcd n d, d / Z.gcd n d))).
Proof.
  cbv zeta.
  apply (X1_remove_common_factor_gcd 12 18); lia.
Defined.

Lemma coprime_not_both_even (b c : Z) :
  Z.gcd b c = 1 -> Z.odd b || Z.odd c = true.
Proof.
  intros Hg.
  destruct (Z.odd b) eqn:Eb; [reflexivity|].
  destruct (Z.odd c) eqn:Ec; [reflexivity|].
  exfalso.
  assert (Hb : Z.even b = true) by (rewrite <- Z.negb_odd, Eb; reflexivity).
  assert (Hc : Z.even c = true) by (rewrite <- Z.negb_odd, Ec; reflexivity).
  apply Z.even_spec in Hb. apply Z.even_spec in Hc.
  destruct Hb as [b' ->]. destruct Hc as [c' ->].
  assert (H2 : (2 | Z.gcd (2 * b') (2 * c'))).
  { apply Z.gcd_greatest; [exists b'|exists c']; lia. }
  rewrite Hg in H2. destruct H2 as [k Hk]. lia.
Qed.

(** The reduced fraction of a remainder. *)
Lemma reduced_fraction (r d : Z) :
  0 <= r < d ->
  let g := Z.gcd r d in
  0 < g /\ 0 <= r / g < d / g /\ d / g <= d /\
  r = (r / g) * g /\ d = (d / g) * g /\
  Z.gcd (r / g) (d / g) = 1.
Proof.
  intros Hr g.
  assert (Hg : 0 < g).
  { pose proof (Z.gcd_nonneg r d). unfold g.
    destruct (Z.eq_dec (Z.gcd r d) 0) as [E0|E0]; [|lia].
    apply Z.gcd_eq_0_r in E0. lia. }
  destruct (Z.gcd_divide_l r d) as [qr Hqr].
  destruct (Z.gcd_divide_r r d) as [qd Hqd].
  fold g in Hqr, Hqd.
  assert (Er : r / g = qr) by (rewrite Hqr at 1; apply Z.div_mul; lia).
  assert (Ed : d / g = qd) by (rewrite Hqd at 1; apply Z.div_mul; lia).
  rewrite Er, Ed.
  split; [exact Hg|].
  split; [nia|]. split; [nia|]. split; [exact Hqr|]. split; [exact Hqd|].
  rewrite <- Er, <- Ed. apply Z.gcd_div_gcd; [lia|reflexivity].
Qed.

Lemma cal_ms_value (n d : Z) :
  0 <= n < 2 ^ 64 -> 1 <= d < 2 ^ 30 ->
  cal_ms n d
  = Some (cal_ms_int (n / d),
          (n mod d) / Z.gcd (n mod d) d, d / Z.gcd (n mod d) d).
Proof.
  intros Hn Hd. unfold cal_ms, div64_u64.
  replace (d =? 0) with false by (symmetry; apply Z.eqb_neq; lia).
  replace (n - n / d * d) with (n mod d) by (rewrite Z.mod_eq; lia).
  pose proof (Z.mod_pos_bound n d ltac:(lia)) as Hr.
  rewrite u64_small by lia.
  destruct (cal_trim_total 64 (n mod d) d)
    as (t1 & t2 & Ht & _ & _ & _ & Hsame); try lia.
  destruct (Hsame ltac:(lia)) as [-> ->]. rewrite Ht.
  destruct (Z.eq_dec (n mod d) 0) as [E|E].
  - rewrite E. unfold remove_common_factor.
    replace (d =? 0) with false by (symmetry; apply Z.eqb_neq; lia).
    cbn [Z.eqb]. rewrite Z.gcd_0_l, Z.abs_eq by lia.
    rewrite Z.div_0_l, Z.div_same by lia. reflexivity.
  - rewrite remove_common_factor_value by lia. reflexivity.
Qed.

Lemma cal_ms_p_decode (n d : Z) :
  0 <= n < 2 ^ 64 -> 1 <= d < 2 ^ 30 ->
  let a := cal_ms_int (n / d) in
  let g := Z.gcd (n mod d) d in
  cal_ms_p n d = Some (p_of_ratio a ((n mod d) / g) (d / g)) /\
  p_to_ms (p_of_ratio a ((n mod d) / g) (d / g))
  = (a, (n mod d) / g, d / g).
Proof.
  intros Hn Hd a g.
  pose proof (Z.mod_pos_bound n d ltac:(lia)) as Hr.
  destruct (reduced_fraction (n mod d) d Hr)
    as (Hg & Hb & Hc & Er & Ed & Hcop).
  fold g in Hg, Hb, Hc, Er, Ed, Hcop.
  assert (Hq : 0 <= n / d < 2 ^ 64).
  { split; [apply Z.div_pos; lia|]. apply Z.div_lt_upper_bound; nia. }
  pose proof (cal_ms_int_spec (n / d) Hq) as Hint. cbv zeta in Hint.
  fold a in Hint. destruct Hint as (Ha & _).
  split.
  - unfold cal_ms_p. rewrite cal_ms_value by assumption. fold a g.
    destruct (ms_to_p_spec a ((n mod d) / g) (d / g))
      as (b' & c' & Hp & Hb' & Hc' & _ & _ & _ & H0 & Hpos); try lia.
    rewrite Hp.
    destruct (Z.eq_dec ((n mod d) / g) 0) as [E|E].
    + destruct (H0 E) as [-> ->]. rewrite E.
      rewrite E in Hcop. rewrite Z.gcd_0_l in Hcop.
      rewrite Z.abs_eq in Hcop by lia. rewrite Hcop. reflexivity.
    + destruct (Hpos ltac:(lia) (coprime_not_both_even _ _ Hcop)) as [-> ->].
      reflexivity.
  - apply p_to_ms_of_ratio; lia.
Qed.

(** X2.  For a 64-bit numerator and a denominator in [[1, 2^30)],
    [cal_ms_p] returns parameters, and [p_to_ms] decodes them to the ratio
    [a + b/c] where [a] is the quotient moved into the range of the chip
    ([cal_ms_int]) and [b/c] is the remainder fraction
    [(numerator mod denominator) / denominator] in lowest terms.  When the
    quotient is in [[4, 567]] and is neither 5 nor 7 the decoded ratio is the
    requested one exactly. *)
Theorem X2_cal_ms_p_exact (numerator denominator : Z) :
  0 <= numerator < 2 ^ 64 -> 1 <= denominator < 2 ^ 30 ->
  exists pv a b c,
    cal_ms_p numerator denominator = Some pv /\
    p_to_ms pv = (a, b, c) /\
    a = cal_ms_int (numerator / denominator) /\
    0 <= b < c /\ Z.gcd b c = 1 /\
    b * denominator = (numerator mod denominator) * c /\
    (4 <= numerator / denominator <= 567 ->
     numerator / denominator <> 5 -> numerator / denominator <> 7 ->
     (a * c + b) * denominator = numerator * c).
Proof.
  intros Hn Hd.
  destruct (cal_ms_p_decode numerator denominator Hn Hd) as [Hp Hdec].
  cbv zeta in Hp, Hdec.
  pose proof (Z.mod_pos_bound numerator denominator ltac:(lia)) as Hr.
  destruct (reduced_fraction (numerator mod denominator) denominator Hr)
    as (Hg & Hb & Hc & Er & Ed & Hcop).
  set (g := Z.gcd (numerator mod denominator) denominator) in *.
  eexists _, _, _, _.
  split; [exact Hp|]. split; [exact Hdec|]. split; [reflexivity|].
  split; [lia|]. split; [exact Hcop|].
  split; [nia|].
  intros Hq H5 H7.
  assert (Hq' : 0 <= numerator / denominator < 2 ^ 64).
  { split; [apply Z.div_pos; lia|]. apply Z.div_lt_upper_bound; nia. }
  pose proof (cal_ms_int_spec _ Hq') as Hint. cbv zeta in Hint.
  destruct Hint as (_ & _ & _ & _ & _ & _ & _ & Hid).
  rewrite (Hid Hq H5 H7).
  pose proof (Z.div_mod numerator denominator ltac:(lia)) as Hdm.
  set (q := numerator / denominator) in *.
  set (r := numerator mod denominator) in *.
  set (b := r / g) in *. set (c := denominator / g) in *.
  nia.
Qed.

Lemma X2_cal_ms_p_exact_witness :
  let numerator : Z := 2500000000 in
  let denominator : Z := 30000000 in
  exists pv a b c,
    cal_ms_p numerator denominator = Some pv /\
    p_to_ms pv = (a, b, c) /\
    a = cal_ms_int (numerator / denominator) /\
    0 <= b < c /\ Z.gcd b c = 1 /\
    b * denominator = (numerator mod denominator) * c /\
    (4 <= numerator / denominator <= 567 ->
     numerator / denominator <> 5 -> numerator / denominator <> 7 ->
     (a * c + b) * denominator = numerator * c).
Proof.
  cbv zeta.
  apply (X2_cal_ms_p_exact 2500000000 30000000); lia.
Defined.

Lemma remainder_rcf_total (x d : Z) :
  0 <= x < 2 ^ 64 -> 0 < d < 2 ^ 64 ->
  exists r,
    remove_common_factor (u64 (x - div64_u64 x d * d), d) = Some r.
Proof.
  intros Hx Hd. unfold div64_u64.
  replace (x - x / d * d) with (x mod d) by (rewrite Z.mod_eq; lia).
  pose proof (Z.mod_pos_bound x d ltac:(lia)) as Hr.
  rewrite u64_small by lia.
  destruct (remove_common_factor_spec (x mod d) d) as (rc & n' & d' & H & _);
    try lia.
  rewrite H. eexists; reflexivity.
Qed.

Lemma ulong_sint (B x : Z) :
  0 < B -> ulong B (sint B x) = ulong B x.
Proof.
  intros HB. unfold ulong, sint. cbv zeta.
  destruct (x mod 2 ^ B <? 2 ^ (B - 1)).
  - apply Z.mod_mod. apply Z.pow_nonzero; lia.
  - replace (x mod 2 ^ B - 2 ^ B) with (x mod 2 ^ B + (-1) * 2 ^ B) by lia.
    rewrite Z.mod_add by (apply Z.pow_nonzero; lia).
    apply Z.mod_mod. apply Z.pow_nonzero; lia.
Qed.

Lemma pll_round_rate_value (B : Z) (hw : si5338_hw_data)
    (rate parent a b c : Z) :
  cal_ms_p (clamp_vco rate) parent = Some (p_of_ratio a b c) ->
  4 <= a <= 567 -> 0 <= b < c -> c < 2 ^ 30 ->
  0 <= parent -> parent * (a * c + b) < 2 ^ 64 ->
  si5338_pll_round_rate B hw rate parent
  = Some (sint B (parent * (a * c + b) / c),
          mkHwData (mkParams (p_of_ratio a b c) true) (num hw)).
Proof.
  intros Hp Ha Hb Hc Hpar Hprod.
  unfold si5338_pll_round_rate. rewrite Hp. cbn [p params].
  rewrite p_to_ms_of_ratio by lia.
  assert (Hac : 0 <= a * c + b < 2 ^ 64).
  { assert (a * c <= 567 * 2 ^ 30)
      by (apply Z.mul_le_mono_nonneg; lia).
    assert (0 <= a * c) by (apply Z.mul_nonneg_nonneg; lia).
    lia. }
  assert (Hpp : 0 <= parent * (a * c + b)) by (apply Z.mul_nonneg_nonneg; lia).
  rewrite (u64_small (a * c + b)) by exact Hac.
  rewrite (u64_small (parent * (a * c + b))) by lia.
  replace (c =? 0) with false by (symmetry; apply Z.eqb_neq; lia).
  destruct (remainder_rcf_total (parent * (a * c + b)) c) as [r Hr];
    try lia.
  rewrite Hr. reflexivity.
Qed.

(** X3.  [si5338_pll_round_rate] rounds to the requested rate clamped into
    the VCO band whenever the ratio of that rate to the parent rate is in
    [[4, 567]] and is neither 5 nor 7: it caches the parameters of the ratio
    as valid and returns the clamped rate through its [long] result, which
    is the clamped rate itself on a platform with 64-bit longs and the
    clamped rate minus [2^32] (a negative number) on one with 32-bit
    longs. *)
Theorem X3_pll_round_rate_exact (B : Z) (hw : si5338_hw_data)
    (rate parent_rate : Z) :
  0 < B <= 64 -> 1 <= parent_rate ->
  4 <= clamp_vco rate / parent_rate <= 567 ->
  clamp_vco rate / parent_rate <> 5 -> clamp_vco rate / parent_rate <> 7 ->
  exists pv,
    cal_ms_p (clamp_vco rate) parent_rate = Some pv /\
    si5338_pll_round_rate B hw rate parent_rate
    = Some (sint B (clamp_vco rate), mkHwData (mkParams pv true) (num hw)) /\
    (B = 64 -> sint B (clamp_vco rate) = clamp_vco rate) /\
    (B = 32 -> sint B (clamp_vco rate) = clamp_vco rate - 2 ^ 32).
Proof.
  intros HB Hpar Hq H5 H7.
  set (n := clamp_vco rate) in *.
  assert (Hn : FVCOMIN <= n <= FVCOMAX).
  { unfold n, clamp_vco, FVCOMIN, FVCOMAX.
    destruct (Z.ltb_spec rate 2200000000); [lia|].
    destruct (Z.ltb_spec 2840000000 rate); lia. }
  unfold FVCOMIN, FVCOMAX in Hn.
  assert (Hd : parent_rate < 2 ^ 30).
  { destruct (Z.lt_ge_cases parent_rate (2 ^ 30)) as [|Hge]; [assumption|].
    exfalso.
    assert (n / parent_rate < 4); [|lia].
    apply Z.div_lt_upper_bound; lia. }
  destruct (cal_ms_p_decode n parent_rate) as [Hp _]; try lia.
  cbv zeta in Hp.
  assert (Hq' : 0 <= n / parent_rate < 2 ^ 64) by lia.
  pose proof (cal_ms_int_spec _ Hq') as Hint. cbv zeta in Hint.
  destruct Hint as (_ & _ & _ & _ & _ & _ & _ & Hid).
  rewrite (Hid Hq H5 H7) in Hp.
  pose proof (Z.mod_pos_bound n parent_rate ltac:(lia)) as Hr.
  destruct (reduced_fraction (n mod parent_rate) parent_rate Hr)
    as (Hg & Hb & Hc & Er & Ed & Hcop).
  set (g := Z.gcd (n mod parent_rate) parent_rate) in *.
  pose proof (Z.div_mod n parent_rate ltac:(lia)) as Hdm.
  set (q := n / parent_rate) in *. set (r := n mod parent_rate) in *.
  set (b := r / g) in *. set (c := parent_rate / g) in *.
  assert (Hval : parent_rate * (q * c + b) = n * c) by nia.
  eexists. split; [exact Hp|].
  split.
  - rewrite (pll_round_rate_value B hw rate parent_rate q b c);
      try assumption; try lia.
    + rewrite Hval, Z.div_mul by lia. reflexivity.
    + rewrite Hval. nia.
  - split; intros ->; unfold sint; cbv zeta.
    + rewrite Z.mod_small by lia.
      replace (n <? 2 ^ (64 - 1)) with true
        by (symmetry; apply Z.ltb_lt; lia).
      reflexivity.
    + rewrite Z.mod_small by lia.
      replace (n <? 2 ^ (32 - 1)) with false
        by (symmetry; apply Z.ltb_ge; lia).
      reflexivity.
Qed.

Lemma X3_pll_round_rate_exact_witness :
  let B : Z := 64 in
  let hw : si5338_hw_data := mkHwData (mkParams (0, 0, 0) false) 0 in
  let rate : Z := 2500000000 in
  let parent_rate : Z := 25000000 in
  exists pv,
    cal_ms_p (clamp_vco rate) parent_rate = Some pv /\
    si5338_pll_round_rate B hw rate parent_rate
    = Some (sint B (clamp_vco rate), mkHwData (mkParams pv true) (num hw)) /\
    (B = 64 -> sint B (clamp_vco rate) = clamp_vco rate) /\
    (B = 32 -> sint B (clamp_vco rate) = clamp_vco rate - 2 ^ 32).
Proof.
  cbv zeta.
  apply (X3_pll_round_rate_exact
           64 (mkHwData (mkParams (0, 0, 0) false) 0) 2500000000 25000000);
    closed_hyp.
Defined.

(** X4.  Whatever rate [si5338_pll_round_rate] returns, it leaves the node
    with valid cached parameters, and [si5338_pll_recalc_rate] on that node
    reports the same rate (as an [unsigned long]) without touching the
    register map. *)
Theorem X4_pll_round_then_recalc (B : Z) (hw hw' : si5338_hw_data)
    (rate parent_rate r : Z) (m : regmap) :
  0 < B ->
  si5338_pll_round_rate B hw rate parent_rate = Some (r, hw') ->
  valid (params hw') = true /\
  si5338_pll_recalc_rate B hw' parent_rate m = Some (ulong B r, hw', m).
Proof.
  intros HB. unfold si5338_pll_round_rate.
  destruct (cal_ms_p (clamp_vco rate) parent_rate) as [pv|]; [|discriminate].
  cbn [p params valid num].
  destruct (p_to_ms pv) as [[ms0 ms1] ms2] eqn:Hms.
  destruct (Z.eqb_spec ms2 0) as [E|E]; [discriminate|].
  destruct (remove_common_factor _) as [x|] eqn:Hr; [|discriminate].
  intros [= <- <-]. split; [reflexivity|].
  unfold si5338_pll_recalc_rate. cbn [p params valid num negb].
  rewrite Hms.
  replace (ms2 =? 0) with false by (symmetry; apply Z.eqb_neq; lia).
  destruct (Z.eqb_spec (u64 (ms0 * ms2 + ms1)) 0) as [E0|E0].
  - rewrite E0 in *. rewrite Z.mul_0_r.
    change (u64 0) with 0. unfold div64_u64. rewrite Z.div_0_l by lia.
    rewrite ulong_sint by lia. reflexivity.
  - rewrite Hr. rewrite ulong_sint by lia. reflexivity.
Qed.

Lemma X4_pll_round_then_recalc_witness :
  let B : Z := 64 in
  let hw : si5338_hw_data := mkHwData (mkParams (0, 0, 0) false) 0 in
  let hw' : si5338_hw_data := mkHwData (mkParams (12288, 0, 1) true) 0 in
  let rate : Z := 2500000000 in
  let parent_rate : Z := 25000000 in
  let r : Z := 2500000000 in
  let m : regmap := mkRegmap (fun _ => 0) [] [] [] in
  valid (params hw') = true /\
  si5338_pll_recalc_rate B hw' parent_rate m = Some (ulong B r, hw', m).
Proof.
  cbv zeta.
  apply (X4_pll_round_then_recalc
           64 (mkHwData (mkParams (0, 0, 0) false) 0)
           (mkHwData (mkParams (12288, 0, 1) true) 0) 2500000000 25000000
           2500000000 (mkRegmap (fun _ => 0) [] [] []));
    closed_hyp.
Defined.

(** ** recalc_rate *)

Lemma u32_range (x : Z) : 0 <= u32 x < 2 ^ 32.
Proof. unfold u32. apply Z.mod_pos_bound. lia. Qed.

Lemma get_ms_p_range (pv : p_t) (chn : Z) (m : regmap) :
  in_u32 pv -> in_u32 (snd (fst (get_ms_p pv chn m))).
Proof.
  intros Hpv. unfold get_ms_p.
  destruct (_verify_ms_channel chn <? 0); [exact Hpv|].
  destruct pv as [[p0 p1] p2]. destruct Hpv as (H0 & H1 & H2).
  unfold bind.
  destruct (read_multireg64 (awe_msx_at chn 0) m) as [[rc0 d0] m0].
  destruct (rc0 <? 0); [cbn; lia|].
  destruct (read_multireg64 (awe_msx_at chn 1) m0) as [[rc1 d1] m1].
  pose proof (u32_range d0).
  destruct (rc1 <? 0); [cbn; lia|].
  destruct (read_multireg64 (awe_msx_at chn 2) m1) as [[rc2 d2] m2].
  pose proof (u32_range d1). pose proof (u32_range d2).
  destruct (rc2 <? 0); cbn; lia.
Qed.

Lemma p_to_ms_range (pv : p_t) :
  in_u32 pv ->
  let '(ms0, ms1, ms2) := p_to_ms pv in
  0 <= ms0 < 2 ^ 32 /\ 0 <= ms1 < 2 ^ 64 /\ 0 <= ms2 < 2 ^ 32.
Proof.
  destruct pv as [[p0 p1] p2]. intros (H0 & H1 & H2). unfold p_to_ms.
  destruct ((p0 =? 0) && (p1 =? 0) && (p2 =? 0)); [lia|].
  split; [apply u32_range|]. split; [|lia].
  rewrite Z.shiftr_div_pow2 by lia.
  assert (0 <= u64 (p2 * Z.land p0 127 + p1) < 2 ^ 64)
    by (unfold u64; apply Z.mod_pos_bound; lia).
  split; [apply Z.div_pos; lia|].
  apply Z.div_lt_upper_bound; lia.
Qed.

Lemma u64_range (x : Z) : 0 <= u64 x < 2 ^ 64.
Proof. unfold u64. apply Z.mod_pos_bound. lia. Qed.

Lemma recalc_trim_total (fuel : nat) :
  forall ms1 ms2,
    0 <= ms1 -> 0 < ms2 < 2 ^ (12 + Z.of_nat fuel) ->
    exists ms1' ms2',
      recalc_trim fuel ms1 ms2 = Some (ms1', ms2') /\
      0 <= ms1' <= ms1 /\ 0 < ms2' < 4096 /\
      (ms2 < 4096 -> ms1' = ms1 /\ ms2' = ms2).
Proof.
  induction fuel as [|fuel IH]; intros ms1 ms2 H1 H2.
  - cbn [recalc_trim]. rewrite Z.add_0_r in H2.
    replace (4096 <=? ms2) with false by (symmetry; apply Z.leb_gt; lia).
    exists ms1, ms2. repeat split; lia.
  - cbn [recalc_trim]. destruct (Z.leb_spec 4096 ms2) as [Hge|Hlt].
    + rewrite Nat2Z.inj_succ in H2.
      replace (12 + Z.succ (Z.of_nat fuel)) with (Z.succ (12 + Z.of_nat fuel))
        in H2 by lia.
      rewrite Z.pow_succ_r in H2 by lia.
      rewrite !Z.shiftr_div_pow2 by lia. change (2 ^ 1) with 2.
      assert (0 <= ms1 / 2 <= ms1)
        by (split; [apply Z.div_pos|apply Z.div_le_upper_bound]; lia).
      assert (2048 <= ms2 / 2) by (apply Z.div_le_lower_bound; lia).
      assert (ms2 / 2 < 2 ^ (12 + Z.of_nat fuel))
        by (apply Z.div_lt_upper_bound; lia).
      destruct (IH (ms1 / 2) (ms2 / 2)) as (a & b & Hr & Ha & Hb & _);
        try lia.
      exists a, b. repeat split; try assumption; try lia.
    + exists ms1, ms2. repeat split; lia.
Qed.

(** A node whose parameters are not valid loads them from the chip first. *)
Lemma pll_recalc_rate_load (B : Z) (hw : si5338_hw_data)
    (parent_rate : Z) (m m1 : regmap) (rc : Z) (pv : p_t) :
  valid (params hw) = false ->
  get_ms_p (p (params hw)) 4 m = ((rc, pv), m1) ->
  si5338_pll_recalc_rate B hw parent_rate m
  = if rc <? 0 then Some (0, mkHwData (mkParams pv false) (num hw), m1)
    else si5338_pll_recalc_rate B (mkHwData (mkParams pv true) (num hw))
           parent_rate m1.
Proof.
  intros Hv Hg. unfold si5338_pll_recalc_rate. rewrite Hv, Hg.
  cbn [negb p params valid num].
  destruct (rc <? 0); reflexivity.
Qed.

Lemma msynth_recalc_rate_load (B : Z) (hw : si5338_hw_data)
    (parent_rate : Z) (m m1 : regmap) (rc : Z) (pv : p_t) :
  valid (params hw) = false ->
  get_ms_p (p (params hw)) (num hw) m = ((rc, pv), m1) ->
  si5338_msynth_recalc_rate B hw parent_rate m
  = if rc <? 0 then Some (0, mkHwData (mkParams pv false) (num hw), m1)
    else si5338_msynth_recalc_rate B (mkHwData (mkParams pv true) (num hw))
           parent_rate m1.
Proof.
  intros Hv Hg. unfold si5338_msynth_recalc_rate. rewrite Hv, Hg.
  cbn [negb p params valid num].
  destruct (rc <? 0); reflexivity.
Qed.

(** With valid parameters in the node the rate is computed from them, and
    the computation returns. *)
Lemma pll_recalc_rate_valid (B : Z) (hw : si5338_hw_data)
    (parent_rate : Z) (m : regmap) :
  in_u32 (p (params hw)) -> valid (params hw) = true ->
  exists r, si5338_pll_recalc_rate B hw parent_rate m = Some (r, hw, m).
Proof.
  intros Hp Hv. unfold si5338_pll_recalc_rate. rewrite Hv. cbn [negb].
  pose proof (p_to_ms_range _ Hp) as Hms.
  destruct (p_to_ms (p (params hw))) as [[ms0 ms1] ms2].
  destruct Hms as (H0 & H1 & H2).
  set (ms2' := if ms2 =? 0 then 1 else ms2).
  assert (Hms2 : 0 < ms2' < 2 ^ 32)
    by (unfold ms2'; destruct (Z.eqb_spec ms2 0); lia).
  destruct (u64 (ms0 * ms2' + ms1) =? 0).
  - eexists. reflexivity.
  - destruct (remainder_rcf_total
                (u64 (parent_rate * u64 (ms0 * ms2' + ms1))) ms2')
      as [r Hr]; [apply u64_range|lia|].
    rewrite Hr. eexists. reflexivity.
Qed.

Lemma msynth_recalc_rate_valid (B : Z) (hw : si5338_hw_data)
    (parent_rate : Z) (m : regmap) :
  in_u32 (p (params hw)) -> valid (params hw) = true ->
  exists r, si5338_msynth_recalc_rate B hw parent_rate m = Some (r, hw, m).
Proof.
  intros Hp Hv. unfold si5338_msynth_recalc_rate. rewrite Hv. cbn [negb].
  pose proof (p_to_ms_range _ Hp) as Hms.
  destruct (p_to_ms (p (params hw))) as [[ms0 ms1] ms2].
  destruct Hms as (H0 & H1 & H2).
  set (ms2' := if ms2 =? 0 then 1 else ms2).
  assert (Hms2 : 0 < ms2' < 2 ^ 32)
    by (unfold ms2'; destruct (Z.eqb_spec ms2 0); lia).
  destruct (recalc_trim_total 64 ms1 ms2')
    as (t1 & t2 & Ht & Ht1 & Ht2 & _); try lia.
  rewrite Ht.
  destruct (Z.eqb_spec (u64 (ms0 * t2 + t1)) 0) as [E|E].
  - eexists. reflexivity.
  - pose proof (u64_range (ms0 * t2 + t1)).
    destruct (remainder_rcf_total
                (u64 (parent_rate * t2)) (u64 (ms0 * t2 + t1)))
      as [r Hr]; [apply u64_range|lia|].
    rewrite Hr. eexists. reflexivity.
Qed.

(** ** The read path under transport faults *)

(** Whatever the outcome of the transaction, [si5338_reg_read] hands its
    caller two bytes, makes one transaction and changes no register. *)
Lemma si5338_reg_read_byte (reg : Z) (m : regmap) :
  exists rc v q ev,
    si5338_reg_read reg m
    = ((rc, v), mkRegmap (regs m) q (tl (io_script m)) (ev :: trace m)) /\
    0 <= rc < 2 ^ 8 /\ 0 <= v < 2 ^ 8.
Proof.
  assert (Hu : forall x, 0 <= u8 x < 2 ^ 8)
    by (intros x; unfold u8; apply Z.mod_pos_bound; lia).
  unfold si5338_reg_read, bind, regmap_read, ret. cbv zeta.
  destruct (io_script m) as [|[e|] s]; cbn [tl].
  - destruct (if reg =? STATUS_REG then status_seq m else []) as [|v vs];
      eexists _, _, _, _; (split; [reflexivity|split; apply Hu]).
  - eexists _, _, _, _. split; [reflexivity|split; apply Hu].
  - destruct (if reg =? STATUS_REG then status_seq m else []) as [|v vs];
      eexists _, _, _, _; (split; [reflexivity|split; apply Hu]).
Qed.

(** [read_multireg64] returns 0 on every register map: a failed read does
    not end the loop.  It makes one transaction for every word with a mask
    and changes no register. *)
Lemma read_multireg64_from_total (awe : list Z) :
  forall data full_shift m,
  exists d m' evs,
    read_multireg64_from awe data full_shift m = ((0, d), m') /\
    regs m' = regs m /\ trace m' = evs ++ trace m /\
    io_script m' = skipn (length evs) (io_script m) /\
    (Forall (fun x => x <> 0) awe -> length evs = writes_in awe).
Proof.
  induction awe as [|w awe IH]; intros data fs m.
  - exists data, m, []. cbn. repeat split.
  - cbn [read_multireg64_from].
    destruct (Z.eqb_spec w 0) as [E|E].
    + exists data, m, []. cbn. repeat split.
      intros H. apply Forall_inv in H. contradiction.
    + unfold writes_in. cbn [filter].
      destruct (negb (awe_mask w =? 0)).
      * unfold bind.
        destruct (si5338_reg_read_byte (awe_reg w) m)
          as (rc & v & q & ev & Hr & Hrc & Hv).
        rewrite Hr.
        replace (rc <? 0) with false by (symmetry; apply Z.ltb_ge; lia).
        match goal with
        | |- context [read_multireg64_from awe ?D ?S ?M] =>
            destruct (IH D S M) as (d & m' & evs & He & Hg & Ht & Hs & Hl)
        end.
        cbn [regs trace io_script] in Hg, Ht, Hs.
        exists d, m', (evs ++ [ev]). rewrite He.
        split; [reflexivity|]. split; [exact Hg|].
        split; [rewrite Ht, <- app_assoc; reflexivity|].
        split.
        -- rewrite Hs, length_app. cbn [length].
           rewrite Nat.add_1_r. cbn [skipn].
           destruct (io_script m); [rewrite skipn_nil|]; reflexivity.
        -- intros H. apply Forall_inv_tail in H.
           rewrite length_app, (Hl H). cbn [length]. unfold writes_in. lia.
      * destruct (IH data fs m) as (d & m' & evs & He & Hg & Ht & Hs & Hl).
        exists d, m', evs. rewrite He. repeat split; try assumption.
        intros H. apply Forall_inv_tail in H. exact (Hl H).
Qed.

(** [read_field] never returns an error code either. *)
Lemma read_field_total (w : Z) (m : regmap) :
  exists v m', read_field w m = (v, m') /\ 0 <= v /\ regs m' = regs m.
Proof.
  unfold read_field. destruct (negb (awe_mask w =? 0)).
  - unfold bind.
    destruct (si5338_reg_read_byte (awe_reg w) m)
      as (rc & v & q & ev & Hr & Hrc & Hv).
    rewrite Hr.
    replace (rc <? 0) with false by (symmetry; apply Z.ltb_ge; lia).
    eexists _, _. split; [reflexivity|]. split; [|reflexivity].
    apply Z.shiftr_nonneg. apply Z.land_nonneg. left. lia.
  - exists 0, m. repeat split; lia.
Qed.


(** What [set_ms_p] has written, [get_ms_p] reads back. *)
Lemma set_then_get_ms_p (past_end : Z) (pv : p_t) (chn : Z) (f : Z -> Z)
    (t : list event) :
  0 <= chn <= 4 ->
  (let '(p0, p1, p2) := fst (ms_p_high_speed pv) in
   0 <= p0 < 2 ^ 18 /\ 0 <= p1 < 2 ^ 30 /\ 0 <= p2 < 2 ^ 30) ->
  exists f' evs,
    set_ms_p past_end pv chn (mkRegmap f [] [] t)
    = ((0, fst (ms_p_high_speed pv)), mkRegmap f' [] [] (evs ++ t)) /\
    forall pv0 t', exists evs',
      get_ms_p pv0 chn (mkRegmap f' [] [] t')
      = ((0, fst (ms_p_high_speed pv)), mkRegmap f' [] [] (evs' ++ t')).
Proof.
  intros Hc Hb.
  destruct (set_ms_p_quiet past_end pv chn f [] t Hc) as [evs Hset].
  destruct (ms_p_high_speed pv) as [[[p0 p1] p2] hs].
  cbn [fst snd] in *. cbv zeta in Hset.
  destruct Hb as (H0 & H1 & H2).
  set (f0 := if awe_mask (awe_ms_hs_at past_end chn) =? 0 then f
             else reg_after f (awe_ms_hs_at past_end chn) hs) in Hset.
  set (F := regs_after_write (u64 p2) (awe_msx_at chn 2)
              (regs_after_write (u64 p1) (awe_msx_at chn 1)
                 (regs_after_write (u64 p0) (awe_msx_at chn 0) f0))) in Hset.
  exists F, evs. split; [exact Hset|].
  intros pv0 t'.
  destruct (get_ms_p_quiet pv0 chn F t' Hc) as [evs' Hget].
  exists evs'. rewrite Hget.
  destruct (ms_p_readback chn (u64 p0) (u64 p1) (u64 p2) f0 Hc)
    as (R0 & R1 & R2).
  cbv zeta in R0, R1, R2. fold F in R0, R1, R2. rewrite R0, R1, R2.
  rewrite !u64_small by lia.
  rewrite !Z.mod_small by lia.
  rewrite !u32_small by lia. reflexivity.
Qed.

Lemma pll_recalc_rate_value (B : Z) (hw : si5338_hw_data)
    (parent a b c : Z) (m : regmap) :
  valid (params hw) = true -> p (params hw) = p_of_ratio a b c ->
  4 <= a <= 567 -> 0 <= b < c -> c < 2 ^ 30 ->
  0 <= parent -> parent * (a * c + b) < 2 ^ 64 ->
  si5338_pll_recalc_rate B hw parent m
  = Some (ulong B (parent * (a * c + b) / c), hw, m).
Proof.
  intros Hv Hp Ha Hb Hc Hpar Hprod.
  unfold si5338_pll_recalc_rate. rewrite Hv. cbn [negb]. rewrite Hp.
  rewrite p_to_ms_of_ratio by lia.
  replace (c =? 0) with false by (symmetry; apply Z.eqb_neq; lia).
  assert (Hac : 0 < a * c + b < 2 ^ 64).
  { assert (a * c <= 567 * 2 ^ 30)
      by (apply Z.mul_le_mono_nonneg; lia).
    assert (0 < a * c) by (apply Z.mul_pos_pos; lia).
    lia. }
  assert (Hpp : 0 <= parent * (a * c + b)) by (apply Z.mul_nonneg_nonneg; lia).
  rewrite (u64_small (a * c + b)) by lia.
  replace (a * c + b =? 0) with false by (symmetry; apply Z.eqb_neq; lia).
  rewrite (u64_small (parent * (a * c + b))) by lia.
  destruct (remainder_rcf_total (parent * (a * c + b)) c) as [r Hr];
    try lia.
  rewrite Hr. reflexivity.
Qed.

Lemma msynth_recalc_rate_value (B : Z) (hw : si5338_hw_data)
    (parent a b c : Z) (m : regmap) :
  valid (params hw) = true -> p (params hw) = p_of_ratio a b c ->
  4 <= a <= 567 -> 0 <= b < c -> c < 4096 ->
  0 <= parent -> parent * c < 2 ^ 64 ->
  si5338_msynth_recalc_rate B hw parent m
  = Some (ulong B (parent * c / (a * c + b)), hw, m).
Proof.
  intros Hv Hp Ha Hb Hc Hpar Hprod.
  unfold si5338_msynth_recalc_rate. rewrite Hv. cbn [negb]. rewrite Hp.
  rewrite p_to_ms_of_ratio by lia.
  replace (c =? 0) with false by (symmetry; apply Z.eqb_neq; lia).
  destruct (recalc_trim_total 64 b c)
    as (t1 & t2 & Ht & _ & _ & Hsame); try lia.
  destruct (Hsame Hc) as [-> ->]. rewrite Ht.
  assert (Hac : 0 < a * c + b < 2 ^ 64).
  { assert (a * c <= 567 * 4096)
      by (apply Z.mul_le_mono_nonneg; lia).
    assert (0 < a * c) by (apply Z.mul_pos_pos; lia).
    lia. }
  assert (Hpp : 0 <= parent * c) by (apply Z.mul_nonneg_nonneg; lia).
  rewrite (u64_small (a * c + b)) by lia.
  replace (a * c + b =? 0) with false by (symmetry; apply Z.eqb_neq; lia).
  rewrite (u64_small (parent * c)) by lia.
  destruct (remainder_rcf_total (parent * c) (a * c + b)) as [r Hr];
    try lia.
  rewrite Hr. reflexivity.
Qed.

Lemma p_of_ratio_fits (a b c : Z) :
  4 <= a <= 567 -> 0 <= b < c -> c < 2 ^ 30 ->
  let '(p0, p1, p2) := p_of_ratio a b c in
  0 <= p0 < 2 ^ 18 /\ 0 <= p1 < 2 ^ 30 /\ 0 <= p2 < 2 ^ 30.
Proof.
  intros Ha Hb Hc.
  pose proof (p_of_ratio_bounds a b c ltac:(lia) Hb) as H.
  destruct (p_of_ratio a b c) as [[p0 p1] p2].
  destruct H as (H0 & H1 & ->). lia.
Qed.

(** Parameters of a ratio of at least 8 are written as they are. *)
Lemma ms_p_high_speed_none (a b c : Z) :
  8 <= a -> 0 <= b < c ->
  ms_p_high_speed (p_of_ratio a b c) = (p_of_ratio a b c, 0).
Proof.
  intros Ha Hb.
  pose proof (p_of_ratio_bounds a b c ltac:(lia) Hb) as H.
  unfold ms_p_high_speed.
  destruct (p_of_ratio a b c) as [[p0 p1] p2].
  destruct H as (H0 & _).
  replace (p0 <? 512) with false by (symmetry; apply Z.ltb_ge; lia).
  reflexivity.
Qed.

(** Parameters of a ratio below 8 are replaced by those of 4 or of 6. *)
Lemma ms_p_high_speed_some (a b c : Z) :
  4 <= a < 8 -> 0 <= b < c ->
  fst (ms_p_high_speed (p_of_ratio a b c))
  = p_of_ratio (if a <? 5 then 4 else 6) 0 1.
Proof.
  intros Ha Hb.
  pose proof (p_of_ratio_bounds a b c ltac:(lia) Hb) as H.
  unfold ms_p_high_speed.
  destruct (p_of_ratio a b c) as [[p0 p1] p2].
  destruct H as (H0 & _).
  replace (p0 <? 512) with true by (symmetry; apply Z.ltb_lt; lia).
  cbn [fst].
  destruct (Z.ltb_spec a 5) as [H5|H5].
  - replace (p0 <? 128) with true by (symmetry; apply Z.ltb_lt; lia).
    reflexivity.
  - destruct (Z.ltb_spec p0 128) as [Hlt|Hge]; [|reflexivity].
    exfalso. lia.
Qed.

(** The parameters [set_ms_p] commits are the ones a node that has not
    loaded its parameters yet computes its rate from. *)
Lemma commit_then_recalc (past_end : Z) (pv : p_t) (chn a b c : Z)
    (f : Z -> Z) (t : list event) :
  0 <= chn <= 4 ->
  fst (ms_p_high_speed pv) = p_of_ratio a b c ->
  4 <= a <= 567 -> 0 <= b < c -> c < 2 ^ 30 ->
  exists f' evs,
    set_ms_p past_end pv chn (mkRegmap f [] [] t)
    = ((0, p_of_ratio a b c), mkRegmap f' [] [] (evs ++ t)) /\
    (forall B hw0 parent t',
       chn = 4 -> valid (params hw0) = false ->
       0 <= parent -> parent * (a * c + b) < 2 ^ 64 ->
       exists evs',
         si5338_pll_recalc_rate B hw0 parent (mkRegmap f' [] [] t')
         = Some (ulong B (parent * (a * c + b) / c),
                 mkHwData (mkParams (p_of_ratio a b c) true) (num hw0),
                 mkRegmap f' [] [] (evs' ++ t'))) /\
    (forall B hw0 parent t',
       num hw0 = chn -> valid (params hw0) = false ->
       c < 4096 -> 0 <= parent -> parent * c < 2 ^ 64 ->
       exists evs',
         si5338_msynth_recalc_rate B hw0 parent (mkRegmap f' [] [] t')
         = Some (ulong B (parent * c / (a * c + b)),
                 mkHwData (mkParams (p_of_ratio a b c) true) (num hw0),
                 mkRegmap f' [] [] (evs' ++ t'))).
Proof.
  intros Hc Hhs Ha Hb Hcc.
  destruct (set_then_get_ms_p past_end pv chn f t Hc) as (f' & evs & Hset & Hget).
  { rewrite Hhs. apply p_of_ratio_fits; assumption. }
  rewrite Hhs in Hset, Hget.
  exists f', evs. split; [exact Hset|]. split.
  - intros B hw0 parent t' -> Hv Hpar Hprod.
    destruct (Hget (p (params hw0)) t') as [evs' Hg].
    exists evs'.
    rewrite (pll_recalc_rate_load B hw0 parent _ _ _ _ Hv Hg).
    change (0 <? 0) with false. cbv iota.
    apply pll_recalc_rate_value; try assumption; reflexivity.
  - intros B hw0 parent t' Hn Hv Hc4 Hpar Hprod.
    destruct (Hget (p (params hw0)) t') as [evs' Hg].
    exists evs'. rewrite <- Hn in Hg.
    rewrite (msynth_recalc_rate_load B hw0 parent _ _ _ _ Hv Hg).
    change (0 <? 0) with false. cbv iota.
    apply msynth_recalc_rate_value; try assumption; reflexivity.
Qed.

(** X5.  On a register map without faults, [si5338_pll_set_rate] with a
    ratio of the clamped rate to the parent rate between 8 and 567 succeeds,
    and [si5338_pll_recalc_rate] then reports the clamped rate exactly: on
    the node itself, from its cache, and on a node [hw0] whose cache is not
    valid, from the registers of the chip, which fills that cache with the
    same parameters. *)
Theorem X5_pll_set_rate_then_recalc (B past_end : Z)
    (hw hw0 : si5338_hw_data) (rate parent_rate : Z)
    (f : Z -> Z) (t : list event) :
  32 <= B <= 64 -> 1 <= parent_rate ->
  8 <= clamp_vco rate / parent_rate <= 567 ->
  valid (params hw0) = false ->
  exists hw' m',
    si5338_pll_set_rate past_end hw rate parent_rate (mkRegmap f [] [] t)
    = Some (0, hw', m') /\
    si5338_pll_recalc_rate B hw' parent_rate m'
    = Some (clamp_vco rate, hw', m') /\
    exists m'',
      si5338_pll_recalc_rate B hw0 parent_rate m'
      = Some (clamp_vco rate, mkHwData (params hw') (num hw0), m'').
Proof.
  intros HB Hpar Hq Hv.
  set (n := clamp_vco rate) in *.
  assert (Hn : 2200000000 <= n <= 2840000000).
  { unfold n, clamp_vco, FVCOMIN, FVCOMAX.
    destruct (Z.ltb_spec rate 2200000000); [lia|].
    destruct (Z.ltb_spec 2840000000 rate); lia. }
  assert (Hd : parent_rate < 2 ^ 30).
  { destruct (Z.lt_ge_cases parent_rate (2 ^ 30)) as [|Hge]; [assumption|].
    exfalso.
    assert (n / parent_rate < 4); [|lia].
    apply Z.div_lt_upper_bound; lia. }
  destruct (cal_ms_p_decode n parent_rate) as [Hp _]; try lia.
  cbv zeta in Hp.
  assert (Hq' : 0 <= n / parent_rate < 2 ^ 64) by lia.
  pose proof (cal_ms_int_spec _ Hq') as Hint. cbv zeta in Hint.
  destruct Hint as (_ & _ & _ & _ & _ & _ & _ & Hid).
  rewrite (Hid ltac:(lia) ltac:(lia) ltac:(lia)) in Hp.
  pose proof (Z.mod_pos_bound n parent_rate ltac:(lia)) as Hr.
  destruct (reduced_fraction (n mod parent_rate) parent_rate Hr)
    as (Hg & Hb & Hc & Er & Ed & Hcop).
  set (g := Z.gcd (n mod parent_rate) parent_rate) in *.
  pose proof (Z.div_mod n parent_rate ltac:(lia)) as Hdm.
  set (q := n / parent_rate) in *. set (r := n mod parent_rate) in *.
  set (b := r / g) in *. set (c := parent_rate / g) in *.
  assert (Hval : parent_rate * (q * c + b) = n * c) by nia.
  assert (Hprod : parent_rate * (q * c + b) < 2 ^ 64).
  { rewrite Hval.
    assert (n * c <= 2840000000 * 2 ^ 30)
      by (apply Z.mul_le_mono_nonneg; lia).
    lia. }
  assert (Hrate : ulong B (parent_rate * (q * c + b) / c) = n).
  { rewrite Hval, Z.div_mul by lia. unfold ulong.
    apply Z.mod_small. split; [lia|].
    apply Z.lt_le_trans with (2 ^ 32); [lia|].
    apply Z.pow_le_mono_r; lia. }
  destruct (commit_then_recalc past_end (p_of_ratio q b c) 4 q b c f t)
    as (f' & evs & Hset & Hpll & _); try lia.
  { rewrite ms_p_high_speed_none by lia. reflexivity. }
  unfold si5338_pll_set_rate. fold n. rewrite Hp. cbn [p params valid num].
  rewrite Hset.
  eexists _, _. split; [reflexivity|]. split.
  - rewrite (pll_recalc_rate_value B _ parent_rate q b c);
      try reflexivity; try lia.
    rewrite Hrate. reflexivity.
  - destruct (Hpll B hw0 parent_rate (evs ++ t) eq_refl Hv) as [evs' Hre];
      try lia.
    eexists. rewrite Hre, Hrate. reflexivity.
Qed.

Lemma X5_pll_set_rate_then_recalc_witness :
  let B : Z := 64 in
  let past_end : Z := 0 in
  let hw : si5338_hw_data := mkHwData (mkParams (0, 0, 0) false) 0 in
  let hw0 : si5338_hw_data := mkHwData (mkParams (0, 0, 0) false) 0 in
  let rate : Z := 2500000000 in
  let parent_rate : Z := 25000000 in
  let f : Z -> Z := fun _ => 0 in
  let t : list event := [] in
  exists hw' m',
    si5338_pll_set_rate past_end hw rate parent_rate (mkRegmap f [] [] t)
    = Some (0, hw', m') /\
    si5338_pll_recalc_rate B hw' parent_rate m'
    = Some (clamp_vco rate, hw', m') /\
    exists m'',
      si5338_pll_recalc_rate B hw0 parent_rate m'
      = Some (clamp_vco rate, mkHwData (params hw') (num hw0), m'').
Proof.
  cbv zeta.
  apply (X5_pll_set_rate_then_recalc
           64 0 (mkHwData (mkParams (0, 0, 0) false) 0)
           (mkHwData (mkParams (0, 0, 0) false) 0) 2500000000 25000000
           (fun _ => 0) []);
    closed_hyp.
Defined.

Lemma ulong_small (B x : Z) :
  32 <= B -> 0 <= x < 2 ^ 32 -> ulong B x = x.
Proof.
  intros HB Hx. unfold ulong. apply Z.mod_small. split; [lia|].
  apply Z.lt_le_trans with (2 ^ 32); [lia|].
  apply Z.pow_le_mono_r; lia.
Qed.

(** X6.  On a register map without faults, [si5338_msynth_set_rate] of a
    MultiSynth 0..3 to a rate below [2^30] with a parent rate below [2^32],
    a ratio between 8 and 567 and a reduced denominator below 4096 succeeds,
    and [si5338_msynth_recalc_rate] then reports the requested rate exactly:
    from the cache of the node, and from the registers of the chip for a
    node of the same channel whose cache is not valid. *)
Theorem X6_msynth_set_rate_then_recalc (B past_end : Z)
    (hw hw0 : si5338_hw_data) (rate parent_rate : Z)
    (f : Z -> Z) (t : list event) :
  32 <= B <= 64 -> 0 <= num hw <= 3 ->
  num hw0 = num hw -> valid (params hw0) = false ->
  1 <= rate < 2 ^ 30 -> parent_rate < 2 ^ 32 ->
  8 <= parent_rate / rate <= 567 ->
  rate / Z.gcd parent_rate rate < 4096 ->
  exists hw' m',
    si5338_msynth_set_rate B past_end hw rate parent_rate
      (mkRegmap f [] [] t)
    = Some (0, hw', m') /\
    si5338_msynth_recalc_rate B hw' parent_rate m' = Some (rate, hw', m') /\
    exists m'',
      si5338_msynth_recalc_rate B hw0 parent_rate m'
      = Some (rate, mkHwData (params hw') (num hw0), m'').
Proof.
  intros HB Hnum Hnum0 Hv Hrate Hpar Hq Hred.
  assert (Hpar0 : 0 <= parent_rate).
  { destruct (Z.lt_ge_cases parent_rate 0) as [Hneg|]; [|assumption].
    exfalso. assert (parent_rate / rate < 0); [|lia].
    apply Z.div_lt_upper_bound; lia. }
  destruct (cal_ms_p_decode parent_rate rate) as [Hp _]; try lia.
  cbv zeta in Hp.
  assert (Hq' : 0 <= parent_rate / rate < 2 ^ 64) by lia.
  pose proof (cal_ms_int_spec _ Hq') as Hint. cbv zeta in Hint.
  destruct Hint as (_ & _ & _ & _ & _ & _ & _ & Hid).
  rewrite (Hid ltac:(lia) ltac:(lia) ltac:(lia)) in Hp.
  pose proof (Z.mod_pos_bound parent_rate rate ltac:(lia)) as Hr.
  destruct (reduced_fraction (parent_rate mod rate) rate Hr)
    as (Hg & Hb & Hc & Er & Ed & Hcop).
  rewrite Z.gcd_mod, (Z.gcd_comm rate) in * by lia.
  set (g := Z.gcd parent_rate rate) in *.
  pose proof (Z.div_mod parent_rate rate ltac:(lia)) as Hdm.
  set (q := parent_rate / rate) in *. set (r := parent_rate mod rate) in *.
  set (b := r / g) in *. set (c := rate / g) in *.
  assert (Hval : parent_rate * c = rate * (q * c + b)) by nia.
  assert (Hqc : 0 < q * c + b).
  { assert (0 < q * c) by (apply Z.mul_pos_pos; lia). lia. }
  assert (Hprod : parent_rate * c < 2 ^ 64).
  { assert (parent_rate * c <= 2 ^ 32 * 4096)
      by (apply Z.mul_le_mono_nonneg; lia).
    lia. }
  assert (Hres : ulong B (parent_rate * c / (q * c + b)) = rate).
  { rewrite Hval, Z.div_mul by lia. apply ulong_small; lia. }
  destruct (commit_then_recalc past_end (p_of_ratio q b c) (num hw) q b c f t)
    as (f' & evs & Hset & _ & Hms); try lia.
  { rewrite ms_p_high_speed_none by lia. reflexivity. }
  unfold si5338_msynth_set_rate.
  replace (rate =? 0) with false by (symmetry; apply Z.eqb_neq; lia).
  rewrite Hp. cbn [p params valid num]. rewrite Hset.
  eexists _, _. split; [reflexivity|]. split.
  - rewrite (msynth_recalc_rate_value B _ parent_rate q b c);
      try reflexivity; try lia.
    rewrite Hres. reflexivity.
  - destruct (Hms B hw0 parent_rate (evs ++ t) Hnum0 Hv) as [evs' Hre];
      try lia.
    eexists. rewrite Hre, Hres. reflexivity.
Qed.

Lemma X6_msynth_set_rate_then_recalc_witness :
  let B : Z := 64 in
  let past_end : Z := 0 in
  let hw : si5338_hw_data := mkHwData (mkParams (0, 0, 0) false) 1 in
  let hw0 : si5338_hw_data := mkHwData (mkParams (0, 0, 0) false) 1 in
  let rate : Z := 100000000 in
  let parent_rate : Z := 2500000000 in
  let f : Z -> Z := fun _ => 0 in
  let t : list event := [] in
  exists hw' m',
    si5338_msynth_set_rate B past_end hw rate parent_rate
      (mkRegmap f [] [] t)
    = Some (0, hw', m') /\
    si5338_msynth_recalc_rate B hw' parent_rate m' = Some (rate, hw', m') /\
    exists m'',
      si5338_msynth_recalc_rate B hw0 parent_rate m'
      = Some (rate, mkHwData (params hw') (num hw0), m'').
Proof.
  cbv zeta.
  apply (X6_msynth_set_rate_then_recalc
           64 0 (mkHwData (mkParams (0, 0, 0) false) 1)
           (mkHwData (mkParams (0, 0, 0) false) 1) 100000000 2500000000
           (fun _ => 0) []);
    closed_hyp.
Defined.

(** X7.  On a register map without faults, for a MultiSynth 0..3, a
    requested rate in [[1, 2^30)] and a parent rate below [2^32] whose
    quotient by the rate is below 7: [si5338_msynth_set_rate] commits the
    parameters of the whole divider 4 (quotient below 5) or 6 (otherwise),
    whatever fraction was asked for, and [si5338_msynth_recalc_rate] then
    reports the parent rate divided by that divider, from the cache of the
    node and, for a node of the same channel whose cache is not valid, from
    the chip. *)
Theorem X7_msynth_high_speed_rate (B past_end : Z)
    (hw hw0 : si5338_hw_data) (rate parent_rate : Z)
    (f : Z -> Z) (t : list event) :
  32 <= B <= 64 -> 0 <= num hw <= 3 ->
  num hw0 = num hw -> valid (params hw0) = false ->
  1 <= rate < 2 ^ 30 -> 0 <= parent_rate < 2 ^ 32 ->
  parent_rate / rate < 7 ->
  let a := if parent_rate / rate <? 5 then 4 else 6 in
  exists hw' m',
    si5338_msynth_set_rate B past_end hw rate parent_rate
      (mkRegmap f [] [] t)
    = Some (0, hw', m') /\
    p (params hw') = ((a - 4) * 128, 0, 1) /\
    si5338_msynth_recalc_rate B hw' parent_rate m'
    = Some (parent_rate / a, hw', m') /\
    exists m'',
      si5338_msynth_recalc_rate B hw0 parent_rate m'
      = Some (parent_rate / a, mkHwData (params hw') (num hw0), m'').
Proof.
  intros HB Hnum Hnum0 Hv Hrate Hpar Hq a.
  destruct (cal_ms_p_decode parent_rate rate) as [Hp _]; try lia.
  cbv zeta in Hp.
  assert (Hq' : 0 <= parent_rate / rate < 2 ^ 64).
  { split; [apply Z.div_pos; lia|lia]. }
  pose proof (cal_ms_int_spec _ Hq') as Hint. cbv zeta in Hint.
  destruct Hint as (Hrange & H5 & H7 & Hlo & H56 & _ & _ & Hid).
  pose proof (Z.mod_pos_bound parent_rate rate ltac:(lia)) as Hr.
  destruct (reduced_fraction (parent_rate mod rate) rate Hr)
    as (Hg & Hb & Hc & Er & Ed & Hcop).
  set (g := Z.gcd (parent_rate mod rate) rate) in *.
  set (q := parent_rate / rate) in *.
  set (b := (parent_rate mod rate) / g) in *. set (c := rate / g) in *.
  assert (Ea : cal_ms_int q = a).
  { unfold a. fold q. destruct (Z.ltb_spec q 5) as [H|H].
    - destruct (Z.lt_ge_cases q 4);
        [rewrite Hlo by lia; reflexivity|rewrite Hid by lia; lia].
    - destruct (Z.eq_dec q 5);
        [rewrite H56 by assumption; reflexivity|rewrite Hid by lia; lia]. }
  rewrite Ea in Hp.
  assert (Ha : a = 4 \/ a = 6) by (unfold a; destruct (q <? 5); lia).
  assert (Hhs : fst (ms_p_high_speed (p_of_ratio a b c)) = p_of_ratio a 0 1).
  { rewrite ms_p_high_speed_some by lia.
    destruct Ha as [-> | ->]; reflexivity. }
  assert (Hpa : 0 <= parent_rate / a < 2 ^ 32).
  { split; [apply Z.div_pos; lia|].
    apply Z.div_lt_upper_bound; lia. }
  assert (Hres : ulong B (parent_rate * 1 / (a * 1 + 0)) = parent_rate / a).
  { rewrite !Z.mul_1_r, Z.add_0_r. apply ulong_small; lia. }
  destruct (commit_then_recalc past_end (p_of_ratio a b c) (num hw) a 0 1 f t)
    as (f' & evs & Hset & _ & Hms); try lia; try assumption.
  unfold si5338_msynth_set_rate.
  replace (rate =? 0) with false by (symmetry; apply Z.eqb_neq; lia).
  rewrite Hp. cbn [p params valid num]. rewrite Hset.
  eexists _, _. split; [reflexivity|]. cbn [p params].
  split; [destruct Ha as [-> | ->]; reflexivity|]. split.
  - rewrite (msynth_recalc_rate_value B _ parent_rate a 0 1);
      try reflexivity; try lia.
    rewrite Hres. reflexivity.
  - destruct (Hms B hw0 parent_rate (evs ++ t) Hnum0 Hv) as [evs' Hre];
      try lia.
    eexists. rewrite Hre, Hres. reflexivity.
Qed.

Lemma X7_msynth_high_speed_rate_witness :
  let B : Z := 64 in
  let past_end : Z := 0 in
  let hw : si5338_hw_data := mkHwData (mkParams (0, 0, 0) false) 1 in
  let hw0 : si5338_hw_data := mkHwData (mkParams (0, 0, 0) false) 1 in
  let rate : Z := 500000000 in
  let parent_rate : Z := 2500000000 in
  let f : Z -> Z := fun _ => 0 in
  let t : list event := [] in
  let a := if parent_rate / rate <? 5 then 4 else 6 in
  exists hw' m',
    si5338_msynth_set_rate B past_end hw rate parent_rate
      (mkRegmap f [] [] t)
    = Some (0, hw', m') /\
    p (params hw') = ((a - 4) * 128, 0, 1) /\
    si5338_msynth_recalc_rate B hw' parent_rate m'
    = Some (parent_rate / a, hw', m') /\
    exists m'',
      si5338_msynth_recalc_rate B hw0 parent_rate m'
      = Some (parent_rate / a, mkHwData (params hw') (num hw0), m'').
Proof.
  cbv zeta.
  apply (X7_msynth_high_speed_rate
           64 0 (mkHwData (mkParams (0, 0, 0) false) 1)
           (mkHwData (mkParams (0, 0, 0) false) 1) 500000000 2500000000
           (fun _ => 0) []);
    closed_hyp.
Defined.

(** X8.  [si5338_pll_recalc_rate] and [si5338_msynth_recalc_rate] return
    on every node whose cached parameters fit their [u32] words, for every
    parent rate and register map: no zero divisor is reached and the
    trimming loop ends.  With a valid cache they leave the node and the
    register map as they found them. *)
Theorem X8_recalc_rate_returns (B : Z) (hw : si5338_hw_data)
    (parent_rate : Z) (m : regmap) :
  in_u32 (p (params hw)) ->
  (exists r hw' m',
     si5338_pll_recalc_rate B hw parent_rate m = Some (r, hw', m') /\
     (valid (params hw) = true -> hw' = hw /\ m' = m)) /\
  (exists r hw' m',
     si5338_msynth_recalc_rate B hw parent_rate m = Some (r, hw', m') /\
     (valid (params hw) = true -> hw' = hw /\ m' = m)).
Proof.
  intros Hp. split.
  - destruct (valid (params hw)) eqn:Hv.
    + destruct (pll_recalc_rate_valid B hw parent_rate m Hp Hv) as [r Hr].
      exists r, hw, m. split; [exact Hr|]. intros _. split; reflexivity.
    + pose proof (get_ms_p_range (p (params hw)) 4 m Hp) as Hrange.
      destruct (get_ms_p (p (params hw)) 4 m) as [[rc pv] m1] eqn:Hg.
      cbn [fst snd] in Hrange.
      rewrite (pll_recalc_rate_load B hw parent_rate m m1 rc pv Hv Hg).
      destruct (rc <? 0).
      * eexists _, _, _. split; [reflexivity|]. discriminate.
      * destruct (pll_recalc_rate_valid B
                    (mkHwData (mkParams pv true) (num hw)) parent_rate m1)
          as [r Hr]; [exact Hrange|reflexivity|].
        rewrite Hr. eexists _, _, _. split; [reflexivity|]. discriminate.
  - destruct (valid (params hw)) eqn:Hv.
    + destruct (msynth_recalc_rate_valid B hw parent_rate m Hp Hv) as [r Hr].
      exists r, hw, m. split; [exact Hr|]. intros _. split; reflexivity.
    + pose proof (get_ms_p_range (p (params hw)) (num hw) m Hp) as Hrange.
      destruct (get_ms_p (p (params hw)) (num hw) m) as [[rc pv] m1] eqn:Hg.
      cbn [fst snd] in Hrange.
      rewrite (msynth_recalc_rate_load B hw parent_rate m m1 rc pv Hv Hg).
      destruct (rc <? 0).
      * eexists _, _, _. split; [reflexivity|]. discriminate.
      * destruct (msynth_recalc_rate_valid B
                    (mkHwData (mkParams pv true) (num hw)) parent_rate m1)
          as [r Hr]; [exact Hrange|reflexivity|].
        rewrite Hr. eexists _, _, _. split; [reflexivity|]. discriminate.
Qed.

Lemma X8_recalc_rate_returns_witness :
  let B : Z := 64 in
  let hw : si5338_hw_data := mkHwData (mkParams (12288, 0, 1) true) 0 in
  let parent_rate : Z := 25000000 in
  let m : regmap := mkRegmap (fun _ => 0) [] [] [] in
  (exists r hw' m',
     si5338_pll_recalc_rate B hw parent_rate m = Some (r, hw', m') /\
     (valid (params hw) = true -> hw' = hw /\ m' = m)) /\
  (exists r hw' m',
     si5338_msynth_recalc_rate B hw parent_rate m = Some (r, hw', m') /\
     (valid (params hw) = true -> hw' = hw /\ m' = m)).
Proof.
  cbv zeta.
  apply (X8_recalc_rate_returns
           64 (mkHwData (mkParams (12288, 0, 1) true) 0) 25000000
           (mkRegmap (fun _ => 0) [] [] []));
    closed_hyp.
Defined.

Lemma hw_data_eta (hw : si5338_hw_data) :
  mkHwData (mkParams (p (params hw)) (valid (params hw))) (num hw) = hw.
Proof. destruct hw as [[pv v] n]. reflexivity. Qed.



(** Every read fails and the uninitialised local holds the byte 1 each
    time: the PLL node reports a rate made of those bytes and keeps the
    parameters as valid. *)
Example recalc_rate_of_failed_reads :
  let m := mkRegmap (fun r => if r <? 0 then 1 else 0) []
             (repeat (Some 5%positive) 11) [] in
  let hw := mkHwData (mkParams (0, 0, 0) false) 0 in
  exists m',
    si5338_pll_recalc_rate 64 hw 25000000 m
    = Some (12950244139,
            mkHwData (mkParams (65793, 4210752, 16843009) true) 0, m') /\
    io_script m' = [].
Proof. vm_compute. eexists. split; reflexivity. Qed.

Lemma field_get_zero (f : Z -> Z) (w : Z) :
  f (awe_reg w) = 0 -> field_get f w = 0.
Proof.
  intros H. unfold field_get. rewrite H. change (u8 0) with 0.
  rewrite Z.land_0_l. apply Z.shiftr_0_l.
Qed.

Lemma awe_msx_regs (chn : Z) (i : nat) (w : Z) :
  In w (awe_msx_at chn i) -> w = 0 \/ 53 <= awe_reg w <= 106.
Proof.
  unfold awe_msx_at. intros Hin.
  assert (Hall : forallb (fun row => forallb (fun d => forallb
             (fun w => (w =? 0) || ((53 <=? awe_reg w) && (awe_reg w <=? 106)))
             d) row) awe_msx = true) by (vm_compute; reflexivity).
  destruct (nth_in_or_default (Z.to_nat chn) awe_msx []) as [Hrow|Hrow];
    [|rewrite Hrow in Hin; destruct i; destruct Hin].
  rewrite forallb_forall in Hall. specialize (Hall _ Hrow).
  destruct (nth_in_or_default i (nth (Z.to_nat chn) awe_msx []) [])
    as [Hd|Hd]; [|rewrite Hd in Hin; destruct Hin].
  rewrite forallb_forall in Hall. specialize (Hall _ Hd).
  rewrite forallb_forall in Hall. specialize (Hall _ Hin).
  apply orb_true_iff in Hall. destruct Hall as [H0|H1].
  - left. apply Z.eqb_eq. exact H0.
  - right. apply andb_true_iff in H1. destruct H1 as [Ha Hb].
    apply Z.leb_le in Ha. apply Z.leb_le in Hb. lia.
Qed.

Lemma value_read_msx_zero (f : Z -> Z) (chn : Z) (i : nat) :
  (forall r, 53 <= r <= 106 -> f r = 0) ->
  value_read (awe_msx_at chn i) 0 0 f = 0.
Proof.
  intros Hf.
  assert (Hgen : forall awe,
            (forall w, In w awe -> w = 0 \/ 53 <= awe_reg w <= 106) ->
            forall fs, value_read awe 0 fs f = 0).
  { induction awe as [|w awe IH]; intros Hin fs; [reflexivity|].
    cbn [value_read].
    destruct (Z.eqb_spec w 0) as [E|E]; [reflexivity|].
    assert (Hw : f (awe_reg w) = 0).
    { destruct (Hin w (or_introl eq_refl)) as [H0|Hr]; [contradiction|].
      apply Hf. exact Hr. }
    destruct (negb (awe_mask w =? 0)).
    - rewrite (field_get_zero f w Hw).
      rewrite Z.shiftl_0_l. change (u64 (Z.lor 0 0)) with 0.
      apply IH. intros w' Hin'. apply Hin. right. exact Hin'.
    - apply IH. intros w' Hin'. apply Hin. right. exact Hin'. }
  apply Hgen. intros w. apply awe_msx_regs.
Qed.

(** X10.  On a chip whose parameter registers 53..106 are all zero, and a
    node whose cache is not valid, [si5338_pll_recalc_rate] and
    [si5338_msynth_recalc_rate] report the rate 0 instead of dividing by the
    zero denominator, and mark the cache valid with the parameters
    [(0, 0, 0)]. *)
Theorem X10_recalc_rate_uninitialised (B : Z) (hw : si5338_hw_data)
    (parent_rate : Z) (f : Z -> Z) (t : list event) :
  valid (params hw) = false ->
  (forall r, 53 <= r <= 106 -> f r = 0) ->
  (exists m',
     si5338_pll_recalc_rate B hw parent_rate (mkRegmap f [] [] t)
     = Some (0, mkHwData (mkParams (0, 0, 0) true) (num hw), m')) /\
  (0 <= num hw <= 3 ->
   exists m',
     si5338_msynth_recalc_rate B hw parent_rate (mkRegmap f [] [] t)
     = Some (0, mkHwData (mkParams (0, 0, 0) true) (num hw), m')).
Proof.
  intros Hv Hf. split.
  - destruct (get_ms_p_quiet (p (params hw)) 4 f t) as [evs Hg]; [lia|].
    rewrite !(value_read_msx_zero f) in Hg by exact Hf.
    rewrite (pll_recalc_rate_load B hw parent_rate _ _ _ _ Hv Hg).
    eexists. reflexivity.
  - intros Hn.
    destruct (get_ms_p_quiet (p (params hw)) (num hw) f t) as [evs Hg];
      [lia|].
    rewrite !(value_read_msx_zero f) in Hg by exact Hf.
    rewrite (msynth_recalc_rate_load B hw parent_rate _ _ _ _ Hv Hg).
    eexists. reflexivity.
Qed.

Lemma X10_recalc_rate_uninitialised_witness :
  let B : Z := 64 in
  let hw : si5338_hw_data := mkHwData (mkParams (0, 0, 0) false) 1 in
  let parent_rate : Z := 25000000 in
  let f : Z -> Z := fun _ => 0 in
  let t : list event := [] in
  (exists m',
     si5338_pll_recalc_rate B hw parent_rate (mkRegmap f [] [] t)
     = Some (0, mkHwData (mkParams (0, 0, 0) true) (num hw), m')) /\
  (0 <= num hw <= 3 ->
   exists m',
     si5338_msynth_recalc_rate B hw parent_rate (mkRegmap f [] [] t)
     = Some (0, mkHwData (mkParams (0, 0, 0) true) (num hw), m')).
Proof.
  cbv zeta.
  apply (X10_recalc_rate_uninitialised
           64 (mkHwData (mkParams (0, 0, 0) false) 1) 25000000 (fun _ => 0)
           []);
    closed_hyp.
Defined.

(** ** The output clocks as rate-setting masters *)

Lemma scale_up_loop_stop (fuel : nat) (out r smax : Z) :
  32 <= r \/ smax <= out ->
  scale_up_loop fuel out r smax = Some (out, r).
Proof.
  intros H.
  assert (E : (r <? 32) && (out <? smax) = false).
  { destruct H as [H|H].
    - replace (r <? 32) with false by (symmetry; apply Z.ltb_ge; lia).
      reflexivity.
    - replace (out <? smax) with false by (symmetry; apply Z.ltb_ge; lia).
      apply andb_false_r. }
  destruct fuel; cbn [scale_up_loop]; rewrite E; reflexivity.
Qed.

Lemma scale_up_loop_step (fuel : nat) (out r smax : Z) :
  0 <= r < 32 -> 0 <= out < smax -> smax <= 2 ^ 63 ->
  scale_up_loop (S fuel) out r smax
  = scale_up_loop fuel (2 * out) (2 * r) smax.
Proof.
  intros Hr Ho Hs. cbn [scale_up_loop].
  replace (r <? 32) with true by (symmetry; apply Z.ltb_lt; lia).
  replace (out <? smax) with true by (symmetry; apply Z.ltb_lt; lia).
  cbn [andb]. rewrite !Z.shiftl_mul_pow2 by lia. change (2 ^ 1) with 2.
  rewrite u64_small by lia. rewrite u8_small by lia.
  f_equal; lia.
Qed.

(** The doubling loop stops at the first power of two that lifts the
    request to [scaled_max], or at 32. *)
Lemma scale_up_loop_value (rate smax : Z) :
  0 <= rate -> smax <= 2 ^ 63 ->
  exists k : nat,
    (k <= 5)%nat /\
    scale_up_loop 5 rate 1 smax
    = Some (rate * 2 ^ Z.of_nat k, 2 ^ Z.of_nat k) /\
    (forall j : nat, (j < k)%nat -> rate * 2 ^ Z.of_nat j < smax) /\
    ((k < 5)%nat -> smax <= rate * 2 ^ Z.of_nat k).
Proof.
  intros Hrate Hs.
  assert (Hj : forall (k j : nat), (j < k)%nat ->
                 rate * 2 ^ Z.of_nat (k - 1) < smax ->
                 rate * 2 ^ Z.of_nat j < smax).
  { intros k j Hlt H.
    apply Z.le_lt_trans with (rate * 2 ^ Z.of_nat (k - 1)); [|exact H].
    apply Z.mul_le_mono_nonneg_l; [lia|].
    apply Z.pow_le_mono_r; lia. }
  destruct (Z.le_gt_cases smax rate) as [H0|H0].
  { exists 0%nat. rewrite scale_up_loop_stop by (right; lia).
    change (2 ^ Z.of_nat 0) with 1. rewrite Z.mul_1_r.
    repeat split; try lia. }
  rewrite scale_up_loop_step by lia.
  destruct (Z.le_gt_cases smax (2 * rate)) as [H1|H1].
  { exists 1%nat. rewrite scale_up_loop_stop by (right; lia).
    change (2 ^ Z.of_nat 1) with 2.
    split; [lia|]. split; [f_equal; f_equal; lia|].
    split; [|lia]. intros j Hlt. apply (Hj 1%nat); [exact Hlt|].
    change (2 ^ Z.of_nat (1 - 1)) with 1. lia. }
  rewrite scale_up_loop_step by lia.
  destruct (Z.le_gt_cases smax (2 * (2 * rate))) as [H2|H2].
  { exists 2%nat. rewrite scale_up_loop_stop by (right; lia).
    change (2 ^ Z.of_nat 2) with 4.
    split; [lia|]. split; [f_equal; f_equal; lia|].
    split; [|lia]. intros j Hlt. apply (Hj 2%nat); [exact Hlt|].
    change (2 ^ Z.of_nat (2 - 1)) with 2. lia. }
  rewrite scale_up_loop_step by lia.
  destruct (Z.le_gt_cases smax (2 * (2 * (2 * rate)))) as [H3|H3].
  { exists 3%nat. rewrite scale_up_loop_stop by (right; lia).
    change (2 ^ Z.of_nat 3) with 8.
    split; [lia|]. split; [f_equal; f_equal; lia|].
    split; [|lia]. intros j Hlt. apply (Hj 3%nat); [exact Hlt|].
    change (2 ^ Z.of_nat (3 - 1)) with 4. lia. }
  rewrite scale_up_loop_step by lia.
  destruct (Z.le_gt_cases smax (2 * (2 * (2 * (2 * rate))))) as [H4|H4].
  { exists 4%nat. rewrite scale_up_loop_stop by (right; lia).
    change (2 ^ Z.of_nat 4) with 16.
    split; [lia|]. split; [f_equal; f_equal; lia|].
    split; [|lia]. intros j Hlt. apply (Hj 4%nat); [exact Hlt|].
    change (2 ^ Z.of_nat (4 - 1)) with 8. lia. }
  rewrite scale_up_loop_step by lia.
  exists 5%nat. rewrite scale_up_loop_stop by (left; lia).
  change (2 ^ Z.of_nat 5) with 32.
  split; [lia|]. split; [f_equal; f_equal; lia|].
  split; [|lia]. intros j Hlt. apply (Hj 5%nat); [exact Hlt|].
  change (2 ^ Z.of_nat (5 - 1)) with 16. lia.
Qed.

Lemma sint_small (B x : Z) :
  0 < B -> 0 <= x < 2 ^ (B - 1) -> sint B x = x.
Proof.
  intros HB Hx. unfold sint. cbv zeta.
  assert (2 ^ B = 2 * 2 ^ (B - 1)).
  { replace B with (Z.succ (B - 1)) at 1 by lia.
    apply Z.pow_succ_r. lia. }
  rewrite Z.mod_small by lia.
  replace (x <? 2 ^ (B - 1)) with true by (symmetry; apply Z.ltb_lt; lia).
  reflexivity.
Qed.

(** X11.  For an output that sets the rate of its parent,
    [si5338_clkout_round_rate] returns the requested rate itself and asks
    the parent for that rate times [2^k], [k <= 5] the least exponent that
    brings it to 5008818 Hz ([FVCOMAX / MSINT_MAX]) or above; when even 32
    times the rate stays below, it asks the parent for 5008818 Hz and
    returns 156525 Hz, not the requested rate.  The parent rate passed in is
    not used. *)
Theorem X11_clkout_round_rate_master (B rate parent_rate : Z) :
  24 <= B <= 64 -> 0 <= rate < 2 ^ (B - 1) ->
  exists k : nat,
    (k <= 5)%nat /\
    (forall j : nat, (j < k)%nat -> rate * 2 ^ Z.of_nat j < 5008818) /\
    ((k < 5)%nat -> 5008818 <= rate * 2 ^ Z.of_nat k) /\
    si5338_clkout_round_rate B true rate parent_rate
    = Some (if rate * 32 <? 5008818 then (156525, 5008818)
            else (rate, rate * 2 ^ Z.of_nat k)).
Proof.
  intros HB Hrate.
  destruct (scale_up_loop_value rate 5008818) as (k & Hk & Hloop & Hlow & Hhi);
    try lia.
  exists k. split; [exact Hk|]. split; [exact Hlow|]. split; [exact Hhi|].
  unfold si5338_clkout_round_rate, clkout_round_r_div.
  change (div64_u64 FVCOMAX MSINT_MAX) with 5008818. rewrite Hloop.
  assert (HB' : 2 ^ 23 <= 2 ^ (B - 1)) by (apply Z.pow_le_mono_r; lia).
  assert (HB2 : 2 ^ B = 2 * 2 ^ (B - 1)).
  { replace B with (Z.succ (B - 1)) at 1 by lia.
    apply Z.pow_succ_r. lia. }
  assert (Hpow : 1 <= 2 ^ Z.of_nat k <= 32).
  { split; [pose proof (Z.pow_pos_nonneg 2 (Z.of_nat k)); lia | ].
    change 32 with (2 ^ 5). apply Z.pow_le_mono_r; lia. }
  destruct (Z.ltb_spec (rate * 2 ^ Z.of_nat k) 5008818) as [Hlt|Hge].
  - assert (k = 5%nat) by (destruct (Nat.eq_dec k 5); [assumption|lia]).
    subst k. change (2 ^ Z.of_nat 5) with 32 in *.
    replace (rate * 32 <? 5008818) with true
      by (symmetry; apply Z.ltb_lt; lia).
    change (32 =? 0) with false. cbv iota.
    unfold ulong. rewrite Z.mod_small by lia.
    rewrite sint_small; [reflexivity|lia|].
    change (5008818 / 32) with 156525. lia.
  - replace (rate * 32 <? 5008818) with false
      by (symmetry; apply Z.ltb_ge; nia).
    replace (2 ^ Z.of_nat k =? 0) with false
      by (symmetry; apply Z.eqb_neq; lia).
    assert (Hout : 0 <= rate * 2 ^ Z.of_nat k < 2 ^ B).
    { split; [nia|].
      destruct k as [|k'].
      - change (2 ^ Z.of_nat 0) with 1. lia.
      - specialize (Hlow k' ltac:(lia)).
        rewrite Nat2Z.inj_succ, Z.pow_succ_r by lia. lia. }
    unfold ulong. rewrite Z.mod_small by lia.
    rewrite Z.div_mul by lia.
    rewrite sint_small by lia. reflexivity.
Qed.

Lemma X11_clkout_round_rate_master_witness :
  let B : Z := 64 in
  let rate : Z := 1000000 in
  let parent_rate : Z := 0 in
  exists k : nat,
    (k <= 5)%nat /\
    (forall j : nat, (j < k)%nat -> rate * 2 ^ Z.of_nat j < 5008818) /\
    ((k < 5)%nat -> 5008818 <= rate * 2 ^ Z.of_nat k) /\
    si5338_clkout_round_rate B true rate parent_rate
    = Some (if rate * 32 <? 5008818 then (156525, 5008818)
            else (rate, rate * 2 ^ Z.of_nat k)).
Proof.
  cbv zeta.
  apply (X11_clkout_round_rate_master 64 1000000 0); lia.
Defined.

(** ** Single fields on a register map without faults *)

Lemma write_field_ok (data w : Z) (f : Z -> Z) (q : list Z)
    (t : list event) :
  word_ok w = true ->
  exists evs,
    write_field data w (mkRegmap f q [] t)
    = (0, mkRegmap (reg_after f w data) q [] (evs ++ t)).
Proof.
  intros Hw. destruct (word_ok_inv w Hw) as (_ & Hm & _).
  destruct (write_field_quiet data w f q t) as [evs H].
  exists evs. rewrite H.
  replace (awe_mask w =? 0) with false by (symmetry; apply Z.eqb_neq; exact Hm).
  reflexivity.
Qed.

Lemma read_field_ok (w : Z) (f : Z -> Z) (t : list event) :
  word_ok w = true ->
  exists evs,
    read_field w (mkRegmap f [] [] t)
    = (field_get f w, mkRegmap f [] [] (evs ++ t)).
Proof.
  intros Hw. destruct (word_ok_inv w Hw) as (_ & Hm & _).
  destruct (read_field_quiet w f t) as [evs H].
  exists evs. rewrite H.
  replace (awe_mask w =? 0) with false by (symmetry; apply Z.eqb_neq; exact Hm).
  reflexivity.
Qed.

(** ** The dividers of the reference and feedback inputs *)

Lemma in_idiv_spec (parent_rate : Z) :
  0 <= parent_rate ->
  let k := in_idiv_from 5 0 parent_rate in
  0 <= k <= 5 /\
  (forall j, 0 <= j < k -> INFREQDIV < parent_rate / 2 ^ j) /\
  (k < 5 -> parent_rate / 2 ^ k <= INFREQDIV).
Proof.
  intros Hp. cbv zeta. cbn [in_idiv_from].
  assert (Hmono : forall i j, 0 <= j <= i ->
             INFREQDIV < parent_rate / 2 ^ i ->
             INFREQDIV < parent_rate / 2 ^ j).
  { intros i j Hij H. apply Z.lt_le_trans with (parent_rate / 2 ^ i);
      [exact H|].
    apply Z.div_le_compat_l; [lia|].
    split; [apply Z.pow_pos_nonneg; lia|apply Z.pow_le_mono_r; lia]. }
  rewrite !Z.shiftr_div_pow2 by lia.
  destruct (Z.leb_spec (parent_rate / 2 ^ 0) INFREQDIV) as [H0|H0].
  { split; [lia|]. split; [intros j Hj; lia|intros _; exact H0]. }
  change (0 + 1) with 1.
  destruct (Z.leb_spec (parent_rate / 2 ^ 1) INFREQDIV) as [H1|H1].
  { split; [lia|]. split; [|intros _; exact H1].
    intros j Hj. apply (Hmono 0); [lia|exact H0]. }
  change (1 + 1) with 2.
  destruct (Z.leb_spec (parent_rate / 2 ^ 2) INFREQDIV) as [H2|H2].
  { split; [lia|]. split; [|intros _; exact H2].
    intros j Hj. apply (Hmono 1); [lia|exact H1]. }
  change (2 + 1) with 3.
  destruct (Z.leb_spec (parent_rate / 2 ^ 3) INFREQDIV) as [H3|H3].
  { split; [lia|]. split; [|intros _; exact H3].
    intros j Hj. apply (Hmono 2); [lia|exact H2]. }
  change (3 + 1) with 4.
  destruct (Z.leb_spec (parent_rate / 2 ^ 4) INFREQDIV) as [H4|H4].
  { split; [lia|]. split; [|intros _; exact H4].
    intros j Hj. apply (Hmono 3); [lia|exact H3]. }
  change (4 + 1) with 5.
  split; [lia|]. split; [|lia].
  intros j Hj. apply (Hmono 4); [lia|exact H4].
Qed.

Lemma set_in_pdiv_power (k chn : Z) :
  0 <= k <= 5 ->
  set_in_pdiv (Z.shiftl 1 k) chn
  = write_field k (if negb (chn =? 0) then AWE_P2DIV else AWE_P1DIV).
Proof.
  intros Hk. unfold set_in_pdiv.
  assert (Hcases : k = 0 \/ k = 1 \/ k = 2 \/ k = 3 \/ k = 4 \/ k = 5) by lia.
  destruct Hcases as [->|[->|[->|[->|[->| ->]]]]]; reflexivity.
Qed.

(** X12.  The input dividers divide by [2^k], [k <= 5] the least exponent
    that brings the parent rate to 40 MHz or below, and by 32 when there is
    none: that is the rate [si5338_divrefclk_recalc_rate] and
    [si5338_divfbclk_recalc_rate] report, it is at most 40 MHz for every
    parent rate below 1280000032 Hz, and on a register map without faults
    [prepare] stores [k] in the divider field (P1DIV, P2DIV). *)
Theorem X12_input_divider (parent_rate : Z) (f : Z -> Z) (t : list event) :
  0 <= parent_rate ->
  exists k,
    0 <= k <= 5 /\
    (forall j, 0 <= j < k -> INFREQDIV < parent_rate / 2 ^ j) /\
    (k < 5 -> parent_rate / 2 ^ k <= INFREQDIV) /\
    si5338_divrefclk_recalc_rate parent_rate = parent_rate / 2 ^ k /\
    si5338_divfbclk_recalc_rate parent_rate = parent_rate / 2 ^ k /\
    (parent_rate < 1280000032 -> parent_rate / 2 ^ k <= INFREQDIV) /\
    (exists f' evs,
       si5338_divrefclk_prepare parent_rate (mkRegmap f [] [] t)
       = (0, mkRegmap f' [] [] (evs ++ t)) /\
       field_get f' AWE_P1DIV = k) /\
    (exists f' evs,
       si5338_divfbclk_prepare parent_rate (mkRegmap f [] [] t)
       = (0, mkRegmap f' [] [] (evs ++ t)) /\
       field_get f' AWE_P2DIV = k).
Proof.
  intros Hp. pose proof (in_idiv_spec parent_rate Hp) as H. cbv zeta in H.
  set (k := in_idiv_from 5 0 parent_rate) in *.
  destruct H as (Hk & Hlow & Hhi).
  exists k. split; [exact Hk|]. split; [exact Hlow|]. split; [exact Hhi|].
  split; [unfold si5338_divrefclk_recalc_rate; fold k;
          apply Z.shiftr_div_pow2; lia|].
  split; [unfold si5338_divfbclk_recalc_rate; fold k;
          apply Z.shiftr_div_pow2; lia|].
  split.
  { intros Hlt. destruct (Z.lt_ge_cases k 5) as [H5|H5]; [apply Hhi; exact H5|].
    replace k with 5 by lia. unfold INFREQDIV.
    apply Z.lt_succ_r. apply Z.div_lt_upper_bound; lia. }
  split.
  - unfold si5338_divrefclk_prepare. fold k.
    rewrite set_in_pdiv_power by exact Hk. cbn [Z.eqb negb].
    destruct (write_field_ok k AWE_P1DIV f [] t eq_refl) as [evs Hw].
    eexists _, evs. split; [exact Hw|].
    rewrite field_get_reg_after_same by reflexivity.
    change (w_nbits AWE_P1DIV) with 3. apply Z.mod_small. lia.
  - unfold si5338_divfbclk_prepare. fold k.
    rewrite set_in_pdiv_power by exact Hk. cbn [Z.eqb negb].
    destruct (write_field_ok k AWE_P2DIV f [] t eq_refl) as [evs Hw].
    eexists _, evs. split; [exact Hw|].
    rewrite field_get_reg_after_same by reflexivity.
    change (w_nbits AWE_P2DIV) with 3. apply Z.mod_small. lia.
Qed.

Lemma X12_input_divider_witness :
  let parent_rate : Z := 100000000 in
  let f : Z -> Z := fun _ => 0 in
  let t : list event := [] in
  exists k,
    0 <= k <= 5 /\
    (forall j, 0 <= j < k -> INFREQDIV < parent_rate / 2 ^ j) /\
    (k < 5 -> parent_rate / 2 ^ k <= INFREQDIV) /\
    si5338_divrefclk_recalc_rate parent_rate = parent_rate / 2 ^ k /\
    si5338_divfbclk_recalc_rate parent_rate = parent_rate / 2 ^ k /\
    (parent_rate < 1280000032 -> parent_rate / 2 ^ k <= INFREQDIV) /\
    (exists f' evs,
       si5338_divrefclk_prepare parent_rate (mkRegmap f [] [] t)
       = (0, mkRegmap f' [] [] (evs ++ t)) /\
       field_get f' AWE_P1DIV = k) /\
    (exists f' evs,
       si5338_divfbclk_prepare parent_rate (mkRegmap f [] [] t)
       = (0, mkRegmap f' [] [] (evs ++ t)) /\
       field_get f' AWE_P2DIV = k).
Proof.
  cbv zeta.
  apply (X12_input_divider 100000000 (fun _ => 0) []); lia.
Defined.

(** ** Input multiplexers *)

Lemma set_in_mux_ok (data : Z) (f : Z -> Z) (t : list event) :
  0 <= data <= 2 ->
  exists data1 evs,
    in_mux1_of data = Some data1 /\
    set_in_mux data (mkRegmap f [] [] t)
    = (0, mkRegmap (reg_after (reg_after f AWE_IN_MUX data) AWE_IN_MUX1 data1)
                   [] [] (evs ++ t)).
Proof.
  intros Hd. unfold set_in_mux.
  assert (Hex : exists data1, in_mux1_of data = Some data1).
  { assert (Hc : data = 0 \/ data = 1 \/ data = 2) by lia.
    destruct Hc as [->|[->| ->]]; eexists; reflexivity. }
  destruct Hex as [data1 E]. rewrite E. exists data1.
  unfold bind.
  destruct (write_field_ok data AWE_IN_MUX f [] t eq_refl) as [e1 H1].
  rewrite H1. change (0 <? 0) with false. cbv iota.
  destruct (write_field_ok data1 AWE_IN_MUX1
              (reg_after f AWE_IN_MUX data) [] (e1 ++ t) eq_refl) as [e2 H2].
  rewrite H2. change (0 <? 0) with false. cbv iota.
  exists (e2 ++ e1). split; [reflexivity|].
  unfold ret. rewrite <- app_assoc. reflexivity.
Qed.

Lemma set_fb_mux_ok (data : Z) (f : Z -> Z) (t : list event) :
  0 <= data <= 2 ->
  exists data1 evs,
    fb_mux1_of data = Some data1 /\
    set_fb_mux data (mkRegmap f [] [] t)
    = (0, mkRegmap (reg_after (reg_after f AWE_FB_MUX data) AWE_FB_MUX1 data1)
                   [] [] (evs ++ t)).
Proof.
  intros Hd. unfold set_fb_mux.
  assert (Hex : exists data1, fb_mux1_of data = Some data1).
  { assert (Hc : data = 0 \/ data = 1 \/ data = 2) by lia.
    destruct Hc as [->|[->| ->]]; eexists; reflexivity. }
  destruct Hex as [data1 E]. rewrite E. exists data1.
  unfold bind.
  destruct (write_field_ok data AWE_FB_MUX f [] t eq_refl) as [e1 H1].
  rewrite H1. change (0 <? 0) with false. cbv iota.
  destruct (write_field_ok data1 AWE_FB_MUX1
              (reg_after f AWE_FB_MUX data) [] (e1 ++ t) eq_refl) as [e2 H2].
  rewrite H2. change (0 <? 0) with false. cbv iota.
  exists (e2 ++ e1). split; [reflexivity|].
  unfold ret. rewrite <- app_assoc. reflexivity.
Qed.

Lemma in_mux_readback (f : Z -> Z) (data data1 : Z) :
  0 <= data <= 2 ->
  field_get (reg_after (reg_after f AWE_IN_MUX data) AWE_IN_MUX1 data1)
            AWE_IN_MUX = data.
Proof.
  intros Hd.
  rewrite field_get_reg_after_other by reflexivity.
  rewrite field_get_reg_after_same by reflexivity.
  change (w_nbits AWE_IN_MUX) with 2. apply Z.mod_small. lia.
Qed.

Lemma fb_mux_readback (f : Z -> Z) (data data1 : Z) :
  0 <= data <= 2 ->
  field_get (reg_after (reg_after f AWE_FB_MUX data) AWE_FB_MUX1 data1)
            AWE_FB_MUX = data.
Proof.
  intros Hd.
  rewrite field_get_reg_after_other by reflexivity.
  rewrite field_get_reg_after_same by reflexivity.
  change (w_nbits AWE_FB_MUX) with 2. apply Z.mod_small. lia.
Qed.

Ltac eqb_true := rewrite Z.eqb_refl.
Ltac eqb_false x y :=
  replace (x =? y) with false by (symmetry; apply Z.eqb_neq; lia).

Lemma refclk_reparent_ok (b : dt_bindings) (idx : Z) (f : Z -> Z)
    (t : list event) :
  ref_sources_ok b -> 0 <= idx <= 2 ->
  let src := if idx =? 0 then SI5338_REF_SRC_CLKIN12 b
             else if idx =? 1 then SI5338_REF_SRC_CLKIN3 b
             else SI5338_REF_SRC_XTAL b in
  exists data1 evs,
    si5338_refclk_reparent b src (mkRegmap f [] [] t)
    = ((0, idx),
       mkRegmap (reg_after (reg_after f AWE_IN_MUX idx) AWE_IN_MUX1 data1)
                [] [] (evs ++ t)).
Proof.
  intros (H12 & H3 & Hx & D1 & D2 & D3) Hidx src.
  destruct (set_in_mux_ok idx f t Hidx) as (data1 & evs & _ & Hset).
  exists data1, evs. unfold si5338_refclk_reparent.
  assert (Hc : idx = 0 \/ idx = 1 \/ idx = 2) by lia.
  destruct Hc as [->|[->| ->]]; cbn [Z.eqb Pos.eqb] in src; subst src;
    cbv zeta;
    [rewrite (u8_small (SI5338_REF_SRC_CLKIN12 b)) by lia
    |rewrite (u8_small (SI5338_REF_SRC_CLKIN3 b)) by lia
    |rewrite (u8_small (SI5338_REF_SRC_XTAL b)) by lia].
  - eqb_false (SI5338_REF_SRC_CLKIN12 b) (SI5338_REF_SRC_XTAL b).
    eqb_true. unfold bind. rewrite Hset. reflexivity.
  - eqb_false (SI5338_REF_SRC_CLKIN3 b) (SI5338_REF_SRC_XTAL b).
    eqb_false (SI5338_REF_SRC_CLKIN3 b) (SI5338_REF_SRC_CLKIN12 b).
    eqb_true. unfold bind. rewrite Hset. reflexivity.
  - eqb_true. unfold bind. rewrite Hset. reflexivity.
Qed.

(** Selecting one of its three parents for refclk and asking for the
    parent gives the index back. *)
Lemma refclk_parent_roundtrip (b : dt_bindings) (hw : si5338_hw_data)
    (index : Z) (f : Z -> Z) (t : list event) :
  ref_sources_ok b -> 0 <= index <= 2 ->
  exists f' evs,
    si5338_refclk_set_parent b hw index (mkRegmap f [] [] t)
    = ((0, mkHwData (params hw) index), mkRegmap f' [] [] (evs ++ t)) /\
    forall t', exists evs',
      si5338_refclk_get_parent (mkRegmap f' [] [] t')
      = (index, mkRegmap f' [] [] (evs' ++ t')).
Proof.
  intros Hb Hidx.
  destruct (refclk_reparent_ok b index f t Hb Hidx) as (data1 & evs & Hre).
  cbv zeta in Hre.
  exists (reg_after (reg_after f AWE_IN_MUX index) AWE_IN_MUX1 data1), evs.
  split.
  - unfold si5338_refclk_set_parent. rewrite u8_small by lia.
    assert (Hc : index = 0 \/ index = 1 \/ index = 2) by lia.
    destruct Hc as [->|[->| ->]]; cbn [Z.eqb Pos.eqb] in Hre |- *;
      unfold bind; rewrite Hre; reflexivity.
  - intros t'. unfold si5338_refclk_get_parent, bind.
    destruct (read_field_ok AWE_IN_MUX
                (reg_after (reg_after f AWE_IN_MUX index) AWE_IN_MUX1 data1)
                t' eq_refl) as [evs' Hr].
    exists evs'. rewrite Hr, in_mux_readback by exact Hidx.
    unfold ret. rewrite u8_small by lia. reflexivity.
Qed.

Lemma fbclk_reparent_ok (b : dt_bindings) (idx : Z) (f : Z -> Z)
    (t : list event) :
  fb_sources_ok b -> 0 <= idx <= 2 ->
  let src := if idx =? 0 then SI5338_FB_SRC_CLKIN4 b
             else if idx =? 1 then SI5338_FB_SRC_CLKIN56 b
             else SI5338_FB_SRC_NOCLK b in
  let mux := if idx =? 0 then 1 else if idx =? 1 then 0 else 2 in
  exists data1 evs,
    si5338_fbclk_reparent b src (mkRegmap f [] [] t)
    = ((0, idx),
       mkRegmap (reg_after (reg_after f AWE_FB_MUX mux) AWE_FB_MUX1 data1)
                [] [] (evs ++ t)).
Proof.
  intros (H4 & H56 & Hn & D1 & D2 & D3) Hidx src mux.
  assert (Hmux : 0 <= mux <= 2).
  { unfold mux. destruct (idx =? 0); [lia|]. destruct (idx =? 1); lia. }
  destruct (set_fb_mux_ok mux f t Hmux) as (data1 & evs & _ & Hset).
  exists data1, evs. unfold si5338_fbclk_reparent.
  assert (Hc : idx = 0 \/ idx = 1 \/ idx = 2) by lia.
  destruct Hc as [->|[->| ->]]; cbn [Z.eqb Pos.eqb] in src, mux; subst src mux;
    cbv zeta;
    [rewrite (u8_small (SI5338_FB_SRC_CLKIN4 b)) by lia
    |rewrite (u8_small (SI5338_FB_SRC_CLKIN56 b)) by lia
    |rewrite (u8_small (SI5338_FB_SRC_NOCLK b)) by lia].
  - eqb_true. unfold bind. rewrite Hset. reflexivity.
  - eqb_false (SI5338_FB_SRC_CLKIN56 b) (SI5338_FB_SRC_CLKIN4 b).
    eqb_true. unfold bind. rewrite Hset. reflexivity.
  - eqb_false (SI5338_FB_SRC_NOCLK b) (SI5338_FB_SRC_CLKIN4 b).
    eqb_false (SI5338_FB_SRC_NOCLK b) (SI5338_FB_SRC_CLKIN56 b).
    eqb_true. unfold bind. rewrite Hset. reflexivity.
Qed.

(** The same for fbclk. *)
Lemma fbclk_parent_roundtrip (b : dt_bindings) (hw : si5338_hw_data)
    (index : Z) (f : Z -> Z) (t : list event) :
  fb_sources_ok b -> 0 <= index <= 2 ->
  exists f' evs,
    si5338_fbclk_set_parent b hw index (mkRegmap f [] [] t)
    = ((0, mkHwData (params hw) index), mkRegmap f' [] [] (evs ++ t)) /\
    forall t', exists evs',
      si5338_fbclk_get_parent (mkRegmap f' [] [] t')
      = (index, mkRegmap f' [] [] (evs' ++ t')).
Proof.
  intros Hb Hidx.
  destruct (fbclk_reparent_ok b index f t Hb Hidx) as (data1 & evs & Hre).
  cbv zeta in Hre.
  set (mux := if index =? 0 then 1 else if index =? 1 then 0 else 2) in *.
  assert (Hmux : 0 <= mux <= 2).
  { unfold mux. destruct (index =? 0); [lia|]. destruct (index =? 1); lia. }
  exists (reg_after (reg_after f AWE_FB_MUX mux) AWE_FB_MUX1 data1), evs.
  split.
  - unfold si5338_fbclk_set_parent. rewrite u8_small by lia.
    assert (Hc : index = 0 \/ index = 1 \/ index = 2) by lia.
    destruct Hc as [->|[->| ->]]; cbn [Z.eqb Pos.eqb] in Hre |- *;
      unfold bind; rewrite Hre; reflexivity.
  - intros t'. unfold si5338_fbclk_get_parent, bind.
    destruct (read_field_ok AWE_FB_MUX
                (reg_after (reg_after f AWE_FB_MUX mux) AWE_FB_MUX1 data1)
                t' eq_refl) as [evs' Hr].
    exists evs'. rewrite Hr, fb_mux_readback by exact Hmux.
    assert (Hc : index = 0 \/ index = 1 \/ index = 2) by lia.
    destruct Hc as [->|[->| ->]]; reflexivity.
Qed.

Lemma set_in_pfd_ref_fb_ok (b : dt_bindings) (val chn : Z) (f : Z -> Z)
    (q : list Z) (t : list event) :
  0 <= val < 256 -> val <= SI5338_PFD_IN_REF_NOCLK b ->
  let w := if negb (chn =? 0) then AWE_PFD_FB else AWE_PFD_REF in
  exists evs,
    set_in_pfd_ref_fb b val chn (mkRegmap f q [] t)
    = (0, mkRegmap (reg_after f w val) q [] (evs ++ t)).
Proof.
  intros Hv Hle w. unfold set_in_pfd_ref_fb. rewrite u8_small by lia.
  replace (SI5338_PFD_IN_REF_NOCLK b <? val) with false
    by (symmetry; apply Z.ltb_ge; lia).
  fold w. unfold bind.
  assert (Hw : word_ok w = true) by (unfold w; destruct (chn =? 0); reflexivity).
  destruct (write_field_ok val w f q t Hw) as [evs H].
  exists evs. rewrite H. reflexivity.
Qed.

(** X13.  For selector values of the binding header that are three
    different bytes, [set_parent] of refclk and of fbclk with an index 0..2
    succeeds on a register map without faults, records the index in the
    node, and [get_parent] then returns that index; an index above 2 is
    refused with [-EINVAL], the node and the register map left as they
    were. *)
Theorem X13_input_parent (b : dt_bindings) (hw : si5338_hw_data)
    (index : Z) (f : Z -> Z) (t : list event) :
  ref_sources_ok b -> fb_sources_ok b -> 0 <= index < 256 ->
  (index <= 2 ->
   (exists f' evs,
      si5338_refclk_set_parent b hw index (mkRegmap f [] [] t)
      = ((0, mkHwData (params hw) index), mkRegmap f' [] [] (evs ++ t)) /\
      forall t', exists evs',
        si5338_refclk_get_parent (mkRegmap f' [] [] t')
        = (index, mkRegmap f' [] [] (evs' ++ t'))) /\
   (exists f' evs,
      si5338_fbclk_set_parent b hw index (mkRegmap f [] [] t)
      = ((0, mkHwData (params hw) index), mkRegmap f' [] [] (evs ++ t)) /\
      forall t', exists evs',
        si5338_fbclk_get_parent (mkRegmap f' [] [] t')
        = (index, mkRegmap f' [] [] (evs' ++ t')))) /\
  (2 < index ->
   forall m,
     si5338_refclk_set_parent b hw index m = ((- EINVAL, hw), m) /\
     si5338_fbclk_set_parent b hw index m = ((- EINVAL, hw), m)).
Proof.
  intros Hr Hf Hidx. split.
  - intros H2. split.
    + apply refclk_parent_roundtrip; [exact Hr|lia].
    + apply fbclk_parent_roundtrip; [exact Hf|lia].
  - intros H2 m.
    unfold si5338_refclk_set_parent, si5338_fbclk_set_parent.
    rewrite u8_small by lia.
    replace (index =? 0) with false by (symmetry; apply Z.eqb_neq; lia).
    replace (index =? 1) with false by (symmetry; apply Z.eqb_neq; lia).
    replace (index =? 2) with false by (symmetry; apply Z.eqb_neq; lia).
    split; reflexivity.
Qed.

Lemma X13_input_parent_witness :
  let b : dt_bindings := mkDtBindings 0 1 2 0 1 2 5 0 2 in
  let hw : si5338_hw_data := mkHwData (mkParams (0, 0, 0) false) 1 in
  let index : Z := 1 in
  let f : Z -> Z := fun _ => 0 in
  let t : list event := [] in
  (index <= 2 ->
   (exists f' evs,
      si5338_refclk_set_parent b hw index (mkRegmap f [] [] t)
      = ((0, mkHwData (params hw) index), mkRegmap f' [] [] (evs ++ t)) /\
      forall t', exists evs',
        si5338_refclk_get_parent (mkRegmap f' [] [] t')
        = (index, mkRegmap f' [] [] (evs' ++ t'))) /\
   (exists f' evs,
      si5338_fbclk_set_parent b hw index (mkRegmap f [] [] t)
      = ((0, mkHwData (params hw) index), mkRegmap f' [] [] (evs ++ t)) /\
      forall t', exists evs',
        si5338_fbclk_get_parent (mkRegmap f' [] [] t')
        = (index, mkRegmap f' [] [] (evs' ++ t')))) /\
  (2 < index ->
   forall m,
     si5338_refclk_set_parent b hw index m = ((- EINVAL, hw), m) /\
     si5338_fbclk_set_parent b hw index m = ((- EINVAL, hw), m)).
Proof.
  cbv zeta.
  apply (X13_input_parent
           (mkDtBindings 0 1 2 0 1 2 5 0 2)
           (mkHwData (mkParams (0, 0, 0) false) 1) 1 (fun _ => 0) []);
    closed_hyp.
Defined.

(** X14.  [si5338_pll_set_parent] with one of the six selector values the
    driver knows (at most 7 and at most the no-clock selector) succeeds on a
    register map without faults and [si5338_pll_get_parent] then returns
    that selector; any other index is refused with [-EINVAL] and nothing is
    written. *)
Theorem X14_pll_parent (b : dt_bindings) (sel : pfd_selectors)
    (index : Z) (f : Z -> Z) (t : list event) :
  0 <= index < 256 ->
  (pll_source b sel index = true ->
   index <= 7 -> index <= SI5338_PFD_IN_REF_NOCLK b ->
   exists f' evs,
     si5338_pll_set_parent b sel index (mkRegmap f [] [] t)
     = ((0, index), mkRegmap f' [] [] (evs ++ t)) /\
     forall t', exists evs',
       si5338_pll_get_parent (mkRegmap f' [] [] t')
       = ((index, index), mkRegmap f' [] [] (evs' ++ t'))) /\
  (pll_source b sel index = false ->
   forall m,
     si5338_pll_set_parent b sel index m
     = ((- EINVAL, u8 (SI5338_PFD_IN_REF_NOCLK b)), m)).
Proof.
  intros Hidx. split.
  - intros Hsrc H7 Hle.
    destruct (set_in_pfd_ref_fb_ok b index 0 f [] t ltac:(lia) Hle)
      as [evs Hset].
    cbv zeta in Hset. cbn [Z.eqb negb] in Hset.
    exists (reg_after f AWE_PFD_REF index), evs. split.
    + unfold si5338_pll_set_parent, si5338_pll_reparent.
      rewrite !(u8_small index) by lia.
      unfold pll_source in Hsrc. rewrite Hsrc.
      unfold bind. rewrite Hset. reflexivity.
    + intros t'. unfold si5338_pll_get_parent, get_in_pfd_ref_fb, bind.
      cbn [Z.eqb negb].
      destruct (read_field_ok AWE_PFD_REF (reg_after f AWE_PFD_REF index) t'
                  eq_refl) as [evs' Hr].
      exists evs'. rewrite Hr.
      rewrite field_get_reg_after_same by reflexivity.
      change (w_nbits AWE_PFD_REF) with 3.
      rewrite Z.mod_small by lia.
      replace (index <? 0) with false by (symmetry; apply Z.ltb_ge; lia).
      unfold ret. rewrite u8_small by lia. reflexivity.
  - intros Hsrc m. unfold si5338_pll_set_parent, si5338_pll_reparent.
    rewrite !(u8_small index) by lia.
    unfold pll_source in Hsrc. rewrite Hsrc. reflexivity.
Qed.

Lemma X14_pll_parent_witness :
  let b : dt_bindings := mkDtBindings 0 1 2 0 1 2 5 0 2 in
  let sel : pfd_selectors := mkPfdSelectors 0 1 2 3 4 1 0 3 2 in
  let index : Z := 2 in
  let f : Z -> Z := fun _ => 0 in
  let t : list event := [] in
  (pll_source b sel index = true ->
   index <= 7 -> index <= SI5338_PFD_IN_REF_NOCLK b ->
   exists f' evs,
     si5338_pll_set_parent b sel index (mkRegmap f [] [] t)
     = ((0, index), mkRegmap f' [] [] (evs ++ t)) /\
     forall t', exists evs',
       si5338_pll_get_parent (mkRegmap f' [] [] t')
       = ((index, index), mkRegmap f' [] [] (evs' ++ t'))) /\
  (pll_source b sel index = false ->
   forall m,
     si5338_pll_set_parent b sel index m
     = ((- EINVAL, u8 (SI5338_PFD_IN_REF_NOCLK b)), m)).
Proof.
  cbv zeta.
  apply (X14_pll_parent
           (mkDtBindings 0 1 2 0 1 2 5 0 2)
           (mkPfdSelectors 0 1 2 3 4 1 0 3 2) 2 (fun _ => 0) []);
    lia.
Defined.

(** ** Crystal and input limits *)

(** X15.  [si5338_xtal_prepare] refuses a crystal below 8 MHz or above
    30 MHz with [-EINVAL] and writes nothing; inside that range it stores the
    band of the crystal (0 up to 11 MHz, 1 up to 19 MHz, 2 up to 26 MHz, 3
    above) in XTAL_FREQ and leaves every field apart from it as it
    was. *)
Theorem X15_xtal_prepare (rate : Z) (f : Z -> Z) (t : list event) :
  (rate < XTAL_FREQMIN \/ XTAL_FREQMAX < rate ->
   forall m, si5338_xtal_prepare rate m = (- EINVAL, m)) /\
  (XTAL_FREQMIN <= rate <= XTAL_FREQMAX ->
   exists f' evs,
     si5338_xtal_prepare rate (mkRegmap f [] [] t)
     = (0, mkRegmap f' [] [] (evs ++ t)) /\
     field_get f' AWE_XTAL_FREQ
     = (if rate <=? 11000000 then 0
        else if rate <=? 19000000 then 1
        else if rate <=? 26000000 then 2 else 3) /\
     (forall w, apart w AWE_XTAL_FREQ = true ->
                field_get f' w = field_get f w)).
Proof.
  unfold XTAL_FREQMIN, XTAL_FREQMAX. split.
  - intros H m. unfold si5338_xtal_prepare, XTAL_FREQMIN, XTAL_FREQMAX.
    destruct (Z.ltb_spec rate 8000000); [reflexivity|].
    destruct (Z.ltb_spec 30000000 rate); [reflexivity|lia].
  - intros H. unfold si5338_xtal_prepare, XTAL_FREQMIN, XTAL_FREQMAX.
    replace (rate <? 8000000) with false by (symmetry; apply Z.ltb_ge; lia).
    replace (30000000 <? rate) with false by (symmetry; apply Z.ltb_ge; lia).
    set (mode := if 26000000 <? rate then 3
                 else if 19000000 <? rate then 2
                 else if 11000000 <? rate then 1 else 0).
    destruct (write_field_ok mode AWE_XTAL_FREQ f [] t eq_refl) as [evs Hw].
    eexists _, evs. split; [exact Hw|]. split.
    + rewrite field_get_reg_after_same by reflexivity.
      change (w_nbits AWE_XTAL_FREQ) with 2. unfold mode.
      destruct (Z.ltb_spec 26000000 rate);
        destruct (Z.ltb_spec 19000000 rate);
        destruct (Z.ltb_spec 11000000 rate);
        destruct (Z.leb_spec rate 11000000);
        destruct (Z.leb_spec rate 19000000);
        destruct (Z.leb_spec rate 26000000); try lia; reflexivity.
    + intros w Hw'. apply field_get_reg_after_other. exact Hw'.
Qed.

(** X16.  [si5338_clkin_recalc_rate] passes a parent rate between 5 MHz
    and the limit of the input (710 MHz for IN1/2 and IN5/6, 200 MHz for the
    others) through unchanged; a rate outside gives [-EINVAL] through the
    [unsigned long] result, that is the rate [2^B - 22], which is above the
    limit. *)
Theorem X16_clkin_recalc_rate (B : Z) (b : dt_bindings)
    (hw : si5338_hw_data) (parent_rate : Z) :
  32 <= B <= 64 -> 0 <= parent_rate < 2 ^ B ->
  let max_rate :=
    if (num hw =? SI5338_INPUT_CLK12 b) || (num hw =? SI5338_INPUT_CLK56 b)
    then INFREQMAX else INFREQMAX34 in
  (INFREQMIN <= parent_rate <= max_rate ->
   si5338_clkin_recalc_rate B b hw parent_rate = parent_rate) /\
  (parent_rate < INFREQMIN \/ max_rate < parent_rate ->
   si5338_clkin_recalc_rate B b hw parent_rate = 2 ^ B - EINVAL /\
   max_rate < si5338_clkin_recalc_rate B b hw parent_rate).
Proof.
  intros HB Hp max_rate.
  assert (H32 : 2 ^ 32 <= 2 ^ B) by (apply Z.pow_le_mono_r; lia).
  assert (Hmax : 0 <= max_rate <= 710000000).
  { unfold max_rate, INFREQMAX, INFREQMAX34.
    destruct ((num hw =? SI5338_INPUT_CLK12 b)
              || (num hw =? SI5338_INPUT_CLK56 b)); lia. }
  assert (Herr : ulong B (- EINVAL) = 2 ^ B - EINVAL).
  { unfold ulong, EINVAL.
    rewrite <- (Z.mod_add _ 1 (2 ^ B)) by lia.
    rewrite Z.mod_small by lia. lia. }
  unfold si5338_clkin_recalc_rate. fold max_rate.
  rewrite (ulong_small B max_rate) by lia. rewrite Herr.
  unfold INFREQMIN, EINVAL in *. split.
  - intros H.
    replace (parent_rate <? 5000000) with false
      by (symmetry; apply Z.ltb_ge; lia).
    replace (max_rate <? parent_rate) with false
      by (symmetry; apply Z.ltb_ge; lia).
    reflexivity.
  - intros H.
    destruct (Z.ltb_spec parent_rate 5000000); [split; [reflexivity|lia]|].
    destruct (Z.ltb_spec max_rate parent_rate); [split; [reflexivity|lia]|].
    lia.
Qed.

Lemma X16_clkin_recalc_rate_witness :
  let B : Z := 64 in
  let b : dt_bindings := mkDtBindings 0 1 2 0 1 2 5 0 2 in
  let hw : si5338_hw_data := mkHwData (mkParams (0, 0, 0) false) 1 in
  let parent_rate : Z := 25000000 in
  let max_rate :=
    if (num hw =? SI5338_INPUT_CLK12 b) || (num hw =? SI5338_INPUT_CLK56 b)
    then INFREQMAX else INFREQMAX34 in
  (INFREQMIN <= parent_rate <= max_rate ->
   si5338_clkin_recalc_rate B b hw parent_rate = parent_rate) /\
  (parent_rate < INFREQMIN \/ max_rate < parent_rate ->
   si5338_clkin_recalc_rate B b hw parent_rate = 2 ^ B - EINVAL /\
   max_rate < si5338_clkin_recalc_rate B b hw parent_rate).
Proof.
  cbv zeta.
  apply (X16_clkin_recalc_rate
           64 (mkDtBindings 0 1 2 0 1 2 5 0 2)
           (mkHwData (mkParams (0, 0, 0) false) 1) 25000000);
    closed_hyp.
Defined.

(** ** The fields of the output channels *)

Lemma regs_after_write_single (data w : Z) (f : Z -> Z) :
  w <> 0 ->
  regs_after_write data [w] f
  = if awe_mask w =? 0 then f else reg_after f w data.
Proof.
  intros Hw. cbn [regs_after_write].
  replace (w =? 0) with false by (symmetry; apply Z.eqb_neq; exact Hw).
  destruct (awe_mask w =? 0); reflexivity.
Qed.

Lemma field_get_range (f : Z -> Z) (w : Z) : 0 <= field_get f w < 2 ^ 8.
Proof.
  split; [apply field_get_nonneg|].
  unfold field_get.
  pose proof (awe_mask_range w) as Hm.
  assert (Hl : 0 <= Z.land (u8 (f (awe_reg w))) (awe_mask w) < 2 ^ 8).
  { replace (Z.land (u8 (f (awe_reg w))) (awe_mask w))
      with (Z.land (f (awe_reg w)) (awe_mask w) mod 2 ^ 8);
      [apply Z.mod_pos_bound; lia|].
    unfold u8. rewrite <- !Z.land_ones by lia.
    rewrite <- !Z.land_assoc. f_equal. apply Z.land_comm. }
  destruct (Z.le_gt_cases 0 (w_nshift w)) as [Hs|Hs].
  - rewrite Z.shiftr_div_pow2 by exact Hs.
    apply Z.le_lt_trans with (Z.land (u8 (f (awe_reg w))) (awe_mask w));
      [|lia].
    apply Z.div_le_upper_bound; [apply Z.pow_pos_nonneg; lia|].
    assert (1 <= 2 ^ w_nshift w)
      by (pose proof (Z.pow_pos_nonneg 2 (w_nshift w)); lia).
    nia.
  - exfalso. unfold w_nshift in Hs.
    assert (Hge : forall fuel m n, 0 <= n -> 0 <= find_nshift fuel m n).
    { induction fuel as [|fuel IH]; intros m n Hn; cbn [find_nshift]; [lia|].
      destruct (Z.land (Z.shiftl 1 n) m =? 0); [apply IH; lia|lia]. }
    pose proof (Hge 8%nat (awe_mask w) 0 ltac:(lia)). lia.
Qed.

Lemma value_read_single (w : Z) (f : Z -> Z) :
  w <> 0 ->
  value_read [w] 0 0 f = if awe_mask w =? 0 then 0 else field_get f w.
Proof.
  intros Hw. cbn [value_read].
  replace (w =? 0) with false by (symmetry; apply Z.eqb_neq; exact Hw).
  destruct (awe_mask w =? 0); cbn [negb]; [reflexivity|].
  rewrite Z.shiftl_0_r, Z.lor_0_l.
  pose proof (field_get_range f w). apply u64_small. lia.
Qed.

(** A single field written on a register map without faults, in the terms
    of the descriptors. *)
Lemma write_field_desc (data w : Z) (f : Z -> Z) (q : list Z)
    (t : list event) :
  w <> 0 ->
  exists evs,
    write_field data w (mkRegmap f q [] t)
    = (0, mkRegmap (regs_after_write data [w] f) q [] (evs ++ t)).
Proof.
  intros Hw. destruct (write_field_quiet data w f q t) as [evs H].
  exists evs. rewrite H, regs_after_write_single by exact Hw. reflexivity.
Qed.

Lemma read_field_desc (w : Z) (f : Z -> Z) (t : list event) :
  w <> 0 ->
  exists evs,
    read_field w (mkRegmap f [] [] t)
    = (value_read [w] 0 0 f, mkRegmap f [] [] (evs ++ t)).
Proof.
  intros Hw. destruct (read_field_quiet w f t) as [evs H].
  exists evs. rewrite H, value_read_single by exact Hw. reflexivity.
Qed.

Lemma chn_cases (chn : Z) :
  0 <= chn <= 3 -> chn = 0 \/ chn = 1 \/ chn = 2 \/ chn = 3.
Proof. lia. Qed.

Ltac each_chn chn H :=
  destruct (chn_cases chn H) as [->|[->|[->| ->]]].

(** The register file a setter leaves: the one it found, when it rejects
    its argument, or the one the write of some value leaves. *)
Lemma out_set_effect (fld : out_field) (arg chn : Z) (f : Z -> Z)
    (t : list event) :
  0 <= chn <= 3 ->
  exists rc F evs,
    out_set fld arg chn (mkRegmap f [] [] t)
    = (rc, mkRegmap F [] [] (evs ++ t)) /\
    (F = f \/ exists v, F = regs_after_write v (out_field_desc fld chn) f).
Proof.
  intros Hc.
  assert (Hv : (_verify_output_channel chn <? 0) = false).
  { unfold _verify_output_channel.
    replace (chn <? 0) with false by (symmetry; apply Z.ltb_ge; lia).
    replace (3 <? chn) with false by (symmetry; apply Z.ltb_ge; lia).
    reflexivity. }
  assert (Hwf : forall data w, w <> 0 ->
            exists rc F evs,
              write_field data w (mkRegmap f [] [] t)
              = (rc, mkRegmap F [] [] (evs ++ t)) /\
              (F = f \/ exists v, F = regs_after_write v [w] f)).
  { intros data w Hw. destruct (write_field_desc data w f [] t Hw) as [evs H].
    exists 0, (regs_after_write data [w] f), evs.
    split; [exact H|]. right. exists data. reflexivity. }
  assert (Hrej : forall rc : Z,
            exists rc' F evs,
              ret rc (mkRegmap f [] [] t)
              = (rc', mkRegmap F [] [] (evs ++ t)) /\
              (F = f \/ exists v, F = regs_after_write v
                                       (out_field_desc fld chn) f)).
  { intros rc. exists rc, f, []. split; [reflexivity|]. left. reflexivity. }
  destruct fld; cbn [out_set out_field_desc].
  - unfold set_out_mux. rewrite Hv.
    destruct ((arg <? 0) || (7 <? arg)); [apply Hrej|].
    apply Hwf. each_chn chn Hc; discriminate.
  - unfold set_out_div. rewrite Hv. unfold out_div_values.
    cbn [set_out_div_from].
    assert (Hw : nth (Z.to_nat chn) awe_rdiv_k 0 <> 0)
      by (each_chn chn Hc; discriminate).
    assert (Hstep : forall val,
              exists rc F evs,
                (rc <- write_field val (nth (Z.to_nat chn) awe_rdiv_k 0) ;;
                 if rc <? 0 then ret rc else ret 0) (mkRegmap f [] [] t)
                = (rc, mkRegmap F [] [] (evs ++ t)) /\
                (F = f \/ exists v,
                    F = regs_after_write v [nth (Z.to_nat chn) awe_rdiv_k 0] f)).
    { intros val. destruct (write_field_desc val _ f [] t Hw) as [evs H].
      exists 0, (regs_after_write val [nth (Z.to_nat chn) awe_rdiv_k 0] f), evs.
      split; [unfold bind; rewrite H; reflexivity|].
      right. exists val. reflexivity. }
    destruct (1 =? arg); [apply Hstep|].
    destruct (2 =? arg); [apply Hstep|].
    destruct (4 =? arg); [apply Hstep|].
    destruct (8 =? arg); [apply Hstep|].
    destruct (16 =? arg); [apply Hstep|].
    destruct (32 =? arg); [apply Hstep|].
    apply Hrej.
  - unfold set_out_disable. rewrite Hv.
    apply Hwf. each_chn chn Hc; discriminate.
  - unfold si5338_clkout_set_disable_state. rewrite Hv.
    destruct ((arg <? 0) || (3 <? arg)); [apply Hrej|].
    apply Hwf. each_chn chn Hc; discriminate.
  - unfold set_drv_type. rewrite Hv.
    destruct ((arg <? 0) || (7 <? arg)); [apply Hrej|].
    apply Hwf. each_chn chn Hc; discriminate.
  - unfold set_drv_vdd. rewrite Hv.
    destruct ((arg <? 0) || (7 <? arg)); [apply Hrej|].
    apply Hwf. each_chn chn Hc; discriminate.
  - unfold set_drv_trim_any. rewrite Hv.
    destruct ((arg <? 0) || (31 <? arg)); [apply Hrej|].
    destruct (write_multireg64_quiet (nth (Z.to_nat chn) awe_drv_trim [])
                (u64 arg) f [] t) as [evs H].
    eexists 0, _, evs. split; [exact H|]. right. eexists. reflexivity.
  - unfold set_drv_invert. rewrite Hv.
    destruct ((arg <? 0) || (3 <? arg)); [apply Hrej|].
    apply Hwf. each_chn chn Hc; discriminate.
  - unfold set_drv_powerdown. rewrite Hv.
    apply Hwf. each_chn chn Hc; discriminate.
  - unfold set_ms_powerdown.
    replace (chn <? 0) with false by (symmetry; apply Z.ltb_ge; lia).
    replace (3 <? chn) with false by (symmetry; apply Z.ltb_ge; lia).
    cbn [orb]. apply Hwf. each_chn chn Hc; discriminate.
Qed.

Lemma value_read_nonneg (awe : list Z) (f : Z -> Z) :
  forall d s, 0 <= value_read awe d s f \/ value_read awe d s f = d.
Proof.
  induction awe as [|w awe IH]; intros d s; cbn [value_read];
    [right; reflexivity|].
  destruct (w =? 0); [right; reflexivity|].
  destruct (negb (awe_mask w =? 0)); [|apply IH].
  destruct (IH (u64 (Z.lor d (Z.shiftl (field_get f w) s)))
               (s + w_nbits w)) as [H|H].
  - left. exact H.
  - left. rewrite H. apply Z.mod_pos_bound. lia.
Qed.

(** What a getter returns on a register map without faults. *)
Lemma out_get_value (fld : out_field) (chn : Z) (F : Z -> Z)
    (t : list event) :
  0 <= chn <= 3 ->
  exists evs,
    out_get fld chn (mkRegmap F [] [] t)
    = (out_post fld (value_read (out_field_desc fld chn) 0 0 F),
       mkRegmap F [] [] (evs ++ t)).
Proof.
  intros Hc.
  assert (Hv : (_verify_output_channel chn <? 0) = false).
  { unfold _verify_output_channel.
    replace (chn <? 0) with false by (symmetry; apply Z.ltb_ge; lia).
    replace (3 <? chn) with false by (symmetry; apply Z.ltb_ge; lia).
    reflexivity. }
  destruct fld; cbn [out_get out_field_desc out_post].
  - unfold get_out_mux. rewrite Hv.
    apply read_field_desc. each_chn chn Hc; discriminate.
  - unfold get_out_div. rewrite Hv. unfold bind.
    destruct (read_field_desc (nth (Z.to_nat chn) awe_rdiv_k 0) F t)
      as [evs H]; [each_chn chn Hc; discriminate|].
    exists evs. rewrite H.
    set (v := value_read _ 0 0 F).
    assert (Hv0 : 0 <= v).
    { destruct (value_read_nonneg [nth (Z.to_nat chn) awe_rdiv_k 0] F 0 0)
        as [Hn|Hn]; fold v in Hn; lia. }
    replace (v <? 0) with false by (symmetry; apply Z.ltb_ge; lia).
    destruct (Z.of_nat (length out_div_values) <=? v); reflexivity.
  - unfold get_out_disable. rewrite Hv, andb_false_r.
    apply read_field_desc. each_chn chn Hc; discriminate.
  - unfold get_drv_disabled_state. rewrite Hv.
    apply read_field_desc. each_chn chn Hc; discriminate.
  - unfold get_drv_type. rewrite Hv.
    apply read_field_desc. each_chn chn Hc; discriminate.
  - unfold get_drv_vdd. rewrite Hv.
    apply read_field_desc. each_chn chn Hc; discriminate.
  - unfold get_drv_trim. rewrite Hv. unfold bind, read_multireg64.
    destruct (read_multireg64_quiet (nth (Z.to_nat chn) awe_drv_trim [])
                0 0 F t) as [evs H].
    exists evs. rewrite H. reflexivity.
  - unfold get_drv_invert. rewrite Hv.
    apply read_field_desc. each_chn chn Hc; discriminate.
  - unfold get_drv_powerdown. rewrite Hv.
    apply read_field_desc. each_chn chn Hc; discriminate.
  - unfold get_ms_powerdown. rewrite Hv.
    apply read_field_desc. each_chn chn Hc; discriminate.
Qed.

(** No two fields of the output channels share a bit. *)
Lemma out_fields_apart (fld fld' : out_field) (chn chn' : Z) :
  0 <= chn <= 3 -> 0 <= chn' <= 3 ->
  fld <> fld' \/ chn <> chn' ->
  desc_apart (out_field_desc fld' chn') (out_field_desc fld chn) = true.
Proof.
  intros Hc Hc' Hne.
  each_chn chn Hc; each_chn chn' Hc'; destruct fld, fld';
    try reflexivity; exfalso; destruct Hne as [H|H]; apply H; reflexivity.
Qed.

(** X17.  On a register map without faults, a setter of one of the ten
    fields of an output channel (source, divider, disable, disabled state,
    driver type, supply, trim, inversion, driver power, MultiSynth power)
    changes nothing that the getter of another field, or of the same field
    on another channel, returns. *)
Theorem X17_output_fields_independent (fld fld' : out_field)
    (arg chn chn' : Z) (f : Z -> Z) (t : list event) :
  0 <= chn <= 3 -> 0 <= chn' <= 3 -> fld <> fld' \/ chn <> chn' ->
  fst (out_get fld' chn' (snd (out_set fld arg chn (mkRegmap f [] [] t))))
  = fst (out_get fld' chn' (mkRegmap f [] [] t)).
Proof.
  intros Hc Hc' Hne.
  destruct (out_set_effect fld arg chn f t Hc) as (rc & F & evs & Hset & HF).
  rewrite Hset. cbn [snd].
  destruct (out_get_value fld' chn' F (evs ++ t) Hc') as [e1 H1].
  destruct (out_get_value fld' chn' f t Hc') as [e2 H2].
  rewrite H1, H2. cbn [fst]. f_equal.
  destruct HF as [-> | [v ->]]; [reflexivity|].
  apply value_read_frame. apply out_fields_apart; assumption.
Qed.

Lemma X17_output_fields_independent_witness :
  let fld : out_field := FDrvType in
  let fld' : out_field := FDrvVdd in
  let arg : Z := 3 in
  let chn : Z := 1 in
  let chn' : Z := 1 in
  let f : Z -> Z := fun _ => 0 in
  let t : list event := [] in
  fst (out_get fld' chn' (snd (out_set fld arg chn (mkRegmap f [] [] t))))
  = fst (out_get fld' chn' (mkRegmap f [] [] t)).
Proof.
  cbv zeta.
  apply (X17_output_fields_independent
           FDrvType FDrvVdd 3 1 1 (fun _ => 0) []);
    [lia | lia | left; discriminate].
Defined.

Lemma out_field_desc_ok (fld : out_field) (chn : Z) :
  0 <= chn <= 3 ->
  desc_ok (out_field_desc fld chn) = true /\
  desc_bits (out_field_desc fld chn)
  = match fld with
    | FOutMux | FOutDiv | FDrvType => 3
    | FDisableState | FDrvVdd | FDrvInvert => 2
    | FDrvTrim => 5
    | FOutDisable | FDrvPowerdown | FMsPowerdown => 1
    end.
Proof.
  intros Hc. each_chn chn Hc; destruct fld; split; reflexivity.
Qed.

Lemma out_values_range (fld : out_field) (arg : Z) :
  In arg (out_values fld) ->
  0 <= arg <= 32 /\
  match fld with
  | FOutMux | FDrvType => arg <= 7
  | FDisableState | FDrvVdd | FDrvInvert => arg <= 3
  | FDrvTrim => arg <= 31
  | FOutDisable | FDrvPowerdown | FMsPowerdown => arg <= 1
  | FOutDiv => True
  end.
Proof.
  destruct fld; cbn [out_values]; intros Hin;
    try (cbn [In] in Hin; lia).
  - unfold out_div_values in Hin. cbn [In] in Hin. lia.
  - apply in_map_iff in Hin. destruct Hin as (n & <- & Hn).
    apply in_seq in Hn. lia.
Qed.

(** A setter accepts the values of its field and writes them. *)
Lemma out_set_accepted (fld : out_field) (arg chn : Z) (f : Z -> Z)
    (t : list event) :
  0 <= chn <= 3 -> In arg (out_values fld) ->
  exists v evs,
    out_set fld arg chn (mkRegmap f [] [] t)
    = (0, mkRegmap (regs_after_write v (out_field_desc fld chn) f) [] []
                   (evs ++ t)) /\
    0 <= v < 2 ^ desc_bits (out_field_desc fld chn) /\
    out_post fld v = arg.
Proof.
  intros Hc Hin.
  destruct (out_field_desc_ok fld chn Hc) as [_ Hbits]. rewrite Hbits.
  pose proof (out_values_range fld arg Hin) as [Hr Hr'].
  assert (Hv : (_verify_output_channel chn <? 0) = false).
  { unfold _verify_output_channel.
    replace (chn <? 0) with false by (symmetry; apply Z.ltb_ge; lia).
    replace (3 <? chn) with false by (symmetry; apply Z.ltb_ge; lia).
    reflexivity. }
  assert (Hwf : forall w, w <> 0 ->
            exists evs,
              write_field arg w (mkRegmap f [] [] t)
              = (0, mkRegmap (regs_after_write arg [w] f) [] [] (evs ++ t)))
    by (intros w Hw; apply write_field_desc; exact Hw).
  destruct fld; cbn [out_set out_field_desc out_post] in *.
  - unfold set_out_mux. rewrite Hv.
    replace ((arg <? 0) || (7 <? arg)) with false
      by (symmetry; apply orb_false_iff; split; apply Z.ltb_ge; lia).
    destruct (Hwf (nth (Z.to_nat chn) awe_rdiv_in 0)) as [evs H];
      [each_chn chn Hc; discriminate|].
    exists arg, evs. split; [exact H|]. split; [lia|reflexivity].
  - unfold set_out_div. rewrite Hv.
    assert (Hw : nth (Z.to_nat chn) awe_rdiv_k 0 <> 0)
      by (each_chn chn Hc; discriminate).
    unfold out_div_values in Hin |- *. cbn [In] in Hin.
    assert (Hstep : forall val, 0 <= val < 6 ->
              nth (Z.to_nat val) [1; 2; 4; 8; 16; 32] 0 = arg ->
              exists v evs,
                (rc <- write_field val (nth (Z.to_nat chn) awe_rdiv_k 0) ;;
                 if rc <? 0 then ret rc else ret 0) (mkRegmap f [] [] t)
                = (0, mkRegmap
                        (regs_after_write v
                           [nth (Z.to_nat chn) awe_rdiv_k 0] f) [] []
                        (evs ++ t)) /\
                0 <= v < 2 ^ 3 /\
                (if Z.of_nat (length [1; 2; 4; 8; 16; 32]) <=? v
                 then - EINVAL
                 else nth (Z.to_nat v) [1; 2; 4; 8; 16; 32] 0) = arg).
    { intros val Hval Hnth.
      destruct (write_field_desc val _ f [] t Hw) as [evs H].
      exists val, evs.
      split; [unfold bind; rewrite H; reflexivity|]. split; [lia|].
      replace (Z.of_nat (length [1; 2; 4; 8; 16; 32]) <=? val) with false
        by (symmetry; apply Z.leb_gt; cbn [length]; lia).
      exact Hnth. }
    destruct Hin as [<-|[<-|[<-|[<-|[<-|[<-|[]]]]]]];
      cbn [set_out_div_from Z.eqb Pos.eqb].
    + apply (Hstep 0); [lia|reflexivity].
    + apply (Hstep 1); [lia|reflexivity].
    + apply (Hstep 2); [lia|reflexivity].
    + apply (Hstep 3); [lia|reflexivity].
    + apply (Hstep 4); [lia|reflexivity].
    + apply (Hstep 5); [lia|reflexivity].
  - unfold set_out_disable. rewrite Hv.
    destruct (Hwf (nth (Z.to_nat chn) awe_out_disable 0)) as [evs H];
      [each_chn chn Hc; discriminate|].
    exists arg, evs. split; [exact H|]. split; [lia|reflexivity].
  - unfold si5338_clkout_set_disable_state. rewrite Hv.
    replace ((arg <? 0) || (3 <? arg)) with false
      by (symmetry; apply orb_false_iff; split; apply Z.ltb_ge; lia).
    destruct (Hwf (nth (Z.to_nat chn) awe_drv_dis_state 0)) as [evs H];
      [each_chn chn Hc; discriminate|].
    exists arg, evs. split; [exact H|]. split; [lia|reflexivity].
  - unfold set_drv_type. rewrite Hv.
    replace ((arg <? 0) || (7 <? arg)) with false
      by (symmetry; apply orb_false_iff; split; apply Z.ltb_ge; lia).
    destruct (Hwf (nth (Z.to_nat chn) awe_drv_fmt 0)) as [evs H];
      [each_chn chn Hc; discriminate|].
    exists arg, evs. split; [exact H|]. split; [lia|reflexivity].
  - unfold set_drv_vdd. rewrite Hv.
    replace ((arg <? 0) || (7 <? arg)) with false
      by (symmetry; apply orb_false_iff; split; apply Z.ltb_ge; lia).
    destruct (Hwf (nth (Z.to_nat chn) awe_drv_vddo 0)) as [evs H];
      [each_chn chn Hc; discriminate|].
    exists arg, evs. split; [exact H|]. split; [lia|reflexivity].
  - unfold set_drv_trim_any. rewrite Hv.
    replace ((arg <? 0) || (31 <? arg)) with false
      by (symmetry; apply orb_false_iff; split; apply Z.ltb_ge; lia).
    rewrite u64_small by lia.
    destruct (write_multireg64_quiet (nth (Z.to_nat chn) awe_drv_trim [])
                arg f [] t) as [evs H].
    exists arg, evs. split; [exact H|]. split; [lia|].
    apply sint_small; lia.
  - unfold set_drv_invert. rewrite Hv.
    replace ((arg <? 0) || (3 <? arg)) with false
      by (symmetry; apply orb_false_iff; split; apply Z.ltb_ge; lia).
    destruct (Hwf (nth (Z.to_nat chn) awe_drv_invert 0)) as [evs H];
      [each_chn chn Hc; discriminate|].
    exists arg, evs. split; [exact H|]. split; [lia|reflexivity].
  - unfold set_drv_powerdown. rewrite Hv.
    destruct (Hwf (nth (Z.to_nat chn) awe_drv_powerdown 0)) as [evs H];
      [each_chn chn Hc; discriminate|].
    exists arg, evs. split; [exact H|]. split; [lia|reflexivity].
  - unfold set_ms_powerdown.
    replace (chn <? 0) with false by (symmetry; apply Z.ltb_ge; lia).
    replace (3 <? chn) with false by (symmetry; apply Z.ltb_ge; lia).
    cbn [orb].
    destruct (Hwf (nth (Z.to_nat chn) awe_ms_powerdown 0)) as [evs H];
      [each_chn chn Hc; discriminate|].
    exists arg, evs. split; [exact H|]. split; [lia|reflexivity].
Qed.

(** What has been written into the field of a channel is what its getter
    reports. *)
Lemma out_readback (fld : out_field) (chn v : Z) (f : Z -> Z)
    (t : list event) :
  0 <= chn <= 3 -> 0 <= v < 2 ^ desc_bits (out_field_desc fld chn) ->
  fst (out_get fld chn
         (mkRegmap (regs_after_write v (out_field_desc fld chn) f) [] [] t))
  = out_post fld v.
Proof.
  intros Hc Hv.
  destruct (out_get_value fld chn
              (regs_after_write v (out_field_desc fld chn) f) t Hc)
    as [evs H].
  rewrite H. cbn [fst]. f_equal.
  destruct (out_field_desc_ok fld chn Hc) as [Hok Hbits].
  rewrite (value_read_roundtrip _ Hok 0 0 v f); try lia.
  - rewrite Z.mod_small by exact Hv. lia.
  - rewrite Hbits. destruct fld; lia.
Qed.

(** X18.  On a register map without faults, each setter of an output
    field succeeds on every value the field can hold ([out_values]) and the
    getter of the field then returns that value. *)
Theorem X18_output_field_roundtrip (fld : out_field) (arg chn : Z)
    (f : Z -> Z) (t : list event) :
  0 <= chn <= 3 -> In arg (out_values fld) ->
  fst (out_set fld arg chn (mkRegmap f [] [] t)) = 0 /\
  fst (out_get fld chn (snd (out_set fld arg chn (mkRegmap f [] [] t))))
  = arg.
Proof.
  intros Hc Hin.
  destruct (out_set_accepted fld arg chn f t Hc Hin)
    as (v & evs & Hset & Hv & Hpost).
  rewrite Hset. cbn [fst snd]. split; [reflexivity|].
  rewrite out_readback by assumption. exact Hpost.
Qed.

Lemma X18_output_field_roundtrip_witness :
  let fld : out_field := FOutDiv in
  let arg : Z := 8 in
  let chn : Z := 2 in
  let f : Z -> Z := fun _ => 0 in
  let t : list event := [] in
  fst (out_set fld arg chn (mkRegmap f [] [] t)) = 0 /\
  fst (out_get fld chn (snd (out_set fld arg chn (mkRegmap f [] [] t))))
  = arg.
Proof.
  cbv zeta.
  apply (X18_output_field_roundtrip
           FOutDiv 8 2 (fun _ => 0) []);
    [lia | simpl; lia].
Defined.

(** X19.  A setter of an output field called with a channel outside 0..3,
    or with an argument its range test refuses ([out_accepts]), returns
    [-EINVAL] and does nothing to the register map. *)
Theorem X19_output_setters_reject (fld : out_field) (arg chn : Z)
    (m : regmap) :
  chn < 0 \/ 3 < chn \/ out_accepts fld arg = false ->
  out_set fld arg chn m = (- EINVAL, m).
Proof.
  intros H.
  destruct (Z.ltb_spec chn 0) as [Hlo|Hlo].
  { destruct fld; cbn [out_set];
      unfold set_out_mux, set_out_div, set_out_disable,
        si5338_clkout_set_disable_state, set_drv_type, set_drv_vdd,
        set_drv_trim_any, set_drv_invert, set_drv_powerdown,
        set_ms_powerdown, _verify_output_channel;
      replace (chn <? 0) with true by (symmetry; apply Z.ltb_lt; lia);
      reflexivity. }
  destruct (Z.ltb_spec 3 chn) as [Hhi|Hhi].
  { destruct fld; cbn [out_set];
      unfold set_out_mux, set_out_div, set_out_disable,
        si5338_clkout_set_disable_state, set_drv_type, set_drv_vdd,
        set_drv_trim_any, set_drv_invert, set_drv_powerdown,
        set_ms_powerdown, _verify_output_channel;
      replace (chn <? 0) with false by (symmetry; apply Z.ltb_ge; lia);
      replace (3 <? chn) with true by (symmetry; apply Z.ltb_lt; lia);
      reflexivity. }
  destruct H as [H|[H|H]]; [lia|lia|].
  assert (Hrange : forall hi, (0 <=? arg) && (arg <=? hi) = false ->
                     (arg <? 0) || (hi <? arg) = true).
  { intros hi Hf. destruct (Z.leb_spec 0 arg); destruct (Z.leb_spec arg hi);
      try discriminate;
      [replace (hi <? arg) with true by (symmetry; apply Z.ltb_lt; lia);
       apply orb_true_r
      |replace (arg <? 0) with true by (symmetry; apply Z.ltb_lt; lia);
       reflexivity
      |replace (arg <? 0) with true by (symmetry; apply Z.ltb_lt; lia);
       reflexivity]. }
  destruct fld; cbn [out_set out_accepts] in *; try discriminate;
    unfold set_out_mux, set_out_div, si5338_clkout_set_disable_state,
      set_drv_type, set_drv_vdd, set_drv_trim_any, set_drv_invert,
      _verify_output_channel;
    replace (chn <? 0) with false by (symmetry; apply Z.ltb_ge; lia);
    replace (3 <? chn) with false by (symmetry; apply Z.ltb_ge; lia);
    cbn [orb]; change (0 <? 0) with false; cbv iota;
    try (rewrite (Hrange _ H); reflexivity).
  unfold out_div_values in *. cbn [existsb] in H.
  cbn [set_out_div_from].
  rewrite !(Z.eqb_sym _ arg).
  destruct (arg =? 1); [discriminate|].
  destruct (arg =? 2); [discriminate|].
  destruct (arg =? 4); [discriminate|].
  destruct (arg =? 8); [discriminate|].
  destruct (arg =? 16); [discriminate|].
  destruct (arg =? 32); [discriminate|].
  reflexivity.
Qed.

Lemma X19_output_setters_reject_witness :
  let fld : out_field := FDrvTrim in
  let arg : Z := 32 in
  let chn : Z := 0 in
  let m : regmap := mkRegmap (fun _ => 0) [] [] [] in
  out_set fld arg chn m = (- EINVAL, m).
Proof.
  cbv zeta.
  apply (X19_output_setters_reject
           FDrvTrim 32 0 (mkRegmap (fun _ => 0) [] [] []));
    right; right; reflexivity.
Defined.

(** ** The post-divider as programmed and as recalculated *)

(** X20.  On a register map without faults, [si5338_clkout_set_rate] on
    an output 0..3 succeeds and programs the divider it rounds to, one of 1,
    2, 4, 8, 16; [si5338_clkout_recalc_rate] then reports the parent rate it
    is given divided by that divider. *)
Theorem X20_clkout_set_rate_then_recalc (B : Z) (hw : si5338_hw_data)
    (rate parent_rate parent_rate' : Z) (f : Z -> Z) (t : list event) :
  0 <= num hw <= 3 ->
  exists r_div m',
    closest_r_div B rate parent_rate = Some r_div /\
    In r_div [1; 2; 4; 8; 16] /\
    si5338_clkout_set_rate B hw rate parent_rate (mkRegmap f [] [] t)
    = Some (0, m') /\
    fst (si5338_clkout_recalc_rate hw parent_rate' m')
    = parent_rate' / r_div.
Proof.
  intros Hn.
  destruct (closest_r_div_range B rate parent_rate) as (r_div & Hr & Hin).
  assert (Hin' : In r_div (out_values FOutDiv)).
  { cbn [out_values]. unfold out_div_values. cbn [In] in Hin |- *. tauto. }
  destruct (out_set_accepted FOutDiv r_div (num hw) f t Hn Hin')
    as (v & evs & Hset & Hv & Hpost).
  cbn [out_set out_field_desc out_post] in Hset, Hv, Hpost.
  exists r_div. eexists. split; [exact Hr|]. split; [exact Hin|].
  unfold si5338_clkout_set_rate. rewrite Hr, Hset.
  split; [reflexivity|].
  unfold si5338_clkout_recalc_rate, bind.
  pose proof (out_readback FOutDiv (num hw) v f (evs ++ t) Hn Hv) as Hget.
  cbn [out_get out_field_desc out_post] in Hget.
  destruct (get_out_div (num hw) _) as [rc m''].
  cbn [fst] in Hget. rewrite Hget, Hpost.
  replace (r_div <=? 0) with false
    by (symmetry; apply Z.leb_gt; cbn [In] in Hin; lia).
  reflexivity.
Qed.

Lemma X20_clkout_set_rate_then_recalc_witness :
  let B : Z := 64 in
  let hw : si5338_hw_data := mkHwData (mkParams (0, 0, 0) false) 1 in
  let rate : Z := 25000000 in
  let parent_rate : Z := 100000000 in
  let parent_rate' : Z := 100000000 in
  let f : Z -> Z := fun _ => 0 in
  let t : list event := [] in
  exists r_div m',
    closest_r_div B rate parent_rate = Some r_div /\
    In r_div [1; 2; 4; 8; 16] /\
    si5338_clkout_set_rate B hw rate parent_rate (mkRegmap f [] [] t)
    = Some (0, m') /\
    fst (si5338_clkout_recalc_rate hw parent_rate' m')
    = parent_rate' / r_div.
Proof.
  cbv zeta.
  apply (X20_clkout_set_rate_then_recalc
           64 (mkHwData (mkParams (0, 0, 0) false) 1) 25000000 100000000
           100000000 (fun _ => 0) []);
    closed_hyp.
Defined.

(** X21.  [si5338_clkout_recalc_rate] reports the rate 0 when the channel
    is not 0..3 and, on a register map without faults, when the divider
    field holds a code above 5.  On every register map, whatever
    transactions fail, it changes no register and reports either 0 or the
    parent rate divided by one of 1, 2, 4, 8, 16, 32, never an error
    code. *)
Theorem X21_clkout_recalc_rate_invalid (hw : si5338_hw_data)
    (parent_rate : Z) :
  ((num hw < 0 \/ 3 < num hw) ->
   forall m, si5338_clkout_recalc_rate hw parent_rate m = (0, m)) /\
  (0 <= num hw <= 3 ->
   forall f t,
     6 <= field_get f (nth (Z.to_nat (num hw)) awe_rdiv_k 0) ->
     fst (si5338_clkout_recalc_rate hw parent_rate (mkRegmap f [] [] t)) = 0) /\
  (forall m,
     let r := si5338_clkout_recalc_rate hw parent_rate m in
     regs (snd r) = regs m /\
     (fst r = 0 \/
      exists d, In d out_div_values /\ fst r = parent_rate / d)).
Proof.
  split; [|split].
  - intros H m. unfold si5338_clkout_recalc_rate, get_out_div,
      _verify_output_channel, bind.
    destruct (Z.ltb_spec (num hw) 0) as [Hlo|Hlo]; [reflexivity|].
    replace (3 <? num hw) with true by (symmetry; apply Z.ltb_lt; lia).
    reflexivity.
  - intros Hn f t H6.
    destruct (out_get_value FOutDiv (num hw) f t Hn) as [evs Hg].
    cbn [out_get out_field_desc out_post] in Hg.
    unfold si5338_clkout_recalc_rate, bind. rewrite Hg.
    rewrite value_read_single by (each_chn (num hw) Hn; discriminate).
    replace (awe_mask (nth (Z.to_nat (num hw)) awe_rdiv_k 0) =? 0) with false
      by (each_chn (num hw) Hn; reflexivity).
    replace (Z.of_nat (length out_div_values) <=? _) with true
      by (symmetry; apply Z.leb_le; cbn [length out_div_values]; lia).
    reflexivity.
  - intros m. cbv zeta.
    unfold si5338_clkout_recalc_rate, get_out_div, bind.
    destruct (Z.ltb_spec (_verify_output_channel (num hw)) 0) as [Hneg|Hpos].
    + unfold ret.
      replace (_verify_output_channel (num hw) <=? 0) with true
        by (symmetry; apply Z.leb_le; lia).
      cbn [fst snd]. split; [reflexivity|]. left. reflexivity.
    + destruct (read_field_total
                  (nth (Z.to_nat (num hw)) awe_rdiv_k 0) m)
        as (v & m' & Hr & Hv & Hregs).
      rewrite Hr.
      replace (v <? 0) with false by (symmetry; apply Z.ltb_ge; lia).
      destruct (Z.leb_spec (Z.of_nat (length out_div_values)) v) as [Hge|Hlt].
      * unfold ret. cbn [fst snd]. split; [exact Hregs|].
        left. reflexivity.
      * unfold ret.
        set (d := nth (Z.to_nat v) out_div_values 0).
        assert (Hd : In d out_div_values).
        { apply nth_In. lia. }
        assert (Hdpos : 0 < d).
        { cbn [out_div_values In] in Hd. lia. }
        replace (d <=? 0) with false by (symmetry; apply Z.leb_gt; lia).
        cbn [fst snd]. split; [exact Hregs|].
        right. exists d. split; [exact Hd|reflexivity].
Qed.

(** ** The catalogue of drive configurations *)

Lemma find_drive_config_from_spec (cfgs : list si5338_drv_t) :
  forall (i : Z) (name : string),
    let r := find_drive_config_from cfgs i name in
    (r = - EINVAL /\ ~ In name (map description cfgs)) \/
    (exists k : nat,
       (k < length cfgs)%nat /\ r = i + Z.of_nat k /\
       description (nth k cfgs (mkDrv EmptyString 0 0 0 0)) = name /\
       forall j : nat, (j < k)%nat ->
         description (nth j cfgs (mkDrv EmptyString 0 0 0 0)) <> name).
Proof.
  induction cfgs as [|c cfgs IH]; intros i name; cbn [find_drive_config_from].
  - left. split; [reflexivity|]. intros [].
  - destruct (String.eqb_spec name (description c)) as [E|E].
    + right. exists 0%nat. cbn [length nth]. split; [lia|].
      split; [lia|]. split; [symmetry; exact E|]. intros j Hj. lia.
    + destruct (IH (i + 1) name) as [[Hr Hnot]|(k & Hk & Hr & Hd & Hfirst)].
      * left. split; [exact Hr|]. cbn [map In]. intros [H|H];
          [apply E; symmetry; exact H|apply Hnot; exact H].
      * right. exists (S k). cbn [length nth]. split; [lia|].
        split; [rewrite Hr; lia|]. split; [exact Hd|].
        intros [|j] Hj; [cbn [nth]; intros H; apply E; symmetry; exact H|].
        cbn [nth]. apply Hfirst. lia.
Qed.

Lemma drv_configs_distinct :
  forallb
    (fun k => find_drive_config
                (description (nth k drv_configs (mkDrv EmptyString 0 0 0 0)))
              =? Z.of_nat k)
    (seq 0 (length drv_configs)) = true.
Proof. vm_compute. reflexivity. Qed.

Lemma find_drive_config_entry (k : nat) :
  (k < length drv_configs)%nat ->
  find_drive_config
    (description (nth k drv_configs (mkDrv EmptyString 0 0 0 0)))
  = Z.of_nat k.
Proof.
  intros Hk. pose proof drv_configs_distinct as H.
  rewrite forallb_forall in H.
  apply Z.eqb_eq. apply H. apply in_seq. lia.
Qed.

(** X22.  [find_drive_config] returns the index of the entry of
    [drv_configs] that has the given name, and [-EINVAL] for a name that is
    not in the table; the names of the table are all different, so every
    entry is found at its own index. *)
Theorem X22_find_drive_config (name : string) :
  (In name (map description drv_configs) ->
   exists k : nat,
     (k < length drv_configs)%nat /\
     find_drive_config name = Z.of_nat k /\
     description (nth k drv_configs (mkDrv EmptyString 0 0 0 0)) = name) /\
  (~ In name (map description drv_configs) ->
   find_drive_config name = - EINVAL) /\
  (forall k : nat,
     (k < length drv_configs)%nat ->
     find_drive_config
       (description (nth k drv_configs (mkDrv EmptyString 0 0 0 0)))
     = Z.of_nat k).
Proof.
  pose proof (find_drive_config_from_spec drv_configs 0 name) as H.
  cbv zeta in H. fold (find_drive_config name) in H.
  split; [|split].
  - intros Hin. destruct H as [[_ Hnot]|(k & Hk & Hr & Hd & _)];
      [contradiction|].
    exists k. split; [exact Hk|]. split; [rewrite Hr; lia|exact Hd].
  - intros Hnot. destruct H as [[Hr _]|(k & Hk & _ & Hd & _)];
      [exact Hr|].
    exfalso. apply Hnot. rewrite <- Hd. apply in_map. apply nth_In. exact Hk.
  - apply find_drive_config_entry.
Qed.

(** Every entry of the catalogue is within the ranges of the setters. *)
Lemma drv_configs_in_range :
  forallb
    (fun c => (0 <=? fmt c) && (fmt c <=? 7) && (0 <=? vdd c) && (vdd c <=? 3)
              && (0 <=? trim c) && (trim c <=? 31) && (0 <=? invert c)
              && (invert c <=? 15))
    drv_configs = true.
Proof. vm_compute. reflexivity. Qed.

Lemma in_range_values (lo_hi : Z) (v : Z) :
  0 <= v <= lo_hi -> In v (map Z.of_nat (seq 0 (Z.to_nat (lo_hi + 1)))).
Proof.
  intros Hv. apply in_map_iff. exists (Z.to_nat v). split; [lia|].
  apply in_seq. lia.
Qed.

Lemma land_3_range (x : Z) : 0 <= Z.land x 3 <= 3.
Proof.
  change 3 with (Z.ones 2). rewrite Z.land_ones by lia.
  pose proof (Z.mod_pos_bound x (2 ^ 2) ltac:(lia)). change (Z.ones 2) with 3.
  lia.
Qed.

(** Selecting a configuration of the table by its name programs its four
    values, which the getters then return ([invert] through its two low
    bits). *)
Lemma set_drive_config_known (chn : Z) (k : nat) (f : Z -> Z)
    (t : list event) :
  0 <= chn <= 3 -> (k < length drv_configs)%nat ->
  let c := nth k drv_configs (mkDrv EmptyString 0 0 0 0) in
  exists f' evs,
    si5338_clkout_set_drive_config chn (description c) (mkRegmap f [] [] t)
    = (0, mkRegmap f' [] [] (evs ++ t)) /\
    forall t',
      fst (get_drv_type chn (mkRegmap f' [] [] t')) = fmt c /\
      fst (get_drv_vdd chn (mkRegmap f' [] [] t')) = vdd c /\
      fst (get_drv_trim chn (mkRegmap f' [] [] t')) = trim c /\
      fst (get_drv_invert chn (mkRegmap f' [] [] t')) = Z.land (invert c) 3.
Proof.
  intros Hc Hk c.
  assert (Hrange : 0 <= fmt c <= 7 /\ 0 <= vdd c <= 3 /\ 0 <= trim c <= 31).
  { pose proof drv_configs_in_range as H. rewrite forallb_forall in H.
    specialize (H c (nth_In _ _ Hk)).
    repeat (apply andb_true_iff in H; destruct H as [H ?]).
    repeat match goal with
           | H : (_ <=? _) = true |- _ => apply Z.leb_le in H
           end.
    lia. }
  destruct Hrange as (Hfmt & Hvdd & Htrim).
  pose proof (land_3_range (invert c)) as Hinv.
  assert (I1 : In (fmt c) (out_values FDrvType))
    by (cbn [out_values In]; lia).
  assert (I2 : In (vdd c) (out_values FDrvVdd))
    by (cbn [out_values In]; lia).
  assert (I3 : In (trim c) (out_values FDrvTrim))
    by (apply (in_range_values 31); lia).
  assert (I4 : In (Z.land (invert c) 3) (out_values FDrvInvert))
    by (cbn [out_values In]; lia).
  destruct (out_set_accepted FDrvType (fmt c) chn f t Hc I1)
    as (v1 & e1 & S1 & V1 & P1).
  set (f1 := regs_after_write v1 (out_field_desc FDrvType chn) f) in *.
  destruct (out_set_accepted FDrvVdd (vdd c) chn f1 (e1 ++ t) Hc I2)
    as (v2 & e2 & S2 & V2 & P2).
  set (f2 := regs_after_write v2 (out_field_desc FDrvVdd chn) f1) in *.
  destruct (out_set_accepted FDrvTrim (trim c) chn f2 (e2 ++ e1 ++ t) Hc I3)
    as (v3 & e3 & S3 & V3 & P3).
  set (f3 := regs_after_write v3 (out_field_desc FDrvTrim chn) f2) in *.
  destruct (out_set_accepted FDrvInvert (Z.land (invert c) 3) chn f3
              (e3 ++ e2 ++ e1 ++ t) Hc I4)
    as (v4 & e4 & S4 & V4 & P4).
  set (f4 := regs_after_write v4 (out_field_desc FDrvInvert chn) f3) in *.
  cbn [out_set] in S1, S2, S3, S4.
  exists f4, (e4 ++ e3 ++ e2 ++ e1). split.
  - unfold si5338_clkout_set_drive_config, _verify_output_channel.
    replace (chn <? 0) with false by (symmetry; apply Z.ltb_ge; lia).
    replace (3 <? chn) with false by (symmetry; apply Z.ltb_ge; lia).
    cbn [orb]. change (0 <? 0) with false. cbv iota.
    cbv zeta.
    replace (find_drive_config (description c)) with (Z.of_nat k)
      by (symmetry; apply find_drive_config_entry; exact Hk).
    replace (Z.of_nat k <? 0) with false by (symmetry; apply Z.ltb_ge; lia).
    rewrite Nat2Z.id. fold c. unfold bind.
    rewrite S1. change (0 <? 0) with false. cbv beta iota.
    rewrite S2. change (0 <? 0) with false. cbv beta iota.
    rewrite S3. change (0 <? 0) with false. cbv beta iota.
    rewrite S4. change (0 <? 0) with false. cbv beta iota.
    unfold ret. rewrite <- !app_assoc. reflexivity.
  - intros t'.
    assert (Hget : forall fld, exists evs,
              out_get fld chn (mkRegmap f4 [] [] t')
              = (out_post fld (value_read (out_field_desc fld chn) 0 0 f4),
                 mkRegmap f4 [] [] (evs ++ t')))
      by (intros fld; apply out_get_value; exact Hc).
    assert (Hap : forall a b, a <> b ->
              desc_apart (out_field_desc a chn) (out_field_desc b chn) = true)
      by (intros a b Hab; apply out_fields_apart; try assumption;
          left; intros E; apply Hab; symmetry; exact E).
    destruct (Hget FDrvType) as [g1 G1]. destruct (Hget FDrvVdd) as [g2 G2].
    destruct (Hget FDrvTrim) as [g3 G3]. destruct (Hget FDrvInvert) as [g4 G4].
    cbn [out_get] in G1, G2, G3, G4. rewrite G1, G2, G3, G4. cbn [fst].
    destruct (out_field_desc_ok FDrvType chn Hc) as [O1 B1].
    destruct (out_field_desc_ok FDrvVdd chn Hc) as [O2 B2].
    destruct (out_field_desc_ok FDrvTrim chn Hc) as [O3 B3].
    destruct (out_field_desc_ok FDrvInvert chn Hc) as [O4 B4].
    unfold f4, f3, f2, f1.
    split; [|split; [|split]].
    + rewrite !(value_read_frame (out_field_desc FDrvType chn))
        by (apply Hap; discriminate).
      rewrite (value_read_roundtrip _ O1 0 0 v1 f); try lia.
      rewrite Z.mod_small by exact V1. rewrite Z.add_0_l, Z.mul_1_r.
      exact P1.
    + rewrite !(value_read_frame (out_field_desc FDrvVdd chn))
        by (apply Hap; discriminate).
      rewrite (value_read_roundtrip _ O2 0 0 v2); try lia.
      rewrite Z.mod_small by exact V2. rewrite Z.add_0_l, Z.mul_1_r.
      exact P2.
    + rewrite !(value_read_frame (out_field_desc FDrvTrim chn))
        by (apply Hap; discriminate).
      rewrite (value_read_roundtrip _ O3 0 0 v3); try lia.
      rewrite Z.mod_small by exact V3. rewrite Z.add_0_l, Z.mul_1_r.
      exact P3.
    + rewrite (value_read_roundtrip _ O4 0 0 v4); try lia.
      rewrite Z.mod_small by exact V4. rewrite Z.add_0_l, Z.mul_1_r.
      exact P4.
Qed.

(** An output that does not exist or a name that is not in the table is
    refused and nothing is written. *)
Lemma set_drive_config_unknown (chn : Z) (name : string) (m : regmap) :
  chn < 0 \/ 3 < chn \/ ~ In name (map description drv_configs) ->
  si5338_clkout_set_drive_config chn name m = (- EINVAL, m).
Proof.
  intros H. unfold si5338_clkout_set_drive_config, _verify_output_channel.
  destruct (Z.ltb_spec chn 0) as [Hlo|Hlo]; [reflexivity|].
  destruct (Z.ltb_spec 3 chn) as [Hhi|Hhi]; [reflexivity|].
  cbn [orb]. change (0 <? 0) with false. cbv iota.
  destruct H as [H|[H|H]]; [lia|lia|].
  pose proof (find_drive_config_from_spec drv_configs 0 name) as Hf.
  cbv zeta in Hf. fold (find_drive_config name) in Hf.
  destruct Hf as [[Hr _]|(k & Hk & _ & Hd & _)].
  - rewrite Hr. reflexivity.
  - exfalso. apply H. rewrite <- Hd. apply in_map. apply nth_In. exact Hk.
Qed.

(** X23.  [si5338_clkout_set_drive_config] refuses a channel outside 0..3
    and a name that is not in [drv_configs] with [-EINVAL], writing
    nothing.  With the name of an entry of the table, on a register map
    without faults, it succeeds and the getters of the driver type, supply
    and trim then return the values of that entry, the getter of the
    inversion its two low bits. *)
Theorem X23_set_drive_config (chn : Z) (name : string) (f : Z -> Z)
    (t : list event) :
  (chn < 0 \/ 3 < chn \/ ~ In name (map description drv_configs) ->
   forall m, si5338_clkout_set_drive_config chn name m = (- EINVAL, m)) /\
  (0 <= chn <= 3 ->
   forall k : nat,
     (k < length drv_configs)%nat ->
     let c := nth k drv_configs (mkDrv EmptyString 0 0 0 0) in
     name = description c ->
     exists f' evs,
       si5338_clkout_set_drive_config chn name (mkRegmap f [] [] t)
       = (0, mkRegmap f' [] [] (evs ++ t)) /\
       forall t',
         fst (get_drv_type chn (mkRegmap f' [] [] t')) = fmt c /\
         fst (get_drv_vdd chn (mkRegmap f' [] [] t')) = vdd c /\
         fst (get_drv_trim chn (mkRegmap f' [] [] t')) = trim c /\
         fst (get_drv_invert chn (mkRegmap f' [] [] t'))
         = Z.land (invert c) 3).
Proof.
  split.
  - intros H m. apply set_drive_config_unknown. exact H.
  - intros Hc k Hk c ->. apply set_drive_config_known; assumption.
Qed.

(** ** Bring-up: the state [pre_init] leaves *)

Lemma write_field_nz (data w : Z) (f : Z -> Z) (q : list Z)
    (t : list event) :
  (awe_mask w =? 0) = false ->
  exists evs,
    write_field data w (mkRegmap f q [] t)
    = (0, mkRegmap (reg_after f w data) q [] (evs ++ t)).
Proof.
  intros Hm. destruct (write_field_quiet data w f q t) as [evs H].
  exists evs. rewrite H, Hm. reflexivity.
Qed.

Lemma set_ms_powerdown_quiet (down chn : Z) (f : Z -> Z) (q : list Z)
    (t : list event) :
  0 <= chn <= 3 ->
  exists evs,
    set_ms_powerdown down chn (mkRegmap f q [] t)
    = (0, mkRegmap (reg_after f (nth (Z.to_nat chn) awe_ms_powerdown 0) down)
                   q [] (evs ++ t)).
Proof.
  intros Hc. unfold set_ms_powerdown.
  replace (chn <? 0) with false by (symmetry; apply Z.ltb_ge; lia).
  replace (3 <? chn) with false by (symmetry; apply Z.ltb_ge; lia).
  cbn [orb]. apply write_field_nz.
  each_chn chn Hc; reflexivity.
Qed.

Lemma set_out_disable_quiet (dis chn : Z) (f : Z -> Z) (q : list Z)
    (t : list event) :
  0 <= chn <= 3 ->
  exists evs,
    set_out_disable dis chn (mkRegmap f q [] t)
    = (0, mkRegmap (reg_after f (nth (Z.to_nat chn) awe_out_disable 0) dis)
                   q [] (evs ++ t)).
Proof.
  intros Hc. unfold set_out_disable, _verify_output_channel.
  replace (chn <? 0) with false by (symmetry; apply Z.ltb_ge; lia).
  replace (3 <? chn) with false by (symmetry; apply Z.ltb_ge; lia).
  cbn [orb]. change (0 <? 0) with false. cbv iota.
  apply write_field_nz.
  each_chn chn Hc; reflexivity.
Qed.

(** One step of a sequence of writes on a register map without faults. *)
Ltac wstep :=
  cbv beta;
  match goal with
  | |- context [write_field ?d ?w (mkRegmap ?f ?q [] ?t)] =>
      let e := fresh "e" in
      let H := fresh "H" in
      destruct (write_field_nz d w f q t eq_refl) as [e H];
      rewrite H; clear H
  | |- context [set_ms_powerdown ?d ?c (mkRegmap ?f ?q [] ?t)] =>
      let e := fresh "e" in
      let H := fresh "H" in
      destruct (set_ms_powerdown_quiet d c f q t ltac:(lia)) as [e H];
      rewrite H; clear H
  | |- context [set_out_disable ?d ?c (mkRegmap ?f ?q [] ?t)] =>
      let e := fresh "e" in
      let H := fresh "H" in
      destruct (set_out_disable_quiet d c f q t ltac:(lia)) as [e H];
      rewrite H; clear H
  end;
  repeat first
    [ progress (change (0 =? 0) with true)
    | progress (change (0 <? 0) with false)
    | progress cbn [negb]
    | progress cbv beta iota ].

Lemma set_misc_registers_quiet (f : Z -> Z) (q : list Z) (t : list event) :
  exists evs,
    set_misc_registers (mkRegmap f q [] t)
    = (0, mkRegmap
            (reg_after (reg_after (reg_after (reg_after (reg_after
               (reg_after (reg_after f AWE_MISC_47 5) AWE_MISC_106 1)
               AWE_MISC_116 1) AWE_MISC_42 1) AWE_MISC_06A 0)
               AWE_MISC_06B 0) AWE_MISC_28 0)
            q [] (evs ++ t)).
Proof.
  unfold set_misc_registers, bind.
  do 7 wstep. unfold ret. rewrite !app_assoc. eexists. reflexivity.
Qed.

Lemma pre_init_channels_quiet (f : Z -> Z) (q : list Z) (t : list event) :
  exists evs,
    pre_init_channels 4 0 (mkRegmap f q [] t)
    = (0, mkRegmap
            (reg_after (reg_after (reg_after (reg_after (reg_after
               (reg_after (reg_after (reg_after f
                  AWE_MS0_PDN 1) AWE_OUT0_DIS 1)
                  AWE_MS1_PDN 1) AWE_OUT1_DIS 1)
                  AWE_MS2_PDN 1) AWE_OUT2_DIS 1)
                  AWE_MS3_PDN 1) AWE_OUT3_DIS 1)
            q [] (evs ++ t)).
Proof.
  cbn [pre_init_channels]. unfold bind, MS_POWER_DOWN, OUT_DISABLE.
  change (0 + 1) with 1. change (1 + 1) with 2. change (2 + 1) with 3.
  do 8 wstep. unfold ret. rewrite !app_assoc. eexists. reflexivity.
Qed.

Lemma field_get_set_all (f : Z -> Z) (w : Z) :
  0 <= w_nshift w ->
  field_get (reg_after f w (Z.shiftr (awe_mask w) (w_nshift w))) w
  = Z.shiftr (Z.land (reg_data_of w (Z.shiftr (awe_mask w) (w_nshift w)))
                     (awe_mask w)) (w_nshift w).
Proof.
  intros Hs. unfold field_get, reg_after, reg_set.
  rewrite Z.eqb_refl.
  pose proof (awe_mask_range w) as Hm.
  destruct (Z.eqb_spec (awe_mask w) 255) as [E|E].
  - rewrite land_u8_mask by exact Hm. reflexivity.
  - rewrite update_then_read by exact Hm. reflexivity.
Qed.

(** The register file [pre_init] leaves. *)
Lemma pre_init_quiet (b : dt_bindings) (f : Z -> Z) (q : list Z)
    (t : list event) :
  5 <= SI5338_PFD_IN_REF_NOCLK b ->
  exists evs,
    pre_init b (mkRegmap f q [] t)
    = (0, mkRegmap
            (reg_after (reg_after
              (reg_after (reg_after (reg_after (reg_after (reg_after
               (reg_after (reg_after (reg_after
              (reg_after (reg_after
              (reg_after (reg_after (reg_after (reg_after (reg_after
               (reg_after (reg_after
              (reg_after f AWE_INT_MASK 29)
                 AWE_MISC_47 5) AWE_MISC_106 1)
                 AWE_MISC_116 1) AWE_MISC_42 1) AWE_MISC_06A 0)
                 AWE_MISC_06B 0) AWE_MISC_28 0)
              AWE_OUT_ALL_DIS 1) AWE_DIS_LOS 1)
                  AWE_MS0_PDN 1) AWE_OUT0_DIS 1)
                  AWE_MS1_PDN 1) AWE_OUT1_DIS 1)
                  AWE_MS2_PDN 1) AWE_OUT2_DIS 1)
                  AWE_MS3_PDN 1) AWE_OUT3_DIS 1)
              AWE_PFD_REF 5) AWE_PFD_FB 5)
            q [] (evs ++ t)).
Proof.
  intros Hn. unfold pre_init, bind.
  wstep.
  match goal with
  | |- context [set_misc_registers (mkRegmap ?g ?q' [] ?t')] =>
      destruct (set_misc_registers_quiet g q' t') as [em Hm]; rewrite Hm;
      clear Hm
  end.
  cbv beta iota. change (0 =? 0) with true. cbn [negb]. cbv beta iota.
  do 2 wstep.
  match goal with
  | |- context [pre_init_channels 4 0 (mkRegmap ?g ?q' [] ?t')] =>
      destruct (pre_init_channels_quiet g q' t') as [ec Hc]; rewrite Hc;
      clear Hc
  end.
  cbv beta iota. change (0 =? 0) with true. cbn [negb]. cbv beta iota.
  match goal with
  | |- context [set_in_pfd_ref_fb b 5 0 (mkRegmap ?g ?q' [] ?t')] =>
      destruct (set_in_pfd_ref_fb_ok b 5 0 g q' t' ltac:(lia) ltac:(lia))
        as [ep1 H1]; cbv zeta in H1; cbn [Z.eqb negb] in H1; rewrite H1;
      clear H1
  end.
  cbv beta iota. change (0 =? 0) with true. cbn [negb]. cbv beta iota.
  match goal with
  | |- context [set_in_pfd_ref_fb b 5 1 (mkRegmap ?g ?q' [] ?t')] =>
      destruct (set_in_pfd_ref_fb_ok b 5 1 g q' t' ltac:(lia) ltac:(lia))
        as [ep2 H2]; cbv zeta in H2; cbn [Z.eqb negb] in H2; rewrite H2;
      clear H2
  end.
  cbv beta iota. change (0 =? 0) with true. cbn [negb]. cbv beta iota.
  unfold ret. rewrite !app_assoc. eexists. reflexivity.
Qed.

(** Reading a field back through the writes that came after it. *)
Ltac readback :=
  repeat (rewrite field_get_reg_after_other by reflexivity);
  rewrite field_get_reg_after_same by reflexivity;
  reflexivity.

(** X24.  On a register map without faults, and with a no-clock selector
    of at least 5, [pre_init] succeeds and leaves every MultiSynth powered
    down, every output and the common output switch disabled, both phase
    detector inputs on selector 5, the interrupt mask 0x1d and the
    loss-of-signal detector disabled. *)
Theorem X24_pre_init_state (b : dt_bindings) (f : Z -> Z) (t : list event) :
  5 <= SI5338_PFD_IN_REF_NOCLK b ->
  exists f' evs,
    pre_init b (mkRegmap f [] [] t) = (0, mkRegmap f' [] [] (evs ++ t)) /\
    forall t',
      (forall chn, 0 <= chn <= 3 ->
         fst (get_ms_powerdown chn (mkRegmap f' [] [] t')) = 1 /\
         fst (get_out_disable chn (mkRegmap f' [] [] t')) = 1) /\
      fst (get_out_disable 4 (mkRegmap f' [] [] t')) = 1 /\
      fst (get_in_pfd_ref_fb 0 (mkRegmap f' [] [] t')) = 5 /\
      fst (get_in_pfd_ref_fb 1 (mkRegmap f' [] [] t')) = 5 /\
      fst (read_field AWE_INT_MASK (mkRegmap f' [] [] t')) = 29 /\
      fst (read_field AWE_DIS_LOS (mkRegmap f' [] [] t')) = 1.
Proof.
  intros Hn. destruct (pre_init_quiet b f [] t Hn) as [evs H].
  eexists _, evs. split; [exact H|]. intros t'.
  set (F := reg_after _ AWE_PFD_FB 5).
  assert (Hrd : forall w, (awe_mask w =? 0) = false ->
            fst (read_field w (mkRegmap F [] [] t')) = field_get F w).
  { intros w Hm. destruct (read_field_quiet w F t') as [e He].
    rewrite He, Hm. reflexivity. }
  split; [|split; [|split; [|split; [|split]]]].
  - intros chn Hc. unfold get_ms_powerdown, get_out_disable,
      _verify_output_channel.
    replace (chn <? 0) with false by (symmetry; apply Z.ltb_ge; lia).
    replace (3 <? chn) with false by (symmetry; apply Z.ltb_ge; lia).
    cbn [orb]. change (0 <? 0) with false. rewrite andb_false_r. cbv iota.
    each_chn chn Hc; (split; (rewrite Hrd by reflexivity; unfold F; readback)).
  - unfold get_out_disable. change (4 =? 4) with true. cbn [negb andb].
    rewrite Hrd by reflexivity. unfold F. readback.
  - unfold get_in_pfd_ref_fb. change (0 =? 0) with true. cbn [negb].
    rewrite Hrd by reflexivity. unfold F. readback.
  - unfold get_in_pfd_ref_fb. change (1 =? 0) with false. cbn [negb].
    rewrite Hrd by reflexivity. unfold F. readback.
  - rewrite Hrd by reflexivity. unfold F.
    repeat (rewrite field_get_reg_after_other by reflexivity).
    change 29 with (Z.shiftr (awe_mask AWE_INT_MASK) (w_nshift AWE_INT_MASK))
      at 1.
    rewrite field_get_set_all by (vm_compute; discriminate). reflexivity.
  - rewrite Hrd by reflexivity. unfold F. readback.
Qed.

Lemma X24_pre_init_state_witness :
  let b : dt_bindings := mkDtBindings 0 1 2 0 1 2 5 0 2 in
  let f : Z -> Z := fun _ => 0 in
  let t : list event := [] in
  exists f' evs,
    pre_init b (mkRegmap f [] [] t) = (0, mkRegmap f' [] [] (evs ++ t)) /\
    forall t',
      (forall chn, 0 <= chn <= 3 ->
         fst (get_ms_powerdown chn (mkRegmap f' [] [] t')) = 1 /\
         fst (get_out_disable chn (mkRegmap f' [] [] t')) = 1) /\
      fst (get_out_disable 4 (mkRegmap f' [] [] t')) = 1 /\
      fst (get_in_pfd_ref_fb 0 (mkRegmap f' [] [] t')) = 5 /\
      fst (get_in_pfd_ref_fb 1 (mkRegmap f' [] [] t')) = 5 /\
      fst (read_field AWE_INT_MASK (mkRegmap f' [] [] t')) = 29 /\
      fst (read_field AWE_DIS_LOS (mkRegmap f' [] [] t')) = 1.
Proof.
  cbv zeta.
  apply (X24_pre_init_state
           (mkDtBindings 0 1 2 0 1 2 5 0 2) (fun _ => 0) []);
    closed_hyp.
Defined.

(** ** Bring-up: which MultiSynths are powered *)

Lemma get_out_mux_quiet (chn : Z) (f : Z -> Z) (q : list Z)
    (t : list event) :
  0 <= chn <= 3 ->
  exists evs,
    get_out_mux chn (mkRegmap f q [] t)
    = (out_src f chn, mkRegmap f q [] (evs ++ t)).
Proof.
  intros Hc. unfold get_out_mux, _verify_output_channel, out_src.
  replace (chn <? 0) with false by (symmetry; apply Z.ltb_ge; lia).
  replace (3 <? chn) with false by (symmetry; apply Z.ltb_ge; lia).
  cbn [orb]. change (0 <? 0) with false. cbv iota.
  exists [EvRead (awe_reg (nth (Z.to_nat chn) awe_rdiv_in 0))
            (f (awe_reg (nth (Z.to_nat chn) awe_rdiv_in 0)))].
  apply read_field_other; each_chn chn Hc; vm_compute; discriminate.
Qed.

Lemma out_src_nonneg (f : Z -> Z) (chn : Z) : (out_src f chn <? 0) = false.
Proof. apply Z.ltb_ge. apply field_get_nonneg. Qed.

Lemma ms_used_from_quiet (f : Z -> Z) (q : list Z) (t : list event) :
  exists evs,
    ms_used_from 4 0 0 (mkRegmap f q [] t)
    = (inr (ms_used_of f), mkRegmap f q [] (evs ++ t)).
Proof.
  cbn [ms_used_from]. unfold bind.
  change (0 + 1) with 1. change (1 + 1) with 2. change (2 + 1) with 3.
  destruct (get_out_mux_quiet 0 f q t ltac:(lia)) as [e0 H0].
  rewrite H0, out_src_nonneg.
  destruct (get_out_mux_quiet 1 f q (e0 ++ t) ltac:(lia)) as [e1 H1].
  rewrite H1, out_src_nonneg.
  destruct (get_out_mux_quiet 2 f q (e1 ++ e0 ++ t) ltac:(lia)) as [e2 H2].
  rewrite H2, out_src_nonneg.
  destruct (get_out_mux_quiet 3 f q (e2 ++ e1 ++ e0 ++ t) ltac:(lia))
    as [e3 H3].
  rewrite H3, out_src_nonneg.
  exists (e3 ++ e2 ++ e1 ++ e0). unfold ret, ms_used_of, ms_used_step.
  rewrite <- !app_assoc. reflexivity.
Qed.

Lemma ms_power_from_quiet (ms_used : Z) (f : Z -> Z) (q : list Z)
    (t : list event) :
  exists evs,
    ms_power_from 4 0 ms_used (mkRegmap f q [] t)
    = (0, mkRegmap
            (reg_after (reg_after (reg_after (reg_after f
               AWE_MS0_PDN (ms_down_of ms_used 0))
               AWE_MS1_PDN (ms_down_of ms_used 1))
               AWE_MS2_PDN (ms_down_of ms_used 2))
               AWE_MS3_PDN (ms_down_of ms_used 3))
            q [] (evs ++ t)).
Proof.
  cbn [ms_power_from]. unfold bind.
  change (0 + 1) with 1. change (1 + 1) with 2. change (2 + 1) with 3.
  fold (ms_down_of ms_used 0). fold (ms_down_of ms_used 1).
  fold (ms_down_of ms_used 2). fold (ms_down_of ms_used 3).
  do 4 wstep. unfold ret. rewrite !app_assoc. eexists. reflexivity.
Qed.

(** On a register map without faults [power_up_down_needed_ms] returns 0
    and leaves the register file [ms_power_regs]. *)
Lemma power_up_down_quiet (f : Z -> Z) (q : list Z) (t : list event) :
  exists evs,
    power_up_down_needed_ms (mkRegmap f q [] t)
    = (0, mkRegmap (ms_power_regs f) q [] (evs ++ t)).
Proof.
  destruct (ms_used_from_quiet f q t) as [e1 H1].
  destruct (ms_power_from_quiet (ms_used_of f) f q (e1 ++ t)) as [e2 H2].
  exists (e2 ++ e1).
  unfold power_up_down_needed_ms, bind. rewrite H1, H2.
  rewrite <- app_assoc. reflexivity.
Qed.

Lemma ms_down_of_bit (u k : Z) : ms_down_of u k mod 2 ^ 1 = ms_down_of u k.
Proof.
  unfold ms_down_of. destruct (negb (Z.land u (Z.shiftl 1 k) =? 0));
    reflexivity.
Qed.

(** The power-down bit of MultiSynth [chn] in [ms_power_regs]. *)
Lemma ms_power_regs_pdn (f : Z -> Z) (chn : Z) :
  0 <= chn <= 3 ->
  field_get (ms_power_regs f) (nth (Z.to_nat chn) awe_ms_powerdown 0)
  = if ms_needed f chn then MS_POWER_UP else MS_POWER_DOWN.
Proof.
  intros Hc. unfold ms_power_regs, ms_needed, existsb.
  each_chn chn Hc;
    repeat (rewrite field_get_reg_after_other by reflexivity);
    rewrite field_get_reg_after_same by reflexivity;
    (match goal with
     | |- context [w_nbits ?w] => change (w_nbits w) with 1
     end);
    rewrite ms_down_of_bit; unfold ms_down_of, ms_used_of, ms_used_step;
    destruct (Z.eqb_spec (out_src f 0) 5), (Z.eqb_spec (out_src f 0) 6),
      (Z.eqb_spec (out_src f 1) 5), (Z.eqb_spec (out_src f 1) 6),
      (Z.eqb_spec (out_src f 2) 5), (Z.eqb_spec (out_src f 2) 6),
      (Z.eqb_spec (out_src f 3) 5), (Z.eqb_spec (out_src f 3) 6);
    first [reflexivity | exfalso; congruence].
Qed.

(** [ms_power_regs] changes the four power-down bits only. *)
Lemma ms_power_regs_other (f : Z -> Z) (w : Z) :
  forallb (apart w) [AWE_MS0_PDN; AWE_MS1_PDN; AWE_MS2_PDN; AWE_MS3_PDN]
  = true ->
  field_get (ms_power_regs f) w = field_get f w.
Proof.
  cbn [forallb]. rewrite !andb_true_iff. intros (H0 & H1 & H2 & H3 & _).
  unfold ms_power_regs.
  rewrite !field_get_reg_after_other by assumption. reflexivity.
Qed.

Lemma read_field_get (w : Z) (f : Z -> Z) (t : list event) :
  (awe_mask w =? 0) = false ->
  fst (read_field w (mkRegmap f [] [] t)) = field_get f w.
Proof.
  intros Hm. destruct (read_field_quiet w f t) as [e He].
  rewrite He, Hm. reflexivity.
Qed.

Lemma get_ms_powerdown_get (chn : Z) (f : Z -> Z) (t : list event) :
  0 <= chn <= 3 ->
  fst (get_ms_powerdown chn (mkRegmap f [] [] t))
  = field_get f (nth (Z.to_nat chn) awe_ms_powerdown 0).
Proof.
  intros Hc. unfold get_ms_powerdown, _verify_output_channel.
  replace (chn <? 0) with false by (symmetry; apply Z.ltb_ge; lia).
  replace (3 <? chn) with false by (symmetry; apply Z.ltb_ge; lia).
  cbn [orb]. change (0 <? 0) with false. cbv iota.
  apply read_field_get. each_chn chn Hc; reflexivity.
Qed.

(** X25.  On a register map without faults,
    [power_up_down_needed_ms] succeeds and leaves MultiSynth [chn] powered
    up exactly when it is needed: when output [chn] takes its own MultiSynth
    (source 6), and for MultiSynth 0 also when some output takes MultiSynth
    0 (source 5); every other MultiSynth is powered down.  The output
    sources are not changed. *)
Theorem X25_power_up_down_needed_ms (f : Z -> Z) (t : list event) :
  exists f' evs,
    power_up_down_needed_ms (mkRegmap f [] [] t)
    = (0, mkRegmap f' [] [] (evs ++ t)) /\
    forall chn t', 0 <= chn <= 3 ->
      fst (get_ms_powerdown chn (mkRegmap f' [] [] t'))
      = (if ms_needed f chn then MS_POWER_UP else MS_POWER_DOWN) /\
      fst (get_out_mux chn (mkRegmap f' [] [] t')) = out_src f chn.
Proof.
  destruct (power_up_down_quiet f [] t) as [evs H].
  exists (ms_power_regs f), evs. split; [exact H|].
  intros chn t' Hc. split.
  - rewrite get_ms_powerdown_get by exact Hc.
    apply ms_power_regs_pdn. exact Hc.
  - destruct (get_out_mux_quiet chn (ms_power_regs f) [] t' Hc) as [e He].
    rewrite He. cbn [fst]. unfold out_src.
    apply ms_power_regs_other. each_chn chn Hc; reflexivity.
Qed.

(** ** The field codec in general *)

Lemma field_get_bound (f : Z -> Z) (w : Z) :
  word_ok w = true -> 0 <= field_get f w < 2 ^ w_nbits w.
Proof.
  intros Hw. destruct (word_ok_inv w Hw) as (_ & _ & Hm & Hs & Hn & _).
  unfold field_get. set (x := u8 _).
  replace (Z.land x (awe_mask w))
    with (Z.land x (Z.shiftl (Z.ones (w_nbits w)) (w_nshift w)))
    by (f_equal; symmetry; exact Hm).
  rewrite Z.shiftr_land, Z.shiftr_shiftl_l by lia.
  rewrite Z.sub_diag, Z.shiftl_0_r, Z.land_ones by lia.
  apply Z.mod_pos_bound. apply Z.pow_pos_nonneg; lia.
Qed.

Lemma value_read_bound (awe : list Z) (f : Z -> Z) :
  desc_ok awe = true ->
  forall d s,
    0 <= s -> 0 <= d < 2 ^ s -> s + desc_bits awe <= 64 ->
    0 <= value_read awe d s f < 2 ^ (s + desc_bits awe).
Proof.
  induction awe as [|w awe IH]; intros Hok d s Hs Hd Hle;
    cbn [value_read desc_bits desc_ok] in *.
  - rewrite Z.add_0_r. exact Hd.
  - destruct (w =? 0); [rewrite Z.add_0_r; exact Hd|].
    apply andb_true_iff in Hok. destruct Hok as [Hok Hrest].
    apply andb_true_iff in Hok. destruct Hok as [Hw _].
    destruct (word_ok_inv w Hw) as (_ & Hm & _ & _ & Hn & _).
    replace (awe_mask w =? 0) with false
      by (symmetry; apply Z.eqb_neq; exact Hm).
    cbn [negb].
    pose proof (desc_bits_nonneg awe Hrest) as Hb.
    pose proof (field_get_bound f w Hw) as Hf.
    rewrite lor_shiftl_add by assumption.
    assert (Hnew : 0 <= d + field_get f w * 2 ^ s < 2 ^ (s + w_nbits w)).
    { rewrite Z.pow_add_r by lia.
      assert (0 < 2 ^ s) by (apply Z.pow_pos_nonneg; lia).
      nia. }
    assert (H64 : 2 ^ (s + w_nbits w) <= 2 ^ 64)
      by (apply Z.pow_le_mono_r; lia).
    rewrite u64_small by lia.
    replace (s + (w_nbits w + desc_bits awe))
      with ((s + w_nbits w) + desc_bits awe) by lia.
    apply IH; try assumption; lia.
Qed.

(** X26.  For every field descriptor whose words are runs of bits inside
    a byte that do not overlap, of at most 64 bits in all, on a register map
    without faults: [write_multireg64] succeeds, [read_multireg64] of the
    same descriptor then returns the value written, cut to the width of the
    descriptor, and [read_multireg64] of a descriptor that shares no bit
    with it returns what it returned before the write. *)
Theorem X26_codec_roundtrip (awe : list Z) (v : Z) (f : Z -> Z)
    (t : list event) :
  desc_ok awe = true -> desc_bits awe <= 64 ->
  exists f' evs,
    write_multireg64 v awe (mkRegmap f [] [] t)
    = (0, mkRegmap f' [] [] (evs ++ t)) /\
    (forall t',
       fst (read_multireg64 awe (mkRegmap f' [] [] t'))
       = (0, v mod 2 ^ desc_bits awe)) /\
    (forall other t',
       desc_apart other awe = true ->
       fst (read_multireg64 other (mkRegmap f' [] [] t'))
       = fst (read_multireg64 other (mkRegmap f [] [] t'))).
Proof.
  intros Hok Hbits.
  destruct (write_multireg64_quiet awe v f [] t) as [evs Hw].
  exists (regs_after_write v awe f), evs. split; [exact Hw|]. split.
  - intros t'. unfold read_multireg64.
    destruct (read_multireg64_quiet awe 0 0 (regs_after_write v awe f) t')
      as [e He].
    rewrite He. cbn [fst]. f_equal.
    rewrite (value_read_roundtrip awe Hok 0 0 v f); lia.
  - intros other t' Hap. unfold read_multireg64.
    destruct (read_multireg64_quiet other 0 0 (regs_after_write v awe f) t')
      as [e1 H1].
    destruct (read_multireg64_quiet other 0 0 f t') as [e2 H2].
    rewrite H1, H2. cbn [fst]. f_equal.
    apply value_read_frame. exact Hap.
Qed.

Lemma X26_codec_roundtrip_witness :
  let awe : list Z := awe_fcal_ovrd in
  let v : Z := 0x2abcd in
  let f : Z -> Z := fun _ => 0 in
  let t : list event := [] in
  exists f' evs,
    write_multireg64 v awe (mkRegmap f [] [] t)
    = (0, mkRegmap f' [] [] (evs ++ t)) /\
    (forall t',
       fst (read_multireg64 awe (mkRegmap f' [] [] t'))
       = (0, v mod 2 ^ desc_bits awe)) /\
    (forall other t',
       desc_apart other awe = true ->
       fst (read_multireg64 other (mkRegmap f' [] [] t'))
       = fst (read_multireg64 other (mkRegmap f [] [] t'))).
Proof.
  cbv zeta.
  apply (X26_codec_roundtrip
           awe_fcal_ovrd 0x2abcd (fun _ => 0) []);
    closed_hyp.
Defined.

(** Every descriptor table of the driver is well formed. *)
Lemma driver_descriptors_ok :
  forallb desc_ok
    (concat awe_msx ++ awe_drv_trim ++ [awe_fcal; awe_fcal_ovrd]) = true.
Proof. vm_compute. reflexivity. Qed.

(** X27.  The read path never reports a failed transaction.
    [si5338_reg_read] returns the error code of [regmap_read] through a
    [u8], which the test [rc < 0] of its callers lets pass: on every
    register map, whatever transactions fail, [read_multireg64] returns 0
    after one transaction for every word of the descriptor (it does not
    stop at the failed one) and [read_field] returns a value that is not
    negative; neither changes a register. *)
Theorem X27_read_never_fails (awe : list Z) (w : Z) (m : regmap) :
  Forall (fun x => x <> 0) awe ->
  (exists evs,
     fst (fst (read_multireg64 awe m)) = 0 /\
     regs (snd (read_multireg64 awe m)) = regs m /\
     trace (snd (read_multireg64 awe m)) = evs ++ trace m /\
     length evs = writes_in awe /\
     io_script (snd (read_multireg64 awe m))
     = skipn (writes_in awe) (io_script m)) /\
  0 <= fst (read_field w m) /\
  regs (snd (read_field w m)) = regs m.
Proof.
  intros Hall. split.
  - unfold read_multireg64.
    destruct (read_multireg64_from_total awe 0 0 m)
      as (d & m' & evs & He & Hg & Ht & Hs & Hl).
    exists evs. rewrite He. cbn [fst snd].
    rewrite <- (Hl Hall). repeat split; assumption.
  - destruct (read_field_total w m) as (v & m' & Hr & Hv & Hg).
    rewrite Hr. cbn [fst snd]. split; assumption.
Qed.

Lemma X27_read_never_fails_witness :
  let m := mkRegmap (fun r => if r <? 0 then 0xab else r) []
             [None; Some 5%positive; None] [] in
  let awe := [0x35ff; 0x36ff; 0x3703] in
  (exists evs,
     fst (fst (read_multireg64 awe m)) = 0 /\
     regs (snd (read_multireg64 awe m)) = regs m /\
     trace (snd (read_multireg64 awe m)) = evs ++ trace m /\
     length evs = writes_in awe /\
     io_script (snd (read_multireg64 awe m))
     = skipn (writes_in awe) (io_script m)) /\
  0 <= fst (read_field 0x36ff m) /\
  regs (snd (read_field 0x36ff m)) = regs m.
Proof.
  intros m awe.
  apply (X27_read_never_fails awe 0x36ff m).
  repeat constructor; intros H; discriminate H.
Defined.

(** The second of three reads fails while the uninitialised local holds
    0xab: [read_multireg64] returns 0 and a value with that byte in it. *)
Example read_multireg64_through_failure :
  let m := mkRegmap (fun r => if r <? 0 then 0xab else r) []
             [None; Some 5%positive; None] [] in
  fst (read_multireg64 [0x35ff; 0x36ff; 0x3703; 0] m) = (0, 0x3ab35) /\
  trace (snd (read_multireg64 [0x35ff; 0x36ff; 0x3703; 0] m))
  = [EvRead 0x37 0x37; EvFail 0x36 5; EvRead 0x35 0x35].
Proof. vm_compute. split; reflexivity. Qed.

(** ** Bring-up: a [post_init] that finds the device ready *)

Lemma reg_after_other_reg (f : Z -> Z) (w data r : Z) :
  r <> awe_reg w -> reg_after f w data r = f r.
Proof.
  intros H. unfold reg_after, reg_set.
  replace (r =? awe_reg w) with false by (symmetry; apply Z.eqb_neq; exact H).
  reflexivity.
Qed.

Lemma status_clear (f : Z -> Z) (c : Z) :
  Z.land (f STATUS_REG) 15 = 0 ->
  Z.land (field_get f AWE_STATUS) (Z.land c 15) = 0.
Proof.
  intros H. unfold field_get.
  change (awe_reg AWE_STATUS) with STATUS_REG.
  change (awe_mask AWE_STATUS) with 255.
  change (w_nshift AWE_STATUS) with 0.
  rewrite Z.shiftr_0_r, land_u8_mask by lia.
  rewrite (Z.land_comm c 15), Z.land_assoc.
  rewrite <- (Z.land_assoc (f STATUS_REG) 255 15).
  change (Z.land 255 15) with 15. rewrite H. apply Z.land_0_l.
Qed.

Lemma poll_status_ready (n : nat) (i rc c : Z) (f : Z -> Z)
    (t : list event) :
  Z.land (f STATUS_REG) 15 = 0 ->
  exists evs,
    poll_status (S n) i rc (Z.land c 15) (mkRegmap f [] [] t)
    = (inr (field_get f AWE_STATUS, i), mkRegmap f [] [] (evs ++ t)).
Proof.
  intros H. cbn [poll_status]. unfold bind, get_status.
  destruct (read_field_quiet AWE_STATUS f t) as [e He]. rewrite He.
  change (awe_mask AWE_STATUS =? 0) with false. cbv iota.
  replace (field_get f AWE_STATUS <? 0) with false
    by (symmetry; apply Z.ltb_ge; apply field_get_nonneg).
  rewrite (status_clear f c H). change (0 =? 0) with true. cbv iota.
  exists e. reflexivity.
Qed.

Lemma post_init_finish_quiet (f : Z -> Z) (t : list event) :
  exists evs,
    post_init_finish (mkRegmap f [] [] t)
    = (0, mkRegmap
            (ms_power_regs
               (reg_after (reg_after
                  (reg_after (reg_after
                     (reg_after (reg_after
                        (regs_after_write (value_read awe_fcal 0 0 f)
                           awe_fcal_ovrd f)
                        AWE_REG47_72 5) AWE_FCAL_OVRD_EN 1)
                     AWE_MS_RESET 1) AWE_MS_RESET 0)
                  AWE_OUT_ALL_DIS 0) AWE_SOFT_RESET 0))
            [] [] (evs ++ t)).
Proof.
  unfold post_init_finish, bind, read_multireg64.
  destruct (read_multireg64_quiet awe_fcal 0 0 f t) as [pa H1].
  rewrite H1. change (0 =? 0) with true. cbn [negb]. cbv beta iota.
  destruct (write_multireg64_quiet awe_fcal_ovrd
              (value_read awe_fcal 0 0 f) f [] (pa ++ t)) as [pb H2].
  rewrite H2. change (0 =? 0) with true. cbn [negb]. cbv beta iota.
  do 2 wstep.
  unfold reset_ms, bind. wstep.
  unfold msleep. cbn [regs status_seq io_script trace].
  wstep. unfold ret at 1. cbv beta iota.
  change (0 =? 0) with true. cbn [negb]. cbv beta iota.
  do 2 wstep.
  match goal with
  | |- context [power_up_down_needed_ms (mkRegmap ?g ?q [] ?t')] =>
      destruct (power_up_down_quiet g q t') as [pd Hp]; rewrite Hp
  end.
  change (0 =? 0) with true. cbn [negb]. cbv beta iota.
  unfold ret. rewrite ?app_comm_cons, !app_assoc. eexists. reflexivity.
Qed.

Lemma post_init_inputs_quiet (c : Z) (f : Z -> Z) (t : list event) :
  Z.land (f STATUS_REG) 15 = 0 ->
  exists evs,
    post_init_inputs c 0 INIT_TIMEOUT (mkRegmap f [] [] t)
    = (0, mkRegmap (post_init_regs f) [] [] (evs ++ t)).
Proof.
  intros H. unfold post_init_inputs, INIT_TIMEOUT.
  change (Z.to_nat 10) with 10%nat. cbv zeta. unfold bind.
  destruct (poll_status_ready 9 0 0 c f t H) as [pa H1]. rewrite H1.
  change (10 <=? 0) with false. cbv iota.
  do 2 wstep. unfold msleep. cbn [regs status_seq io_script trace].
  wstep.
  unfold post_init_lock. change (Z.to_nat 10) with 10%nat. cbv zeta.
  unfold bind.
  match goal with
  | |- context [poll_status 10 0 ?rc (Z.land ?c' 15)
                  (mkRegmap ?g [] [] ?t')] =>
      destruct (poll_status_ready 9 0 rc c' g t') as [pb H2];
      [ rewrite !reg_after_other_reg by (vm_compute; discriminate);
        exact H
      | rewrite H2 ]
  end.
  change (10 <=? 0) with false. cbv iota.
  match goal with
  | |- context [post_init_finish (mkRegmap ?g [] [] ?t')] =>
      destruct (post_init_finish_quiet g t') as [pc H3]; rewrite H3
  end.
  unfold post_init_regs. cbv zeta.
  rewrite ?app_comm_cons, !app_assoc. eexists. reflexivity.
Qed.

Lemma post_init_quiet (sel : pfd_selectors) (f : Z -> Z) (t : list event) :
  Z.land (f STATUS_REG) 15 = 0 ->
  exists evs,
    post_init sel (mkRegmap f [] [] t)
    = (0, mkRegmap (post_init_regs f) [] [] (evs ++ t)).
Proof.
  intros H. unfold post_init, get_in_pfd_ref_fb. cbv zeta. unfold bind.
  change (0 =? 0) with true. change (1 =? 0) with false. cbn [negb].
  destruct (read_field_quiet AWE_PFD_REF f t) as [e1 H1]. rewrite H1.
  change (awe_mask AWE_PFD_REF =? 0) with false. cbv iota.
  replace (field_get f AWE_PFD_REF <? 0) with false
    by (symmetry; apply Z.ltb_ge; apply field_get_nonneg).
  destruct (read_field_quiet AWE_PFD_EXTFB f (e1 ++ t)) as [e2 H2].
  rewrite H2. change (awe_mask AWE_PFD_EXTFB =? 0) with false. cbv iota.
  replace (field_get f AWE_PFD_EXTFB <? 0) with false
    by (symmetry; apply Z.ltb_ge; apply field_get_nonneg).
  destruct (negb (field_get f AWE_PFD_EXTFB =? 0)).
  - destruct (read_field_quiet AWE_PFD_FB f (e2 ++ e1 ++ t)) as [e3 H3].
    rewrite H3. change (awe_mask AWE_PFD_FB =? 0) with false. cbv iota.
    replace (field_get f AWE_PFD_FB <? 0) with false
      by (symmetry; apply Z.ltb_ge; apply field_get_nonneg).
    match goal with
    | |- context [post_init_inputs ?c 0 INIT_TIMEOUT
                    (mkRegmap f [] [] ?t')] =>
        destruct (post_init_inputs_quiet c f t' H) as [e4 H4]; rewrite H4
    end.
    rewrite !app_assoc. eexists. reflexivity.
  - match goal with
    | |- context [post_init_inputs ?c 0 INIT_TIMEOUT
                    (mkRegmap f [] [] ?t')] =>
        destruct (post_init_inputs_quiet c f t' H) as [e4 H4]; rewrite H4
    end.
    rewrite !app_assoc. eexists. reflexivity.
Qed.

Lemma value_read_reg_after (a : list Z) (w : Z) (f : Z -> Z) (x : Z) :
  w <> 0 -> desc_apart a [w] = true ->
  forall d s, value_read a d s (reg_after f w x) = value_read a d s f.
Proof.
  intros Hw Ha d s.
  pose proof (value_read_frame a [w] Ha d s x f) as H.
  rewrite regs_after_write_single in H by exact Hw.
  destruct (Z.eqb_spec (awe_mask w) 0) as [E|E]; [|exact H].
  clear H. revert d s.
  induction a as [|w' a IH]; intros d s; cbn [value_read]; [reflexivity|].
  cbn [desc_apart] in Ha. destruct (w' =? 0); [reflexivity|].
  apply andb_true_iff in Ha. destruct Ha as [Ha1 Ha2].
  cbn [apart_all] in Ha1.
  replace (w =? 0) with false in Ha1
    by (symmetry; apply Z.eqb_neq; exact Hw).
  apply andb_true_iff in Ha1. destruct Ha1 as [Ha1 _].
  rewrite (field_get_reg_after_other f w' w x Ha1).
  destruct (negb (awe_mask w' =? 0)); apply IH; exact Ha2.
Qed.

Lemma value_read_ms_power_regs (a : list Z) (f : Z -> Z) :
  desc_apart a [AWE_MS0_PDN; AWE_MS1_PDN; AWE_MS2_PDN; AWE_MS3_PDN] = true ->
  value_read a 0 0 (ms_power_regs f) = value_read a 0 0 f.
Proof.
  intros Ha. unfold ms_power_regs.
  assert (H : forall w, In w [AWE_MS0_PDN; AWE_MS1_PDN; AWE_MS2_PDN;
                              AWE_MS3_PDN] ->
                        desc_apart a [w] = true).
  { intros w Hin. clear f. induction a as [|w' a IH]; [reflexivity|].
    cbn [desc_apart] in Ha |- *. destruct (w' =? 0); [reflexivity|].
    apply andb_true_iff in Ha. destruct Ha as [Ha1 Ha2].
    rewrite (IH Ha2), andb_true_r.
    cbn [apart_all] in Ha1 |- *.
    change (AWE_MS0_PDN =? 0) with false in Ha1.
    change (AWE_MS1_PDN =? 0) with false in Ha1.
    change (AWE_MS2_PDN =? 0) with false in Ha1.
    change (AWE_MS3_PDN =? 0) with false in Ha1.
    cbv iota in Ha1. rewrite !andb_true_iff in Ha1.
    destruct Ha1 as (A0 & A1 & A2 & A3 & _).
    cbn [In] in Hin.
    destruct Hin as [<-|[<-|[<-|[<-|[]]]]];
      match goal with
      | |- (if ?w =? 0 then _ else _) = _ => change (w =? 0) with false
      end; cbv iota; rewrite andb_true_r; assumption. }
  rewrite !value_read_reg_after
    by (first [ apply H; cbn [In]; tauto | vm_compute; discriminate ]).
  reflexivity.
Qed.

Lemma ms_needed_ext (f g : Z -> Z) (chn : Z) :
  (forall k, 0 <= k <= 3 -> out_src g k = out_src f k) ->
  0 <= chn <= 3 -> ms_needed g chn = ms_needed f chn.
Proof.
  intros H Hc. unfold ms_needed, existsb.
  rewrite (H chn Hc), (H 0), (H 1), (H 2), (H 3) by lia. reflexivity.
Qed.

(** X28.  On a register map without faults whose status register has its
    four low bits clear, [post_init] succeeds, and afterwards the
    calibration override holds the calibration value the chip reports and is
    enabled, register 47 bits 7:2 hold 5, register 241 holds 0x65, the
    MultiSynth reset, the soft reset and the common output disable are
    released, and each MultiSynth is powered up exactly when an output
    needs it. *)
Theorem X28_post_init_ready (sel : pfd_selectors) (f : Z -> Z)
    (t : list event) :
  Z.land (f STATUS_REG) 15 = 0 ->
  exists f' evs,
    post_init sel (mkRegmap f [] [] t) = (0, mkRegmap f' [] [] (evs ++ t)) /\
    forall t',
      fst (read_multireg64 awe_fcal_ovrd (mkRegmap f' [] [] t'))
      = fst (read_multireg64 awe_fcal (mkRegmap f [] [] t')) /\
      fst (read_field AWE_FCAL_OVRD_EN (mkRegmap f' [] [] t')) = 1 /\
      fst (read_field AWE_REG47_72 (mkRegmap f' [] [] t')) = 5 /\
      fst (read_field AWE_REG241 (mkRegmap f' [] [] t')) = 101 /\
      fst (read_field AWE_MS_RESET (mkRegmap f' [] [] t')) = 0 /\
      fst (read_field AWE_SOFT_RESET (mkRegmap f' [] [] t')) = 0 /\
      fst (read_field AWE_OUT_ALL_DIS (mkRegmap f' [] [] t')) = 0 /\
      forall chn, 0 <= chn <= 3 ->
        fst (get_ms_powerdown chn (mkRegmap f' [] [] t'))
        = if ms_needed f chn then MS_POWER_UP else MS_POWER_DOWN.
Proof.
  intros H. destruct (post_init_quiet sel f t H) as [evs He].
  exists (post_init_regs f), evs. split; [exact He|]. intros t'.
  assert (Hw : forall w,
            forallb (apart w)
              [AWE_MS0_PDN; AWE_MS1_PDN; AWE_MS2_PDN; AWE_MS3_PDN] = true ->
            (awe_mask w =? 0) = false ->
            fst (read_field w (mkRegmap (post_init_regs f) [] [] t'))
            = field_get
                (reg_after (reg_after
                  (reg_after (reg_after
                     (reg_after (reg_after
                        (regs_after_write
                           (value_read awe_fcal 0 0
                              (reg_after (reg_after
                                 (reg_after f AWE_FCAL_OVRD_EN 0)
                                 AWE_SOFT_RESET 1) AWE_REG241 101))
                           awe_fcal_ovrd
                           (reg_after (reg_after
                              (reg_after f AWE_FCAL_OVRD_EN 0)
                              AWE_SOFT_RESET 1) AWE_REG241 101))
                        AWE_REG47_72 5) AWE_FCAL_OVRD_EN 1)
                     AWE_MS_RESET 1) AWE_MS_RESET 0)
                  AWE_OUT_ALL_DIS 0) AWE_SOFT_RESET 0) w).
  { intros w Hap Hm. rewrite read_field_get by exact Hm.
    unfold post_init_regs. cbv zeta.
    apply ms_power_regs_other. exact Hap. }
  split; [|split; [|split; [|split; [|split; [|split; [|split]]]]]].
  - unfold read_multireg64.
    destruct (read_multireg64_quiet awe_fcal_ovrd 0 0 (post_init_regs f) t')
      as [e1 H1].
    destruct (read_multireg64_quiet awe_fcal 0 0 f t') as [e2 H2].
    rewrite H1, H2. cbn [fst]. f_equal.
    unfold post_init_regs. cbv zeta.
    rewrite value_read_ms_power_regs by reflexivity.
    rewrite !value_read_reg_after
      by first [reflexivity | vm_compute; discriminate].
    rewrite (value_read_roundtrip awe_fcal_ovrd eq_refl 0 0).
    2: lia. 2: (change (2 ^ 0) with 1; lia).
    2: (change (desc_bits awe_fcal_ovrd) with 18; lia).
    pose proof (value_read_bound awe_fcal f eq_refl 0 0) as Hb.
    change (0 + desc_bits awe_fcal) with 18 in Hb.
    change (desc_bits awe_fcal_ovrd) with 18.
    rewrite Z.mod_small by (apply Hb; lia).
    lia.
  - rewrite Hw by reflexivity. readback.
  - rewrite Hw by reflexivity. readback.
  - rewrite Hw by reflexivity.
    repeat (rewrite field_get_reg_after_other by reflexivity).
    rewrite field_get_regs_after_write by reflexivity.
    readback.
  - rewrite Hw by reflexivity. readback.
  - rewrite Hw by reflexivity. readback.
  - rewrite Hw by reflexivity. readback.
  - intros chn Hc. rewrite get_ms_powerdown_get by exact Hc.
    unfold post_init_regs. cbv zeta.
    rewrite ms_power_regs_pdn by exact Hc.
    rewrite (ms_needed_ext f) by (try exact Hc; intros k Hk; unfold out_src;
      each_chn k Hk;
      repeat (rewrite field_get_reg_after_other by reflexivity);
      rewrite field_get_regs_after_write by reflexivity;
      repeat (rewrite field_get_reg_after_other by reflexivity);
      reflexivity).
    reflexivity.
Qed.

Lemma X28_post_init_ready_witness :
  let sel : pfd_selectors := mkPfdSelectors 0 1 2 3 4 1 0 3 2 in
  let f : Z -> Z := fun _ => 0 in
  let t : list event := [] in
  exists f' evs,
    post_init sel (mkRegmap f [] [] t) = (0, mkRegmap f' [] [] (evs ++ t)) /\
    forall t',
      fst (read_multireg64 awe_fcal_ovrd (mkRegmap f' [] [] t'))
      = fst (read_multireg64 awe_fcal (mkRegmap f [] [] t')) /\
      fst (read_field AWE_FCAL_OVRD_EN (mkRegmap f' [] [] t')) = 1 /\
      fst (read_field AWE_REG47_72 (mkRegmap f' [] [] t')) = 5 /\
      fst (read_field AWE_REG241 (mkRegmap f' [] [] t')) = 101 /\
      fst (read_field AWE_MS_RESET (mkRegmap f' [] [] t')) = 0 /\
      fst (read_field AWE_SOFT_RESET (mkRegmap f' [] [] t')) = 0 /\
      fst (read_field AWE_OUT_ALL_DIS (mkRegmap f' [] [] t')) = 0 /\
      forall chn, 0 <= chn <= 3 ->
        fst (get_ms_powerdown chn (mkRegmap f' [] [] t'))
        = if ms_needed f chn then MS_POWER_UP else MS_POWER_DOWN.
Proof.
  cbv zeta.
  apply (X28_post_init_ready
           (mkPfdSelectors 0 1 2 3 4 1 0 3 2) (fun _ => 0) []);
    reflexivity.
Defined.

(** ** Loop filter of the PLL *)

Lemma s64_small (x : Z) : 0 <= x < 2 ^ 63 -> s64 x = x.
Proof. intros H. unfold s64. apply sint_small; [lia|exact H]. Qed.

Lemma field_get_written (f : Z -> Z) (w data : Z) :
  word_ok w = true -> 0 <= data < 2 ^ w_nbits w ->
  field_get (reg_after f w data) w = data.
Proof.
  intros Hw Hd. rewrite field_get_reg_after_same by exact Hw.
  apply Z.mod_small. exact Hd.
Qed.

(** X29.  [si5338_pll_prepare] returns [-EINVAL] and writes nothing when
    the parent rate or the rate of the PLL clock is zero.  With a parent
    rate or a VCO rate below 1 MHz the rate in MHz is 0 and so is the
    divisor of the charge pump computation: the function divides by zero.
    With a parent rate from 1 MHz to 710 MHz and a rate in the VCO band, on
    a register map without faults, it succeeds and the chip holds PLL_KPHI
    as computed and clamped into [[1, 127]], the packed VCO_GAIN, RSEL and
    BWSEL of the two bands, MSCAL (between 2 and 6 without clamping),
    MS_PEC = 7 and PLL_EN = 3. *)
Theorem X29_pll_prepare (parent_rate clk_rate hw_rate : Z) :
  (parent_rate = 0 \/ clk_rate = 0 ->
   forall m,
     si5338_pll_prepare parent_rate clk_rate hw_rate m = Some (- EINVAL, m)) /\
  (0 < parent_rate < 1000000 \/ 0 <= hw_rate < 1000000 ->
   0 < parent_rate < 2 ^ 63 -> clk_rate <> 0 ->
   forall m, si5338_pll_prepare parent_rate clk_rate hw_rate m = None) /\
  (1000000 <= parent_rate <= INFREQMAX ->
   FVCOMIN <= hw_rate <= FVCOMAX -> clk_rate <> 0 ->
   forall f t,
   exists f' evs,
     si5338_pll_prepare parent_rate clk_rate hw_rate (mkRegmap f [] [] t)
     = Some (0, mkRegmap f' [] [] (evs ++ t)) /\
     field_get f' AWE_PLL_KPHI
     = kphi_of (parent_rate / 1000000) (hw_rate / 1000000) /\
     1 <= field_get f' AWE_PLL_KPHI <= 127 /\
     field_get f' AWE_VCO_GAIN_RSEL_BWSEL
     = gain_rsel_bwsel_of (parent_rate / 1000000) (hw_rate / 1000000) /\
     field_get f' AWE_MSCAL
     = (2117000 - 667 * (hw_rate / 1000000)) / 100000 /\
     2 <= field_get f' AWE_MSCAL <= 6 /\
     field_get f' AWE_MS_PEC = 7 /\
     field_get f' AWE_PLL_EN = 3).
Proof.
  split; [|split].
  - intros [-> | ->] m; unfold si5338_pll_prepare; cbv zeta.
    + reflexivity.
    + destruct (s64 parent_rate =? 0); reflexivity.
  - intros Hlow Hp Hc m. unfold si5338_pll_prepare. cbv zeta.
    rewrite (s64_small parent_rate) by lia.
    replace (parent_rate =? 0) with false by (symmetry; apply Z.eqb_neq; lia).
    replace (clk_rate =? 0) with false
      by (symmetry; apply Z.eqb_neq; exact Hc).
    unfold div64_u64.
    rewrite (u64_small parent_rate) by lia.
    set (fv := s64 (u64 hw_rate / 1000000)).
    set (fp := s64 (parent_rate / 1000000)).
    assert (Hz : fp = 0 \/ fv = 0).
    { destruct Hlow as [H|H].
      - left. unfold fp. rewrite Z.div_small by lia. reflexivity.
      - right. unfold fv. rewrite u64_small by lia.
        rewrite Z.div_small by lia. reflexivity. }
    assert (Hd : forall Q, u64 (s64 (533 * Q * fp * fv * fv)) = 0).
    { intros Q. destruct Hz as [-> | ->].
      - replace (533 * Q * 0 * fv * fv) with 0 by ring. reflexivity.
      - replace (533 * Q * fp * 0 * 0) with 0 by ring. reflexivity. }
    destruct (15 <=? fp); [|destruct (8 <=? fp)];
      (destruct (2425 <? fv); rewrite Hd; reflexivity).
  - intros Hp Hv Hc f t. unfold INFREQMAX in Hp.
    unfold FVCOMIN, FVCOMAX in Hv.
    unfold si5338_pll_prepare. cbv zeta.
    rewrite (s64_small parent_rate) by lia.
    replace (parent_rate =? 0) with false by (symmetry; apply Z.eqb_neq; lia).
    replace (clk_rate =? 0) with false
      by (symmetry; apply Z.eqb_neq; exact Hc).
    unfold div64_u64.
    rewrite (u64_small parent_rate), (u64_small hw_rate) by lia.
    set (fv := hw_rate / 1000000). set (fp := parent_rate / 1000000).
    assert (Hfv : 2200 <= fv <= 2840).
    { unfold fv. split.
      - apply Z.div_le_lower_bound; lia.
      - apply Z.div_le_upper_bound; lia. }
    assert (Hfp : 1 <= fp <= 710).
    { unfold fp. split.
      - apply Z.div_le_lower_bound; lia.
      - apply Z.div_le_upper_bound; lia. }
    rewrite (s64_small fv), (s64_small fp) by lia.
    assert (Hvv : 4840000 <= fv * fv <= 8065600).
    { split.
      - change 4840000 with (2200 * 2200).
        apply Z.mul_le_mono_nonneg; lia.
      - change 8065600 with (2840 * 2840).
        apply Z.mul_le_mono_nonneg; lia. }
    assert (Hpvv : 4840000 <= fp * (fv * fv) <= 5726576000).
    { split.
      - replace 4840000 with (1 * 4840000) by lia.
        apply Z.mul_le_mono_nonneg; lia.
      - change 5726576000 with (710 * 8065600).
        apply Z.mul_le_mono_nonneg; lia. }
    assert (Hden : forall Q, 3 <= Q <= 4 ->
              533 * Q * fp * fv * fv = 533 * Q * (fp * (fv * fv)))
      by (intros Q _; ring).
    assert (Hdr : forall Q, 3 <= Q <= 4 ->
              7739160000 <= 533 * Q * (fp * (fv * fv)) <= 12209060032000).
    { intros Q HQ. assert (1599 <= 533 * Q <= 2132) by lia.
      split.
      - change 7739160000 with (1599 * 4840000).
        apply Z.mul_le_mono_nonneg; lia.
      - change 12209060032000 with (2132 * 5726576000).
        apply Z.mul_le_mono_nonneg; lia. }
    assert (Hms : 2 <= (2117000 - 667 * fv) / 100000 <= 6).
    { split.
      - apply Z.div_le_lower_bound; lia.
      - apply Z.lt_succ_r. apply Z.div_lt_upper_bound; lia. }
    assert (Hk : forall K Q, 185 <= K <= 925 -> 3 <= Q <= 4 ->
              let den := 533 * Q * (fp * (fv * fv)) in
              0 <= (K * 2500 * 2500 * 2500 + den / 2) / den < 2 ^ 31).
    { intros K Q HK HQ den. pose proof (Hdr Q HQ) as Hb. fold den in Hb.
      assert (0 <= den / 2 <= den) by (split;
        [apply Z.div_pos; lia | apply Z.div_le_upper_bound; lia]).
      split.
      - apply Z.div_pos; lia.
      - apply Z.div_lt_upper_bound; [lia|].
        assert (2 ^ 31 * 7739160000 <= den * 2 ^ 31) by lia.
        lia. }
    set (kphi := fun K Q : Z =>
           (K * 2500 * 2500 * 2500 + 533 * Q * (fp * (fv * fv)) / 2)
           / (533 * Q * (fp * (fv * fv)))).
    set (f1 := fun kp g => reg_after
                 (reg_after
                    (reg_after
                       (reg_after (reg_after f AWE_PLL_KPHI kp)
                          AWE_VCO_GAIN_RSEL_BWSEL g)
                       AWE_MSCAL ((2117000 - 667 * fv) / 100000))
                    AWE_MS_PEC 7)
                 AWE_PLL_EN 3).
    assert (Hmain : forall K Q rsel bwsel vco_gain,
              185 <= K <= 925 -> 3 <= Q <= 4 ->
              0 <= vco_gain <= 1 -> 0 <= rsel <= 3 -> 0 <= bwsel <= 3 ->
              exists f' evs,
                (let kphi_num := s64 (K * 2500 * 2500 * 2500) in
                 let kphi_denom := s64 (533 * Q * fp * fv * fv) in
                 if u64 kphi_denom =? 0 then None
                 else
                   let pll_kphi :=
                     sint 32
                       (u64 (kphi_num + Z.shiftr kphi_denom 1)
                        / u64 kphi_denom) in
                   let pll_kphi :=
                     if (pll_kphi <? 1) || (127 <? pll_kphi) then
                       if pll_kphi <? 1 then 1
                       else if 127 <? pll_kphi then 127 else pll_kphi
                     else pll_kphi in
                   let mscal :=
                     sint 32
                       (u64 (2067000 - 667 * fv + 50000) / 100000) in
                   let mscal :=
                     if (mscal <? 0) || (63 <? mscal) then
                       if mscal <? 0 then 0
                       else if 63 <? mscal then 63 else mscal
                     else mscal in
                   let ms_pec := 7 in
                   Some
                     ((rc <- write_field pll_kphi AWE_PLL_KPHI ;;
                       if rc <? 0 then ret rc
                       else
                         let vco_gain_rsel_bwsel :=
                           u8 (Z.shiftl (Z.land vco_gain 7) 4) in
                         let vco_gain_rsel_bwsel :=
                           u8 (Z.lor vco_gain_rsel_bwsel
                                 (Z.shiftl (Z.land rsel 3) 2)) in
                         let vco_gain_rsel_bwsel :=
                           u8 (Z.lor vco_gain_rsel_bwsel (Z.land bwsel 3)) in
                         rc <- write_field vco_gain_rsel_bwsel
                                 AWE_VCO_GAIN_RSEL_BWSEL ;;
                         if rc <? 0 then ret rc
                         else
                           rc <- write_field mscal AWE_MSCAL ;;
                           if rc <? 0 then ret rc
                           else
                             rc <- write_field ms_pec AWE_MS_PEC ;;
                             if rc <? 0 then ret rc
                             else
                               rc <- write_field 3 AWE_PLL_EN ;;
                               if rc <? 0 then ret rc else ret 0)
                        (mkRegmap f [] [] t)))
                = Some (0, mkRegmap f' [] [] (evs ++ t)) /\
                f' = f1 (Z.max 1 (Z.min 127 (kphi K Q)))
                        (u8 (Z.lor (u8 (Z.lor
                           (u8 (Z.shiftl (Z.land vco_gain 7) 4))
                           (Z.shiftl (Z.land rsel 3) 2)))
                           (Z.land bwsel 3)))).
    { intros K Q rsel bwsel vco_gain HK HQ Hg Hr Hb. cbv zeta.
      rewrite (Hden Q HQ).
      pose proof (Hdr Q HQ) as Hb'. pose proof (Hk K Q HK HQ) as Hkk.
      cbv zeta in Hkk. fold (kphi K Q) in Hkk.
      set (den := 533 * Q * (fp * (fv * fv))) in *.
      rewrite (s64_small den) by lia.
      rewrite (s64_small (K * 2500 * 2500 * 2500)) by lia.
      rewrite (u64_small den) by lia.
      replace (den =? 0) with false by (symmetry; apply Z.eqb_neq; lia).
      rewrite Z.shiftr_div_pow2 by lia. change (2 ^ 1) with 2.
      assert (0 <= den / 2 <= den) by (split;
        [apply Z.div_pos; lia | apply Z.div_le_upper_bound; lia]).
      rewrite (u64_small (K * 2500 * 2500 * 2500 + den / 2)) by lia.
      change ((K * 2500 * 2500 * 2500 + den / 2) / den) with (kphi K Q).
      rewrite (sint_small 32 (kphi K Q)) by (change (32 - 1) with 31; lia).
      replace (2067000 - 667 * fv + 50000) with (2117000 - 667 * fv) by lia.
      rewrite (u64_small (2117000 - 667 * fv)) by lia.
      rewrite (sint_small 32) by (change (32 - 1) with 31; lia).
      replace ((2117000 - 667 * fv) / 100000 <? 0) with false
        by (symmetry; apply Z.ltb_ge; lia).
      replace (63 <? (2117000 - 667 * fv) / 100000) with false
        by (symmetry; apply Z.ltb_ge; lia).
      cbn [orb].
      replace (if (kphi K Q <? 1) || (127 <? kphi K Q)
               then if kphi K Q <? 1 then 1
                    else if 127 <? kphi K Q then 127 else kphi K Q
               else kphi K Q)
        with (Z.max 1 (Z.min 127 (kphi K Q)))
        by (destruct (Z.ltb_spec (kphi K Q) 1), (Z.ltb_spec 127 (kphi K Q));
            cbn [orb]; lia).
      unfold bind.
      do 5 wstep. unfold ret.
      eexists _, _. split; [rewrite !app_assoc; reflexivity|].
      unfold f1. reflexivity. }
    assert (Hfin : forall K Q g,
              185 <= K <= 925 -> 3 <= Q <= 4 -> 0 <= g < 128 ->
              let f' := f1 (Z.max 1 (Z.min 127 (kphi K Q))) g in
              field_get f' AWE_PLL_KPHI = Z.max 1 (Z.min 127 (kphi K Q)) /\
              field_get f' AWE_VCO_GAIN_RSEL_BWSEL = g /\
              field_get f' AWE_MSCAL = (2117000 - 667 * fv) / 100000 /\
              field_get f' AWE_MS_PEC = 7 /\
              field_get f' AWE_PLL_EN = 3).
    { intros K Q g HK HQ Hg f'. unfold f', f1.
      split; [|split; [|split; [|split]]];
        repeat (rewrite field_get_reg_after_other by reflexivity);
        (rewrite field_get_written; [reflexivity|reflexivity|]).
      - change (w_nbits AWE_PLL_KPHI) with 7. change (2 ^ 7) with 128. lia.
      - change (w_nbits AWE_VCO_GAIN_RSEL_BWSEL) with 7.
        change (2 ^ 7) with 128. lia.
      - change (w_nbits AWE_MSCAL) with 6. change (2 ^ 6) with 64. lia.
      - change (w_nbits AWE_MS_PEC) with 3. lia.
      - change (w_nbits AWE_PLL_EN) with 2. lia. }
    unfold kphi_of, gain_rsel_bwsel_of. cbv zeta.
    destruct (Z.leb_spec 15 fp); [|destruct (Z.leb_spec 8 fp)];
      destruct (Z.ltb_spec 2425 fv);
      match goal with
      | |- context [s64 (?K * 2500 * 2500 * 2500)] =>
        match goal with
        | |- context [s64 (533 * ?Q * fp * fv * fv)] =>
          match goal with
          | |- context [Z.shiftl (Z.land ?rs 3) 2] =>
            match goal with
            | |- context [Z.shiftl (Z.land ?vg 7) 4] =>
              match goal with
              | |- context [Z.lor _ (Z.land ?bw 3)] =>
                destruct (Hmain K Q rs bw vg ltac:(lia) ltac:(lia) ltac:(lia)
                            ltac:(lia) ltac:(lia)) as (f' & evs & He & Hf);
                exists f', evs; split; [exact He|];
                destruct (Hfin K Q
                            (u8 (Z.lor (u8 (Z.lor
                               (u8 (Z.shiftl (Z.land vg 7) 4))
                               (Z.shiftl (Z.land rs 3) 2)))
                               (Z.land bw 3)))
                            ltac:(lia) ltac:(lia)
                            ltac:(vm_compute; split; congruence))
                  as (G1 & G2 & G3 & G4 & G5);
                rewrite <- Hf in G1, G2, G3, G4, G5;
                rewrite (Hden Q ltac:(lia));
                fold (kphi K Q);
                rewrite G1, G2, G3, G4, G5;
                repeat split; try reflexivity; try lia
              end
            end
          end
        end
      end.
Qed.
